(* ===== verification/_CoqProject ===== *)
-Q . S2P
Prelude.v
ServiceWorker.v
Markdown.v
Events.v
Viewport.v
Resize.v
NoteId.v
JsCollections.v
NoteState.v
Selection.v
Scene.v
Gestures.v
Interaction.v
Layout.v
Storage.v
Cipher.v
App.v
Fixtures.v
Persistence.v
Dispatch.v
