(* ===== verification/Prelude.v ===== *)
(** * NoteCanvas: a verification development

    This library models, in Rocq, the NoteCanvas
    web application (repository yagneshprajapati/NoteCanvas) and proves
    the properties that make it correct.  The program is a browser app
    written in JavaScript; it is made of these classes:

    - [CanvasManager] (src/Downloads/yt/js/canvas.js): the viewport.  It
      keeps the zoom factor [zoomLevel], bounded by [minZoom]/[maxZoom],
      the pan offset [panX]/[panY], the panning flag, the pinch-zoom
      snapshot and the last cursor position, and maps screen points to
      world points ([screenToCanvas]) and back ([canvasToScreen]).  Its
      handlers (mouse, wheel, touch, keyboard) pan and zoom; every zoom
      keeps the world point under the anchor fixed on screen.
    - [NotesManager] (src/Downloads/yt/js/notes.js): the scene.  It keeps
      the notes in a JavaScript [Map] from id to note object, the
      primary selection [selectedNote], the selection set
      [selectedNotes], the id counter [nextId] and the transient state of
      the drag, resize and marquee gestures.  It calls
      [CanvasManager.screenToCanvas] to turn pointer events into world
      coordinates.
    - [NoteCanvasApp] (src/Downloads/yt/js/app.js) builds both managers
      and the [UIManager] (ui.js, the toolbar, dialogs and shortcuts),
      wires them to the storage ([StorageManager], IndexedDB,
      storage.js) and encryption ([EncryptionManager], CryptoJS,
      src/js/encryption.js) collaborators, saves on every
      "note-modified" event and on a timer, and loads, imports and
      exports the scene, the view and the settings.
    - One DOM event reaches the listeners of several of them in turn: a
      key press goes to [CanvasManager], [NotesManager] and [UIManager];
      a press on the canvas to the note under the pointer, the canvas
      element and the document.
    - [NotesManager.renderMarkdown] turns a text note's content into the
      HTML of its preview, with the [marked] library when it is loaded
      and a fallback of four global replaces otherwise; its
      [enhanceCodeBlocks] rewrites every code block [marked] produced.
    - The service worker (src/sw.js) precaches the page's files at
      install and answers fetches from the caches, else the network.

    ** Files (in dependency order, as _CoqProject lists them)

    - [Prelude] (this file): the libraries used everywhere, JavaScript
      number comparisons on [Q] ([Qltb], [Qneqb], notation [!==] in
      [canvas_scope]), [Math.max]/[Math.min] clamping ([clamp]), the
      tactics [qminmax] (case-splits [Qmax]/[Qmin] before [lra]) and
      [by_decide], the hint database [canvas], [Proper] instances so
      that [Qeq] rewrites under the model's operations, and the equations
      of string concatenation.
    - [ServiceWorker]: sw.js over an explicit Cache Storage (named caches
      in creation order) and a network function, with [caches.open],
      [cache.addAll] (all or nothing) and [caches.match] written out
      from the Cache API.  Theorems: after a successful install every
      precached URL is served offline; one failing URL fails the install
      with nothing stored; an older cache shadows the new one (a
      finding, as is that the URLs do not exist next to src/sw.js).
    - [Markdown]: the string transformations of [renderMarkdown]
      (notes.js): [String.prototype.replace] with a global expression is
      [gsubFuel], a left-to-right scan with a [matcher] for the
      expression; the fallback, the error path and [enhanceCodeBlocks]
      (the code-block expression with its optional group and lazy body,
      the five entity decodings, the replacement template) are
      compositions of it.  [marked]'s escaping of code is written out as
      the reference [markedEscape].  Theorems: every replace terminates
      ([gsub_fuel]); the fallback passes HTML through unescaped (a
      finding); the Copy button of a block gets the original code when
      it has no [&], and a double quote for the text [&quot;] in it (a
      finding).
    - [Events]: the fields the handlers read from DOM events (mouse,
      wheel, touch, key) and the classification of the event target.
    - [Viewport]: module [Canvas], [CanvasManager] (canvas.js): state
      record, coordinate maps, every handler and the zoom/pan operations,
      and the inductive [reachable] of its states.  Theorems: the
      coordinate maps are mutually inverse; every zoom keeps its anchor
      point exactly; the zoom-bound invariant holds in every reachable
      state (and [fitToView], outside it, breaks it: a finding);
      [fitToView] centres the content and shows every note; pinch zoom
      does not compound across frames.
    - [Resize]: the eight-handle policy of [NotesManager.resizeNote] as a
      function on bounds: minimum size, fixed opposite edges, and a
      refinement theorem against an edge-wise specification.
    - [NoteId]: JavaScript [parseInt] (sign, [0x] prefix, leading
      whitespace, longest digit prefix, [NaN]) and the id scheme
      ["note_" + n], with the round trip that makes generated ids
      injective.
    - [JsCollections]: the insertion-ordered JavaScript [Map] (module
      [JsMap], an association list with unique keys) and [Set] (module
      [JsSet], a duplicate-free list), with their laws.
    - [NoteState]: modules [Note] (the note object) and [Notes] (the
      fields of [NotesManager] as a record, the state-and-signal monad
      [M] its methods run in, the combinator [preserves] and the tactics
      [msimp] and [preserve] that carry invariants through a method).
    - [Selection]: [selectNote], [addToSelection], [removeFromSelection],
      [deselectAll], [selectAllNotes], [bringToFront], [sendToBack]
      (notes.js), with the invariant [sel_inv] (the set has no
      duplicates and holds the primary selection) and their functional
      specifications.
    - [Scene]: creation, duplication, deletion, arrow-key moves, the
      context menu, paste and load/export (notes.js), the commands as an
      inductive type [command] with [exec], and the inductive
      [reachable].  Theorems: ids stay fresh in every reachable state;
      every note stays under its own id in every reachable state (a
      type invariant); each bulk command does what the spec says to its
      targets and signals once (the context menu twice, a finding);
      typing in a text note ([handleTextInput], the textarea's input
      listener) updates that note only; load/export round trip; a generic
      section proving that every command keeps any property the
      selection methods keep.
    - [Gestures]: the double-tap detector of [UIManager.initTouchGestures]
      (ui.js): its closure as a record, the [touchstart] and [touchend]
      listeners and the note a double tap creates.  Theorems: in a series
      of quick taps every tap after the first creates a note, so a triple
      tap creates two; that note raises no "note-modified" and is not
      saved (both findings).
    - [Interaction]: the drag, resize and marquee handlers, the note
      listeners and [handleKeyDown] (notes.js), with [screenToCanvas] as
      a section variable [toWorld]; the events as [uiEvent], dispatched
      by [uiStep], and the inductive [session] of event sequences whose
      presses come while no gesture runs.  Theorems: a whole drag,
      resize or marquee gesture (press, any number of moves, release)
      has the effect the spec describes, for every viewport; the marquee
      test is exact; along every session the selection invariant, id
      freshness and "at most one mode" hold; a right-click on a
      note of a multi-selection collapses the selection, because
      [showContextMenu] calls [selectNote], so the menu's Delete removes
      that note only (a finding).  [noteStopsPropagation] is the test
      of the presses the note's listener stops.
    - [Layout]: the sizes and positions the code computes before writing
      them to the DOM: [compressImage]'s target size, [showContextMenu]'s
      menu position, [updateSelectionBox], [updateSelectionCounter],
      [updateMultiSelectionUI] (notes.js), [updateGrid] and
      [updateZoomDisplay] (canvas.js), with [Math.round] and [%] written
      out.  Theorems: a compressed image fits 1024x1024 with its aspect
      ratio; the context menu is measured after [selectNote] hid it,
      so its off-screen guard sees a 0x0 box and the menu opens at the
      click point, passing the window's edge near it (a finding); the
      selection box is the marquee
      [endSelection] tests; every world grid line lies on a tile edge of
      the grid background.
    - [Storage]: module [Storage], [StorageManager] (storage.js): the
      object store as an insertion-ordered map from key to record, the
      open handle, and the error the browser currently fails requests
      with; [initDB], [saveData], [loadData], [clearData] return a
      [result] (a resolved or rejected promise).  The store is the part
      of the page that survives a reload.
    - [Cipher]: module [Cipher], [EncryptionManager] (src/js/encryption.js)
      over two interfaces given as type classes with their laws: [Json]
      ([JSON.stringify]/[JSON.parse], parse inverts stringify) and
      [Crypto] (the CryptoJS calls: random word arrays, hex, PBKDF2,
      AES-CBC, decryption inverts encryption under the same key and IV).
      [encrypt]/[decrypt] are proved to round-trip; the password
      generator is proved to give [length] characters of its charset.
    - [App]: module [App], [NoteCanvasApp] (app.js) and the [UIManager]
      handlers that change its state (ui.js).  The page is a record
      [app] (both managers, the settings, the pending encrypted data,
      the database, the auto-save timer, the random draws used so far,
      the canvas rectangle); an async method is a computation of the
      state-and-exception monad [AM] ([await] is [abind], [try]/[catch]
      is [catch], a rejected promise is [throw]) whose output is the list
      of notifications, dialogs and downloads the user sees.  [runScene]
      runs a [NotesManager] method and then, for every "note-modified"
      signal it raised, the app's listener [autoSave].  The joint
      dispatch of one DOM event to the listeners of the note element, the
      canvas element and the document ([keyDown], [mouseDown],
      [mouseMove], [mouseUp], and [mouseLeave], which only the canvas
      element listens to) follows the browser's order; a press the
      note's listener stops ([startDrag], [startResize]) reaches neither
      the canvas element nor the document.  [appStep]
      routes every event of the page; [boot] is a page load over a given
      object store, and [appSession] the pages reachable from a first
      visit by events and reloads.  The invariant combinator
      [apreserves] with the tactic [apreserve] carries a property of the
      page through a method.
    - [Fixtures]: instances of the interfaces for the witnesses: a
      self-delimiting text format [Ser] (numbers in binary, strings and
      lists after their length, records as tuples) gives [Json] for
      every type of the app, and a toy cipher (key = password and salt,
      cipher text = the text of the pair (key, plaintext)) satisfies the
      [Crypto] law.  It shows the laws are satisfiable together.
    - [Persistence]: the app-level theorems: saving and reloading
      restores notes, zoom, pan and settings, with or without a
      password; exporting and importing with a password restores notes
      and view; a wrong password changes nothing; from a first visit the
      app never stores encrypted data (the encrypted branch of
      [saveNotes] is dead, a finding); the first auto-save after loading
      an encrypted record overwrites it with the empty scene (a finding).
    - [Dispatch]: what one DOM event does through all of its listeners:
      an arrow key with a selection pans the canvas and nudges the notes
      the other way, so they move against the arrow on screen; a
      background left-drag pans the canvas with the pointer and its
      marquee never leaves the press point (both findings); a release
      always ends the gesture, after which moves change nothing (a
      liveness property); the pointer leaving the canvas stops the pan
      but not the marquee (a finding); a press that starts a drag or a
      resize on a note changes only the scene, so even a middle-button
      press on a note does not pan.

    ** Modelling choices

    - JavaScript numbers are modelled as exact rationals [Q]: the
      properties the spec states "within floating epsilon" are proved
      exactly, and [Q] equality [==] stands for numeric equality ([!==]
      is [Qneqb]).  Integers the code only counts with ([nextId],
      [zIndex], timestamps) are [Z].  Floating-point rounding, [NaN] and
      [Infinity] are not modelled except where the code tests for them
      ([parseInt]'s [NaN], [Infinity] as the seed of min/max folds, which
      become [option]; [x || d] on a number, [App.orNum]).
    - The DOM is not modelled: a handler receives what it reads from the
      DOM (the canvas bounding rectangle, the kind of element under the
      pointer, modifier keys, the chosen file) as arguments, and what it
      writes to the DOM (styles, classes) is dropped.  The notes' DOM
      elements are assumed to exist exactly for the notes of the map, as
      the code keeps them.
    - The page's HTML and stylesheet are not under src/: the model
      assumes, as the code's use of it implies, that the class [hidden]
      is [display: none], so a hidden element measures 0x0
      ([Layout.boundingSize]).
    - [Date.now()] is an argument [now] of every operation that stamps a
      note or a record; [Math.random()] is an argument (or a stream)
      where the code draws it; [WordArray.random] draws are numbered by
      the page's counter [draws].
    - Asynchrony: an awaited call runs to completion before the next
      statement, as in the code.  A call the code does not await (the
      save button, Ctrl+S, the auto-save after an image upload) runs
      whole at the point where the code starts it, with the effects the
      code shows before it completes placed first.  Two saves in flight
      at once do not interleave in the model.
    - [Math.hypot] (a square root) is a section variable of the pinch
      model: the theorems hold for every distance function.  CryptoJS
      and [JSON] are the interfaces [Crypto] and [Json]: the theorems
      hold for every instance satisfying their laws.

    ** Not modelled

    - The [marked] library itself (loaded from a CDN, not in the
      repository): only its escaping of code blocks is written out.
      The DOM writes of [renderMarkdown], the preview's control buttons
      and the copy helpers (clipboard API) hold no state of the model.
      Of [compressImage] only the size is modelled ([Layout]): the JPEG
      encoding is the browser's, and its result is an input of
      [handleImageUpload].
    - The UI chrome: modal show/hide, tooltips, notifications' rendering,
      the loading indicator and [announceToScreenReader] only write the
      DOM.
    - The textarea's blur and focus listeners: they switch the note
      between editor and preview (DOM only).
    - The debug helpers of canvas.js and app.js: console logging only.
    - [StorageManager.setupAutoSave]: never called.

    ** Witnesses

    Every theorem with hypotheses has a closed companion lemma
    ([<name>_witness]) that applies it to a concrete input: [demo_scene]
    (three notes, two selected) of [NoteState], the identity view
    [Interaction.idWorld], and, for the app, pages booted over an empty
    or an encrypted store with the instances of [Fixtures]; they are
    checked by evaluation.  Every loop of the code over a list or map is
    a structural [Fixpoint] or [fold_left].  The one loop that is not,
    the scan of a global [.replace], takes fuel: [gsub] gives it one step
    more than the text has characters, which is enough because every
    expression of notes.js consumes at least one character per match
    ([progressive]); [Markdown.gsub_fuel] proves that with any larger
    fuel the scan returns, with the same result. *)

From Stdlib Require Export QArith Qminmax Lqa ZArith String List Lia.
From stdpp Require Export base list strings.

Declare Scope canvas_scope.
Delimit Scope canvas_scope with cv.
Open Scope Q_scope.

(** ** JavaScript number comparisons on [Q] *)

(** [a < b] on JS numbers. *)
Definition Qltb (a b : Q) : bool := negb (Qle_bool b a).

(** [a !== b] on JS numbers (numeric disequality). *)
Definition Qneqb (a b : Q) : bool := negb (Qeq_bool a b).

Notation "a !== b" := (Qneqb a b) (at level 70, no associativity) : canvas_scope.
Notation "a <q? b" := (Qltb a b) (at level 70, no associativity) : canvas_scope.
Open Scope canvas_scope.

(** [Math.max(lo, Math.min(hi, v))], the clamping idiom of canvas.js. *)
Definition clamp (lo hi v : Q) : Q := Qmax lo (Qmin hi v).

(** ** Reflection of the boolean tests *)

Lemma Qltb_spec (a b : Q) : Qltb a b = true <-> a < b.
Proof.
  unfold Qltb. rewrite negb_true_iff.
  destruct (Qle_bool b a) eqn:E.
  - apply Qle_bool_iff in E. split; [discriminate | intros; lra].
  - split; [| reflexivity]. intros _.
    apply Qnot_le_lt. intros H. apply Qle_bool_iff in H. congruence.
Qed.

Lemma Qltb_false (a b : Q) : Qltb a b = false <-> b <= a.
Proof.
  unfold Qltb. rewrite negb_false_iff. apply Qle_bool_iff.
Qed.

Lemma Qneqb_false (a b : Q) : Qneqb a b = false <-> a == b.
Proof.
  unfold Qneqb. rewrite negb_false_iff. apply Qeq_bool_iff.
Qed.

Lemma Qneqb_true (a b : Q) : Qneqb a b = true <-> ~ a == b.
Proof.
  unfold Qneqb. rewrite negb_true_iff. split.
  - intros E H. apply Qeq_bool_iff in H. congruence.
  - intros H. destruct (Qeq_bool a b) eqn:E; [|reflexivity].
    exfalso. apply H. apply Qeq_bool_iff. exact E.
Qed.

(** ** Min/max automation *)

(** Case-split one [Qmax]/[Qmin] term [t] with its specification [spec],
    then abstract [t] as an opaque variable. *)
Ltac qminmax_split t spec :=
  let m := fresh "m" in
  destruct spec as [[? ?]|[? ?]]; set (m := t) in *; clearbody m.

(** Case-split every [Qmax]/[Qmin] of the goal and the hypotheses;
    [lra] then treats them as atoms constrained by the split. *)
Ltac qminmax :=
  repeat match goal with
    | _ : context [Qmax ?a ?b] |- _ => qminmax_split (Qmax a b) (Q.max_spec a b)
    | |- context [Qmax ?a ?b] => qminmax_split (Qmax a b) (Q.max_spec a b)
    | _ : context [Qmin ?a ?b] |- _ => qminmax_split (Qmin a b) (Q.min_spec a b)
    | |- context [Qmin ?a ?b] => qminmax_split (Qmin a b) (Q.min_spec a b)
    end.

Ltac qsolve := unfold clamp in *; qminmax; lra.

Create HintDb canvas.

(** ** Clamping *)

Lemma clamp_ge_lo (lo hi v : Q) : lo <= clamp lo hi v.
Proof. qsolve. Qed.

Lemma clamp_le_hi (lo hi v : Q) : lo <= hi -> clamp lo hi v <= hi.
Proof. intros. qsolve. Qed.

Lemma clamp_id (lo hi v : Q) : lo <= v <= hi -> clamp lo hi v == v.
Proof. intros. qsolve. Qed.

#[export] Hint Resolve clamp_ge_lo clamp_le_hi : canvas.

(** ** [Qeq] is a congruence for the model's operations *)

#[export] Instance Qmax_proper : Proper (Qeq ==> Qeq ==> Qeq) Qmax.
Proof. intros a a' Ha b b' Hb. qminmax; lra. Qed.

#[export] Instance Qmin_proper : Proper (Qeq ==> Qeq ==> Qeq) Qmin.
Proof. intros a a' Ha b b' Hb. qminmax; lra. Qed.

#[export] Instance clamp_proper : Proper (Qeq ==> Qeq ==> Qeq ==> Qeq) clamp.
Proof. intros a a' Ha b b' Hb c c' Hc. unfold clamp. rewrite Ha, Hb, Hc. reflexivity. Qed.

#[export] Instance Qltb_proper : Proper (Qeq ==> Qeq ==> eq) Qltb.
Proof.
  intros a a' Ha b b' Hb. destruct (Qltb a' b') eqn:E.
  - apply Qltb_spec. apply Qltb_spec in E. lra.
  - apply Qltb_false. apply Qltb_false in E. lra.
Qed.

#[export] Instance Qneqb_proper : Proper (Qeq ==> Qeq ==> eq) Qneqb.
Proof.
  intros a a' Ha b b' Hb. destruct (Qneqb a' b') eqn:E.
  - apply Qneqb_true. apply Qneqb_true in E. intros H. apply E. lra.
  - apply Qneqb_false. apply Qneqb_false in E. lra.
Qed.

(** ** Options of JavaScript [null] *)

(** [x !== null] *)
Definition is_some {A} (o : option A) : bool :=
  match o with Some _ => true | None => false end.

(** ** Points and world rectangles *)

(** Two points are equal as pairs of JS numbers. *)
Definition peq (p q : Q * Q) : Prop := fst p == fst q /\ snd p == snd q.

Notation "p =~ q" := (peq p q) (at level 70, no associativity) : canvas_scope.

#[export] Instance peq_equiv : Equivalence peq.
Proof.
  split.
  - intros [a b]. split; reflexivity.
  - intros [a b] [c d] [H1 H2]; split; simpl in *; symmetry; assumption.
  - intros [a b] [c d] [e f] [H1 H2] [H3 H4]; split; simpl in *; etransitivity; eassumption.
Qed.

(** An axis-aligned world rectangle [{x, y, width, height}]: the shape of
    a note's geometry and of [resizeStartBounds] in notes.js. *)
Module Bounds.
Record t := mk { x : Q; y : Q; width : Q; height : Q }.

  (** Componentwise numeric equality. *)
Definition eqv (a b : t) : Prop :=
    x a == x b /\ y a == y b /\ width a == width b /\ height a == height b.
End Bounds.

(** ** Folds seeded with [Infinity] / [-Infinity] *)

(** [Math.min(acc, v)] where [acc] starts at [Infinity] ([None]). *)
Definition min_inf (acc : option Q) (v : Q) : option Q :=
  Some (match acc with None => v | Some a => Qmin a v end).

(** [Math.max(acc, v)] where [acc] starts at [-Infinity] ([None]). *)
Definition max_inf (acc : option Q) (v : Q) : option Q :=
  Some (match acc with None => v | Some a => Qmax a v end).

Section Folds.
Context {A : Type} (f : A -> Q).

Lemma fold_min_inf_some (l : list A) (a : A) (acc : option Q) :
    exists m, fold_left (fun o b => min_inf o (f b)) (a :: l) acc = Some m.
  Proof.
    revert a acc. induction l as [|b l IH]; intros a acc; simpl.
    - eauto.
    - apply (IH b).
  Qed.

Lemma fold_max_inf_some (l : list A) (a : A) (acc : option Q) :
    exists m, fold_left (fun o b => max_inf o (f b)) (a :: l) acc = Some m.
  Proof.
    revert a acc. induction l as [|b l IH]; intros a acc; simpl.
    - eauto.
    - apply (IH b).
  Qed.

  (** The minimum is below every element and below the seed. *)
Lemma fold_min_inf_le (l : list A) (acc : option Q) (m : Q) :
    fold_left (fun o b => min_inf o (f b)) l acc = Some m ->
    (forall a, acc = Some a -> m <= a) /\ (forall b, In b l -> m <= f b).
  Proof.
    revert acc. induction l as [|b l IH]; intros acc H; simpl in *.
    - subst. split; [intros a [= ->]; lra | tauto].
    - destruct (IH _ H) as [H1 H2]. unfold min_inf in H1.
      specialize (H1 _ eq_refl).
      split.
      + intros a ->. qminmax; lra.
      + intros c [<-|Hc]; [destruct acc; qminmax; lra | auto].
  Qed.

Lemma fold_max_inf_ge (l : list A) (acc : option Q) (m : Q) :
    fold_left (fun o b => max_inf o (f b)) l acc = Some m ->
    (forall a, acc = Some a -> a <= m) /\ (forall b, In b l -> f b <= m).
  Proof.
    revert acc. induction l as [|b l IH]; intros acc H; simpl in *.
    - subst. split; [intros a [= ->]; lra | tauto].
    - destruct (IH _ H) as [H1 H2]. unfold max_inf in H1.
      specialize (H1 _ eq_refl).
      split.
      + intros a ->. qminmax; lra.
      + intros c [<-|Hc]; [destruct acc; qminmax; lra | auto].
  Qed.
End Folds.

(** ** Concrete instances *)

(** Close a hypothesis on concrete numbers: decide it by evaluation. *)
Ltac concrete :=
  vm_compute; first [ reflexivity | discriminate | (intros ?; discriminate) | tauto | lra ].

(** A decidable proposition at a concrete input, by evaluating its
    decision procedure. *)
Ltac by_decide := apply (bool_decide_unpack _); vm_compute; reflexivity.

(** ** Strings *)

Lemma string_app_cons (c : Ascii.ascii) (s t : string) : String.append (String c s) t = String c (String.append s t).
Proof. reflexivity. Qed.

Lemma string_app_nil_l (t : string) : String.append EmptyString t = t.
Proof. reflexivity. Qed.

Lemma string_app_assoc (s1 s2 s3 : string) :
  String.append (String.append s1 s2) s3 = String.append s1 (String.append s2 s3).
Proof. induction s1 as [|c s IH]; [reflexivity | exact (f_equal (String c) IH)]. Qed.

Lemma string_app_nil (s : string) : String.append s EmptyString = s.
Proof. induction s as [|c s IH]; [reflexivity | exact (f_equal (String c) IH)]. Qed.

Lemma string_length_app (s1 s2 : string) :
  String.length (String.append s1 s2) = (String.length s1 + String.length s2)%nat.
Proof. induction s1 as [|c s IH]; simpl; [reflexivity | rewrite IH; reflexivity]. Qed.

(** [s.startsWith(p)] on [p + r]. *)
Lemma prefix_app (p r : string) : String.prefix p (String.append p r) = true.
Proof.
  induction p as [|c p IH]; [destruct r; reflexivity|].
  simpl. destruct (Ascii.ascii_dec c c) as [_|n]; [exact IH | contradiction].
Qed.

(** ** Lists *)

Lemma last_cons_some {A} (x : A) (l : list A) : exists y, last (x :: l) = Some y.
Proof.
  revert x. induction l as [|z l IH]; intros x; [exists x; reflexivity|].
  destruct (IH z) as [y Hy]. exists y. exact Hy.
Qed.

(** [Forall2] is kept by a relation that implies it on the left list's
    members. *)
Lemma Forall2_impl_In {A B} (R R' : A -> B -> Prop) (l : list A) (k : list B) :
  Forall2 R l k -> (forall x y, In x l -> R x y -> R' x y) -> Forall2 R' l k.
Proof. induction 1; intros HR; constructor; [apply HR; [left|]|apply IHForall2; intros; apply HR; [right|]]; auto. Qed.
