(* ===== verification/ServiceWorker.v ===== *)
(** * ServiceWorker: the offline cache of src/sw.js

    The worker precaches [urlsToCache] in the cache [CACHE_NAME] when it
    is installed (sw.js 19-26) and answers every fetch from the caches
    when it can, else from the network (sw.js 28-35).  The browser's
    Cache Storage is modelled as the ordered list of named caches, each
    an ordered list of (URL, response) entries; the network is a
    function from URL to a fetch result.  The Cache API semantics the
    code relies on are written out: [caches.open] creates a missing cache
    at the end, [cache.addAll] fetches every URL and stores all the
    responses or none, [caches.match] searches the caches in creation
    order.

    Theorems: after a successful install every precached URL is served
    without the network; one failing URL makes the install fail with
    nothing stored; and an older cache that holds a URL shadows the new
    one, since no [activate] handler deletes it. *)

From Stdlib Require Import String List ZArith Bool.
Import ListNotations.

Module ServiceWorker.
Local Open Scope string_scope.
Local Open Scope Z_scope.

(** ** Data *)

(** What [fetch(url)] gives: a rejection (no network), or a response
    with its status and body. *)
Inductive fetchResult := NetError | Resp (status : Z) (body : string).

(** The network at one moment. *)
Definition network : Type := string -> fetchResult.

(** A cache: its entries in insertion order. *)
Definition cache : Type := list (string * fetchResult).

(** [caches]: the named caches in creation order. *)
Definition cacheStorage : Type := list (string * cache).

(** sw.js 2 *)
Definition CACHE_NAME : string := "notecanvas-v1".

(** sw.js 3-17 *)
Definition urlsToCache : list string :=
  ["./"; "./index.html"; "./styles.css"; "./js/app.js"; "./js/canvas.js"; "./js/encryption.js";
   "./js/notes.js"; "./js/storage.js"; "./js/ui.js"; "https://cdn.tailwindcss.com";
   "https://cdn.jsdelivr.net/npm/marked/marked.min.js";
   "https://cdnjs.cloudflare.com/ajax/libs/crypto-js/4.1.1/crypto-js.min.js";
   "https://cdnjs.cloudflare.com/ajax/libs/font-awesome/6.4.0/css/all.min.css"].

(** ** The Cache API *)

(** [response.ok]: a status in 200-299. *)
Definition okResponse (r : fetchResult) : bool :=
  match r with Resp st _ => (200 <=? st) && (st <=? 299) | NetError => false end.

(** [cache.match(url)]: the first entry for the URL. *)
Fixpoint cacheMatch (c : cache) (u : string) : option fetchResult :=
  match c with
  | [] => None
  | (k, r) :: c' => if String.eqb k u then Some r else cacheMatch c' u
  end.

(** [caches.match(url)]: the caches in creation order, the first hit. *)
Fixpoint cachesMatch (cs : cacheStorage) (u : string) : option fetchResult :=
  match cs with
  | [] => None
  | (_, c) :: cs' => match cacheMatch c u with Some r => Some r | None => cachesMatch cs' u end
  end.

Fixpoint lookupCache (cs : cacheStorage) (name : string) : option cache :=
  match cs with
  | [] => None
  | (n, c) :: cs' => if String.eqb n name then Some c else lookupCache cs' name
  end.

(** [caches.open(name)]: the cache of that name, created empty at the end
    when there is none. *)
Definition cachesOpen (cs : cacheStorage) (name : string) : cacheStorage * cache :=
  match lookupCache cs name with
  | Some c => (cs, c)
  | None => ((cs ++ [(name, [])])%list, [])
  end.

(** [cache.put(url, response)]: the old entry for the URL goes, the new
    one is appended. *)
Definition cachePut (c : cache) (u : string) (r : fetchResult) : cache :=
  (filter (fun e => negb (String.eqb (fst e) u)) c ++ [(u, r)])%list.

(** [cache.addAll(urls)]: fetch every URL; if one fails or is not ok,
    reject and store nothing, else put every response in order. *)
Definition addAll (net : network) (c : cache) (urls : list string) : option cache :=
  if forallb (fun u => okResponse (net u)) urls
  then Some (fold_left (fun c u => cachePut c u (net u)) urls c)
  else None.

(** Replace the cache of a name. *)
Definition setCache (cs : cacheStorage) (name : string) (c : cache) : cacheStorage :=
  map (fun e => if String.eqb (fst e) name then (name, c) else e) cs.

(** ** The two listeners *)

Inductive installOutcome := Installed | InstallFailed.

(** The [install] listener (sw.js 19-26): [event.waitUntil] fails the
    install when [addAll] rejects; the cache [caches.open] created stays. *)
Definition install (net : network) (cs : cacheStorage) : installOutcome * cacheStorage :=
  let '(cs1, c) := cachesOpen cs CACHE_NAME in
  match addAll net c urlsToCache with
  | Some c' => (Installed, setCache cs1 CACHE_NAME c')
  | None => (InstallFailed, cs1)
  end.

(** The [fetch] listener (sw.js 28-35): [response || fetch(request)]. *)
Definition handleFetch (net : network) (cs : cacheStorage) (u : string) : fetchResult :=
  match cachesMatch cs u with
  | Some r => r
  | None => net u
  end.

(** ** Lemmas *)

Lemma cacheMatch_put_eq (c : cache) (u : string) (r : fetchResult) : cacheMatch (cachePut c u r) u = Some r.
Proof.
  unfold cachePut. induction c as [|[k v] c IH]; simpl; [rewrite String.eqb_refl; reflexivity|].
  destruct (String.eqb k u) eqn:E; simpl; [exact IH|]. rewrite E. exact IH.
Qed.

Lemma cacheMatch_put_ne (c : cache) (u w : string) (r : fetchResult) :
  u <> w -> cacheMatch (cachePut c u r) w = cacheMatch c w.
Proof.
  intros Hne. unfold cachePut. induction c as [|[k v] c IH]; simpl.
  - apply String.eqb_neq in Hne. rewrite Hne. reflexivity.
  - destruct (String.eqb k u) eqn:E; simpl.
    + apply String.eqb_eq in E. subst k. apply String.eqb_neq in Hne. rewrite Hne. exact IH.
    + destruct (String.eqb k w); [reflexivity | exact IH].
Qed.

(** After putting the URLs in order, each of them reads back its
    response. *)
Lemma cacheMatch_fold_put (net : network) (urls : list string) (c : cache) (u : string) :
  In u urls -> cacheMatch (fold_left (fun c u => cachePut c u (net u)) urls c) u = Some (net u).
Proof.
  revert c. induction urls as [|x urls IH] using rev_ind; intros c Hin; [contradiction|].
  rewrite fold_left_app. simpl. destruct (String.eqb_spec x u) as [->|Hne].
  - apply cacheMatch_put_eq.
  - rewrite cacheMatch_put_ne by exact Hne. apply IH. apply in_app_or in Hin as [H|[H|[]]]; [exact H | congruence].
Qed.

Lemma cachesMatch_app (cs1 cs2 : cacheStorage) (u : string) :
  cachesMatch (cs1 ++ cs2)%list u = match cachesMatch cs1 u with Some r => Some r | None => cachesMatch cs2 u end.
Proof.
  induction cs1 as [|[n c] cs1 IH]; [reflexivity|]. simpl. destruct (cacheMatch c u); [reflexivity | exact IH].
Qed.

(** Where the named cache is, [caches.match] finds its entry unless a
    cache before it has one. *)
Lemma cachesMatch_setCache (cs : cacheStorage) (name : string) (c : cache) (u : string) (r : fetchResult) :
  lookupCache cs name <> None -> cacheMatch c u = Some r ->
  (forall n c0, In (n, c0) cs -> n <> name -> cacheMatch c0 u = None) ->
  cachesMatch (setCache cs name c) u = Some r.
Proof.
  intros Hl Hc Hother. induction cs as [|[n c0] cs IH]; [contradiction|]. simpl in *.
  destruct (String.eqb_spec n name) as [->|Hne]; simpl.
  - rewrite Hc. reflexivity.
  - rewrite (Hother n c0 (or_introl eq_refl) Hne). apply IH; [exact Hl|]. intros n' c' Hin. apply Hother. right. exact Hin.
Qed.

Lemma lookupCache_open (cs : cacheStorage) (name : string) : lookupCache (fst (cachesOpen cs name)) name <> None.
Proof.
  unfold cachesOpen. destruct (lookupCache cs name) eqn:E; simpl; [rewrite E; discriminate|].
  induction cs as [|[n c] cs IH]; simpl in *; [rewrite String.eqb_refl; discriminate|].
  destruct (String.eqb n name); [discriminate | exact (IH E)].
Qed.

Lemma In_open (cs : cacheStorage) (name n : string) (c : cache) :
  In (n, c) (fst (cachesOpen cs name)) -> In (n, c) cs \/ (n = name /\ c = []).
Proof.
  unfold cachesOpen. destruct (lookupCache cs name); simpl; [auto|].
  intros H. apply in_app_or in H as [H|[H|[]]]; [auto | injection H as -> ->; auto].
Qed.

(** ** Properties *)

(** C27: After an install that succeeds, every URL of [urlsToCache] is
    answered with the response the install fetched, whatever the
    network does later (offline included), provided no other cache holds
    that URL. *)
Theorem install_serves_offline (net net' : network) (cs cs' : cacheStorage) (u : string) :
  install net cs = (Installed, cs') -> In u urlsToCache ->
  (forall n c, In (n, c) cs -> n <> CACHE_NAME -> cacheMatch c u = None) ->
  handleFetch net' cs' u = net u.
Proof.
  unfold install. intros Hi Hin Hother. pose proof (lookupCache_open cs CACHE_NAME) as Hl.
  pose proof (In_open cs CACHE_NAME) as Ho.
  destruct (cachesOpen cs CACHE_NAME) as [cs1 c] eqn:Eo. unfold addAll in Hi.
  destruct (forallb _ _); [|discriminate]. injection Hi as <-.
  unfold handleFetch. rewrite (cachesMatch_setCache cs1 CACHE_NAME _ u (net u) Hl).
  - reflexivity.
  - exact (cacheMatch_fold_put net urlsToCache c u Hin).
  - intros n c0 H Hne. destruct (Ho n c0 H) as [H'|[-> _]]; [exact (Hother n c0 H' Hne) | contradiction].
Qed.

(** C28: [cache.addAll] is all or nothing: when one URL of [urlsToCache]
    cannot be fetched or answers with a status outside 200-299, the
    install fails and the caches are only those [caches.open] left, with
    nothing stored from this install. *)
Theorem install_all_or_nothing (net : network) (cs : cacheStorage) (u : string) :
  In u urlsToCache -> okResponse (net u) = false ->
  install net cs = (InstallFailed, fst (cachesOpen cs CACHE_NAME)).
Proof.
  intros Hin Hbad.
  assert (Hf : forallb (fun u => okResponse (net u)) urlsToCache = false).
  { apply not_true_iff_false. intros H. rewrite forallb_forall in H. rewrite (H u Hin) in Hbad. discriminate. }
  unfold install, addAll. rewrite Hf. destruct (cachesOpen cs CACHE_NAME); reflexivity.
Qed.

(** Caches are searched in creation order and no [activate] handler
    removes old ones: a URL an older cache holds is answered from it,
    even right after a successful install that fetched it anew. *)
Theorem old_cache_shadows_install (net net' : network) (old : cache) (u : string) (r : fetchResult) :
  cacheMatch old u = Some r ->
  install net [("notecanvas-v0", old)] = (Installed, snd (install net [("notecanvas-v0", old)])) ->
  handleFetch net' (snd (install net [("notecanvas-v0", old)])) u = r.
Proof.
  intros Hold Hi. unfold handleFetch. revert Hi. unfold install, cachesOpen. simpl.
  destruct (addAll net [] urlsToCache); simpl; intros Hi; [|discriminate]. rewrite Hold. reflexivity.
Qed.

(** ** Witnesses *)

(** A network that serves every URL. *)
Definition allOk : network := fun u => Resp 200 u.

(** The files next to src/sw.js in this repository: [js/encryption.js]
    only; every other relative URL is a 404. *)
Definition repoNetwork : network :=
  fun u => if String.eqb u "./js/encryption.js" then Resp 200 u
           else if String.prefix "./" u then Resp 404 "" else Resp 200 u.

Lemma install_serves_offline_witness :
  install allOk [] = (Installed, snd (install allOk [])) /\ In "./js/notes.js" urlsToCache /\
  handleFetch (fun _ => NetError) (snd (install allOk [])) "./js/notes.js" = allOk "./js/notes.js".
Proof.
  assert (Hi : install allOk [] = (Installed, snd (install allOk []))) by reflexivity.
  assert (Hin : In "./js/notes.js" urlsToCache) by (simpl; tauto).
  split; [exact Hi | split; [exact Hin |]].
  apply (install_serves_offline allOk (fun _ => NetError) [] _ "./js/notes.js" Hi Hin).
  intros n c [].
Defined.

Lemma install_all_or_nothing_witness :
  In "./index.html" urlsToCache /\ okResponse (repoNetwork "./index.html") = false /\
  install repoNetwork [] = (InstallFailed, [(CACHE_NAME, [])]).
Proof.
  assert (Hin : In "./index.html" urlsToCache) by (simpl; tauto).
  assert (Hb : okResponse (repoNetwork "./index.html") = false) by reflexivity.
  split; [exact Hin | split; [exact Hb |]].
  exact (install_all_or_nothing repoNetwork [] "./index.html" Hin Hb).
Defined.

Lemma old_cache_shadows_install_witness :
  let old := [("./js/notes.js", Resp 200 "v0 notes.js")] in
  cacheMatch old "./js/notes.js" = Some (Resp 200 "v0 notes.js") /\
  handleFetch allOk (snd (install allOk [("notecanvas-v0", old)])) "./js/notes.js" = Resp 200 "v0 notes.js".
Proof.
  intros old. split; [reflexivity|].
  apply (old_cache_shadows_install allOk allOk old "./js/notes.js" (Resp 200 "v0 notes.js")); reflexivity.
Defined.

End ServiceWorker.
