(* ===== verification/Markdown.v ===== *)
(** * Markdown: the string transformations of [renderMarkdown]

    [NotesManager.renderMarkdown] (notes.js 310-485) turns a text note's
    content into the HTML of its preview.  With the [marked] library
    loaded and a non-blank content it renders with [marked.parse] and
    rewrites the code blocks with [enhanceCodeBlocks] (notes.js 488-517);
    without [marked] it falls back to four regular-expression replacements
    (notes.js 458-466); when rendering throws it only turns newlines into
    [<br>] (notes.js 468-470).  All of them are [String.prototype.replace]
    with a global regular expression.

    - [gsubFuel] is the loop of that [replace]: at each index the
      expression is tried; a match is replaced and the scan continues
      after it, otherwise the character is kept and the next index is
      tried.  A [matcher] is the expression tried at the start of the
      remaining text; the expressions of the code never match the empty
      string, so the loop makes progress and terminates within the
      length of the text plus one iterations ([gsub_fuel]).
    - [litMatch], [delimMatch] and [codeBlockMatch] are the expressions of
      the code: a literal, [/d(.*?)d/] (lazy, [.] excluding line
      terminators) and the [<pre><code>] block of [enhanceCodeBlocks].
    - [markedEscape] is what [marked] does to the text of a code block;
      escaped text read as tokens (characters and entities) shows that
      each decoding pass replaces exactly its entity.

    Theorems: every replace of [renderMarkdown] terminates
    ([gsub_fuel] with [markdownPasses_progressive]); the fallback passes
    HTML through ([fallbackHtml_passes_markup_through]); on a block
    [marked] writes, the Copy button gets the original code when it has
    no [&] ([enhanceCodeBlocks_copies_code]), and for a code with the
    text [&quot;] among [&]-free text a double quote in its place
    ([enhanceCodeBlocks_double_decodes]): after the [&amp;] pass the
    text is cut into tokens again ([decodeCode_retok]).

    JavaScript strings are sequences of UTF-16 code units; they are
    modelled as [string] (8-bit characters), which is faithful for the
    ASCII texts the theorems are about. *)

From Stdlib Require Import Ascii.
From S2P Require Import Prelude.

Module Markdown.

Local Open Scope string_scope.

(** ** The global replace loop *)

(** [s.slice(k)] *)
Fixpoint dropN (k : nat) (s : string) : string :=
  match k, s with
  | O, _ => s
  | S k', String _ s' => dropN k' s'
  | S _, EmptyString => EmptyString
  end.

(** A regular expression tried at the start of the remaining text: the
    length of its match and the text that replaces it. *)
Definition matcher : Type := string -> option (nat * string).

(** The loop of [s.replace(re, ...)] for a global [re], with at most
    [fuel] iterations ([None] when they run out). *)
Fixpoint gsubFuel (fuel : nat) (m : matcher) (s : string) : option string :=
  match fuel with
  | O => None
  | S f =>
      match s with
      | EmptyString => Some EmptyString
      | String c r =>
          match m s with
          | Some (k, rep) => option_map (String.append rep) (gsubFuel f m (dropN k s))
          | None => option_map (String c) (gsubFuel f m r)
          end
      end
  end.

(** [s.replace(re, ...)]: the loop with one iteration per character and
    one more. *)
Definition gsub (m : matcher) (s : string) : string :=
  match gsubFuel (S (String.length s)) m s with Some r => r | None => s end.

(** The expression never matches the empty string. *)
Definition progressive (m : matcher) : Prop := forall s k rep, m s = Some (k, rep) -> (1 <= k)%nat.

(** ** The expressions of [renderMarkdown] *)

(** The line terminators of ASCII, which [.] does not match. *)
Definition lineTerminator (c : ascii) : bool := Ascii.eqb c "010"%char || Ascii.eqb c "013"%char.

Definition newline : string := String "010"%char EmptyString.

(** [/pat/g] for a pattern without special characters, replaced by [rep]. *)
Definition litMatch (pat rep : string) : matcher :=
  fun s => if String.prefix pat s then Some (String.length pat, rep) else None.

(** [(.*?)d]: the shortest text without a line terminator that [d]
    follows. *)
Fixpoint lazyUntil (d t : string) : option string :=
  if String.prefix d t then Some EmptyString
  else match t with
       | String c t' => if lineTerminator c then None else option_map (String c) (lazyUntil d t')
       | EmptyString => None
       end.

(** [/d(.*?)d/g] replaced by [o + "$1" + c]. *)
Definition delimMatch (d o c : string) : matcher :=
  fun s =>
    if String.prefix d s then
      match lazyUntil d (dropN (String.length d) s) with
      | Some content => Some (String.length d + String.length content + String.length d,
                              String.append o (String.append content c))%nat
      | None => None
      end
    else None.

(** The fallback formatting (notes.js 458-466), used when [marked] is
    not loaded or the content is blank. *)
Definition fallbackHtml (content : string) : string :=
  gsub (delimMatch "`" "<code>" "</code>")
    (gsub (delimMatch "*" "<em>" "</em>")
      (gsub (delimMatch "**" "<strong>" "</strong>")
        (gsub (litMatch newline "<br>") content))).

(** What the preview shows when rendering throws (notes.js 468-470). *)
Definition errorHtml (content : string) : string := gsub (litMatch newline "<br>") content.

(** ** [enhanceCodeBlocks] *)

(** A double quote, a run of spaces, and the concatenation of a template. *)
Definition dq : string := String "034"%char EmptyString.

Fixpoint spaces (n : nat) : string :=
  match n with O => EmptyString | S n' => String " "%char (spaces n') end.

Definition cat (l : list string) : string := fold_right String.append EmptyString l.

(** [\s] on one character: ASCII white space and the no-break space. *)
Definition isSpace (c : ascii) : bool :=
  let n := nat_of_ascii c in ((9 <=? n) && (n <=? 13) || (n =? 32) || (n =? 160))%nat.

(** [\w] on one character. *)
Definition isWord (c : ascii) : bool :=
  let n := nat_of_ascii c in
  ((48 <=? n) && (n <=? 57) || (65 <=? n) && (n <=? 90) || (97 <=? n) && (n <=? 122) || (n =? 95))%nat.

(** The longest prefix whose characters satisfy [p], and the rest: a
    greedy [p+] or [p*]. *)
Fixpoint span (p : ascii -> bool) (s : string) : string * string :=
  match s with
  | String c r => if p c then let '(a, b) := span p r in (String c a, b) else (EmptyString, s)
  | EmptyString => (EmptyString, EmptyString)
  end.

Definition preCode : string := "<pre><code".
Definition classAttr : string := cat ["class="; dq; "language-"].
Definition closeCode : string := "</code></pre>".

(** [(?:\s+class="language-(\w+)")] at the start of [t]: the language
    and the rest.  Both runs are greedy and what follows them ([c], a double quote)
    belongs to neither class, so no shorter run can match. *)
Definition langGroup (t : string) : option (string * string) :=
  let '(ws, t1) := span isSpace t in
  if (1 <=? String.length ws)%nat && String.prefix classAttr t1 then
    let '(lang, t2) := span isWord (dropN (String.length classAttr) t1) in
    if (1 <=? String.length lang)%nat && String.prefix dq t2 then Some (lang, dropN 1 t2) else None
  else None.

(** [([\s\S]*?)d]: the shortest text, of any characters, that [d] follows. *)
Fixpoint lazyAny (d t : string) : option string :=
  if String.prefix d t then Some EmptyString
  else match t with
       | String c t' => option_map (String c) (lazyAny d t')
       | EmptyString => None
       end.

(** The entity decoding of a block's code (notes.js 493-498), in the
    code's order. *)
Definition decodeCode (code : string) : string :=
  gsub (litMatch "&#39;" "'")
    (gsub (litMatch "&quot;" dq)
      (gsub (litMatch "&amp;" "&")
        (gsub (litMatch "&gt;" ">")
          (gsub (litMatch "&lt;" "<") code)))).

Section Enhance.
(** [encodeURIComponent] *)
Variable encodeURIComponent : string -> string.

(** The text that replaces one block (notes.js 500-513): [lang], the
    encoded decoded code for the Copy button, and the code as matched. *)
Definition codeBlockHtml (lang enc code : string) : string :=
  cat [newline; spaces 8; "<div class="; dq; "code-block-container"; dq; ">"; newline;
       spaces 10; "<div class="; dq; "code-block-header"; dq; ">"; newline;
       spaces 12; "<span class="; dq; "code-block-language"; dq; ">"; lang; "</span>"; newline;
       spaces 12; "<button class="; dq; "copy-code-btn"; dq; " data-code="; dq; enc; dq; ">"; newline;
       spaces 14; "<i class="; dq; "fas fa-copy"; dq; "></i>"; newline;
       spaces 14; "Copy"; newline;
       spaces 12; "</button>"; newline;
       spaces 10; "</div>"; newline;
       spaces 10; "<pre><code class="; dq; "language-"; lang; dq; ">"; code; closeCode; newline;
       spaces 8; "</div>"; newline; spaces 6].

(** The body [([\s\S]*?)<\/code><\/pre>] after [consumed] characters,
    with the block's language. *)
Definition blockBody (lang u : string) (consumed : nat) : option (nat * string) :=
  match lazyAny closeCode u with
  | Some code => Some (consumed + String.length code + String.length closeCode,
                       codeBlockHtml lang (encodeURIComponent (decodeCode code)) code)%nat
  | None => None
  end.

(** [/<pre><code(?:\s+class="language-(\w+)")?>([\s\S]*?)<\/code><\/pre>/]
    at the start of [s]: the optional group is tried first; when the rest
    fails with it, without it; [lang] is [language || "text"]. *)
Definition codeBlockMatch : matcher :=
  fun s =>
    if String.prefix preCode s then
      let t := dropN (String.length preCode) s in
      let noGroup :=
        if String.prefix ">" t then blockBody "text" (dropN 1 t) (String.length preCode + 1) else None in
      match langGroup t with
      | Some (lang, t') =>
          match (if String.prefix ">" t' then blockBody lang (dropN 1 t') (String.length s - String.length t' + 1)
                 else None) with
          | Some res => Some res
          | None => noGroup
          end
      | None => noGroup
      end
    else None.

(** [enhanceCodeBlocks(html)] (notes.js 488-517). *)
Definition enhanceCodeBlocks (html : string) : string := gsub codeBlockMatch html.

End Enhance.

(** [marked]'s escaping of the text of a code block: [&], [<], [>], the double quote
    and ['] become [&amp;], [&lt;], [&gt;], [&quot;] and [&#39;].  This is
    the library's behaviour, the reference the decoding must invert. *)
Definition escChar (c : ascii) : string :=
  if Ascii.eqb c "&"%char then "&amp;"
  else if Ascii.eqb c "<"%char then "&lt;"
  else if Ascii.eqb c ">"%char then "&gt;"
  else if Ascii.eqb c "034"%char then "&quot;"
  else if Ascii.eqb c "'"%char then "&#39;"
  else String c EmptyString.

Fixpoint markedEscape (s : string) : string :=
  match s with
  | EmptyString => EmptyString
  | String c r => String.append (escChar c) (markedEscape r)
  end.

(** The HTML [marked] produces for a fenced code block in [lang]. *)
Definition markedBlock (lang code : string) : string :=
  cat [preCode; " "; classAttr; lang; dq; ">"; markedEscape code; closeCode].

(** No character of [s] satisfies [bad]. *)
Fixpoint avoids (bad : ascii -> bool) (s : string) : bool :=
  match s with
  | EmptyString => true
  | String c r => negb (bad c) && avoids bad r
  end.

(** A language name [marked] puts in a class matched by [(\w+)]. *)
Definition wordLang (lang : string) : bool :=
  (1 <=? String.length lang)%nat && avoids (fun x => negb (isWord x)) lang.

(** The characters the fallback formatting reacts to. *)
Definition markdownChar (c : ascii) : bool :=
  Ascii.eqb c "*"%char || Ascii.eqb c "`"%char || Ascii.eqb c "010"%char.

(** The expressions [renderMarkdown] replaces globally: the fallback's
    four, the block expression of [enhanceCodeBlocks], and its five
    entity decodings. *)
Definition markdownPasses (encodeURIComponent : string -> string) : list matcher :=
  [litMatch newline "<br>"; delimMatch "**" "<strong>" "</strong>"; delimMatch "*" "<em>" "</em>";
   delimMatch "`" "<code>" "</code>"; codeBlockMatch encodeURIComponent;
   litMatch "&lt;" "<"; litMatch "&gt;" ">"; litMatch "&amp;" "&"; litMatch "&quot;" dq; litMatch "&#39;" "'"].

(** ** The loop terminates *)

Lemma avoids_cons (bad : ascii -> bool) (c : ascii) (s : string) :
  avoids bad (String c s) = negb (bad c) && avoids bad s.
Proof. reflexivity. Qed.

Lemma dropN_le (k : nat) (s : string) : (String.length (dropN k s) <= String.length s)%nat.
Proof. revert s. induction k as [|k IH]; intros [|c s]; simpl; try lia. specialize (IH s). lia. Qed.

Lemma dropN_lt (k : nat) (c : ascii) (s : string) :
  (1 <= k)%nat -> (String.length (dropN k (String c s)) < String.length (String c s))%nat.
Proof. intros Hk. destruct k as [|k]; [lia|]. simpl. pose proof (dropN_le k s). lia. Qed.

Lemma dropN_app (p r : string) : dropN (String.length p) (String.append p r) = r.
Proof. induction p as [|c p IH]; [reflexivity | exact IH]. Qed.

Lemma dropN_all (s : string) : dropN (String.length s) s = EmptyString.
Proof. rewrite <- (string_app_nil s) at 2. apply dropN_app. Qed.

Section Loop.
Variable m : matcher.
Hypothesis Hm : progressive m.

(** Enough fuel gives a result, and any enough fuel gives the same one. *)
Lemma gsubFuel_enough (n : nat) :
  forall s, (String.length s <= n)%nat -> forall f1 f2, (String.length s < f1)%nat -> (String.length s < f2)%nat ->
  gsubFuel f1 m s = gsubFuel f2 m s /\ gsubFuel f1 m s <> None.
Proof.
  induction n as [|n IH]; intros s Hs [|f1] [|f2] H1 H2; try lia.
  - destruct s; simpl in *; [split; [reflexivity | discriminate] | lia].
  - destruct s as [|c r]; simpl; [split; [reflexivity | discriminate]|].
    destruct (m (String c r)) as [[k rep]|] eqn:E.
    + pose proof (dropN_lt k c r (Hm _ _ _ E)) as Hd.
      destruct (IH (dropN k (String c r)) ltac:(simpl in *; lia) f1 f2 ltac:(simpl in *; lia) ltac:(simpl in *; lia))
        as [Eq Nn].
      rewrite Eq. split; [reflexivity|]. rewrite <- Eq. destruct (gsubFuel f1 m _); [discriminate | contradiction].
    + simpl in Hs, H1, H2.
      destruct (IH r ltac:(lia) f1 f2 ltac:(lia) ltac:(lia)) as [Eq Nn].
      rewrite Eq. split; [reflexivity|]. rewrite <- Eq. destruct (gsubFuel f1 m r); [discriminate | contradiction].
Qed.

Lemma gsub_fuel (s : string) (fuel : nat) :
  (String.length s < fuel)%nat -> gsubFuel fuel m s = Some (gsub m s).
Proof.
  intros Hf. destruct (gsubFuel_enough (String.length s) s (le_n _) fuel (S (String.length s)) Hf (Nat.lt_succ_diag_r _))
    as [Eq Nn].
  unfold gsub. rewrite Eq in *. destruct (gsubFuel (S (String.length s)) m s); [reflexivity | contradiction].
Qed.

Lemma gsubFuel_cons (f : nat) (c : ascii) (r : string) :
  gsubFuel (S f) m (String c r) =
  match m (String c r) with
  | Some (k, rep) => option_map (String.append rep) (gsubFuel f m (dropN k (String c r)))
  | None => option_map (String c) (gsubFuel f m r)
  end.
Proof. reflexivity. Qed.

Lemma gsub_nil : gsub m EmptyString = EmptyString.
Proof. reflexivity. Qed.

(** A match is replaced and the scan goes on after it. *)
Lemma gsub_match (c : ascii) (r : string) (k : nat) (rep : string) :
  m (String c r) = Some (k, rep) -> gsub m (String c r) = String.append rep (gsub m (dropN k (String c r))).
Proof.
  intros E. pose proof (gsub_fuel (String c r) (S (String.length (String c r))) (Nat.lt_succ_diag_r _)) as G.
  rewrite gsubFuel_cons, E in G. cbn [String.length] in *. pose proof (dropN_lt k c r (Hm _ _ _ E)) as Hd.
  rewrite (gsub_fuel (dropN k (String c r)) (S (String.length r))) in G by (simpl in Hd; lia).
  injection G as G. exact (eq_sym G).
Qed.

(** Where nothing matches the character is kept. *)
Lemma gsub_skip (c : ascii) (r : string) : m (String c r) = None -> gsub m (String c r) = String c (gsub m r).
Proof.
  intros E. pose proof (gsub_fuel (String c r) (S (String.length (String c r))) (Nat.lt_succ_diag_r _)) as G.
  rewrite gsubFuel_cons, E in G. cbn [String.length] in *. rewrite (gsub_fuel r (S (String.length r))) in G by lia.
  injection G as G. exact (eq_sym G).
Qed.

(** A text none of whose characters can start a match passes through
    unchanged, whatever follows it. *)
Lemma gsub_app_avoids (bad : ascii -> bool) :
  (forall c r, bad c = false -> m (String c r) = None) ->
  forall u w, avoids bad u = true -> gsub m (String.append u w) = String.append u (gsub m w).
Proof.
  intros Hb u w. induction u as [|c u IH]; intros Ha; [reflexivity|].
  rewrite avoids_cons in Ha. apply andb_true_iff in Ha as [Hc Hu]. apply negb_true_iff in Hc.
  rewrite string_app_cons, gsub_skip by (apply Hb, Hc). rewrite IH by exact Hu. reflexivity.
Qed.

Lemma gsub_avoids (bad : ascii -> bool) :
  (forall c r, bad c = false -> m (String c r) = None) -> forall s, avoids bad s = true -> gsub m s = s.
Proof.
  intros Hb s Hs. rewrite <- (string_app_nil s), (gsub_app_avoids bad Hb s EmptyString Hs). reflexivity.
Qed.

(** A match that consumes the whole text is the whole result. *)
Lemma gsub_whole (s rep : string) :
  s <> EmptyString -> m s = Some (String.length s, rep) -> gsub m s = rep.
Proof.
  destruct s as [|c r]; intros Hne E; [contradiction|].
  rewrite (gsub_match c r _ rep E), dropN_all, gsub_nil. apply string_app_nil.
Qed.

End Loop.

Lemma litMatch_progressive (c : ascii) (pr rep : string) : progressive (litMatch (String c pr) rep).
Proof. intros s k r. unfold litMatch. destruct (String.prefix _ s); [intros [= <- _]; simpl; lia | discriminate]. Qed.

Lemma delimMatch_progressive (c : ascii) (dr o e : string) : progressive (delimMatch (String c dr) o e).
Proof.
  intros s k r. unfold delimMatch. destruct (String.prefix _ s); [|discriminate].
  destruct (lazyUntil _ _); [intros [= <- _]; simpl; lia | discriminate].
Qed.

(** [String.prefix] fails on a different first character. *)
Lemma prefix_head (c d : ascii) (pr r : string) : Ascii.eqb c d = false -> String.prefix (String d pr) (String c r) = false.
Proof. intros H. simpl. rewrite Ascii.eqb_sym in H. destruct (ascii_dec d c) as [->|]; [rewrite Ascii.eqb_refl in H; discriminate | reflexivity]. Qed.

Lemma litMatch_head (d c : ascii) (pr rep r : string) :
  Ascii.eqb c d = false -> litMatch (String d pr) rep (String c r) = None.
Proof. intros H. unfold litMatch. rewrite prefix_head by exact H. reflexivity. Qed.

Lemma delimMatch_head (d c : ascii) (dr o e r : string) :
  Ascii.eqb c d = false -> delimMatch (String d dr) o e (String c r) = None.
Proof. intros H. unfold delimMatch. rewrite prefix_head by exact H. reflexivity. Qed.

(** ** Strings *)

Lemma avoids_app (bad : ascii -> bool) (a b : string) :
  avoids bad (String.append a b) = avoids bad a && avoids bad b.
Proof. induction a as [|c a IH]; simpl; [reflexivity | rewrite IH, andb_assoc; reflexivity]. Qed.

(** A greedy run stops at the first character outside the class. *)
Lemma span_app (p : ascii -> bool) (a : string) (c : ascii) (b : string) :
  avoids (fun x => negb (p x)) a = true -> p c = false -> span p (String.append a (String c b)) = (a, String c b).
Proof.
  intros Ha Hc. induction a as [|x a IH]; simpl in *; [rewrite Hc; reflexivity|].
  apply andb_true_iff in Ha as [Hx Ha]. rewrite negb_involutive in Hx. rewrite Hx, IH by exact Ha. reflexivity.
Qed.

Lemma lazyAny_eq (d t : string) :
  lazyAny d t = if String.prefix d t then Some EmptyString
                else match t with String c t' => option_map (String c) (lazyAny d t') | EmptyString => None end.
Proof. destruct t; reflexivity. Qed.

(** The lazy body stops at the first occurrence of the delimiter. *)
Lemma lazyAny_app (c : ascii) (d u r : string) :
  avoids (Ascii.eqb c) u = true -> lazyAny (String c d) (String.append u (String.append (String c d) r)) = Some u.
Proof.
  induction u as [|a u IH]; intros Hu; rewrite lazyAny_eq.
  - change (String.append EmptyString (String.append (String c d) r)) with (String.append (String c d) r).
    rewrite prefix_app. reflexivity.
  - simpl in Hu. apply andb_true_iff in Hu as [Ha Hu]. apply negb_true_iff in Ha.
    change (String.append (String a u) ?x) with (String a (String.append u x)).
    rewrite prefix_head by (rewrite Ascii.eqb_sym; exact Ha). rewrite IH by exact Hu. reflexivity.
Qed.

(** ** Tokens of escaped text *)

(** Escaped text is a sequence of characters and entities [&name;]. *)
Inductive tok := Ch (c : ascii) | Ent (name : string).

Definition tokText (t : tok) : string :=
  match t with Ch c => String c EmptyString | Ent n => cat ["&"; n; ";"] end.

Definition render (ts : list tok) : string := cat (map tokText ts).

(** A character other than [&], or an entity whose name has neither [&]
    nor [;]. *)
Definition goodTok (t : tok) : bool :=
  match t with
  | Ch c => negb (Ascii.eqb c "&"%char)
  | Ent n => avoids (Ascii.eqb "&"%char) n && avoids (Ascii.eqb ";"%char) n
  end.

(** One [.replace(/&name;/g, r)]: the entity [name] becomes [r]. *)
Definition substTok (name : string) (r : ascii) (t : tok) : tok :=
  match t with Ent n => if String.eqb n name then Ch r else t | Ch _ => t end.

(** [marked]'s escape of one character, as a token. *)
Definition escTok (c : ascii) : tok :=
  if Ascii.eqb c "&"%char then Ent "amp"
  else if Ascii.eqb c "<"%char then Ent "lt"
  else if Ascii.eqb c ">"%char then Ent "gt"
  else if Ascii.eqb c "034"%char then Ent "quot"
  else if Ascii.eqb c "'"%char then Ent "#39"
  else Ch c.

Lemma escChar_tok (c : ascii) : escChar c = tokText (escTok c).
Proof.
  unfold escChar, escTok.
  destruct (Ascii.eqb c "&"%char); [reflexivity|]. destruct (Ascii.eqb c "<"%char); [reflexivity|].
  destruct (Ascii.eqb c ">"%char); [reflexivity|]. destruct (Ascii.eqb c "034"%char); [reflexivity|].
  destruct (Ascii.eqb c "'"%char); reflexivity.
Qed.

Lemma markedEscape_render (s : string) : markedEscape s = render (map escTok (list_ascii_of_string s)).
Proof. induction s as [|c s IH]; [reflexivity|]. simpl. rewrite escChar_tok, IH. reflexivity. Qed.

Lemma prefix_nil (s : string) : String.prefix EmptyString s = true.
Proof. destruct s; reflexivity. Qed.

Lemma prefix_cons (a b : ascii) (s1 s2 : string) :
  String.prefix (String a s1) (String b s2) = if Ascii.ascii_dec a b then String.prefix s1 s2 else false.
Proof. reflexivity. Qed.

(** [&p;] is not a prefix of the text of another entity followed by anything. *)
Lemma prefix_entity_ne (p n r : string) :
  avoids (Ascii.eqb ";"%char) p = true -> avoids (Ascii.eqb ";"%char) n = true -> n <> p ->
  String.prefix (String.append p ";") (String.append n (String.append ";" r)) = false.
Proof.
  revert n. induction p as [|b p IH]; intros [|a n] Hp Hn Hne; try contradiction;
    rewrite ?string_app_cons, ?string_app_nil_l; rewrite ?avoids_cons in Hp, Hn; rewrite prefix_cons.
  - apply andb_true_iff in Hn as [Ha _]. apply negb_true_iff in Ha.
    destruct (Ascii.ascii_dec ";"%char a) as [<-|]; [discriminate | reflexivity].
  - apply andb_true_iff in Hp as [Hb _]. apply negb_true_iff in Hb.
    destruct (Ascii.ascii_dec b ";"%char) as [->|]; [discriminate | reflexivity].
  - apply andb_true_iff in Hp as [_ Hp]. apply andb_true_iff in Hn as [_ Hn].
    destruct (Ascii.ascii_dec b a) as [<-|]; [|reflexivity].
    apply IH; [exact Hp | exact Hn | congruence].
Qed.

(** One [.replace(/&p;/g, r)] on escaped text replaces exactly the
    entities [p]: no match straddles two tokens. *)
Lemma gsub_entity (p : string) (r : ascii) (ts : list tok) :
  avoids (Ascii.eqb "&"%char) p = true -> avoids (Ascii.eqb ";"%char) p = true -> forallb goodTok ts = true ->
  gsub (litMatch (String "&" (String.append p ";")) (String r EmptyString)) (render ts) = render (map (substTok p r) ts).
Proof.
  intros Hpa Hps. set (M := litMatch (String "&" (String.append p ";")) (String r EmptyString)).
  assert (HM : progressive M) by apply litMatch_progressive.
  assert (Hhead : forall c w, Ascii.eqb "&"%char c = false -> M (String c w) = None)
    by (intros c w Hc; apply litMatch_head; rewrite Ascii.eqb_sym; exact Hc).
  induction ts as [|t ts IH]; intros Hg; [reflexivity|].
  cbn [forallb] in Hg. apply andb_true_iff in Hg as [Ht Hg].
  change (render (t :: ts)) with (String.append (tokText t) (render ts)).
  change (render (map (substTok p r) (t :: ts))) with (String.append (tokText (substTok p r t)) (render (map (substTok p r) ts))).
  destruct t as [c|n]; cbn [tokText substTok goodTok] in *.
  - apply negb_true_iff in Ht. rewrite string_app_cons, string_app_nil_l.
    rewrite gsub_skip by (exact HM || (apply Hhead; rewrite Ascii.eqb_sym; exact Ht)). rewrite IH by exact Hg. reflexivity.
  - apply andb_true_iff in Ht as [Hna Hns].
    change (cat ["&"; n; ";"]) with (String "&" (String.append n ";")). rewrite string_app_cons.
    destruct (String.eqb_spec n p) as [->|Hne].
    + rewrite (gsub_match M HM "&" _ (String.length (String "&" (String.append p ";"))) (String r EmptyString)).
      * change (String "&" (String.append (String.append p ";") (render ts)))
          with (String.append (String "&" (String.append p ";")) (render ts)).
        rewrite dropN_app, IH by exact Hg. reflexivity.
      * unfold M, litMatch.
        change (String "&" (String.append (String.append p ";") (render ts)))
          with (String.append (String "&" (String.append p ";")) (render ts)).
        rewrite prefix_app. reflexivity.
    + rewrite gsub_skip by (exact HM || (unfold M, litMatch; rewrite prefix_cons;
        destruct (Ascii.ascii_dec "&" "&") as [_|]; [|contradiction];
        rewrite string_app_assoc; rewrite prefix_entity_ne by assumption; reflexivity)).
      rewrite (gsub_app_avoids M HM (Ascii.eqb "&"%char)) by
        (exact Hhead || (rewrite avoids_app, Hna; reflexivity)).
      rewrite IH by exact Hg.
      change (tokText (Ent n)) with (String "&" (String.append n ";")).
      rewrite string_app_cons, string_app_assoc. reflexivity.
Qed.

Lemma avoids_In (bad : ascii -> bool) (s : string) (c : ascii) :
  avoids bad s = true -> In c (list_ascii_of_string s) -> bad c = false.
Proof.
  induction s as [|x s IH]; intros Hs Hin; [contradiction|].
  rewrite avoids_cons in Hs. apply andb_true_iff in Hs as [Hx Hs]. apply negb_true_iff in Hx.
  destruct Hin as [<-|Hin]; [exact Hx | exact (IH Hs Hin)].
Qed.

Lemma render_Ch (l : list ascii) : render (map Ch l) = string_of_list_ascii l.
Proof. induction l as [|c l IH]; [reflexivity|]. change (String c (render (map Ch l)) = String c (string_of_list_ascii l)). rewrite IH. reflexivity. Qed.

(** [decodeCode] as five entity passes. *)
Lemma decodeCode_passes (code : string) :
  decodeCode code =
  gsub (litMatch (String "&" (String.append "#39" ";")) (String "'" EmptyString))
    (gsub (litMatch (String "&" (String.append "quot" ";")) (String "034" EmptyString))
      (gsub (litMatch (String "&" (String.append "amp" ";")) (String "&" EmptyString))
        (gsub (litMatch (String "&" (String.append "gt" ";")) (String ">" EmptyString))
          (gsub (litMatch (String "&" (String.append "lt" ";")) (String "<" EmptyString)) code)))).
Proof. reflexivity. Qed.

(** The escape of a character other than [&] through the five passes:
    every stage is a good token and the last gives the character back. *)
Lemma escTok_stages (c : ascii) : Ascii.eqb "&"%char c = false ->
  goodTok (escTok c) = true /\ goodTok (substTok "lt" "<" (escTok c)) = true /\
  goodTok (substTok "gt" ">" (substTok "lt" "<" (escTok c))) = true /\
  goodTok (substTok "amp" "&" (substTok "gt" ">" (substTok "lt" "<" (escTok c)))) = true /\
  goodTok (substTok "quot" "034" (substTok "amp" "&" (substTok "gt" ">" (substTok "lt" "<" (escTok c))))) = true /\
  substTok "#39" "'" (substTok "quot" "034" (substTok "amp" "&" (substTok "gt" ">" (substTok "lt" "<" (escTok c))))) = Ch c.
Proof.
  intros H. rewrite Ascii.eqb_sym in H. unfold escTok. rewrite H.
  destruct (Ascii.eqb c "<"%char) eqn:E1; [apply Ascii.eqb_eq in E1; subst c; vm_compute; repeat split|].
  destruct (Ascii.eqb c ">"%char) eqn:E2; [apply Ascii.eqb_eq in E2; subst c; vm_compute; repeat split|].
  destruct (Ascii.eqb c "034"%char) eqn:E3; [apply Ascii.eqb_eq in E3; subst c; vm_compute; repeat split|].
  destruct (Ascii.eqb c "'"%char) eqn:E4; [apply Ascii.eqb_eq in E4; subst c; vm_compute; repeat split|].
  cbn [substTok goodTok]. rewrite H. repeat split.
Qed.

Ltac good_stage St :=
  apply forallb_forall; intros ? Ht; apply in_map_iff in Ht as (? & <- & Hin);
  destruct (St _ Hin) as (? & ? & ? & ? & ? & ?); assumption.

(** Decoding inverts [marked]'s escape on code without [&]. *)
Lemma decodeCode_markedEscape (s : string) :
  avoids (Ascii.eqb "&"%char) s = true -> decodeCode (markedEscape s) = s.
Proof.
  intros Hs. pose proof (fun c Hin => escTok_stages c (avoids_In _ s c Hs Hin)) as St.
  rewrite decodeCode_passes, markedEscape_render.
  rewrite (gsub_entity "lt" "<") by (reflexivity || good_stage St). rewrite map_map.
  rewrite (gsub_entity "gt" ">") by (reflexivity || good_stage St). rewrite map_map.
  rewrite (gsub_entity "amp" "&") by (reflexivity || good_stage St). rewrite map_map.
  rewrite (gsub_entity "quot" "034") by (reflexivity || good_stage St). rewrite map_map.
  rewrite (gsub_entity "#39" "'") by (reflexivity || good_stage St). rewrite map_map.
  rewrite (map_ext_in _ Ch) by (intros c Hin; apply (St c Hin)).
  rewrite render_Ch. apply string_of_list_ascii_of_string.
Qed.

(** *** Re-tokenising after the [&amp;] pass *)

Lemma list_ascii_of_string_app (a b : string) :
  list_ascii_of_string (String.append a b) = (list_ascii_of_string a ++ list_ascii_of_string b)%list.
Proof. induction a as [|c a IH]; [reflexivity|]. exact (f_equal (cons c) IH). Qed.

Lemma render_app (ts us : list tok) : render (ts ++ us)%list = String.append (render ts) (render us).
Proof.
  induction ts as [|t ts IH]; [reflexivity|].
  change (String.append (tokText t) (render (ts ++ us)%list) = String.append (String.append (tokText t) (render ts)) (render us)).
  rewrite IH, string_app_assoc. reflexivity.
Qed.

(** A pass whose replacement is not [&] keeps tokens good. *)
Lemma good_substTok_all (p : string) (r : ascii) (ts : list tok) :
  Ascii.eqb r "&"%char = false -> forallb goodTok ts = true -> forallb goodTok (map (substTok p r) ts) = true.
Proof.
  intros Hr. induction ts as [|[c|n] ts IH]; cbn [map forallb]; [reflexivity| |];
    intros H; apply andb_true_iff in H as [Ht H]; rewrite IH by exact H; rewrite andb_true_r.
  - exact Ht.
  - cbn [substTok]. destruct (String.eqb n p); [cbn [goodTok]; rewrite Hr; reflexivity | exact Ht].
Qed.

(** The first three passes turn [&amp;] into [&]: the text is then cut
    into tokens again ([us]) before the last two. *)
Lemma decodeCode_retok (ts us : list tok) :
  forallb goodTok ts = true -> forallb goodTok us = true ->
  render (map (substTok "amp" "&") (map (substTok "gt" ">") (map (substTok "lt" "<") ts))) = render us ->
  decodeCode (render ts) = render (map (substTok "#39" "'") (map (substTok "quot" "034") us)).
Proof.
  intros Ht Hu Hr. rewrite decodeCode_passes.
  rewrite (gsub_entity "lt" "<") by (reflexivity || exact Ht).
  rewrite (gsub_entity "gt" ">") by (reflexivity || (apply good_substTok_all; [reflexivity | exact Ht])).
  rewrite (gsub_entity "amp" "&") by (reflexivity || (apply good_substTok_all; [reflexivity|];
    apply good_substTok_all; [reflexivity | exact Ht])).
  rewrite Hr, (gsub_entity "quot" "034") by (reflexivity || exact Hu).
  rewrite (gsub_entity "#39" "'") by (reflexivity || (apply good_substTok_all; [reflexivity | exact Hu])).
  reflexivity.
Qed.

Section AmpFree.
Variable p : string.
Hypothesis Hp : avoids (Ascii.eqb "&"%char) p = true.

Let St := fun c Hin => escTok_stages c (avoids_In _ p c Hp Hin).

Lemma ampFree_good : forallb goodTok (map escTok (list_ascii_of_string p)) = true.
Proof. good_stage St. Qed.

Lemma ampFree_good3 :
  forallb goodTok (map (substTok "amp" "&") (map (substTok "gt" ">") (map (substTok "lt" "<")
    (map escTok (list_ascii_of_string p))))) = true.
Proof. rewrite !map_map. good_stage St. Qed.

Lemma ampFree_decoded :
  render (map (substTok "#39" "'") (map (substTok "quot" "034") (map (substTok "amp" "&")
    (map (substTok "gt" ">") (map (substTok "lt" "<") (map escTok (list_ascii_of_string p))))))) = p.
Proof.
  rewrite !map_map, (map_ext_in _ Ch) by (intros c Hin; apply (St c Hin)).
  rewrite render_Ch. apply string_of_list_ascii_of_string.
Qed.
End AmpFree.

(** ** Code blocks *)

Lemma blockBody_len (enc : string -> string) (lang u : string) (n k : nat) (rep : string) :
  blockBody enc lang u n = Some (k, rep) -> (1 <= k)%nat.
Proof.
  unfold blockBody. destruct (lazyAny closeCode u); intros H; [|discriminate].
  injection H as <- _. change (String.length closeCode) with 13%nat. lia.
Qed.

Lemma codeBlockMatch_progressive (enc : string -> string) : progressive (codeBlockMatch enc).
Proof.
  intros s k rep. unfold codeBlockMatch. cbv zeta. intros H.
  repeat match goal with
         | H : context [match ?x with _ => _ end] |- _ => destruct x eqn:?
         end; try discriminate; inversion H; subst; eapply blockBody_len; eassumption.
Qed.

(** [marked]'s escape has no [<]. *)
Lemma markedEscape_noLt (s : string) : avoids (Ascii.eqb "<"%char) (markedEscape s) = true.
Proof.
  induction s as [|c s IH]; [reflexivity|]. cbn [markedEscape]. rewrite avoids_app, IH, andb_true_r.
  unfold escChar.
  destruct (Ascii.eqb c "&"%char); [reflexivity|]. destruct (Ascii.eqb c "<"%char) eqn:E; [reflexivity|].
  destruct (Ascii.eqb c ">"%char); [reflexivity|]. destruct (Ascii.eqb c "034"%char); [reflexivity|].
  destruct (Ascii.eqb c "'"%char); [reflexivity|]. rewrite avoids_cons, Ascii.eqb_sym, E. reflexivity.
Qed.

(** The class attribute [marked] writes is the optional group. *)
Lemma langGroup_class (lang rest : string) :
  wordLang lang = true -> langGroup (String " " (String.append classAttr (String.append lang (String.append dq rest)))) = Some (lang, rest).
Proof.
  unfold wordLang. intros Hl. apply andb_true_iff in Hl as [Hl1 Hl2].
  unfold langGroup. simpl. rewrite !string_app_nil_l.
  change (String.append dq rest) with (String "034"%char rest).
  rewrite span_app by (exact Hl2 || reflexivity).
  rewrite prefix_nil. change (String "034"%char rest) with (String.append dq rest). rewrite prefix_app.
  destruct (String.length lang); [discriminate | reflexivity].
Qed.

(** On a block [marked] writes, the expression matches the whole block,
    through the optional group, with the code as [marked] escaped it. *)
Lemma codeBlockMatch_markedBlock (enc : string -> string) (lang code r : string) :
  wordLang lang = true ->
  codeBlockMatch enc (String.append (markedBlock lang code) r) =
  Some (String.length (markedBlock lang code), codeBlockHtml lang (enc (decodeCode (markedEscape code))) (markedEscape code)).
Proof.
  intros Hl. pose proof (markedEscape_noLt code) as HE.
  unfold markedBlock, cat. cbn [fold_right].
  set (E := markedEscape code) in *. clearbody E.
  rewrite string_app_nil, !string_app_assoc.
  unfold codeBlockMatch. rewrite prefix_app, dropN_app. cbv zeta.
  change (String.append " " ?x) with (String " "%char x). rewrite langGroup_class by exact Hl.
  rewrite prefix_app, (dropN_app ">"). unfold blockBody.
  change closeCode with (String "<"%char "/code></pre>") at 1. rewrite lazyAny_app by exact HE.
  do 2 f_equal. rewrite !string_length_app. cbn [String.length]. rewrite !string_length_app. lia.
Qed.

Lemma markdownPasses_progressive (enc : string -> string) (m : matcher) :
  In m (markdownPasses enc) -> progressive m.
Proof.
  intros H. repeat (destruct H as [<-|H]; [first [apply litMatch_progressive | apply delimMatch_progressive
                                                 | apply codeBlockMatch_progressive] |]).
  contradiction.
Qed.

(** The fallback's expressions cannot start at a character other than
    [*], the backquote or a line feed. *)
Lemma markdownChar_heads (c : ascii) (r : string) : markdownChar c = false ->
  litMatch newline "<br>" (String c r) = None /\ delimMatch "**" "<strong>" "</strong>" (String c r) = None /\
  delimMatch "*" "<em>" "</em>" (String c r) = None /\ delimMatch "`" "<code>" "</code>" (String c r) = None.
Proof.
  unfold markdownChar. intros H. apply orb_false_iff in H as [H H3]. apply orb_false_iff in H as [H1 H2].
  repeat split; first [apply litMatch_head | apply delimMatch_head]; assumption.
Qed.

(** [enhanceCodeBlocks] on a block [marked] writes. *)
Lemma enhanceCodeBlocks_markedBlock (enc : string -> string) (lang code : string) :
  wordLang lang = true ->
  enhanceCodeBlocks enc (markedBlock lang code) =
  codeBlockHtml lang (enc (decodeCode (markedEscape code))) (markedEscape code).
Proof.
  intros Hl. apply gsub_whole; [apply codeBlockMatch_progressive | discriminate |].
  rewrite <- (string_app_nil (markedBlock lang code)) at 1. exact (codeBlockMatch_markedBlock enc lang code EmptyString Hl).
Qed.

(** ** Properties *)

(** C29: The fallback formatting does not escape HTML: a text with no [*],
    no backquote and no line feed is shown as it is, tags included, and
    the preview's [innerHTML] parses them. *)
Theorem fallbackHtml_passes_markup_through (s : string) :
  avoids markdownChar s = true -> fallbackHtml s = s.
Proof.
  intros Hs. unfold fallbackHtml.
  rewrite (gsub_avoids (litMatch newline "<br>") (litMatch_progressive _ _ _) markdownChar (fun c r H => proj1 (markdownChar_heads c r H)) s Hs).
  rewrite (gsub_avoids (delimMatch "**" "<strong>" "</strong>") (delimMatch_progressive _ _ _ _) markdownChar
             (fun c r H => proj1 (proj2 (markdownChar_heads c r H))) s Hs).
  rewrite (gsub_avoids (delimMatch "*" "<em>" "</em>") (delimMatch_progressive _ _ _ _) markdownChar
             (fun c r H => proj1 (proj2 (proj2 (markdownChar_heads c r H)))) s Hs).
  exact (gsub_avoids _ (delimMatch_progressive _ _ _ _) markdownChar
           (fun c r H => proj2 (proj2 (proj2 (markdownChar_heads c r H)))) s Hs).
Qed.

Lemma fallbackHtml_passes_markup_through_witness :
  fallbackHtml "<img src=x onerror=alert(1)>" = "<img src=x onerror=alert(1)>".
Proof. apply fallbackHtml_passes_markup_through. reflexivity. Defined.

(** C25: On a code block [marked] renders, in a word language and with no
    [&] in its code, [enhanceCodeBlocks] keeps the block's escaped code in
    the [pre] and gives the Copy button the encoding of the original
    code: the entity decoding inverts [marked]'s escape. *)
Theorem enhanceCodeBlocks_copies_code (enc : string -> string) (lang code : string) :
  wordLang lang = true -> avoids (Ascii.eqb "&"%char) code = true ->
  enhanceCodeBlocks enc (markedBlock lang code) = codeBlockHtml lang (enc code) (markedEscape code).
Proof.
  intros Hl Hc. rewrite enhanceCodeBlocks_markedBlock by exact Hl. rewrite decodeCode_markedEscape by exact Hc.
  reflexivity.
Qed.

Lemma enhanceCodeBlocks_copies_code_witness :
  enhanceCodeBlocks (fun x => x) (markedBlock "js" "if (a<b) f('x')") =
  codeBlockHtml "js" "if (a<b) f('x')" (markedEscape "if (a<b) f('x')").
Proof. apply (enhanceCodeBlocks_copies_code (fun x => x) "js" "if (a<b) f('x')"); reflexivity. Defined.

(** C30: The decoding is not the inverse of the escape when the code
    contains the text [&quot;]: for every code [p&quot;q] with no other
    [&], the block shows the code as written but its Copy button
    carries p, a double quote, then q, since [&amp;] is decoded
    before [&quot;]. *)
Theorem enhanceCodeBlocks_double_decodes (enc : string -> string) (lang p q : string) :
  wordLang lang = true -> avoids (Ascii.eqb "&"%char) p = true -> avoids (Ascii.eqb "&"%char) q = true ->
  let code := String.append p (String.append "&quot;" q) in
  enhanceCodeBlocks enc (markedBlock lang code) =
  codeBlockHtml lang (enc (String.append p (String.append dq q))) (markedEscape code).
Proof.
  intros Hl Hp Hq code. rewrite enhanceCodeBlocks_markedBlock by exact Hl. f_equal. f_equal.
  unfold code. rewrite markedEscape_render, !list_ascii_of_string_app, !map_app.
  set (P := map escTok (list_ascii_of_string p)). set (Q := map escTok (list_ascii_of_string q)).
  set (S3 := fun l => map (substTok "amp" "&") (map (substTok "gt" ">") (map (substTok "lt" "<") l))).
  rewrite (decodeCode_retok _ (S3 P ++ [Ent "quot"] ++ S3 Q)%list).
  - rewrite !map_app, !render_app. unfold S3, P, Q. rewrite !ampFree_decoded by assumption. reflexivity.
  - unfold P, Q. rewrite !forallb_app, (ampFree_good p Hp), (ampFree_good q Hq). reflexivity.
  - rewrite !forallb_app. unfold S3, P, Q. rewrite (ampFree_good3 p Hp), (ampFree_good3 q Hq). reflexivity.
  - unfold S3. rewrite !map_app, !render_app. reflexivity.
Qed.

Lemma enhanceCodeBlocks_double_decodes_witness :
  enhanceCodeBlocks (fun x => x) (markedBlock "html" "<b a=&quot;x>") =
  codeBlockHtml "html" (String.append "<b a=" (String.append dq "x>")) (markedEscape "<b a=&quot;x>").
Proof.
  exact (enhanceCodeBlocks_double_decodes (fun x => x) "html" "<b a=" "x>" eq_refl eq_refl eq_refl).
Defined.

End Markdown.
