(* ===== verification/Events.v ===== *)
(** * Events: what the handlers read from DOM events

    The gesture adapter of NoteCanvas is the browser's event dispatch:
    each handler of canvas.js and notes.js reads a few fields of the DOM
    event it receives.  This file gives those fields as records, so that
    every handler of the model is a function of its manager's state and
    of such a record.  The classification of the event target
    ([e.target.closest(...)], [e.target.matches(...)],
    [e.target.classList.contains(...)]) is kept as the booleans the code
    computes from it. *)

From S2P Require Import Prelude.

Module Events.

(** The tests the handlers make on [e.target]. *)
Record target := mkTarget {
  (** [e.target.closest(".note") !== null] *)
  onNote : bool;
  (** [e.target.closest(".toolbar-btn, .modal, #context-menu, header") !== null] *)
  onUI : bool;
  (** [e.target.matches("input, textarea, button, [contenteditable]")] *)
  onInput : bool;
  (** [e.target.matches("input, textarea, [contenteditable]")] (keyboard guard) *)
  onTextInput : bool;
  (** [e.target.closest("#canvas")] *)
  onCanvas : bool;
  (** [e.target.classList.contains("note-text")] *)
  onNoteText : bool;
  (** [e.target.classList.contains("note-toggle")] *)
  onNoteToggle : bool;
  (** [e.target.closest(".markdown-content")] *)
  onMarkdown : bool;
  (** [e.target.classList[1]] when [e.target.classList.contains("resize-handle")] *)
  handleClass : option string
}.

(** The empty canvas background. *)
Definition background : target :=
  {| onNote := false; onUI := false; onInput := false; onTextInput := false;
     onCanvas := true; onNoteText := false; onNoteToggle := false; onMarkdown := false;
     handleClass := None |}.

(** The body of a note (not its text area, toggle or resize handles). *)
Definition noteBody : target :=
  {| onNote := true; onUI := false; onInput := false; onTextInput := false;
     onCanvas := true; onNoteText := false; onNoteToggle := false; onMarkdown := false;
     handleClass := None |}.

(** A resize handle of a note, [<div class="resize-handle cls">]. *)
Definition resizeHandleOf (cls : string) : target :=
  {| onNote := true; onUI := false; onInput := false; onTextInput := false;
     onCanvas := true; onNoteText := false; onNoteToggle := false; onMarkdown := false;
     handleClass := Some cls |}.

(** A mouse event ([mousedown], [mousemove], [mouseup]). *)
Record mouse := mkMouse {
  button : Z;
  clientX : Q;
  clientY : Q;
  mtarget : target;
  ctrlKey : bool;
  metaKey : bool;
  shiftKey : bool
}.

(** A [wheel] event. *)
Record wheel := mkWheel { wclientX : Q; wclientY : Q; deltaY : Q }.

(** One entry of [e.touches]. *)
Record touch := mkTouch { tclientX : Q; tclientY : Q }.

(** A [keydown] event. *)
Record key := mkKey {
  keyName : string;
  kctrlKey : bool;
  kmetaKey : bool;
  kshiftKey : bool;
  ktarget : target
}.

(** A primary-button press built from a touch, as [handleTouchStart]
    builds it for [handleMouseDown] (canvas.js 181-187). *)
Definition mouse_of_touch (t : touch) (tg : target) : mouse :=
  {| button := 0%Z; clientX := tclientX t; clientY := tclientY t; mtarget := tg;
     ctrlKey := false; metaKey := false; shiftKey := false |}.

End Events.
