(* ===== verification/Viewport.v ===== *)
(** * Viewport: the model of [CanvasManager] (src/Downloads/yt/js/canvas.js)

    Module [Canvas] holds the manager's state as a record with the fields
    of the class, one definition per method and handler, and the
    theorems about them: the coordinate maps are mutually inverse, every
    zoom keeps its anchor point fixed, the zoom stays within
    [[minZoom, maxZoom]] under every handler but [fitToView],
    [fitToView] shows every note, pinch zoom does not compound, and a
    pan drag keeps the grabbed point under the pointer.

    The DOM reads of the code are arguments: [r : rect] is
    [this.canvas.getBoundingClientRect()], and [hypot] is [Math.hypot]. *)

From S2P Require Import Prelude Events.

Module Canvas.
Import Events.
Local Open Scope string_scope.
Local Open Scope Q_scope.

(** ** State *)

(** [this.canvas.getBoundingClientRect()] *)
Record rect := mkRect { left : Q; top : Q; width : Q; height : Q }.

Record state := mkState {
  zoomLevel : Q;
  minZoom : Q;
  maxZoom : Q;
  panX : Q;
  panY : Q;
  isPanning : bool;
  lastMouseX : Q;
  lastMouseY : Q;
  gridSize : Q;
  showGrid : bool;
  initialPinchDistance : option Q;
  initialZoom : option Q;
  lastScreenX : option Q;
  lastScreenY : option Q;
  lastCursorX : option Q;
  lastCursorY : option Q
}.

(** The constructor (canvas.js 3-29).  [isPanning] is first read before
    it is written; its initial [undefined] is falsy. *)
Definition init : state :=
  {| zoomLevel := 1; minZoom := 1 # 10; maxZoom := 5; panX := 0; panY := 0;
     isPanning := false; lastMouseX := 0; lastMouseY := 0;
     gridSize := 50; showGrid := true;
     initialPinchDistance := None; initialZoom := None;
     lastScreenX := None; lastScreenY := None;
     lastCursorX := None; lastCursorY := None |}.

(** Field updates used by the handlers. *)
Definition set_view (c : state) (z px py : Q) : state :=
  {| zoomLevel := z; minZoom := minZoom c; maxZoom := maxZoom c; panX := px; panY := py;
     isPanning := isPanning c; lastMouseX := lastMouseX c; lastMouseY := lastMouseY c;
     gridSize := gridSize c; showGrid := showGrid c;
     initialPinchDistance := initialPinchDistance c; initialZoom := initialZoom c;
     lastScreenX := lastScreenX c; lastScreenY := lastScreenY c;
     lastCursorX := lastCursorX c; lastCursorY := lastCursorY c |}.

Definition set_pan (c : state) (px py : Q) : state := set_view c (zoomLevel c) px py.

Definition set_panning (c : state) (b : bool) (mx my : Q) : state :=
  {| zoomLevel := zoomLevel c; minZoom := minZoom c; maxZoom := maxZoom c;
     panX := panX c; panY := panY c;
     isPanning := b; lastMouseX := mx; lastMouseY := my;
     gridSize := gridSize c; showGrid := showGrid c;
     initialPinchDistance := initialPinchDistance c; initialZoom := initialZoom c;
     lastScreenX := lastScreenX c; lastScreenY := lastScreenY c;
     lastCursorX := lastCursorX c; lastCursorY := lastCursorY c |}.

Definition set_pinch (c : state) (d z : option Q) : state :=
  {| zoomLevel := zoomLevel c; minZoom := minZoom c; maxZoom := maxZoom c;
     panX := panX c; panY := panY c;
     isPanning := isPanning c; lastMouseX := lastMouseX c; lastMouseY := lastMouseY c;
     gridSize := gridSize c; showGrid := showGrid c;
     initialPinchDistance := d; initialZoom := z;
     lastScreenX := lastScreenX c; lastScreenY := lastScreenY c;
     lastCursorX := lastCursorX c; lastCursorY := lastCursorY c |}.

Definition set_cursor (c : state) (sx sy cx cy : Q) : state :=
  {| zoomLevel := zoomLevel c; minZoom := minZoom c; maxZoom := maxZoom c;
     panX := panX c; panY := panY c;
     isPanning := isPanning c; lastMouseX := lastMouseX c; lastMouseY := lastMouseY c;
     gridSize := gridSize c; showGrid := showGrid c;
     initialPinchDistance := initialPinchDistance c; initialZoom := initialZoom c;
     lastScreenX := Some sx; lastScreenY := Some sy;
     lastCursorX := Some cx; lastCursorY := Some cy |}.

Definition set_grid (c : state) (size : Q) (visible : bool) : state :=
  {| zoomLevel := zoomLevel c; minZoom := minZoom c; maxZoom := maxZoom c;
     panX := panX c; panY := panY c;
     isPanning := isPanning c; lastMouseX := lastMouseX c; lastMouseY := lastMouseY c;
     gridSize := size; showGrid := visible;
     initialPinchDistance := initialPinchDistance c; initialZoom := initialZoom c;
     lastScreenX := lastScreenX c; lastScreenY := lastScreenY c;
     lastCursorX := lastCursorX c; lastCursorY := lastCursorY c |}.

(** ** Coordinate maps *)

(** [screenToCanvas(screenX, screenY)] (canvas.js 441-453). *)
Definition screenToCanvas (r : rect) (c : state) (screenX screenY : Q) : Q * Q :=
  let canvasRelativeX := screenX - left r in
  let canvasRelativeY := screenY - top r in
  ((canvasRelativeX - panX c) / zoomLevel c, (canvasRelativeY - panY c) / zoomLevel c).

(** [canvasToScreen(canvasX, canvasY)] (canvas.js 456-468). *)
Definition canvasToScreen (r : rect) (c : state) (canvasX canvasY : Q) : Q * Q :=
  let canvasRelativeX := canvasX * zoomLevel c + panX c in
  let canvasRelativeY := canvasY * zoomLevel c + panY c in
  (canvasRelativeX + left r, canvasRelativeY + top r).

(** ** Zoom *)

(** The anchored zoom step that [handleWheel], [handleTouchMove],
    [zoomIn] and [zoomOut] each write out (canvas.js 152-163): the
    anchor, relative to the canvas element, is turned into a world point
    under the old zoom and pan, then the pan is recomputed so that the
    same world point is under the anchor at the new zoom. *)
Definition zoomAround (c : state) (zoomPointX zoomPointY newZoom : Q) : state :=
  let oldZoom := zoomLevel c in
  let worldX := (zoomPointX - panX c) / oldZoom in
  let worldY := (zoomPointY - panY c) / oldZoom in
  set_view c newZoom (zoomPointX - worldX * newZoom) (zoomPointY - worldY * newZoom).

(** The wheel's zoom factor (canvas.js 141-143). *)
Definition wheelFactor (deltaY : Q) : Q :=
  let zoomSensitivity := 1 # 1000 in
  let delta := - deltaY * zoomSensitivity in
  1 + delta.

(** [handleWheel(e)] (canvas.js 118-175). *)
Definition handleWheel (r : rect) (c : state) (e : wheel) : state :=
  let mouseX := wclientX e - left r in
  let mouseY := wclientY e - top r in
  let oldZoom := zoomLevel c in
  let newZoom := clamp (minZoom c) (maxZoom c) (oldZoom * wheelFactor (deltaY e)) in
  if newZoom !== oldZoom then zoomAround c mouseX mouseY newZoom else c.

(** The anchor of [zoomIn]/[zoomOut]: the given point, else the last
    cursor position, else the centre of the canvas (canvas.js 358-372). *)
Definition zoomPoint (r : rect) (c : state) (targetX targetY : option Q) : Q * Q :=
  match targetX, targetY with
  | Some tx, Some ty => (tx, ty)
  | _, _ =>
      match lastCursorX c, lastCursorY c with
      | Some cx, Some cy => (cx, cy)
      | _, _ => (width r / 2, height r / 2)
      end
  end.

(** [zoomIn(targetX, targetY)] (canvas.js 357-392). *)
Definition zoomIn (r : rect) (c : state) (targetX targetY : option Q) : state :=
  let '(zoomPointX, zoomPointY) := zoomPoint r c targetX targetY in
  let oldZoom := zoomLevel c in
  let newZoom := Qmin (maxZoom c) (zoomLevel c * (6 # 5)) in
  if newZoom !== oldZoom then zoomAround c zoomPointX zoomPointY newZoom else c.

(** [zoomOut(targetX, targetY)] (canvas.js 394-429). *)
Definition zoomOut (r : rect) (c : state) (targetX targetY : option Q) : state :=
  let '(zoomPointX, zoomPointY) := zoomPoint r c targetX targetY in
  let oldZoom := zoomLevel c in
  let newZoom := Qmax (minZoom c) (zoomLevel c / (6 # 5)) in
  if newZoom !== oldZoom then zoomAround c zoomPointX zoomPointY newZoom else c.

(** [resetZoom()] (canvas.js 431-438). *)
Definition resetZoom (c : state) : state := set_view c 1 0 0.

(** ** Panning with the mouse *)

(** [handleMouseDown(e)] (canvas.js 59-91): the middle button always
    starts a pan; the left button starts one on the empty background. *)
Definition handleMouseDown (c : state) (e : mouse) : state :=
  let t := mtarget e in
  if (button e =? 1)%Z then set_panning c true (clientX e) (clientY e)
  else if (button e =? 0)%Z && negb (onNote t) && negb (onUI t) && negb (onInput t)
  then set_panning c true (clientX e) (clientY e)
  else c.

(** [handleMouseMove(e)] (canvas.js 93-109). *)
Definition handleMouseMove (c : state) (e : mouse) : state :=
  if isPanning c then
    let deltaX := clientX e - lastMouseX c in
    let deltaY := clientY e - lastMouseY c in
    set_panning (set_pan c (panX c + deltaX) (panY c + deltaY)) true (clientX e) (clientY e)
  else c.

(** [handleMouseUp()] (canvas.js 111-116). *)
Definition handleMouseUp (c : state) : state :=
  if isPanning c then set_panning c false (lastMouseX c) (lastMouseY c) else c.

(** [updateCursorPosition(e)] (canvas.js 348-355). *)
Definition updateCursorPosition (r : rect) (c : state) (e : mouse) : state :=
  set_cursor c (clientX e) (clientY e) (clientX e - left r) (clientY e - top r).

(** A [mousemove] on the canvas runs its two listeners in registration
    order: [handleMouseMove], then [updateCursorPosition] (canvas.js 34, 53-56). *)
Definition onCanvasMouseMove (r : rect) (c : state) (e : mouse) : state :=
  updateCursorPosition r (handleMouseMove c e) e.

(** ** Touch *)

Section Touch.
  (** [Math.hypot(dx, dy)] *)
Variable hypot : Q -> Q -> Q.

Definition touchDistance (t1 t2 : touch) : Q :=
    hypot (tclientX t2 - tclientX t1) (tclientY t2 - tclientY t1).

  (** [handleTouchStart(e)] (canvas.js 177-198): one touch is a left
      button press on the element under it; two touches record the pinch
      snapshot. *)
Definition handleTouchStart (c : state) (touches : list touch) (under : target) : state :=
    match touches with
    | [t] => handleMouseDown c (mouse_of_touch t under)
    | [t1; t2] => set_pinch c (Some (touchDistance t1 t2)) (Some (zoomLevel c))
    | _ => c
    end.

  (** [this.initialZoom * zoomRatio]: a [null] snapshot counts as [0]. *)
Definition pinchTarget (c : state) (d0 cur : Q) : Q :=
    let zoomRatio := cur / d0 in
    let iz := match initialZoom c with Some z => z | None => 0 end in
    clamp (minZoom c) (maxZoom c) (iz * zoomRatio).

  (** [handleTouchMove(e)] (canvas.js 200-247): one touch pans as a mouse
      move; two touches zoom around their midpoint to the snapshot zoom
      times the distance ratio, if a non-zero snapshot distance exists. *)
Definition handleTouchMove (r : rect) (c : state) (touches : list touch) : state :=
    match touches with
    | [t] => handleMouseMove c (mouse_of_touch t background)
    | [t1; t2] =>
        match initialPinchDistance c with
        | Some d0 =>
            if Qeq_bool d0 0 then c else
            let newZoom := pinchTarget c d0 (touchDistance t1 t2) in
            if newZoom !== zoomLevel c then
              let centerX := (tclientX t1 + tclientX t2) / 2 in
              let centerY := (tclientY t1 + tclientY t2) / 2 in
              zoomAround c (centerX - left r) (centerY - top r) newZoom
            else c
        | None => c
        end
    | _ => c
    end.
End Touch.

(** [handleTouchEnd()] (canvas.js 249-254). *)
Definition handleTouchEnd (c : state) : state := set_pinch (handleMouseUp c) None None.

(** ** Keyboard *)

Definition panSpeed : Q := 100.

(** [handleKeyDown(e)] (canvas.js 256-309): zoom shortcuts with Ctrl or
    Meta, arrow keys pan by [panSpeed] without them. *)
Definition handleKeyDown (r : rect) (c : state) (e : key) : state :=
  if onTextInput (ktarget e) then c else
  let modifier := kctrlKey e || kmetaKey e in
  let c1 :=
    if modifier then
      if String.eqb (keyName e) "=" || String.eqb (keyName e) "+" then zoomIn r c None None
      else if String.eqb (keyName e) "-" then zoomOut r c None None
      else if String.eqb (keyName e) "0" then resetZoom c
      else c
    else c in
  if negb modifier then
    if String.eqb (keyName e) "ArrowUp" then set_pan c1 (panX c1) (panY c1 + panSpeed)
    else if String.eqb (keyName e) "ArrowDown" then set_pan c1 (panX c1) (panY c1 - panSpeed)
    else if String.eqb (keyName e) "ArrowLeft" then set_pan c1 (panX c1 + panSpeed) (panY c1)
    else if String.eqb (keyName e) "ArrowRight" then set_pan c1 (panX c1 - panSpeed) (panY c1)
    else c1
  else c1.

(** ** Centering and fitting *)

(** [centerOn(x, y)] (canvas.js 471-476). *)
Definition centerOn (r : rect) (c : state) (x y : Q) : state :=
  set_pan c (width r / 2 - x * zoomLevel c) (height r / 2 - y * zoomLevel c).

(** The bounding box loop of [fitToView] (canvas.js 482-492), seeded
    with [Infinity] and [-Infinity]. *)
Definition bbox_step (acc : option Q * option Q * option Q * option Q) (n : Bounds.t)
  : option Q * option Q * option Q * option Q :=
  let '(minX, minY, maxX, maxY) := acc in
  (min_inf minX (Bounds.x n), min_inf minY (Bounds.y n),
   max_inf maxX (Bounds.x n + Bounds.width n), max_inf maxY (Bounds.y n + Bounds.height n)).

Definition bbox (notes : list Bounds.t) : option Q * option Q * option Q * option Q :=
  fold_left bbox_step notes (None, None, None, None).

Definition fitPadding : Q := 100.

(** [fitToView(notes)] (canvas.js 479-506). *)
Definition fitToView (r : rect) (c : state) (notes : list Bounds.t) : state :=
  match notes with
  | [] => c
  | _ =>
      match bbox notes with
      | (Some minX, Some minY, Some maxX, Some maxY) =>
          let contentWidth := maxX - minX + fitPadding * 2 in
          let contentHeight := maxY - minY + fitPadding * 2 in
          let scaleX := width r / contentWidth in
          let scaleY := height r / contentHeight in
          let scale := Qmin (Qmin scaleX scaleY) 1 in
          centerOn r (set_view c scale (panX c) (panY c)) ((minX + maxX) / 2) ((minY + maxY) / 2)
      | _ => c
      end
  end.

(** ** Grid and visible area *)

(** [setGridSize(size)] and [setGridVisibility(visible)] (canvas.js 508-516). *)
Definition setGridSize (c : state) (size : Q) : state := set_grid c size (showGrid c).
Definition setGridVisibility (c : state) (visible : bool) : state := set_grid c (gridSize c) visible.

(** The visible world rectangle returned by [getViewportBounds()]
    (canvas.js 518-534). *)
Record viewBounds := mkViewBounds { vleft : Q; vtop : Q; vright : Q; vbottom : Q; vwidth : Q; vheight : Q }.

Definition getViewportBounds (r : rect) (c : state) : viewBounds :=
  let topLeft := screenToCanvas r c (left r) (top r) in
  let bottomRight := screenToCanvas r c (left r + width r) (top r + height r) in
  {| vleft := fst topLeft; vtop := snd topLeft; vright := fst bottomRight;
     vbottom := snd bottomRight; vwidth := fst bottomRight - fst topLeft;
     vheight := snd bottomRight - snd topLeft |}.

(** ** The listener table *)

(** The events [initEventListeners] (canvas.js 31-57) routes to the
    manager, plus the methods the rest of the app calls directly
    ([zoomIn]/[zoomOut] from the toolbar, [resetZoom], [centerOn],
    [fitToView], the grid setters). *)
Inductive event :=
  | EvMouseDown (e : mouse)
  | EvMouseMove (e : mouse)
  | EvMouseUp
  | EvMouseLeave
  | EvWheel (e : wheel)
  | EvTouchStart (touches : list touch) (under : target)
  | EvTouchMove (touches : list touch)
  | EvTouchEnd
  | EvKeyDown (e : key)
  | EvZoomIn (targetX targetY : option Q)
  | EvZoomOut (targetX targetY : option Q)
  | EvResetZoom
  | EvCenterOn (x y : Q)
  | EvFitToView (notes : list Bounds.t)
  | EvSetGridSize (size : Q)
  | EvSetGridVisibility (visible : bool).

Definition dispatch (hypot : Q -> Q -> Q) (r : rect) (c : state) (ev : event) : state :=
  match ev with
  | EvMouseDown e => handleMouseDown c e
  | EvMouseMove e => onCanvasMouseMove r c e
  | EvMouseUp | EvMouseLeave => handleMouseUp c
  | EvWheel e => handleWheel r c e
  | EvTouchStart ts under => handleTouchStart hypot c ts under
  | EvTouchMove ts => handleTouchMove hypot r c ts
  | EvTouchEnd => handleTouchEnd c
  | EvKeyDown e => handleKeyDown r c e
  | EvZoomIn tx ty => zoomIn r c tx ty
  | EvZoomOut tx ty => zoomOut r c tx ty
  | EvResetZoom => resetZoom c
  | EvCenterOn x y => centerOn r c x y
  | EvFitToView ns => fitToView r c ns
  | EvSetGridSize size => setGridSize c size
  | EvSetGridVisibility v => setGridVisibility c v
  end.

Definition is_fit (ev : event) : bool :=
  match ev with EvFitToView _ => true | _ => false end.

(** The zoom bounds invariant: a positive lower bound, the reset zoom [1]
    within the bounds, and the current zoom within them. *)
Definition wf (c : state) : Prop :=
  0 < minZoom c /\ minZoom c <= 1 /\ 1 <= maxZoom c /\
  minZoom c <= zoomLevel c /\ zoomLevel c <= maxZoom c.

(** States reachable from the constructor by events other than
    [fitToView]; the canvas rectangle may change between events. *)
Inductive reachable (hypot : Q -> Q -> Q) : state -> Prop :=
  | reach_init : reachable hypot init
  | reach_step (c : state) (r : rect) (ev : event) :
      reachable hypot c -> is_fit ev = false -> reachable hypot (dispatch hypot r c ev).

(** ** Theorems *)

Ltac unfold_ops :=
  unfold screenToCanvas, canvasToScreen, zoomAround, set_view, set_pan, set_panning,
    set_pinch, set_cursor, set_grid, peq in *; simpl in *.

Lemma wf_zoom_pos (c : state) : wf c -> 0 < zoomLevel c.
Proof. unfold wf. lra. Qed.

Lemma wf_zoom_nz (c : state) : wf c -> ~ zoomLevel c == 0.
Proof. intros H%wf_zoom_pos. lra. Qed.

#[export] Hint Resolve wf_zoom_pos wf_zoom_nz : canvas.

(** *** Coordinate maps *)

(** C8: [screenToCanvas] inverts [canvasToScreen] at every non-zero zoom. *)
Lemma screenToCanvas_canvasToScreen (r : rect) (c : state) (wx wy : Q) :
  ~ zoomLevel c == 0 ->
  screenToCanvas r c (fst (canvasToScreen r c wx wy)) (snd (canvasToScreen r c wx wy)) =~ (wx, wy).
Proof. intros Hz. unfold_ops. split; field; exact Hz. Qed.

Lemma canvasToScreen_screenToCanvas (r : rect) (c : state) (sx sy : Q) :
  ~ zoomLevel c == 0 ->
  canvasToScreen r c (fst (screenToCanvas r c sx sy)) (snd (screenToCanvas r c sx sy)) =~ (sx, sy).
Proof. intros Hz. unfold_ops. split; field; exact Hz. Qed.

(** *** Anchored zoom *)

(** The shared zoom step keeps the world point under the anchor. *)
Lemma zoomAround_anchor (r : rect) (c : state) (px py z sx sy : Q) :
  ~ zoomLevel c == 0 -> ~ z == 0 ->
  px == sx - left r -> py == sy - top r ->
  screenToCanvas r (zoomAround c px py z) sx sy =~ screenToCanvas r c sx sy.
Proof.
  intros H0 Hz Hx Hy. unfold_ops. rewrite Hx, Hy. split; field; auto.
Qed.

Lemma zoomAround_zoom (c : state) (px py z : Q) : zoomLevel (zoomAround c px py z) = z.
Proof. reflexivity. Qed.

Lemma clamp_pos (c : state) (v : Q) : 0 < minZoom c -> ~ clamp (minZoom c) (maxZoom c) v == 0.
Proof. intros H. pose proof (clamp_ge_lo (minZoom c) (maxZoom c) v). lra. Qed.

(** C6: A wheel step keeps the world point under the mouse pointer
    fixed on screen (exactly, at every zoom the clamping yields). *)
Theorem handleWheel_keeps_anchor (r : rect) (c : state) (e : wheel) :
  0 < minZoom c -> ~ zoomLevel c == 0 ->
  screenToCanvas r (handleWheel r c e) (wclientX e) (wclientY e)
    =~ screenToCanvas r c (wclientX e) (wclientY e).
Proof.
  intros Hmin Hz. unfold handleWheel.
  destruct (Qneqb _ _); [|reflexivity].
  apply zoomAround_anchor; auto using clamp_pos; reflexivity.
Qed.

Lemma zoomIn_target_nz (c : state) : wf c -> ~ Qmin (maxZoom c) (zoomLevel c * (6 # 5)) == 0.
Proof. unfold wf. intros. qminmax; lra. Qed.

Lemma zoomOut_target_nz (c : state) : wf c -> ~ Qmax (minZoom c) (zoomLevel c / (6 # 5)) == 0.
Proof. unfold wf. intros. change (zoomLevel c / (6 # 5)) with (zoomLevel c * (5 # 6)). qminmax; lra. Qed.

(** The discrete zoom steps keep the world point under their anchor
    (the given point, else the last cursor position, else the canvas
    centre) fixed on screen. *)
Theorem zoomInOut_keep_anchor (r : rect) (c : state) (tx ty : option Q) :
  wf c ->
  let p := zoomPoint r c tx ty in
  screenToCanvas r (zoomIn r c tx ty) (fst p + left r) (snd p + top r)
    =~ screenToCanvas r c (fst p + left r) (snd p + top r) /\
  screenToCanvas r (zoomOut r c tx ty) (fst p + left r) (snd p + top r)
    =~ screenToCanvas r c (fst p + left r) (snd p + top r).
Proof.
  intros Hwf p. unfold zoomIn, zoomOut. fold p. destruct p as [px py]. simpl.
  split; destruct (Qneqb _ _); try reflexivity;
    apply zoomAround_anchor; auto using zoomIn_target_nz, zoomOut_target_nz with canvas; ring.
Qed.

(** A two-finger move keeps the world point under the midpoint of
    the two touches fixed on screen. *)
Theorem pinch_keeps_midpoint (hypot : Q -> Q -> Q) (r : rect) (c : state) (t1 t2 : touch) :
  wf c ->
  let mx := (tclientX t1 + tclientX t2) / 2 in
  let my := (tclientY t1 + tclientY t2) / 2 in
  screenToCanvas r (handleTouchMove hypot r c [t1; t2]) mx my =~ screenToCanvas r c mx my.
Proof.
  intros Hwf mx my. simpl.
  destruct (initialPinchDistance c); [|reflexivity].
  destruct (Qeq_bool _ _); [reflexivity|].
  destruct (Qneqb _ _); [|reflexivity].
  apply zoomAround_anchor; auto with canvas.
  - apply clamp_pos. apply Hwf.
  - unfold mx. ring.
  - unfold my. ring.
Qed.

(** While panning, a mouse move keeps the world point that was under
    the pointer at the previous event under the pointer. *)
Theorem handleMouseMove_keeps_grabbed_point (r : rect) (c : state) (e : mouse) :
  isPanning c = true -> ~ zoomLevel c == 0 ->
  screenToCanvas r (handleMouseMove c e) (clientX e) (clientY e)
    =~ screenToCanvas r c (lastMouseX c) (lastMouseY c).
Proof.
  intros Hp Hz. unfold handleMouseMove. rewrite Hp. unfold_ops. split; field; exact Hz.
Qed.

(** *** The zoom bounds invariant *)

Ltac wf_keep := unfold wf in *; simpl in *; tauto.

Lemma wf_set_view (c : state) (z px py : Q) :
  wf c -> minZoom c <= z <= maxZoom c -> wf (set_view c z px py).
Proof. unfold wf; simpl; intros; lra. Qed.

Lemma wf_set_pan (c : state) (px py : Q) : wf c -> wf (set_pan c px py).
Proof. wf_keep. Qed.

Lemma wf_set_panning (c : state) b mx my : wf c -> wf (set_panning c b mx my).
Proof. wf_keep. Qed.

Lemma wf_set_pinch (c : state) d z : wf c -> wf (set_pinch c d z).
Proof. wf_keep. Qed.

Lemma wf_set_cursor (c : state) a b d e : wf c -> wf (set_cursor c a b d e).
Proof. wf_keep. Qed.

Lemma wf_set_grid (c : state) a b : wf c -> wf (set_grid c a b).
Proof. wf_keep. Qed.

Lemma wf_clamp (c : state) (v : Q) :
  wf c -> minZoom c <= clamp (minZoom c) (maxZoom c) v <= maxZoom c.
Proof. unfold wf. intros. split; [apply clamp_ge_lo | apply clamp_le_hi; lra]. Qed.

#[export] Hint Resolve wf_set_pan wf_set_panning wf_set_pinch wf_set_cursor wf_set_grid : canvas.

Lemma handleWheel_wf (r : rect) (c : state) (e : wheel) : wf c -> wf (handleWheel r c e).
Proof.
  intros H. unfold handleWheel. destruct (Qneqb _ _); auto.
  apply wf_set_view; auto using wf_clamp.
Qed.

Lemma zoomIn_wf (r : rect) (c : state) tx ty : wf c -> wf (zoomIn r c tx ty).
Proof.
  intros H. unfold zoomIn. destruct (zoomPoint r c tx ty). destruct (Qneqb _ _); auto.
  apply wf_set_view; auto. unfold wf in H. qminmax; lra.
Qed.

Lemma zoomOut_wf (r : rect) (c : state) tx ty : wf c -> wf (zoomOut r c tx ty).
Proof.
  intros H. unfold zoomOut. destruct (zoomPoint r c tx ty). destruct (Qneqb _ _); auto.
  apply wf_set_view; auto. unfold wf in H.
  change (zoomLevel c / (6 # 5)) with (zoomLevel c * (5 # 6)). qminmax; lra.
Qed.

Lemma resetZoom_wf (c : state) : wf c -> wf (resetZoom c).
Proof. intros H. apply wf_set_view; auto. unfold wf in H. lra. Qed.

Lemma handleMouseDown_wf (c : state) (e : mouse) : wf c -> wf (handleMouseDown c e).
Proof. intros H. unfold handleMouseDown. repeat case_match; auto with canvas. Qed.

Lemma handleMouseMove_wf (c : state) (e : mouse) : wf c -> wf (handleMouseMove c e).
Proof. intros H. unfold handleMouseMove. case_match; auto with canvas. Qed.

Lemma handleMouseUp_wf (c : state) : wf c -> wf (handleMouseUp c).
Proof. intros H. unfold handleMouseUp. case_match; auto with canvas. Qed.

#[export] Hint Resolve handleWheel_wf zoomIn_wf zoomOut_wf resetZoom_wf
  handleMouseDown_wf handleMouseMove_wf handleMouseUp_wf : canvas.

Lemma handleTouchStart_wf hypot (c : state) ts under : wf c -> wf (handleTouchStart hypot c ts under).
Proof. intros H. unfold handleTouchStart. repeat case_match; auto with canvas. Qed.

Lemma handleTouchMove_wf hypot (r : rect) (c : state) ts : wf c -> wf (handleTouchMove hypot r c ts).
Proof.
  intros H. unfold handleTouchMove. repeat case_match; auto with canvas.
  apply wf_set_view; auto. apply wf_clamp; auto.
Qed.

Lemma handleKeyDown_wf (r : rect) (c : state) (e : key) : wf c -> wf (handleKeyDown r c e).
Proof. intros H. unfold handleKeyDown. repeat case_match; auto with canvas. Qed.

(** C20: Every handler but [fitToView] keeps the zoom within
    [[minZoom, maxZoom]]; hence so does every state reachable from the
    constructor through such events, whatever the canvas rectangle. *)
Theorem reachable_wf (hypot : Q -> Q -> Q) (c : state) : reachable hypot c -> wf c.
Proof.
  induction 1 as [|c r ev _ IH Hfit].
  - unfold wf, init; simpl. lra.
  - destruct ev; simpl in *; try discriminate;
      unfold onCanvasMouseMove, updateCursorPosition, handleTouchEnd, centerOn,
        setGridSize, setGridVisibility;
      auto using handleTouchStart_wf, handleTouchMove_wf, handleKeyDown_wf with canvas.
Qed.

(** *** Fitting the content *)

(** The four accumulators of the bounding-box loop are independent folds. *)
Lemma bbox_fold (ns : list Bounds.t) a b c d :
  fold_left bbox_step ns (a, b, c, d) =
  (fold_left (fun o n => min_inf o (Bounds.x n)) ns a,
   fold_left (fun o n => min_inf o (Bounds.y n)) ns b,
   fold_left (fun o n => max_inf o (Bounds.x n + Bounds.width n)) ns c,
   fold_left (fun o n => max_inf o (Bounds.y n + Bounds.height n)) ns d).
Proof. revert a b c d. induction ns as [|n ns IH]; intros; simpl; [reflexivity | apply IH]. Qed.

(** The bounding box of a non-empty list of notes with non-negative
    sizes: finite, and containing every note. *)
Lemma bbox_bounds (n0 : Bounds.t) (ns : list Bounds.t) :
  Forall (fun b => 0 <= Bounds.width b /\ 0 <= Bounds.height b) (n0 :: ns) ->
  exists minX minY maxX maxY,
    bbox (n0 :: ns) = (Some minX, Some minY, Some maxX, Some maxY) /\
    forall b, In b (n0 :: ns) ->
      minX <= Bounds.x b /\ Bounds.x b + Bounds.width b <= maxX /\
      minY <= Bounds.y b /\ Bounds.y b + Bounds.height b <= maxY.
Proof.
  intros Hpos.
  destruct (fold_min_inf_some Bounds.x ns n0 None) as [minX HminX].
  destruct (fold_min_inf_some Bounds.y ns n0 None) as [minY HminY].
  destruct (fold_max_inf_some (fun n => Bounds.x n + Bounds.width n) ns n0 None) as [maxX HmaxX].
  destruct (fold_max_inf_some (fun n => Bounds.y n + Bounds.height n) ns n0 None) as [maxY HmaxY].
  exists minX, minY, maxX, maxY. split.
  - unfold bbox. rewrite bbox_fold. rewrite HminX, HminY, HmaxX, HmaxY. reflexivity.
  - intros b Hb.
    apply fold_min_inf_le in HminX. apply fold_min_inf_le in HminY.
    apply fold_max_inf_ge in HmaxX. apply fold_max_inf_ge in HmaxY.
    split; [|split; [|split]]; [apply HminX | apply HmaxX | apply HminY | apply HmaxY]; exact Hb.
Qed.

(** One axis of [fitToView]: an interval [[lo, hi]] scaled by [z] with
    [z * (hi - lo + 2 * padding) <= W] and centred in [[0, W]] lies in
    [[0, W]]. *)
Lemma fit_axis (u lo hi W z : Q) :
  0 <= z -> z * (hi - lo + fitPadding * 2) <= W -> lo <= u <= hi ->
  0 <= u * z + (W / 2 - (lo + hi) / 2 * z) <= W.
Proof.
  unfold fitPadding. intros Hz HW [Hlo Hhi].
  change (W / 2) with (W * (1 # 2)). change ((lo + hi) / 2) with ((lo + hi) * (1 # 2)).
  assert (0 <= (u - lo) * z) by (apply Qmult_le_0_compat; lra).
  assert (0 <= (hi - u) * z) by (apply Qmult_le_0_compat; lra).
  split; lra.
Qed.

Lemma Qdiv_pos (a b : Q) : 0 < a -> 0 < b -> 0 < a / b.
Proof. intros Ha Hb. apply Qlt_shift_div_l; lra. Qed.

Lemma Qle_div_mult (z a b : Q) : 0 < b -> z <= a / b -> z * b <= a.
Proof.
  intros Hb Hz. assert (E : a / b * b == a) by (field; lra).
  rewrite <- E. apply Qmult_le_compat_r; lra.
Qed.

(** C38: [fitToView] on a non-empty list of notes with non-negative sizes
    and a canvas of positive size sets a zoom in [(0, 1]] and places
    every note entirely inside the canvas rectangle. *)
Theorem fitToView_shows_all (r : rect) (c : state) (ns : list Bounds.t) :
  0 < width r -> 0 < height r -> ns <> [] ->
  Forall (fun b => 0 <= Bounds.width b /\ 0 <= Bounds.height b) ns ->
  let c' := fitToView r c ns in
  (0 < zoomLevel c' <= 1) /\
  forall b, In b ns ->
    left r <= fst (canvasToScreen r c' (Bounds.x b) (Bounds.y b)) /\
    top r <= snd (canvasToScreen r c' (Bounds.x b) (Bounds.y b)) /\
    fst (canvasToScreen r c' (Bounds.x b + Bounds.width b) (Bounds.y b + Bounds.height b))
      <= left r + width r /\
    snd (canvasToScreen r c' (Bounds.x b + Bounds.width b) (Bounds.y b + Bounds.height b))
      <= top r + height r.
Proof.
  intros HW HH Hne Hpos c'.
  destruct ns as [|n0 ns]; [congruence|].
  destruct (bbox_bounds n0 ns Hpos) as (minX & minY & maxX & maxY & Hbb & Hin).
  assert (Hx0 : minX <= maxX /\ minY <= maxY).
  { inversion Hpos as [|? ? [Hw Hh] _]; subst. destruct (Hin n0) as (? & ? & ? & ?); [left; auto|].
    split; lra. }
  unfold c', fitToView. rewrite Hbb. unfold fitPadding in *.
  set (z := Qmin (Qmin (width r / (maxX - minX + 100 * 2)) (height r / (maxY - minY + 100 * 2))) 1).
  assert (Hz : 0 < z /\ z <= 1 /\ z * (maxX - minX + 100 * 2) <= width r /\
               z * (maxY - minY + 100 * 2) <= height r).
  { pose proof (Qdiv_pos (width r) (maxX - minX + 100 * 2) HW ltac:(lra)).
    pose proof (Qdiv_pos (height r) (maxY - minY + 100 * 2) HH ltac:(lra)).
    unfold z. split; [|split; [|split]]; [qminmax; lra | qminmax; lra | |];
      apply Qle_div_mult; [lra | | lra | ]; qminmax; lra. }
  unfold_ops. fold z. split; [lra|].
  intros b Hb. destruct (Hin b Hb) as (H1 & H2 & H3 & H4).
  pose proof (Hpos' := proj1 (List.Forall_forall _ _) Hpos b Hb). simpl in Hpos'.
  destruct (fit_axis (Bounds.x b) minX maxX (width r) z) as [A1 A2]; [lra | unfold fitPadding; lra | lra |].
  destruct (fit_axis (Bounds.y b) minY maxY (height r) z) as [B1 B2]; [lra | unfold fitPadding; lra | lra |].
  destruct (fit_axis (Bounds.x b + Bounds.width b) minX maxX (width r) z) as [C1 C2];
    [lra | unfold fitPadding; lra | lra |].
  destruct (fit_axis (Bounds.y b + Bounds.height b) minY maxY (height r) z) as [D1 D2];
    [lra | unfold fitPadding; lra | lra |].
  repeat split; lra.
Qed.

(** [fitToView] can leave the zoom bounds: content wider than ten
    canvas widths gets a zoom below [minZoom], and a zero-size canvas
    (an element not laid out) gets zoom [0], where the coordinate maps
    divide by zero. *)
Theorem fitToView_leaves_zoom_bounds :
  let r := mkRect 0 0 800 600 in
  let wide := Bounds.mk 0 0 20000 200 in
  wf init /\ zoomLevel (fitToView r init [wide]) < minZoom init /\
  zoomLevel (fitToView (mkRect 0 0 0 0) init [wide]) == 0.
Proof. vm_compute. repeat split; discriminate. Qed.

(** *** Pinch zoom *)

(** A two-finger move keeps the pinch snapshot and the zoom bounds. *)
Lemma handleTouchMove2_snapshot hypot (r : rect) (c : state) (t1 t2 : touch) :
  let c' := handleTouchMove hypot r c [t1; t2] in
  initialPinchDistance c' = initialPinchDistance c /\ initialZoom c' = initialZoom c /\
  minZoom c' = minZoom c /\ maxZoom c' = maxZoom c.
Proof. simpl. repeat case_match; simpl; auto. Qed.

(** A two-finger move sets the zoom to the snapshot zoom times the
    distance ratio, clamped. *)
Lemma handleTouchMove2_zoom hypot (r : rect) (c : state) (t1 t2 : touch) (d0 : Q) :
  initialPinchDistance c = Some d0 -> ~ d0 == 0 ->
  zoomLevel (handleTouchMove hypot r c [t1; t2]) == pinchTarget c d0 (touchDistance hypot t1 t2).
Proof.
  intros Hd Hnz. simpl. rewrite Hd.
  destruct (Qeq_bool d0 0) eqn:E; [apply Qeq_bool_iff in E; contradiction|].
  destruct (Qneqb _ _) eqn:E2; simpl; [reflexivity|].
  apply Qneqb_false in E2. symmetry. exact E2.
Qed.

Lemma pinch_frames_snapshot hypot (r : rect) (frames : list (touch * touch)) (c : state) :
  let c' := fold_left (fun c0 (f : touch * touch) => handleTouchMove hypot r c0 [fst f; snd f]) frames c in
  initialPinchDistance c' = initialPinchDistance c /\ initialZoom c' = initialZoom c /\
  minZoom c' = minZoom c /\ maxZoom c' = maxZoom c.
Proof.
  revert c. induction frames as [|[t1 t2] frames IH]; intros c; cbn [fold_left fst snd]; [auto|].
  destruct (IH (handleTouchMove hypot r c [t1; t2])) as (A & B & C & D).
  destruct (handleTouchMove2_snapshot hypot r c t1 t2) as (A' & B' & C' & D').
  repeat split; congruence.
Qed.

(** Pinch zoom does not compound: after any sequence of two-finger
    moves, the zoom is the snapshot zoom taken at [touchstart] times the
    ratio of the last distance to the initial one, clamped; the earlier
    frames have no effect on it. *)
Theorem pinch_no_compounding hypot (r : rect) (c : state) (d0 : Q)
    (frames : list (touch * touch)) (t1 t2 : touch) :
  initialPinchDistance c = Some d0 -> ~ d0 == 0 ->
  zoomLevel (fold_left (fun c0 (f : touch * touch) => handleTouchMove hypot r c0 [fst f; snd f])
                       (frames ++ [(t1, t2)]) c)
    == clamp (minZoom c) (maxZoom c)
         (match initialZoom c with Some z => z | None => 0 end * (touchDistance hypot t1 t2 / d0)).
Proof.
  intros Hd Hnz. rewrite fold_left_app. cbn [fold_left fst snd].
  destruct (pinch_frames_snapshot hypot r frames c) as (A & B & C & D).
  rewrite (handleTouchMove2_zoom hypot r _ t1 t2 d0); [| congruence | exact Hnz].
  unfold pinchTarget. rewrite B, C, D. reflexivity.
Qed.

(** *** The visible area *)

Lemma Qdiv_le_iff (a b z : Q) : 0 < z -> (a / z <= b <-> a <= b * z).
Proof.
  intros Hz. split; intros H.
  - apply (Qmult_le_compat_r _ _ z) in H; [|lra].
    assert (E : a / z * z == a) by (field; lra). lra.
  - apply Qle_shift_div_r; assumption.
Qed.

Lemma Qle_div_iff (a b z : Q) : 0 < z -> (b <= a / z <-> b * z <= a).
Proof.
  intros Hz. split; intros H.
  - apply Qle_div_mult; assumption.
  - apply Qle_shift_div_l; assumption.
Qed.

(** The world rectangle [getViewportBounds] returns is exactly the
    set of world points whose screen image lies in the canvas rectangle. *)
Theorem getViewportBounds_spec (r : rect) (c : state) (wx wy : Q) :
  0 < zoomLevel c ->
  let vb := getViewportBounds r c in
  let s := canvasToScreen r c wx wy in
  (vleft vb <= wx <= vright vb /\ vtop vb <= wy <= vbottom vb) <->
  (left r <= fst s <= left r + width r /\ top r <= snd s <= top r + height r).
Proof.
  intros Hz vb s. unfold vb, s, getViewportBounds. unfold_ops.
  rewrite !Qdiv_le_iff, !Qle_div_iff by exact Hz. lra.
Qed.

(** The zoom-in shortcut does not check the lower side: from a zoom
    above [maxZoom] (a zoom restored from storage is not clamped,
    app.js 71), [zoomIn] lowers the zoom to [maxZoom]. *)
Theorem zoomIn_above_max_zooms_out (r : rect) (c : state) (tx ty : option Q) :
  0 < maxZoom c -> maxZoom c < zoomLevel c ->
  zoomLevel (zoomIn r c tx ty) == maxZoom c /\ zoomLevel (zoomIn r c tx ty) < zoomLevel c.
Proof.
  intros Hpos Habove. unfold zoomIn. destruct (zoomPoint r c tx ty).
  assert (E : Qmin (maxZoom c) (zoomLevel c * (6 # 5)) == maxZoom c) by (qminmax; lra).
  destruct (Qneqb _ _) eqn:N; simpl.
  - split; lra.
  - apply Qneqb_false in N. lra.
Qed.

(** *** Witnesses at concrete inputs *)

Lemma screenToCanvas_canvasToScreen_witness :
  ~ zoomLevel (set_view init 2 30 40) == 0 /\
  screenToCanvas (mkRect 10 20 800 600) (set_view init 2 30 40)
    (fst (canvasToScreen (mkRect 10 20 800 600) (set_view init 2 30 40) 7 9))
    (snd (canvasToScreen (mkRect 10 20 800 600) (set_view init 2 30 40) 7 9)) =~ (7, 9).
Proof. split; [concrete | apply screenToCanvas_canvasToScreen; concrete]. Defined.

Lemma handleWheel_keeps_anchor_witness :
  0 < minZoom init /\ ~ zoomLevel init == 0 /\
  screenToCanvas (mkRect 10 20 800 600) (handleWheel (mkRect 10 20 800 600) init (mkWheel 110 220 (-100)))
    110 220 =~ screenToCanvas (mkRect 10 20 800 600) init 110 220.
Proof.
  split; [concrete | split; [concrete |]].
  apply (handleWheel_keeps_anchor _ _ (mkWheel 110 220 (-100))); concrete.
Defined.

Lemma zoomInOut_keep_anchor_witness :
  let r := mkRect 10 20 800 600 in
  wf init /\
  (let p := zoomPoint r init None None in
   screenToCanvas r (zoomIn r init None None) (fst p + left r) (snd p + top r)
     =~ screenToCanvas r init (fst p + left r) (snd p + top r) /\
   screenToCanvas r (zoomOut r init None None) (fst p + left r) (snd p + top r)
     =~ screenToCanvas r init (fst p + left r) (snd p + top r)).
Proof.
  intros r. assert (H : wf init) by (unfold wf, init; simpl; lra).
  split; [exact H | exact (zoomInOut_keep_anchor r init None None H)].
Defined.

Lemma pinch_keeps_midpoint_witness :
  let c := set_pinch init (Some 100) (Some 1) in
  wf c /\
  screenToCanvas (mkRect 0 0 800 600) (handleTouchMove Qplus (mkRect 0 0 800 600) c
      [mkTouch 100 100; mkTouch 300 100]) ((100 + 300) / 2) ((100 + 100) / 2)
    =~ screenToCanvas (mkRect 0 0 800 600) c ((100 + 300) / 2) ((100 + 100) / 2).
Proof.
  intros c. assert (H : wf c) by (unfold wf, c, init; simpl; lra).
  split; [exact H | apply (pinch_keeps_midpoint Qplus _ c (mkTouch 100 100) (mkTouch 300 100) H)].
Defined.

Lemma handleMouseMove_keeps_grabbed_point_witness :
  let c := handleMouseDown (set_view init 2 0 0)
             (mkMouse 1 50 60 background false false false) in
  isPanning c = true /\ ~ zoomLevel c == 0 /\
  screenToCanvas (mkRect 0 0 800 600) (handleMouseMove c (mkMouse 1 80 90 background false false false)) 80 90
    =~ screenToCanvas (mkRect 0 0 800 600) c (lastMouseX c) (lastMouseY c).
Proof.
  intros c. split; [concrete | split; [concrete |]].
  apply (handleMouseMove_keeps_grabbed_point _ c (mkMouse 1 80 90 background false false false)); concrete.
Defined.

Lemma reachable_wf_witness :
  let c := dispatch Qplus (mkRect 0 0 800 600) init (EvWheel (mkWheel 100 100 (-300))) in
  reachable Qplus c /\ wf c.
Proof.
  intros c. assert (H : reachable Qplus c) by (apply reach_step; [constructor | reflexivity]).
  split; [exact H | exact (reachable_wf Qplus c H)].
Defined.

Lemma fitToView_shows_all_witness :
  let r := mkRect 0 0 800 600 in
  let ns := [Bounds.mk 0 0 300 200; Bounds.mk 500 400 300 200] in
  0 < width r /\ 0 < height r /\ ns <> [] /\
  Forall (fun b => 0 <= Bounds.width b /\ 0 <= Bounds.height b) ns /\
  0 < zoomLevel (fitToView r init ns) <= 1.
Proof.
  intros r ns.
  assert (Hf : Forall (fun b => 0 <= Bounds.width b /\ 0 <= Bounds.height b) ns)
    by (repeat constructor; concrete).
  split; [concrete | split; [concrete | split; [discriminate | split; [exact Hf |]]]].
  apply (fitToView_shows_all r init ns); [concrete | concrete | discriminate | exact Hf].
Defined.

Lemma pinch_no_compounding_witness :
  let c := set_pinch init (Some 100) (Some 1) in
  initialPinchDistance c = Some 100 /\ ~ (100 == 0) /\
  zoomLevel (fold_left (fun c0 (f : touch * touch) => handleTouchMove Qplus (mkRect 0 0 800 600) c0 [fst f; snd f])
     ([(mkTouch 0 0, mkTouch 50 50)] ++ [(mkTouch 0 0, mkTouch 100 100)]) c)
    == clamp (minZoom c) (maxZoom c)
         (match initialZoom c with Some z => z | None => 0 end * (touchDistance Qplus (mkTouch 0 0) (mkTouch 100 100) / 100)).
Proof.
  intros c. split; [reflexivity | split; [concrete |]].
  apply pinch_no_compounding; [reflexivity | concrete].
Defined.

Lemma getViewportBounds_spec_witness :
  0 < zoomLevel (set_view init 2 30 40) /\
  ((vleft (getViewportBounds (mkRect 10 20 800 600) (set_view init 2 30 40)) <= 5
      <= vright (getViewportBounds (mkRect 10 20 800 600) (set_view init 2 30 40)) /\
    vtop (getViewportBounds (mkRect 10 20 800 600) (set_view init 2 30 40)) <= 5
      <= vbottom (getViewportBounds (mkRect 10 20 800 600) (set_view init 2 30 40))) <->
   (left (mkRect 10 20 800 600) <= fst (canvasToScreen (mkRect 10 20 800 600) (set_view init 2 30 40) 5 5)
      <= left (mkRect 10 20 800 600) + width (mkRect 10 20 800 600) /\
    top (mkRect 10 20 800 600) <= snd (canvasToScreen (mkRect 10 20 800 600) (set_view init 2 30 40) 5 5)
      <= top (mkRect 10 20 800 600) + height (mkRect 10 20 800 600))).
Proof. split; [concrete | apply getViewportBounds_spec; concrete]. Defined.

Lemma zoomIn_above_max_zooms_out_witness :
  let c := set_view init 10 0 0 in
  0 < maxZoom c /\ maxZoom c < zoomLevel c /\
  zoomLevel (zoomIn (mkRect 0 0 800 600) c None None) == maxZoom c /\
  zoomLevel (zoomIn (mkRect 0 0 800 600) c None None) < zoomLevel c.
Proof.
  intros c. split; [concrete | split; [concrete |]].
  apply zoomIn_above_max_zooms_out; concrete.
Defined.

End Canvas.
