(* ===== verification/Resize.v ===== *)
(** * Resize: the resize policies of [NotesManager.resizeNote]

    [resizeNote] (src/Downloads/yt/js/notes.js 845-893) recomputes a
    note's bounds from the snapshot [resizeStartBounds] taken when the
    gesture started and the pointer's displacement since then, with one
    policy per resize handle.  [resizeBounds] is that computation.

    The abstract specification [edges_spec] describes a resize by its four
    edges: each edge the handle grabs follows the pointer, but stops
    [minSize] before the opposite edge; the other edges stay where they
    were.  [resizeBounds_edges] proves that the code implements it;
    minimum size, fixed opposite edges and the spec's scenario follow. *)

From S2P Require Import Prelude.

Module Resize.
Local Open Scope string_scope.
Local Open Scope Q_scope.

(** ** Handles *)

(** The eight handles of [createResizeHandles] (notes.js 297-308). *)
Inductive handle := hNW | hN | hNE | hW | hE | hSW | hS | hSE.

(** The handle's CSS class, [e.target.classList[1]], as the [switch] in
    [resizeNote] compares it. *)
Definition handle_of_class (cls : string) : option handle :=
  if String.eqb cls "se" then Some hSE
  else if String.eqb cls "sw" then Some hSW
  else if String.eqb cls "ne" then Some hNE
  else if String.eqb cls "nw" then Some hNW
  else if String.eqb cls "n" then Some hN
  else if String.eqb cls "s" then Some hS
  else if String.eqb cls "e" then Some hE
  else if String.eqb cls "w" then Some hW
  else None.

Definition minSize : Q := 100.

(** ** The policies *)

(** The body of [resizeNote] (notes.js 846-890): [newBounds] starts as a
    copy of the snapshot; each case sets the width and/or height,
    clamped to [minSize], and for the handles on the left or top side
    moves [x]/[y] so that the right/bottom edge stays put.  A handle
    that matches no case leaves the snapshot. *)
Definition resizeBounds (h : option handle) (startBounds : Bounds.t) (deltaX deltaY : Q) : Bounds.t :=
  let x := Bounds.x startBounds in
  let y := Bounds.y startBounds in
  let w := Bounds.width startBounds in
  let ht := Bounds.height startBounds in
  match h with
  | Some hSE => Bounds.mk x y (Qmax minSize (w + deltaX)) (Qmax minSize (ht + deltaY))
  | Some hSW =>
      let nw := Qmax minSize (w - deltaX) in
      Bounds.mk (x + w - nw) y nw (Qmax minSize (ht + deltaY))
  | Some hNE =>
      let nh := Qmax minSize (ht - deltaY) in
      Bounds.mk x (y + ht - nh) (Qmax minSize (w + deltaX)) nh
  | Some hNW =>
      let nw := Qmax minSize (w - deltaX) in
      let nh := Qmax minSize (ht - deltaY) in
      Bounds.mk (x + w - nw) (y + ht - nh) nw nh
  | Some hN =>
      let nh := Qmax minSize (ht - deltaY) in
      Bounds.mk x (y + ht - nh) w nh
  | Some hS => Bounds.mk x y w (Qmax minSize (ht + deltaY))
  | Some hE => Bounds.mk x y (Qmax minSize (w + deltaX)) ht
  | Some hW =>
      let nw := Qmax minSize (w - deltaX) in
      Bounds.mk (x + w - nw) y nw ht
  | None => startBounds
  end.

(** ** The edge specification *)

Definition movesLeft (h : handle) : bool :=
  match h with hW | hNW | hSW => true | _ => false end.
Definition movesRight (h : handle) : bool :=
  match h with hE | hNE | hSE => true | _ => false end.
Definition movesTop (h : handle) : bool :=
  match h with hN | hNE | hNW => true | _ => false end.
Definition movesBottom (h : handle) : bool :=
  match h with hS | hSE | hSW => true | _ => false end.

(** The four edges [(left, top, right, bottom)] of a rectangle. *)
Definition edges (b : Bounds.t) : Q * Q * Q * Q :=
  (Bounds.x b, Bounds.y b, Bounds.x b + Bounds.width b, Bounds.y b + Bounds.height b).

(** A resize seen on the edges: a grabbed edge moves with the pointer
    but stays [minSize] away from the opposite edge. *)
Definition edges_spec (h : handle) (b : Bounds.t) (dx dy : Q) : Q * Q * Q * Q :=
  let '(l, t, r, bt) := edges b in
  (if movesLeft h then Qmin (l + dx) (r - minSize) else l,
   if movesTop h then Qmin (t + dy) (bt - minSize) else t,
   if movesRight h then Qmax (r + dx) (l + minSize) else r,
   if movesBottom h then Qmax (bt + dy) (t + minSize) else bt).

Definition edges_eq (a b : Q * Q * Q * Q) : Prop :=
  let '(a1, a2, a3, a4) := a in
  let '(b1, b2, b3, b4) := b in
  a1 == b1 /\ a2 == b2 /\ a3 == b3 /\ a4 == b4.

(** ** Theorems *)

(** [resizeBounds] implements the edge specification: every handle
    moves exactly the edges it grabs, with the pointer, stopping
    [minSize] before the opposite edge, and leaves the others. *)
Theorem resizeBounds_edges (h : handle) (b : Bounds.t) (dx dy : Q) :
  edges_eq (edges (resizeBounds (Some h) b dx dy)) (edges_spec h b dx dy).
Proof.
  destruct b as [x y w ht]. unfold minSize.
  destruct h; simpl; repeat split; qminmax; lra.
Qed.

(** C16: Whatever the displacement, a resize leaves the width and height
    at least [minSize] when the snapshot had them so; the grabbed
    dimension is at least [minSize] even when it did not. *)
Theorem resizeBounds_min_size (h : option handle) (b : Bounds.t) (dx dy : Q) :
  minSize <= Bounds.width b -> minSize <= Bounds.height b ->
  minSize <= Bounds.width (resizeBounds h b dx dy) /\
  minSize <= Bounds.height (resizeBounds h b dx dy).
Proof.
  intros Hw Hh. destruct b as [x y w ht]. simpl in *.
  destruct h as [h|]; [destruct h|]; simpl; split; qminmax; lra.
Qed.

(** The edge opposite a grabbed one does not move: the right edge
    for the west-side handles, the bottom edge for the north-side
    handles, the left and top edges for all the others. *)
Theorem resizeBounds_fixed_edges (h : handle) (b : Bounds.t) (dx dy : Q) :
  let b' := resizeBounds (Some h) b dx dy in
  (if movesLeft h then Bounds.x b' + Bounds.width b' == Bounds.x b + Bounds.width b
   else Bounds.x b' == Bounds.x b) /\
  (if movesTop h then Bounds.y b' + Bounds.height b' == Bounds.y b + Bounds.height b
   else Bounds.y b' == Bounds.y b).
Proof.
  destruct (resizeBounds_edges h b dx dy) as (E1 & E2 & E3 & E4).
  destruct h; simpl in *; split; lra.
Qed.

(** The spec's scenario: a 300x200 note at the origin resized by
    (+50, +50) with the "se" handle has bounds (0, 0, 350, 250). *)
Theorem resizeBounds_se_scenario :
  Bounds.eqv (resizeBounds (handle_of_class "se") (Bounds.mk 0 0 300 200) 50 50)
             (Bounds.mk 0 0 350 250).
Proof. vm_compute. repeat split; discriminate. Qed.

Lemma resizeBounds_min_size_witness :
  minSize <= Bounds.width (Bounds.mk 0 0 300 200) /\ minSize <= Bounds.height (Bounds.mk 0 0 300 200) /\
  minSize <= Bounds.width (resizeBounds (Some hNW) (Bounds.mk 0 0 300 200) 1000 1000) /\
  minSize <= Bounds.height (resizeBounds (Some hNW) (Bounds.mk 0 0 300 200) 1000 1000).
Proof.
  split; [concrete | split; [concrete |]].
  apply resizeBounds_min_size; concrete.
Defined.

End Resize.
