(* ===== verification/NoteId.v ===== *)
(** * NoteId: note identifiers and JavaScript [parseInt]

    Notes get the ids ["note_" + this.nextId++] (notes.js 79, 1066,
    1261).  When a scene is loaded, [loadNotes] (notes.js 1499-1503)
    resets the counter from the ids it finds:
    [Math.max(...notesData.map(n => parseInt(n.id.split("_")[1]) || 0)) + 1].

    This file models [parseInt] with no radix as ECMAScript specifies it
    (leading white space, an optional sign, the [0x]/[0X] prefix that
    switches to radix 16, the longest prefix of digits of the radix, [NaN]
    when there is none), [split("_")[1]], and the [|| 0] fallback.  The
    round trip [noteIdOf_roundtrip] says that the number read back from a
    generated id is the counter value it was made from; the id scheme is
    collision free on that basis (Scene).  White space is the ASCII part
    of ECMAScript's set; numbers are exact integers (no rounding above
    2^53). *)

From S2P Require Import Prelude.
From Stdlib Require Import Ascii DecimalString DecimalZ DecimalPos Decimal.

Module NoteId.
Local Open Scope string_scope.
Local Open Scope Z_scope.

(** ** [parseInt] *)

(** ECMAScript white space, ASCII part: TAB, LF, VT, FF, CR, SPACE. *)
Definition is_js_space (c : ascii) : bool :=
  match nat_of_ascii c with
  | 9 | 10 | 11 | 12 | 13 | 32 => true
  | _ => false
  end%nat.

Fixpoint trimStart (s : string) : string :=
  match s with
  | String c r => if is_js_space c then trimStart r else s
  | EmptyString => EmptyString
  end.

(** The value of a digit character in radix up to 36. *)
Definition digitValue (c : ascii) : option Z :=
  let n := Z.of_nat (nat_of_ascii c) in
  if (48 <=? n) && (n <=? 57) then Some (n - 48)
  else if (97 <=? n) && (n <=? 122) then Some (n - 87)
  else if (65 <=? n) && (n <=? 90) then Some (n - 55)
  else None.

(** The longest prefix of digits of [radix]; [None] ([NaN]) when it is
    empty ([seen] records whether a digit was read). *)
Fixpoint parseDigits (radix : Z) (s : string) (acc : Z) (seen : bool) : option Z :=
  match s with
  | String c r =>
      match digitValue c with
      | Some d => if d <? radix then parseDigits radix r (acc * radix + d) true
                  else if seen then Some acc else None
      | None => if seen then Some acc else None
      end
  | EmptyString => if seen then Some acc else None
  end.

(** The optional sign (ECMAScript parseInt, steps 4-6). *)
Definition signOf (s : string) : Z * string :=
  match s with
  | String c r =>
      if (c =? "-")%char then (-1, r) else if (c =? "+")%char then (1, r) else (1, s)
  | EmptyString => (1, s)
  end.

(** The radix: [0x]/[0X] selects 16, anything else 10 (steps 8-11). *)
Definition radixOf (s : string) : Z * string :=
  match s with
  | String c (String c' r) =>
      if (c =? "0")%char && ((c' =? "x")%char || (c' =? "X")%char) then (16, r) else (10, s)
  | _ => (10, s)
  end.

(** [parseInt(s)]: [None] is [NaN]. *)
Definition parseInt (s : string) : option Z :=
  let '(sign, s1) := signOf (trimStart s) in
  let '(radix, s2) := radixOf s1 in
  option_map (Z.mul sign) (parseDigits radix s2 0 false).

(** ** [id.split("_")[1]] *)

Fixpoint afterUnderscore (s : string) : option string :=
  match s with
  | String c r => if (c =? "_")%char then Some r else afterUnderscore r
  | EmptyString => None
  end.

Fixpoint untilUnderscore (s : string) : string :=
  match s with
  | String c r => if (c =? "_")%char then EmptyString else String c (untilUnderscore r)
  | EmptyString => EmptyString
  end.

(** The second field of [s.split("_")]; [undefined] when [s] has no
    underscore. *)
Definition splitSecond (s : string) : option string :=
  option_map untilUnderscore (afterUnderscore s).

(** [parseInt(id.split("_")[1]) || 0]: [parseInt(undefined)] is [NaN],
    and [NaN || 0] is [0]. *)
Definition idNumber (id : string) : Z :=
  match splitSecond id with
  | Some s => match parseInt s with Some v => v | None => 0 end
  | None => 0
  end.

(** ** Generated ids *)

(** A JavaScript integer's decimal text ([String(n)] for |n| < 10^21). *)
Definition stringOfZ (n : Z) : string := NilEmpty.string_of_int (Z.to_int n).

(** ["note_" + n] (notes.js 79). *)
Definition noteIdOf (n : Z) : string := String.append "note_" (stringOfZ n).

(** ** Theorems *)

(** The value of a digit sequence read most significant digit first. *)
Fixpoint uintValue (u : uint) (acc : Z) : Z :=
  match u with
  | Nil => acc
  | D0 u => uintValue u (acc * 10 + 0)
  | D1 u => uintValue u (acc * 10 + 1)
  | D2 u => uintValue u (acc * 10 + 2)
  | D3 u => uintValue u (acc * 10 + 3)
  | D4 u => uintValue u (acc * 10 + 4)
  | D5 u => uintValue u (acc * 10 + 5)
  | D6 u => uintValue u (acc * 10 + 6)
  | D7 u => uintValue u (acc * 10 + 7)
  | D8 u => uintValue u (acc * 10 + 8)
  | D9 u => uintValue u (acc * 10 + 9)
  end.

Lemma parseDigits_uint (u : uint) (acc : Z) :
  parseDigits 10 (NilEmpty.string_of_uint u) acc true = Some (uintValue u acc).
Proof. revert acc. induction u; intros acc; simpl; auto. Qed.

Lemma uintValue_acc (u : uint) (acc : positive) :
  uintValue u (Z.pos acc) = Z.pos (Pos.of_uint_acc u acc).
Proof.
  revert acc. induction u; intros acc; simpl; auto; rewrite <- IHu; f_equal; lia.
Qed.

Lemma uintValue_of_uint (u : uint) : uintValue u 0 = Z.of_uint u.
Proof.
  unfold Z.of_uint. induction u; simpl; auto; apply uintValue_acc.
Qed.

(** The digit string of a positive number is a digit followed by digits. *)
Lemma string_of_pos_shape (p : positive) :
  exists c r, NilEmpty.string_of_uint (Pos.to_uint p) = String c r /\
    (c =? "-")%char = false /\ (c =? "+")%char = false /\ is_js_space c = false /\
    (forall c' r', r = String c' r' -> (c' =? "x")%char = false /\ (c' =? "X")%char = false) /\
    parseDigits 10 (String c r) 0 false = Some (Z.pos p).
Proof.
  assert (Hval : Z.of_uint (Pos.to_uint p) = Z.pos p).
  { unfold Z.of_uint. rewrite Unsigned.of_to. reflexivity. }
  assert (Hdig : forall u c' r', NilEmpty.string_of_uint u = String c' r' ->
            (c' =? "x")%char = false /\ (c' =? "X")%char = false)
    by (intros u c' r' H; destruct u; simpl in H; inversion H; subst; auto).
  rewrite <- uintValue_of_uint in Hval.
  destruct (Pos.to_uint p) as [|u|u|u|u|u|u|u|u|u|u]; simpl in Hval; [discriminate|..];
    (eexists _, _; split; [reflexivity|];
     split; [reflexivity|]; split; [reflexivity|]; split; [reflexivity|]; split;
     [intros c' r' Hr; exact (Hdig u c' r' Hr)
     | simpl; rewrite parseDigits_uint, <- Hval; reflexivity]).
Qed.

Lemma untilUnderscore_uint (u : uint) :
  untilUnderscore (NilEmpty.string_of_uint u) = NilEmpty.string_of_uint u.
Proof. induction u; simpl; rewrite ?IHu; reflexivity. Qed.

Lemma splitSecond_noteIdOf (n : Z) : splitSecond (noteIdOf n) = Some (stringOfZ n).
Proof.
  unfold splitSecond, noteIdOf. simpl. change (String.append "" (stringOfZ n)) with (stringOfZ n).
  f_equal. unfold stringOfZ.
  destruct n as [|p|p]; simpl; [reflexivity | | f_equal]; apply untilUnderscore_uint.
Qed.

Lemma radixOf_digits (c : ascii) (r : string) :
  (forall c' r', r = String c' r' -> (c' =? "x")%char = false /\ (c' =? "X")%char = false) ->
  radixOf (String c r) = (10, String c r).
Proof.
  intros Hx. destruct r as [|c' r']; [reflexivity|].
  simpl. destruct (Hx c' r' eq_refl) as [-> ->]. rewrite andb_false_r. reflexivity.
Qed.

Lemma parseInt_stringOfZ (n : Z) : parseInt (stringOfZ n) = Some n.
Proof.
  unfold stringOfZ. destruct n as [|p|p]; [reflexivity| |];
    cbn [Z.to_int NilEmpty.string_of_int];
    destruct (string_of_pos_shape p) as (c & r & Hs & Hm & Hp & Hsp & Hx & Hd);
    rewrite Hs; unfold parseInt.
  - simpl trimStart. rewrite Hsp. simpl signOf. rewrite Hm, Hp.
    cbv beta iota zeta. rewrite radixOf_digits by exact Hx. cbv beta iota zeta. rewrite Hd. reflexivity.
  - change (trimStart (String "-" (String c r))) with (String "-" (String c r)).
    change (signOf (String "-" (String c r))) with (-1, String c r).
    cbv beta iota zeta. rewrite radixOf_digits by exact Hx. cbv beta iota zeta. rewrite Hd. reflexivity.
Qed.

(** Reading the number back from a generated id. *)
Lemma idNumber_noteIdOf (n : Z) : idNumber (noteIdOf n) = n.
Proof. unfold idNumber. rewrite splitSecond_noteIdOf, parseInt_stringOfZ. reflexivity. Qed.

(** Reading the number back from a generated id gives the counter
    value it was made from: [parseInt(("note_" + n).split("_")[1]) || 0]
    is [n] for every integer [n] (negative and zero included); hence two
    counter values give the same id only if they are equal. *)
Theorem noteIdOf_roundtrip (n m : Z) :
  idNumber (noteIdOf n) = n /\ (noteIdOf n = noteIdOf m -> n = m).
Proof.
  split; [apply idNumber_noteIdOf|].
  intros E. rewrite <- (idNumber_noteIdOf n), <- (idNumber_noteIdOf m), E. reflexivity.
Qed.

(** [parseInt] on the inputs that distinguish it. *)
Example parseInt_examples :
  parseInt "  -0x1A" = Some (-26) /\ parseInt "12abc" = Some 12 /\
  parseInt "abc" = None /\ parseInt "0x" = None /\ parseInt "+7" = Some 7.
Proof. vm_compute. repeat split. Qed.

End NoteId.
