(* ===== verification/JsCollections.v ===== *)
(** * JsCollections: JavaScript [Map] and [Set]

    notes.js keeps its notes in a [Map] and its selection in a [Set].
    Both iterate in insertion order, and the code depends on that order
    ([Array.from(this.selectedNotes)[0]] is the next primary selection,
    [selectAllNotes] and [endSelection] make the last note they visit the
    primary one, [exportNotes] returns the notes in map order).  So they
    are modelled as lists: [JsMap] as an association list whose keys are
    unique ([set] of a present key replaces the value in place, of a new
    key appends), [JsSet] as a list without duplicates ([add] appends
    when absent).  The laws below are the ones the clients use. *)

From S2P Require Import Prelude.

Module JsMap.
Section Map.
Context {K V : Type} `{EqDecision K}.

Definition t : Type := list (K * V).

Definition empty : t := [].

(** [m.get(k)] *)
Fixpoint get (m : t) (k : K) : option V :=
  match m with
  | [] => None
  | (k', v) :: m' => if decide (k' = k) then Some v else get m' k
  end.

(** [m.has(k)] *)
Definition has (m : t) (k : K) : bool := is_some (get m k).

(** [m.set(k, v)]: in place when [k] is present, appended otherwise. *)
Fixpoint set (m : t) (k : K) (v : V) : t :=
  match m with
  | [] => [(k, v)]
  | (k', v') :: m' => if decide (k' = k) then (k', v) :: m' else (k', v') :: set m' k v
  end.

(** [m.delete(k)] *)
Fixpoint delete (m : t) (k : K) : t :=
  match m with
  | [] => []
  | (k', v') :: m' => if decide (k' = k) then delete m' k else (k', v') :: delete m' k
  end.

(** [Array.from(m.keys())], [Array.from(m.values())], [m.size] *)
Definition keys (m : t) : list K := map fst m.
Definition values (m : t) : list V := map snd m.
Definition size (m : t) : nat := length m.

(** Keys are unique, as in a JavaScript [Map]. *)
Definition wf (m : t) : Prop := NoDup (keys m).

(** ** Laws *)

Lemma get_set_eq (m : t) (k : K) (v : V) : get (set m k v) k = Some v.
Proof.
  induction m as [|[k' v'] m IH]; simpl; [rewrite decide_True; auto|].
  destruct (decide (k' = k)); simpl; [rewrite decide_True; auto | rewrite decide_False; auto].
Qed.

Lemma get_set_ne (m : t) (k j : K) (v : V) : k <> j -> get (set m k v) j = get m j.
Proof.
  intros Hne. induction m as [|[k' v'] m IH]; simpl; [rewrite decide_False; auto|].
  destruct (decide (k' = k)) as [->|]; simpl.
  - rewrite !decide_False; auto.
  - destruct (decide (k' = j)); auto.
Qed.

Lemma get_delete_eq (m : t) (k : K) : get (delete m k) k = None.
Proof.
  induction m as [|[k' v'] m IH]; simpl; auto.
  destruct (decide (k' = k)); simpl; auto. rewrite decide_False; auto.
Qed.

Lemma get_delete_ne (m : t) (k j : K) : k <> j -> get (delete m k) j = get m j.
Proof.
  intros Hne. induction m as [|[k' v'] m IH]; simpl; auto.
  destruct (decide (k' = k)) as [->|]; simpl.
  - rewrite decide_False; auto.
  - destruct (decide (k' = j)); auto.
Qed.

Lemma get_Some_In (m : t) (k : K) (v : V) : get m k = Some v -> In (k, v) m.
Proof.
  induction m as [|[k' v'] m IH]; simpl; [discriminate|].
  destruct (decide (k' = k)) as [->|]; [intros [= ->]; auto | auto].
Qed.

Lemma In_get_Some (m : t) (k : K) (v : V) : wf m -> In (k, v) m -> get m k = Some v.
Proof.
  unfold wf, keys. induction m as [|[k' v'] m IH]; simpl; [tauto|].
  intros Hnd [[= -> ->]|Hin]; [rewrite decide_True; auto|].
  apply NoDup_cons in Hnd as [Hk Hnd].
  rewrite decide_False; [auto|]. intros ->. apply Hk.
  apply list_elem_of_In, in_map_iff. exists (k, v). auto.
Qed.

Lemma keys_set_has (m : t) (k : K) (v : V) : has m k = true -> keys (set m k v) = keys m.
Proof.
  unfold has. induction m as [|[k' v'] m IH]; simpl; [discriminate|].
  destruct (decide (k' = k)); simpl; [reflexivity|]. intros H. f_equal. auto.
Qed.

Lemma keys_set_new (m : t) (k : K) (v : V) : has m k = false -> keys (set m k v) = keys m ++ [k].
Proof.
  unfold has. induction m as [|[k' v'] m IH]; simpl; [reflexivity|].
  destruct (decide (k' = k)); simpl; [discriminate|]. intros H. f_equal. auto.
Qed.

Lemma has_get (m : t) (k : K) : has m k = false <-> get m k = None.
Proof. unfold has. destruct (get m k); simpl; split; congruence. Qed.

Lemma elem_of_keys (m : t) (k : K) : k ∈ keys m <-> has m k = true.
Proof.
  unfold has, keys. induction m as [|[k' v'] m IH]; simpl.
  - rewrite elem_of_nil. split; [tauto | discriminate].
  - rewrite elem_of_cons, IH. destruct (decide (k' = k)) as [->|]; simpl.
    + tauto.
    + split; [intros [->|H]; [congruence | exact H] | tauto].
Qed.

Lemma set_wf (m : t) (k : K) (v : V) : wf m -> wf (set m k v).
Proof.
  unfold wf. intros H. destruct (has m k) eqn:E.
  - rewrite keys_set_has; auto.
  - rewrite keys_set_new; auto. apply NoDup_app. repeat split; auto using NoDup_singleton.
    intros x Hx ->%list_elem_of_singleton. apply elem_of_keys in Hx. congruence.
Qed.

Lemma keys_delete_sub (m : t) (k j : K) : j ∈ keys (delete m k) -> j ∈ keys m.
Proof.
  unfold keys. induction m as [|[k' v'] m IH]; simpl; [auto|].
  destruct (decide (k' = k)); simpl; rewrite ?elem_of_cons; [|intros [->|H]]; auto.
Qed.

Lemma delete_wf (m : t) (k : K) : wf m -> wf (delete m k).
Proof.
  unfold wf. induction m as [|[k' v'] m IH]; simpl; [auto|].
  intros Hnd. apply NoDup_cons in Hnd as [Hk Hnd].
  destruct (decide (k' = k)); simpl; [auto|].
  apply NoDup_cons. split; [|auto]. intros H%keys_delete_sub. contradiction.
Qed.

Lemma In_values (m : t) (k : K) (v : V) : In (k, v) m -> In v (values m).
Proof. intros H. unfold values. apply in_map_iff. exists (k, v). auto. Qed.

Lemma get_values (m : t) (k : K) (v : V) : get m k = Some v -> In v (values m).
Proof. intros H%get_Some_In. eapply In_values. exact H. Qed.

Lemma get_empty (k : K) : get empty k = None.
Proof. reflexivity. Qed.

Lemma set_new_app (m : t) (k : K) (v : V) : has m k = false -> set m k v = m ++ [(k, v)].
Proof.
  unfold has. induction m as [|[k' v'] m IH]; simpl; [reflexivity|].
  destruct (decide (k' = k)); simpl; [discriminate|]. intros H. f_equal. auto.
Qed.

Lemma keys_set_sub (m : t) (k j : K) (v : V) : j ∈ keys (set m k v) -> j = k \/ j ∈ keys m.
Proof.
  destruct (has m k) eqn:E; [rewrite keys_set_has by exact E; auto|].
  rewrite keys_set_new by exact E. rewrite elem_of_app, list_elem_of_singleton. tauto.
Qed.

Lemma set_set (m : t) (k : K) (v w : V) : set (set m k v) k w = set m k w.
Proof.
  induction m as [|[k' v'] m IH]; simpl; [rewrite decide_True; auto|].
  destruct (decide (k' = k)); simpl; [rewrite decide_True; auto | rewrite decide_False by auto; f_equal; auto].
Qed.

Lemma keys_delete_in (m : t) (k j : K) : j ∈ keys (delete m k) <-> j <> k /\ j ∈ keys m.
Proof.
  unfold keys. induction m as [|[k' v'] m IH]; simpl; [rewrite !elem_of_nil; tauto|].
  destruct (decide (k' = k)) as [E|E]; simpl; rewrite ?elem_of_cons, IH; split.
  - intros [Hne H]; auto.
  - intros [Hne [->|H]]; [congruence | auto].
  - intros [->|[Hne H]]; [split; [congruence | auto] | auto].
  - intros [Hne [->|H]]; auto.
Qed.

Lemma size_keys_in (m : t) (k : K) : k ∈ keys m -> (1 <= size m)%nat.
Proof. unfold size, keys. destruct m; simpl; [intros H; apply elem_of_nil in H; contradiction | lia]. Qed.

Lemma size_delete_in (m : t) (k : K) : wf m -> k ∈ keys m -> size (delete m k) = (size m - 1)%nat.
Proof.
  unfold wf, size, keys. induction m as [|[k' v'] m IH]; simpl; [intros _ H; apply elem_of_nil in H; contradiction|].
  intros Hnd Hin. apply NoDup_cons in Hnd as [Hk Hnd].
  destruct (decide (k' = k)) as [->|Hne].
  - assert (E : delete m k = m).
    { clear IH Hin. induction m as [|[k'' v''] m IH']; simpl; [reflexivity|].
      rewrite decide_False by (intros ->; apply Hk; left). f_equal.
      apply IH'; [intros H; apply Hk; right; exact H | apply NoDup_cons in Hnd as [_ Hnd]; exact Hnd]. }
    rewrite E. lia.
  - apply elem_of_cons in Hin as [->|Hin]; [congruence|]. simpl. rewrite IH by assumption.
    destruct m; simpl in *; [apply elem_of_nil in Hin; contradiction | lia].
Qed.

Lemma set_get_same (m : t) (k : K) (v : V) : get m k = Some v -> set m k v = m.
Proof.
  induction m as [|[k' v'] m IH]; simpl; [discriminate|].
  destruct (decide (k' = k)); [intros [= ->]; reflexivity | intros H; f_equal; auto].
Qed.

End Map.
End JsMap.

Module JsSet.
Section Set_.
Context {K : Type} `{EqDecision K}.

Definition t : Type := list K.

(** [s.has(x)] *)
Definition has (s : t) (x : K) : bool := bool_decide (x ∈ s).

(** [s.add(x)]: appended when absent. *)
Definition add (s : t) (x : K) : t := if decide (x ∈ s) then s else s ++ [x].

(** [s.delete(x)] *)
Definition delete (s : t) (x : K) : t := filter (fun y => y <> x) s.

(** [Array.from(s)[0]] *)
Definition first (s : t) : option K := head s.

(** [s.size] *)
Definition size (s : t) : nat := length s.

Lemma elem_of_add (s : t) (x y : K) : y ∈ add s x <-> y = x \/ y ∈ s.
Proof.
  unfold add. destruct (decide (x ∈ s)).
  - split; [auto | intros [->|H]; auto].
  - rewrite elem_of_app, list_elem_of_singleton. tauto.
Qed.

Lemma elem_of_delete (s : t) (x y : K) : y ∈ delete s x <-> y <> x /\ y ∈ s.
Proof. unfold delete. rewrite list_elem_of_filter. tauto. Qed.

Lemma add_NoDup (s : t) (x : K) : NoDup s -> NoDup (add s x).
Proof.
  unfold add. intros H. destruct (decide (x ∈ s)); [auto|].
  apply NoDup_app. repeat split; auto using NoDup_singleton.
  intros y Hy ->%list_elem_of_singleton. contradiction.
Qed.

Lemma delete_NoDup (s : t) (x : K) : NoDup s -> NoDup (delete s x).
Proof. unfold delete. apply NoDup_filter. Qed.

Lemma has_spec (s : t) (x : K) : has s x = true <-> x ∈ s.
Proof. unfold has. apply bool_decide_eq_true. Qed.

Lemma add_new (s : t) (x : K) : x ∉ s -> add s x = s ++ [x].
Proof. intros H. unfold add. rewrite decide_False; auto. Qed.

Lemma add_present (s : t) (x : K) : x ∈ s -> add s x = s.
Proof. intros H. unfold add. rewrite decide_True; auto. Qed.

Lemma first_elem (s : t) (x : K) : first s = Some x -> x ∈ s.
Proof. destruct s; simpl; [discriminate | intros [= ->]; apply elem_of_cons; auto]. Qed.

End Set_.
End JsSet.
