(* ===== verification/NoteState.v ===== *)
(** * NoteState: notes, the state of [NotesManager], and its monad

    A note is the plain object notes.js builds in [createTextNote] /
    [createImageNote] (notes.js 78-122).  [Notes.state] has one field per
    field of [NotesManager] (constructor, notes.js 3-26, plus
    [resizeStartPos] and [resizeStartBounds], set by [startResize]).

    The manager's methods call one another and mutate [this]; some of
    them dispatch the document event "note-modified" that triggers the
    auto-save (app.js 45-47).  They are modelled in the monad [M]: a
    state transformer that also collects the signals dispatched, so a
    method is a pure function from the manager's state to its result,
    its new state and the events it raised.  Note objects are owned by
    the map; a method that returns a note returns its id, and readers
    look it up in the map, so a mutation through the returned reference
    (as [handlePaste] does) is a mutation of the stored note. *)

From S2P Require Import Prelude JsCollections.

Module Note.

(** [note.type]: "text" or "image". *)
Inductive kind := Text | Image.

Record t := mk {
  id : string;
  type : kind;
  x : Q;
  y : Q;
  width : Q;
  height : Q;
  content : string;
  (** [originalSize]: the image file's size; absent for text notes. *)
  originalSize : option Z;
  zIndex : Z;
  created : Z;
  modified : Z
}.

Definition bounds (n : t) : Bounds.t := Bounds.mk (x n) (y n) (width n) (height n).

(** [note.x = x; note.y = y; note.modified = now] *)
Definition with_pos (n : t) (nx ny : Q) (now : Z) : t :=
  mk (id n) (type n) nx ny (width n) (height n) (content n) (originalSize n) (zIndex n) (created n) now.

(** [Object.assign(note, bounds); note.modified = now] *)
Definition with_bounds (n : t) (b : Bounds.t) (now : Z) : t :=
  mk (id n) (type n) (Bounds.x b) (Bounds.y b) (Bounds.width b) (Bounds.height b)
     (content n) (originalSize n) (zIndex n) (created n) now.

(** [note.zIndex = z] *)
Definition with_zIndex (n : t) (z : Z) : t :=
  mk (id n) (type n) (x n) (y n) (width n) (height n) (content n) (originalSize n) z (created n) (modified n).

(** [note.content = c] *)
Definition with_content (n : t) (c : string) : t :=
  mk (id n) (type n) (x n) (y n) (width n) (height n) c (originalSize n) (zIndex n) (created n) (modified n).

End Note.

Module Notes.

(** The document event "note-modified". *)
Inductive signal := NoteModified.

Record state := mkState {
  notes : @JsMap.t string Note.t;
  selectedNote : option string;
  selectedNotes : @JsSet.t string;
  nextId : Z;
  isDragging : bool;
  isResizing : bool;
  dragOffset : Q * Q;
  resizeHandle : option string;
  resizeStartPos : option (Q * Q);
  resizeStartBounds : option Bounds.t;
  isSelecting : bool;
  selectionStart : Q * Q;
  selectionEnd : Q * Q;
  selectionBox : bool;
  multiDragOffsets : @JsMap.t string (Q * Q)
}.

(** The constructor (notes.js 3-26). *)
Definition init : state :=
  {| notes := []; selectedNote := None; selectedNotes := []; nextId := 1;
     isDragging := false; isResizing := false; dragOffset := (0, 0);
     resizeHandle := None; resizeStartPos := None; resizeStartBounds := None;
     isSelecting := false; selectionStart := (0, 0); selectionEnd := (0, 0);
     selectionBox := false; multiDragOffsets := [] |}.

(** ** Field updates *)

Definition set_notes (s : state) (m : @JsMap.t string Note.t) : state :=
  {| notes := m; selectedNote := selectedNote s; selectedNotes := selectedNotes s;
     nextId := nextId s; isDragging := isDragging s; isResizing := isResizing s;
     dragOffset := dragOffset s; resizeHandle := resizeHandle s;
     resizeStartPos := resizeStartPos s; resizeStartBounds := resizeStartBounds s;
     isSelecting := isSelecting s; selectionStart := selectionStart s;
     selectionEnd := selectionEnd s; selectionBox := selectionBox s;
     multiDragOffsets := multiDragOffsets s |}.

Definition set_selection (s : state) (p : option string) (sel : @JsSet.t string) : state :=
  {| notes := notes s; selectedNote := p; selectedNotes := sel;
     nextId := nextId s; isDragging := isDragging s; isResizing := isResizing s;
     dragOffset := dragOffset s; resizeHandle := resizeHandle s;
     resizeStartPos := resizeStartPos s; resizeStartBounds := resizeStartBounds s;
     isSelecting := isSelecting s; selectionStart := selectionStart s;
     selectionEnd := selectionEnd s; selectionBox := selectionBox s;
     multiDragOffsets := multiDragOffsets s |}.

Definition set_nextId (s : state) (n : Z) : state :=
  {| notes := notes s; selectedNote := selectedNote s; selectedNotes := selectedNotes s;
     nextId := n; isDragging := isDragging s; isResizing := isResizing s;
     dragOffset := dragOffset s; resizeHandle := resizeHandle s;
     resizeStartPos := resizeStartPos s; resizeStartBounds := resizeStartBounds s;
     isSelecting := isSelecting s; selectionStart := selectionStart s;
     selectionEnd := selectionEnd s; selectionBox := selectionBox s;
     multiDragOffsets := multiDragOffsets s |}.

Definition set_drag (s : state) (dragging : bool) (off : Q * Q) (offs : @JsMap.t string (Q * Q)) : state :=
  {| notes := notes s; selectedNote := selectedNote s; selectedNotes := selectedNotes s;
     nextId := nextId s; isDragging := dragging; isResizing := isResizing s;
     dragOffset := off; resizeHandle := resizeHandle s;
     resizeStartPos := resizeStartPos s; resizeStartBounds := resizeStartBounds s;
     isSelecting := isSelecting s; selectionStart := selectionStart s;
     selectionEnd := selectionEnd s; selectionBox := selectionBox s;
     multiDragOffsets := offs |}.

Definition set_resize (s : state) (resizing : bool) (h : option string)
    (pos : option (Q * Q)) (b : option Bounds.t) : state :=
  {| notes := notes s; selectedNote := selectedNote s; selectedNotes := selectedNotes s;
     nextId := nextId s; isDragging := isDragging s; isResizing := resizing;
     dragOffset := dragOffset s; resizeHandle := h;
     resizeStartPos := pos; resizeStartBounds := b;
     isSelecting := isSelecting s; selectionStart := selectionStart s;
     selectionEnd := selectionEnd s; selectionBox := selectionBox s;
     multiDragOffsets := multiDragOffsets s |}.

Definition set_marquee (s : state) (selecting : bool) (st en : Q * Q) (box : bool) : state :=
  {| notes := notes s; selectedNote := selectedNote s; selectedNotes := selectedNotes s;
     nextId := nextId s; isDragging := isDragging s; isResizing := isResizing s;
     dragOffset := dragOffset s; resizeHandle := resizeHandle s;
     resizeStartPos := resizeStartPos s; resizeStartBounds := resizeStartBounds s;
     isSelecting := selecting; selectionStart := st;
     selectionEnd := en; selectionBox := box;
     multiDragOffsets := multiDragOffsets s |}.

(** ** The manager monad *)

Definition M (A : Type) : Type := state -> A * state * list signal.

Definition ret {A} (a : A) : M A := fun s => (a, s, []).

Definition bind {A B} (m : M A) (k : A -> M B) : M B :=
  fun s => let '(a, s1, o1) := m s in let '(b, s2, o2) := k a s1 in (b, s2, o1 ++ o2).

Definition get : M state := fun s => (s, s, []).
Definition modify (f : state -> state) : M unit := fun s => (tt, f s, []).

(** [document.dispatchEvent(new CustomEvent("note-modified"))] *)
Definition emit (e : signal) : M unit := fun s => (tt, s, [e]).

Declare Scope notes_scope.
Delimit Scope notes_scope with notes.
Notation "x <- m ;; k" := (bind m (fun x => k))
  (at level 100, m at next level, right associativity) : notes_scope.
Notation "m ;;; k" := (bind m (fun _ => k))
  (at level 100, right associativity) : notes_scope.
Local Open Scope notes_scope.

(** [list.forEach(f)] *)
Fixpoint forEach {A} (l : list A) (f : A -> M unit) : M unit :=
  match l with
  | [] => ret tt
  | a :: l' => f a ;;; forEach l' f
  end.

(** Run a method: its result, final state and dispatched signals. *)
Definition run {A} (m : M A) (s : state) : A * state * list signal := m s.

Definition result_state {A} (r : A * state * list signal) : state := snd (fst r).
Definition signals {A} (r : A * state * list signal) : list signal := snd r.

(** ** Reading the scene *)

(** JavaScript truthiness of [this.selectedNote]: [null] and [""] are falsy. *)
Definition truthy (o : option string) : bool :=
  match o with Some id => negb (String.eqb id "") | None => false end.

(** [getMaxZIndex()] (notes.js 1101-1107): seeded with [0]. *)
Definition getMaxZIndex (m : @JsMap.t string Note.t) : Z :=
  fold_left (fun max n => if (Note.zIndex n >? max)%Z then Note.zIndex n else max) (JsMap.values m) 0%Z.

(** [getMinZIndex()] (notes.js 1109-1115): seeded with [Infinity]; [0]
    for an empty scene. *)
Definition getMinZIndex (m : @JsMap.t string Note.t) : Z :=
  match fold_left (fun min n =>
           match min with
           | None => Some (Note.zIndex n)
           | Some v => if (Note.zIndex n <? v)%Z then Some (Note.zIndex n) else Some v
           end) (JsMap.values m) None with
  | Some v => v
  | None => 0%Z
  end.

(** Update a stored note in place ([const note = this.notes.get(id); if
    (note) { ...mutate... }]). *)
Definition updateNote (id : string) (f : Note.t -> Note.t) : M unit :=
  fun s => match JsMap.get (notes s) id with
           | Some n => (tt, set_notes s (JsMap.set (notes s) id (f n)), [])
           | None => (tt, s, [])
           end.

(** ** A sample scene, for running the methods *)

(** A text note with the default size. *)
Definition demo_note (id : string) (x y : Q) (z : Z) : Note.t :=
  Note.mk id Note.Text x y 300 200 "" None z 0 0.

(** Three notes, the first two selected, the second the primary one. *)
Definition demo_scene : state :=
  set_nextId (set_selection (set_notes init
    [("note_1", demo_note "note_1" 0 0 1); ("note_2", demo_note "note_2" 400 0 2);
     ("note_3", demo_note "note_3" 0 300 3)]) (Some "note_2") ["note_1"; "note_2"]) 4.

(** A method keeps a property of the manager's state. *)
Definition preserves {A} (P : state -> Prop) (m : M A) : Prop :=
  forall s, P s -> P (result_state (run m s)).

(** ** Generic lemmas on the monad *)

Lemma run_bind {A B} (m : M A) (k : A -> M B) (s : state) :
  run (bind m k) s =
  let '(a, s1, o1) := run m s in let '(b, s2, o2) := run (k a) s1 in (b, s2, o1 ++ o2).
Proof. reflexivity. Qed.

Lemma state_bind {A B} (m : M A) (k : A -> M B) (s : state) :
  result_state (run (bind m k) s) =
  result_state (run (k (fst (fst (run m s)))) (result_state (run m s))).
Proof.
  unfold run, result_state, bind. destruct (m s) as [[a s1] o1]. simpl.
  destruct (k a s1) as [[b s2] o2]. reflexivity.
Qed.

Lemma signals_bind {A B} (m : M A) (k : A -> M B) (s : state) :
  signals (run (bind m k) s) =
  signals (run m s) ++ signals (run (k (fst (fst (run m s)))) (result_state (run m s))).
Proof.
  unfold run, result_state, signals, bind. destruct (m s) as [[a s1] o1]. simpl.
  destruct (k a s1) as [[b s2] o2]. reflexivity.
Qed.

Lemma value_bind {A B} (m : M A) (k : A -> M B) (s : state) :
  fst (fst (run (bind m k) s)) =
  fst (fst (run (k (fst (fst (run m s)))) (result_state (run m s)))).
Proof.
  unfold run, result_state, bind. destruct (m s) as [[a s1] o1]. simpl.
  destruct (k a s1) as [[b s2] o2]. reflexivity.
Qed.

Lemma state_get (s : state) : result_state (run get s) = s.
Proof. reflexivity. Qed.

Lemma state_emit (e : signal) (s : state) : result_state (run (emit e) s) = s.
Proof. reflexivity. Qed.

Lemma value_get (s : state) : fst (fst (run get s)) = s.
Proof. reflexivity. Qed.

Lemma signals_get (s : state) : signals (run get s) = [].
Proof. reflexivity. Qed.

Lemma state_ret {A} (a : A) (s : state) : result_state (run (ret a) s) = s.
Proof. reflexivity. Qed.

Lemma signals_ret {A} (a : A) (s : state) : signals (run (ret a) s) = [].
Proof. reflexivity. Qed.

Lemma value_ret {A} (a : A) (s : state) : fst (fst (run (ret a) s)) = a.
Proof. reflexivity. Qed.

Lemma state_modify (f : state -> state) (s : state) : result_state (run (modify f) s) = f s.
Proof. reflexivity. Qed.

Lemma signals_modify (f : state -> state) (s : state) : signals (run (modify f) s) = [].
Proof. reflexivity. Qed.

Lemma signals_emit (e : signal) (s : state) : signals (run (emit e) s) = [e].
Proof. reflexivity. Qed.

(** Symbolic execution of a method: push [result_state] and [signals]
    through binds and the primitive operations. *)
Ltac msimp :=
  repeat first
    [ rewrite state_bind | rewrite signals_bind | rewrite value_bind
    | rewrite state_get | rewrite value_get | rewrite signals_get
    | rewrite state_ret | rewrite signals_ret | rewrite value_ret
    | rewrite state_modify | rewrite signals_modify
    | rewrite state_emit | rewrite signals_emit
    | progress cbv beta iota zeta
    | progress cbn [orb andb negb] ].

(** A property of states kept by every step of a [forEach]. *)
Lemma forEach_invariant {A} (P : state -> Prop) (l : list A) (f : A -> M unit) (s : state) :
  (forall a s0, In a l -> P s0 -> P (result_state (run (f a) s0))) ->
  P s -> P (result_state (run (forEach l f) s)).
Proof.
  revert s. induction l as [|a l IH]; intros s Hf Hs; [exact Hs|].
  unfold result_state, run in *. cbn [forEach]. unfold bind.
  destruct (f a s) as [[[] s1] o1] eqn:E1. destruct (forEach l f s1) as [[[] s2] o2] eqn:E2.
  simpl. specialize (IH s1). rewrite E2 in IH. apply IH.
  - intros b s0 Hb. apply Hf. right. exact Hb.
  - specialize (Hf a s (or_introl eq_refl) Hs). rewrite E1 in Hf. exact Hf.
Qed.

(** ** Invariants through the monad *)

Create HintDb preserve.

Section Preserves.
Variable P : state -> Prop.

Lemma preserves_bind {A B} (m : M A) (k : A -> M B) :
  preserves P m -> (forall a, preserves P (k a)) -> preserves P (bind m k).
Proof. intros Hm Hk s H. rewrite state_bind. apply Hk, Hm, H. Qed.

Lemma preserves_ret {A} (a : A) : preserves P (ret a).
Proof. intros s H. exact H. Qed.

Lemma preserves_get : preserves P get.
Proof. intros s H. exact H. Qed.

Lemma preserves_emit (e : signal) : preserves P (emit e).
Proof. intros s H. exact H. Qed.

Lemma preserves_if {A} (b : bool) (m1 m2 : M A) :
  preserves P m1 -> preserves P m2 -> preserves P (if b then m1 else m2).
Proof. destruct b; auto. Qed.

Lemma preserves_forEach {A} (l : list A) (f : A -> M unit) :
  (forall a, preserves P (f a)) -> preserves P (forEach l f).
Proof. intros Hf. induction l as [|a l IH]; simpl; [apply preserves_ret | apply preserves_bind; auto]. Qed.

Lemma preserves_modify (f : state -> state) : (forall s, P s -> P (f s)) -> preserves P (modify f).
Proof. intros Hf s H. apply Hf, H. Qed.

End Preserves.

#[export] Hint Resolve preserves_bind preserves_ret preserves_get preserves_emit preserves_if
  preserves_forEach : preserve.

(** Decompose a method into its steps and close the primitive ones with
    the hint database [db]. *)
Ltac preserve db :=
  repeat first
    [ solve [eauto with db]
    | progress cbv zeta
    | apply preserves_bind; [| intros ?]
    | apply preserves_if
    | apply preserves_forEach; intros ?
    | progress case_match ].

(** [getMaxZIndex] is an upper bound of every stored note's [zIndex]
    (and of [0]). *)
Lemma getMaxZIndex_ge (m : @JsMap.t string Note.t) :
  (0 <= getMaxZIndex m)%Z /\ forall n, In n (JsMap.values m) -> (Note.zIndex n <= getMaxZIndex m)%Z.
Proof.
  unfold getMaxZIndex.
  assert (H : forall l acc, (acc <= fold_left (fun max n => if (Note.zIndex n >? max)%Z then Note.zIndex n else max) l acc)%Z /\
    forall n, In n l -> (Note.zIndex n <= fold_left (fun max n => if (Note.zIndex n >? max)%Z then Note.zIndex n else max) l acc)%Z).
  { induction l as [|a l IH]; intros acc; simpl; [split; [lia | tauto]|].
    destruct (IH (if (Note.zIndex a >? acc)%Z then Note.zIndex a else acc)) as [H1 H2].
    split; [destruct (Z.gtb_spec (Note.zIndex a) acc); lia|].
    intros n [->|Hn]; [destruct (Z.gtb_spec (Note.zIndex n) acc); lia | auto]. }
  apply H.
Qed.

(** [getMinZIndex] is a lower bound of every stored note's [zIndex]. *)
Lemma getMinZIndex_le (m : @JsMap.t string Note.t) :
  forall n, In n (JsMap.values m) -> (getMinZIndex m <= Note.zIndex n)%Z.
Proof.
  unfold getMinZIndex.
  set (f := fun (min : option Z) (n : Note.t) =>
           match min with
           | None => Some (Note.zIndex n)
           | Some v => if (Note.zIndex n <? v)%Z then Some (Note.zIndex n) else Some v
           end).
  assert (H : forall l acc, (forall v, acc = Some v -> exists w, fold_left f l acc = Some w /\ (w <= v)%Z) /\
    forall n, In n l -> exists w, fold_left f l acc = Some w /\ (w <= Note.zIndex n)%Z).
  { induction l as [|a l IH]; intros acc; simpl.
    - split; [intros v ->; exists v; split; [reflexivity | lia] | tauto].
    - destruct (IH (f acc a)) as [H1 H2]. split.
      + intros v ->. destruct (H1 (if (Note.zIndex a <? v)%Z then Note.zIndex a else v)) as [w [Hw Hle]];
          [simpl; destruct (Z.ltb _ _); reflexivity|].
        exists w. split; [exact Hw | destruct (Z.ltb_spec (Note.zIndex a) v); lia].
      + intros n [->|Hn]; [|auto].
        destruct acc as [v|]; simpl in *.
        * destruct (Z.ltb_spec (Note.zIndex n) v);
            destruct (H1 _ eq_refl) as [w [Hw Hle]]; exists w; split; [exact Hw | lia | exact Hw | lia].
        * destruct (H1 _ eq_refl) as [w [Hw Hle]]. exists w. auto. }
  intros n Hn. destruct (proj2 (H _ None) n Hn) as [w [-> Hle]]. exact Hle.
Qed.

(** Adding a note under a new key. *)
Lemma getMaxZIndex_set_new (m : @JsMap.t string Note.t) (k : string) (n : Note.t) :
  JsMap.has m k = false -> getMaxZIndex (JsMap.set m k n) = Z.max (getMaxZIndex m) (Note.zIndex n).
Proof.
  intros H. unfold getMaxZIndex. rewrite JsMap.set_new_app by exact H.
  unfold JsMap.values. rewrite map_app, fold_left_app. simpl.
  match goal with |- context [fold_left ?f (map snd m) 0%Z] => set (g := fold_left f (map snd m) 0%Z) end.
  destruct (Z.gtb_spec (Note.zIndex n) g); lia.
Qed.

End Notes.
