(* ===== verification/Selection.v ===== *)
(** * Selection: the selection methods of [NotesManager]

    notes.js keeps two selection fields: the set [selectedNotes] and the
    primary selection [selectedNote], used by the single-note paths
    (single drag, resize, escape from a text area).  This file models
    the methods that change them (notes.js 905-959, 1009-1035, 1284-1289)
    and the z-order methods [bringToFront]/[sendToBack] (notes.js
    1079-1099), which [selectNote] uses to raise the note it selects.

    The invariant [sel_inv] says the set has no duplicates and the
    primary selection, when set, is a member of the set: the two fields
    the spec calls fragile stay in step under every method here. *)

From S2P Require Import Prelude JsCollections NoteState.

Module Selection.
Import Notes.
Local Open Scope notes_scope.

(** ** Z-order *)

(** [bringToFront(noteId)] (notes.js 1079-1088). *)
Definition bringToFront (noteId : string) : M unit :=
  fun s => updateNote noteId (fun n => Note.with_zIndex n (getMaxZIndex (notes s) + 1)%Z) s.

(** [sendToBack(noteId)] (notes.js 1090-1099). *)
Definition sendToBack (noteId : string) : M unit :=
  fun s => updateNote noteId (fun n => Note.with_zIndex n (getMinZIndex (notes s) - 1)%Z) s.

(** ** Selection methods *)

(** [deselectAll()] (notes.js 1009-1035): clears both fields and removes
    the marquee box element. *)
Definition deselectAll : M unit :=
  modify (fun s => set_marquee (set_selection s None []) (isSelecting s)
                     (selectionStart s) (selectionEnd s) false).

(** [addToSelection(noteId)] (notes.js 927-942): re-adds a primary that
    is missing from the set, adds the note, makes it the primary. *)
Definition addToSelection (noteId : string) : M unit :=
  modify (fun s =>
    let sel := match selectedNote s with
               | Some p => if truthy (Some p) && negb (JsSet.has (selectedNotes s) p)
                           then JsSet.add (selectedNotes s) p else selectedNotes s
               | None => selectedNotes s
               end in
    set_selection s (Some noteId) (JsSet.add sel noteId)).

(** [removeFromSelection(noteId)] (notes.js 944-959): the first
    remaining member becomes the primary if the primary was removed. *)
Definition removeFromSelection (noteId : string) : M unit :=
  modify (fun s =>
    let sel := JsSet.delete (selectedNotes s) noteId in
    let p := match selectedNote s with
             | Some q => if String.eqb q noteId then JsSet.first sel else Some q
             | None => None
             end in
    set_selection s p sel).

(** [selectNote(noteId, addToSelection)] (notes.js 905-925).  The plain
    path clears the selection, selects the note alone and raises it
    (the note's element exists exactly when the note is in the map). *)
Definition selectNote (noteId : string) (addToSel : bool) : M unit :=
  s <- get ;;
  if addToSel && (truthy (selectedNote s) || (0 <? JsSet.size (selectedNotes s))%nat)
  then addToSelection noteId
  else deselectAll ;;;
       modify (fun s => set_selection s (Some noteId) (JsSet.add (selectedNotes s) noteId)) ;;;
       bringToFront noteId.

(** [selectAllNotes()] (notes.js 1284-1289). *)
Definition selectAllNotes : M unit :=
  deselectAll ;;;
  s <- get ;;
  forEach (JsMap.keys (notes s)) addToSelection.

(** ** The selection invariant *)

Definition sel_inv (s : state) : Prop :=
  NoDup (selectedNotes s) /\ forall p, selectedNote s = Some p -> p ∈ selectedNotes s.

(** ** Theorems *)

Lemma sel_inv_set_notes (s : state) m : sel_inv s -> sel_inv (set_notes s m).
Proof. auto. Qed.

Lemma updateNote_state (id : string) (f : Note.t -> Note.t) (s : state) :
  result_state (run (updateNote id f) s) =
    match JsMap.get (notes s) id with Some n => set_notes s (JsMap.set (notes s) id (f n)) | None => s end.
Proof. unfold result_state, run, updateNote. destruct (JsMap.get (notes s) id); reflexivity. Qed.

Lemma bringToFront_sel (id : string) (s : state) :
  sel_inv s -> sel_inv (result_state (run (bringToFront id) s)).
Proof. intros H. unfold bringToFront, result_state, run, updateNote. case_match; auto. Qed.

Lemma sendToBack_sel (id : string) (s : state) :
  sel_inv s -> sel_inv (result_state (run (sendToBack id) s)).
Proof. intros H. unfold sendToBack, result_state, run, updateNote. case_match; auto. Qed.

Lemma deselectAll_sel (s : state) : sel_inv (result_state (run deselectAll s)).
Proof. split; simpl; [constructor | discriminate]. Qed.

Lemma addToSelection_sel (id : string) (s : state) :
  sel_inv s -> sel_inv (result_state (run (addToSelection id) s)).
Proof.
  intros [Hnd Hp]. unfold result_state, run, addToSelection, modify. simpl. split.
  - apply JsSet.add_NoDup. destruct (selectedNote s); [|auto].
    destruct (_ && _); auto using JsSet.add_NoDup.
  - intros p [= <-]. apply JsSet.elem_of_add. auto.
Qed.

Lemma removeFromSelection_sel (id : string) (s : state) :
  sel_inv s -> sel_inv (result_state (run (removeFromSelection id) s)).
Proof.
  intros [Hnd Hp]. unfold result_state, run, removeFromSelection, modify. simpl. split.
  - apply JsSet.delete_NoDup. exact Hnd.
  - intros p. destruct (selectedNote s) as [q|] eqn:Eq; [|discriminate].
    destruct (String.eqb_spec q id) as [->|Hne].
    + apply JsSet.first_elem.
    + intros [= <-]. apply JsSet.elem_of_delete. auto.
Qed.

#[export] Hint Resolve bringToFront_sel sendToBack_sel deselectAll_sel
  addToSelection_sel removeFromSelection_sel : canvas.

Lemma selectNote_sel (id : string) (add : bool) (s : state) :
  sel_inv s -> sel_inv (result_state (run (selectNote id add) s)).
Proof.
  intros H. unfold selectNote. rewrite state_bind. simpl.
  destruct (_ && _); [auto with canvas|].
  rewrite !state_bind. apply bringToFront_sel. split; simpl.
  - apply JsSet.add_NoDup. constructor.
  - intros p [= <-]. apply JsSet.elem_of_add. auto.
Qed.

Lemma addToSelection_fields (a : string) (s : state) :
  let s' := result_state (run (addToSelection a) s) in
  notes s' = notes s /\ selectedNote s' = Some a /\
  selectedNotes s' = JsSet.add (match selectedNote s with
               | Some p => if truthy (Some p) && negb (JsSet.has (selectedNotes s) p)
                           then JsSet.add (selectedNotes s) p else selectedNotes s
               | None => selectedNotes s end) a.
Proof. repeat split. Qed.

Lemma forEach_addToSelection (l : list string) (s : state) :
  NoDup (selectedNotes s ++ l) ->
  (forall p, selectedNote s = Some p -> p ∈ selectedNotes s) ->
  let s' := result_state (run (forEach l addToSelection) s) in
  notes s' = notes s /\ selectedNotes s' = selectedNotes s ++ l /\
  selectedNote s' = match last l with Some k => Some k | None => selectedNote s end.
Proof.
  revert s. induction l as [|a l IH]; intros s Hnd Hp; simpl.
  - rewrite app_nil_r. auto.
  - rewrite state_bind.
    assert (Hsel : match selectedNote s with
               | Some p => if truthy (Some p) && negb (JsSet.has (selectedNotes s) p)
                           then JsSet.add (selectedNotes s) p else selectedNotes s
               | None => selectedNotes s end = selectedNotes s).
    { destruct (selectedNote s) as [p|]; [|reflexivity].
      rewrite (proj2 (JsSet.has_spec _ _) (Hp p eq_refl)), andb_false_r. reflexivity. }
    apply NoDup_app in Hnd as (Hs & Hdis & Hl).
    apply NoDup_cons in Hl as [Ha Hl].
    assert (Hnot : a ∉ selectedNotes s) by (intros H; apply (Hdis a H); left).
    destruct (addToSelection_fields a s) as (F1 & F2 & F3).
    rewrite Hsel, JsSet.add_new in F3 by exact Hnot.
    set (s1 := result_state (run (addToSelection a) s)) in *.
    destruct (IH s1) as (E1 & E2 & E3).
    + rewrite F3, <- app_assoc. simpl.
      apply NoDup_app. split; [exact Hs|]. split.
      * intros x Hx Hx'. apply elem_of_cons in Hx' as [->|Hx']; [contradiction|].
        apply (Hdis x Hx). right. exact Hx'.
      * apply NoDup_cons. split; auto.
    + rewrite F2, F3. intros p [= <-]. apply elem_of_app. right. left.
    + simpl. rewrite E1, E2, E3, F1, F2, F3, <- app_assoc. repeat split; auto.
      destruct l as [|b l]; [reflexivity|].
      change (last (a :: b :: l)) with (last (b :: l)).
      destruct (last_cons_some b l) as [y Hy]. rewrite Hy. reflexivity.
Qed.

(** The effect of [bringToFront] / [sendToBack] on a stored note. *)
Lemma zorder_spec (id : string) (n : Note.t) (s : state) (z : Z) :
  JsMap.get (notes s) id = Some n ->
  let s' := set_notes s (JsMap.set (notes s) id (Note.with_zIndex n z)) in
  JsMap.get (notes s') id = Some (Note.with_zIndex n z) /\
  forall j, j <> id -> JsMap.get (notes s') j = JsMap.get (notes s) j.
Proof.
  intros Hn s'. simpl. split; [apply JsMap.get_set_eq|].
  intros j Hj. apply JsMap.get_set_ne. congruence.
Qed.

(** [bringToFront] puts a stored note strictly above every other
    stored note, and [sendToBack] strictly below every other one; other
    notes and the selection are untouched. *)
Theorem bringToFront_sendToBack_order (id : string) (n : Note.t) (s : state) :
  JsMap.get (notes s) id = Some n ->
  (let s' := result_state (run (bringToFront id) s) in
   exists n', JsMap.get (notes s') id = Some n' /\
   forall j m, j <> id -> JsMap.get (notes s') j = Some m -> (Note.zIndex m < Note.zIndex n')%Z) /\
  (let s' := result_state (run (sendToBack id) s) in
   exists n', JsMap.get (notes s') id = Some n' /\
   forall j m, j <> id -> JsMap.get (notes s') j = Some m -> (Note.zIndex n' < Note.zIndex m)%Z).
Proof.
  intros Hn. unfold bringToFront, sendToBack, result_state, run, updateNote. rewrite Hn. simpl.
  split; eexists; (split; [apply JsMap.get_set_eq|]); intros j m Hj Hm;
    rewrite JsMap.get_set_ne in Hm by congruence; apply JsMap.get_values in Hm; simpl.
  - pose proof (proj2 (getMaxZIndex_ge (notes s)) m Hm). lia.
  - pose proof (getMinZIndex_le (notes s) m Hm). lia.
Qed.

(** A plain click selection ([selectNote(id)] with no modifier) on a
    stored note makes it the only selected note and the primary one, and
    raises it above every other note. *)
Theorem selectNote_plain (id : string) (n : Note.t) (s : state) :
  JsMap.get (notes s) id = Some n ->
  let s' := result_state (run (selectNote id false) s) in
  selectedNotes s' = [id] /\ selectedNote s' = Some id /\
  exists n', JsMap.get (notes s') id = Some n' /\
  forall j m, j <> id -> JsMap.get (notes s') j = Some m -> (Note.zIndex m < Note.zIndex n')%Z.
Proof.
  intros Hn. unfold selectNote. rewrite state_bind. simpl. rewrite !state_bind. simpl.
  unfold bringToFront, result_state, run, updateNote. simpl. rewrite Hn. simpl.
  split; [reflexivity | split; [reflexivity|]].
  eexists; split; [apply JsMap.get_set_eq|]. intros j m Hj Hm.
  rewrite JsMap.get_set_ne in Hm by congruence. apply JsMap.get_values in Hm.
  pose proof (proj2 (getMaxZIndex_ge (notes s)) m Hm). simpl. lia.
Qed.

(** Removing a note from the selection (the Ctrl/Cmd-click toggle)
    drops exactly that note; if it was the primary selection, the first
    remaining selected note becomes primary (none if the set is empty). *)
Theorem removeFromSelection_spec (id : string) (s : state) :
  let s' := result_state (run (removeFromSelection id) s) in
  (forall k, k ∈ selectedNotes s' <-> k <> id /\ k ∈ selectedNotes s) /\
  (selectedNote s = Some id -> selectedNote s' = head (selectedNotes s')) /\
  (selectedNote s <> Some id -> selectedNote s' = selectedNote s).
Proof.
  simpl. split; [intros k; apply JsSet.elem_of_delete|]. split.
  - intros ->. rewrite String.eqb_refl. reflexivity.
  - intros Hne. destruct (selectedNote s) as [q|]; [|reflexivity].
    destruct (String.eqb_spec q id); [congruence | reflexivity].
Qed.

(** Select-all ([selectAllNotes], Ctrl/Cmd+A) selects every stored
    note, in map order, and the last one becomes the primary selection. *)
Theorem selectAllNotes_spec (s : state) :
  JsMap.wf (notes s) ->
  let s' := result_state (run selectAllNotes s) in
  selectedNotes s' = JsMap.keys (notes s) /\ selectedNote s' = last (JsMap.keys (notes s)).
Proof.
  intros Hwf. unfold selectAllNotes. rewrite !state_bind, state_get. simpl.
  destruct (forEach_addToSelection (JsMap.keys (notes s))
    (result_state (run deselectAll s))) as (_ & E2 & E3); simpl; [exact Hwf | discriminate |].
  simpl in E2, E3. rewrite E2, E3. split; [reflexivity|].
  destruct (last (JsMap.keys (notes s))); reflexivity.
Qed.

Lemma selectAllNotes_sel (s : state) : sel_inv (result_state (run selectAllNotes s)).
Proof.
  unfold selectAllNotes. rewrite !state_bind, state_get. simpl.
  apply forEach_invariant; [auto with canvas | apply deselectAll_sel].
Qed.

(** Every selection method keeps the two selection fields in step:
    the selection set has no duplicates and the primary selection, when
    set, belongs to it. *)
Theorem selection_methods_keep_sel_inv (s : state) (id : string) (add : bool) :
  sel_inv s ->
  sel_inv (result_state (run deselectAll s)) /\
  sel_inv (result_state (run (addToSelection id) s)) /\
  sel_inv (result_state (run (removeFromSelection id) s)) /\
  sel_inv (result_state (run (selectNote id add) s)) /\
  sel_inv (result_state (run selectAllNotes s)) /\
  sel_inv (result_state (run (bringToFront id) s)) /\
  sel_inv (result_state (run (sendToBack id) s)).
Proof.
  intros H. repeat split;
    try apply deselectAll_sel; try apply selectAllNotes_sel;
    first [ apply addToSelection_sel | apply removeFromSelection_sel | apply selectNote_sel
          | apply bringToFront_sel | apply sendToBack_sel ]; exact H.
Qed.

(** *** Witnesses at concrete inputs *)

Lemma demo_sel_inv : sel_inv demo_scene.
Proof. split; [by_decide | intros p Hp; injection Hp as <-; by_decide]. Qed.

Lemma bringToFront_sendToBack_order_witness :
  let s := demo_scene in
  JsMap.get (notes s) "note_1" = Some (demo_note "note_1" 0 0 1) /\
  (let s' := result_state (run (bringToFront "note_1") s) in
   exists n', JsMap.get (notes s') "note_1" = Some n' /\
   forall j m, j <> "note_1" -> JsMap.get (notes s') j = Some m -> (Note.zIndex m < Note.zIndex n')%Z) /\
  (let s' := result_state (run (sendToBack "note_1") s) in
   exists n', JsMap.get (notes s') "note_1" = Some n' /\
   forall j m, j <> "note_1" -> JsMap.get (notes s') j = Some m -> (Note.zIndex n' < Note.zIndex m)%Z).
Proof.
  intros s. assert (H : JsMap.get (notes s) "note_1" = Some (demo_note "note_1" 0 0 1)) by reflexivity.
  split; [exact H | exact (bringToFront_sendToBack_order "note_1" _ s H)].
Defined.

Lemma selectNote_plain_witness :
  let s := demo_scene in
  JsMap.get (notes s) "note_3" = Some (demo_note "note_3" 0 300 3) /\
  (let s' := result_state (run (selectNote "note_3" false) s) in
   selectedNotes s' = ["note_3"] /\ selectedNote s' = Some "note_3" /\
   exists n', JsMap.get (notes s') "note_3" = Some n' /\
   forall j m, j <> "note_3" -> JsMap.get (notes s') j = Some m -> (Note.zIndex m < Note.zIndex n')%Z).
Proof.
  intros s. assert (H : JsMap.get (notes s) "note_3" = Some (demo_note "note_3" 0 300 3)) by reflexivity.
  split; [exact H | exact (selectNote_plain "note_3" _ s H)].
Defined.

Lemma selectAllNotes_spec_witness :
  let s := demo_scene in
  JsMap.wf (notes s) /\
  (let s' := result_state (run selectAllNotes s) in
   selectedNotes s' = JsMap.keys (notes s) /\ selectedNote s' = last (JsMap.keys (notes s))).
Proof.
  intros s. assert (H : JsMap.wf (notes s)) by (unfold JsMap.wf; by_decide).
  split; [exact H | exact (selectAllNotes_spec s H)].
Defined.

Lemma selection_methods_keep_sel_inv_witness :
  let s := demo_scene in
  sel_inv s /\
  sel_inv (result_state (run deselectAll s)) /\
  sel_inv (result_state (run (addToSelection "note_3") s)) /\
  sel_inv (result_state (run (removeFromSelection "note_3") s)) /\
  sel_inv (result_state (run (selectNote "note_3" true) s)) /\
  sel_inv (result_state (run selectAllNotes s)) /\
  sel_inv (result_state (run (bringToFront "note_3") s)) /\
  sel_inv (result_state (run (sendToBack "note_3") s)).
Proof. split; [exact demo_sel_inv | exact (selection_methods_keep_sel_inv demo_scene "note_3" true demo_sel_inv)]. Defined.

End Selection.
