(* ===== verification/Scene.v ===== *)
(** * Scene: creating, copying, deleting, moving and loading notes

    The scene methods of [NotesManager] (src/Downloads/yt/js/notes.js):
    [createTextNote] and [createImageNote] (78-122), [deleteNote]
    (1049-1058), [duplicateNote] (1060-1077), [deleteSelectedNotes],
    [duplicateSelectedNotes], [moveSelectedNotes] (1222-1329), the text
    branch of [handlePaste] (1331-1373), [handleContextMenuAction]
    (1460-1485), [loadNotes] and [exportNotes] (1487-1509),
    [getNotesInViewport] (1511-1521), which reads the viewport, and the
    textarea's input listener of [renderNote] (147-151).

    Theorems: generated ids never collide with stored ones once
    [loadNotes] has reset the counter ([ids_fresh]); each bulk command
    does what the spec says to the notes it targets and raises one
    "note-modified" signal, except the context menu, which raises two;
    [loadNotes] leaves a stale selection; load/export round trip; every
    note is stored under its own id ([ids_match]); typing changes only
    the note typed in. *)

From stdpp Require Import sets.
From S2P Require Import Prelude Events Viewport JsCollections NoteId NoteState Selection.

Module Scene.
Import Notes Selection.
Local Open Scope notes_scope.

(** ** Creating notes *)

Definition newline : string := String (Ascii.ascii_of_nat 10) EmptyString.

(** The content of a new text note, ["# New Note\n\nClick to edit..."]. *)
Definition newNoteContent : string :=
  String.append "# New Note" (String.append newline (String.append newline "Click to edit...")).

(** [createTextNote(x, y)] (notes.js 78-99): the id takes the counter,
    the note goes on top, then [selectNote] selects and raises it.  The
    returned note is the stored object: its id. *)
Definition createTextNote (now : Z) (x y : Q) : M string :=
  s <- get ;;
  let id := NoteId.noteIdOf (nextId s) in
  let note := Note.mk id Note.Text x y 300 200 newNoteContent None
                      (getMaxZIndex (notes s) + 1)%Z now now in
  modify (fun s => set_notes (set_nextId s (nextId s + 1)%Z) (JsMap.set (notes s) id note)) ;;;
  selectNote id false ;;;
  ret id.

(** [createImageNote(x, y, imageData, originalFile)] (notes.js 101-122). *)
Definition createImageNote (now : Z) (x y : Q) (imageData : string) (originalSize : option Z) : M string :=
  s <- get ;;
  let id := NoteId.noteIdOf (nextId s) in
  let note := Note.mk id Note.Image x y 300 200 imageData originalSize
                      (getMaxZIndex (notes s) + 1)%Z now now in
  modify (fun s => set_notes (set_nextId s (nextId s + 1)%Z) (JsMap.set (notes s) id note)) ;;;
  selectNote id false ;;;
  ret id.

(** ** Copies *)

(** The copy [{...originalNote, id, x: x + 20, y: y + 20, zIndex,
    created, modified}]. *)
Definition copyOf (orig : Note.t) (newId : string) (z now : Z) : Note.t :=
  Note.mk newId (Note.type orig) (Note.x orig + 20) (Note.y orig + 20)
          (Note.width orig) (Note.height orig) (Note.content orig) (Note.originalSize orig) z now now.

(** The copy step shared by [duplicateNote] and [duplicateSelectedNotes]
    (notes.js 1061-1074, 1256-1269): nothing for a missing note. *)
Definition duplicateOne (now : Z) (noteId : string) : M (option string) :=
  s <- get ;;
  match JsMap.get (notes s) noteId with
  | None => ret None
  | Some orig =>
      let newId := NoteId.noteIdOf (nextId s) in
      modify (fun s => set_notes (set_nextId s (nextId s + 1)%Z)
                 (JsMap.set (notes s) newId (copyOf orig newId (getMaxZIndex (notes s) + 1)%Z now))) ;;;
      ret (Some newId)
  end.

(** [duplicateNote(noteId)] (notes.js 1060-1077). *)
Definition duplicateNote (now : Z) (noteId : string) : M unit :=
  r <- duplicateOne now noteId ;;
  match r with
  | Some newId => selectNote newId false
  | None => ret tt
  end.

(** [list.forEach] that collects what each step pushes. *)
Fixpoint forEachCollect {A B} (l : list A) (f : A -> M (option B)) : M (list B) :=
  match l with
  | [] => ret []
  | a :: l' =>
      r <- f a ;;
      rest <- forEachCollect l' f ;;
      ret (match r with Some b => b :: rest | None => rest end)
  end.

(** ** Commands on the selection *)

(** [selectedNotes.size > 0 ? Array.from(selectedNotes)
    : selectedNote ? [selectedNote] : []] (notes.js 1223-1228 and
    three more places). *)
Definition targets (s : state) : list string :=
  if (0 <? JsSet.size (selectedNotes s))%nat then selectedNotes s
  else match selectedNote s with
       | Some p => if truthy (Some p) then [p] else []
       | None => []
       end.

(** [deleteNote(noteId)] (notes.js 1049-1058): the selection set is not
    touched. *)
Definition deleteNote (noteId : string) : M unit :=
  modify (fun s =>
    let s1 := set_notes s (JsMap.delete (notes s) noteId) in
    match selectedNote s with
    | Some p => if String.eqb p noteId then set_selection s1 None (selectedNotes s) else s1
    | None => s1
    end).

(** [deleteSelectedNotes()] (notes.js 1222-1243). *)
Definition deleteSelectedNotes : M unit :=
  s <- get ;;
  forEach (targets s) (fun id => modify (fun s => set_notes s (JsMap.delete (notes s) id))) ;;;
  modify (fun s => set_selection s None []) ;;;
  emit NoteModified.

(** [duplicateSelectedNotes()] (notes.js 1245-1282). *)
Definition duplicateSelectedNotes (now : Z) : M unit :=
  s <- get ;;
  newIds <- forEachCollect (targets s) (duplicateOne now) ;;
  deselectAll ;;;
  forEach newIds addToSelection ;;;
  emit NoteModified.

(** The direction switch of [moveSelectedNotes] (notes.js 1299-1315). *)
Definition moveDelta (direction : string) (distance : Q) : Q * Q :=
  if String.eqb direction "ArrowUp" then (0, - distance)
  else if String.eqb direction "ArrowDown" then (0, distance)
  else if String.eqb direction "ArrowLeft" then (- distance, 0)
  else if String.eqb direction "ArrowRight" then (distance, 0)
  else (0, 0).

(** [moveSelectedNotes(direction, distance)] (notes.js 1291-1329). *)
Definition moveSelectedNotes (now : Z) (direction : string) (distance : Q) : M unit :=
  s <- get ;;
  let '(deltaX, deltaY) := moveDelta direction distance in
  forEach (targets s) (fun id =>
    updateNote id (fun n => Note.with_pos n (Note.x n + deltaX) (Note.y n + deltaY) now)) ;;;
  emit NoteModified.

(** [handleContextMenuAction(action, noteId)] (notes.js 1460-1485). *)
Definition handleContextMenuAction (now : Z) (action noteId : string) : M unit :=
  s <- get ;;
  let selected := targets s in
  (if String.eqb action "duplicate" then duplicateSelectedNotes now
   else if String.eqb action "delete" then deleteSelectedNotes
   else if String.eqb action "bring-front" then forEach selected bringToFront
   else if String.eqb action "send-back" then forEach selected sendToBack
   else ret tt) ;;;
  emit NoteModified.

(** ** Paste *)

(** An entry of [e.clipboardData.items]: its MIME type, its payload
    (the pasted text, or the compressed image data) and the size of
    [item.getAsFile()] ([None] when it returns [null]). *)
Record clipItem := mkClipItem { itemType : string; payload : string; fileSize : option Z }.

Definition isImageType (t : string) : bool :=
  match String.index 0 "image" t with Some _ => true | None => false end.

(** [handlePaste(e)] (notes.js 1331-1373), with the canvas centre in
    world coordinates [(cx, cy)]: the first image item becomes an image
    note; a text item, when no note is selected, a text note whose
    content is then set through the returned object. *)
Fixpoint handlePaste (now : Z) (cx cy : Q) (items : list clipItem) : M unit :=
  match items with
  | [] => ret tt
  | item :: rest =>
      if isImageType (itemType item) then
        match fileSize item with
        | Some size => createImageNote now (cx - 150) (cy - 100) (payload item) (Some size) ;;; ret tt
        | None => ret tt
        end
      else
        s <- get ;;
        if String.eqb (itemType item) "text/plain" && negb (truthy (selectedNote s)) then
          id <- createTextNote now (cx - 150) (cy - 100) ;;
          updateNote id (fun n => Note.with_content n (payload item))
        else handlePaste now cx cy rest
  end.

(** ** Typing in a text note *)

(** [note.content = textarea.value; note.modified = Date.now()] *)
Definition typedNote (n : Note.t) (value : string) (now : Z) : Note.t :=
  Note.mk (Note.id n) (Note.type n) (Note.x n) (Note.y n) (Note.width n) (Note.height n)
          value (Note.originalSize n) (Note.zIndex n) (Note.created n) now.

(** The [input] listener [renderNote] puts on a text note's textarea
    (notes.js 133, 147-151): it updates the stored note object the
    closure holds and raises "note-modified".  Only text notes have the
    listener, and a deleted note's element is gone with it. *)
Definition handleTextInput (now : Z) (noteId value : string) : M unit :=
  s <- get ;;
  match JsMap.get (notes s) noteId with
  | Some n =>
      match Note.type n with
      | Note.Text => updateNote noteId (fun n => typedNote n value now) ;;; emit NoteModified
      | Note.Image => ret tt
      end
  | None => ret tt
  end.

(** ** Load and export *)

(** [Math.max(...zs)] of a non-empty list. *)
Definition listMax (z : Z) (zs : list Z) : Z := fold_left Z.max zs z.

(** [loadNotes(notesData)] (notes.js 1487-1505): replaces the map, keeps
    the selection, and resets the counter past the largest id number when
    something was loaded. *)
Definition loadNotes (notesData : list Note.t) : M unit :=
  modify (fun s => set_notes s JsMap.empty) ;;;
  match notesData with
  | [] => ret tt
  | n0 :: rest =>
      forEach notesData (fun nd => modify (fun s => set_notes s (JsMap.set (notes s) (Note.id nd) nd))) ;;;
      let maxId := listMax (NoteId.idNumber (Note.id n0)) (map (fun n => NoteId.idNumber (Note.id n)) rest) in
      modify (fun s => set_nextId s (maxId + 1)%Z)
  end.

(** [exportNotes()] (notes.js 1507-1509). *)
Definition exportNotes (s : state) : list Note.t := JsMap.values (notes s).

(** [getNotesInViewport()] (notes.js 1511-1521). *)
Definition getNotesInViewport (r : Canvas.rect) (c : Canvas.state) (s : state) : list Note.t :=
  let v := Canvas.getViewportBounds r c in
  filter (fun n => negb (Qltb (Canvas.vright v) (Note.x n) ||
                         Qltb (Note.x n + Note.width n) (Canvas.vleft v) ||
                         Qltb (Canvas.vbottom v) (Note.y n) ||
                         Qltb (Note.y n + Note.height n) (Canvas.vtop v)))
         (JsMap.values (notes s)).

(** ** The id invariant *)

(** Every stored id reads back a number below the counter, and keys are
    unique. *)
Definition ids_fresh (s : state) : Prop :=
  JsMap.wf (notes s) /\ forall k, k ∈ JsMap.keys (notes s) -> (NoteId.idNumber k < nextId s)%Z.

(** Every note is stored under its own id: [this.notes.get(id)] and the
    element [getElementById(note.id)] name the same note. *)
Definition keyed (m : @JsMap.t string Note.t) : Prop :=
  forall k n, JsMap.get m k = Some n -> Note.id n = k.

Definition ids_match (s : state) : Prop := keyed (notes s).

(** A method keeps the id invariant. *)
Abbreviation keeps_fresh := (preserves ids_fresh).

(** ** Folds the loops compute *)

(** The notes after the [notesData.forEach] of [loadNotes]. *)
Definition storeAll (l : list Note.t) (m : @JsMap.t string Note.t) : @JsMap.t string Note.t :=
  fold_left (fun m nd => JsMap.set m (Note.id nd) nd) l m.

(** The notes after the deleting loop of [deleteSelectedNotes]. *)
Definition deleteAll (l : list string) (m : @JsMap.t string Note.t) : @JsMap.t string Note.t :=
  fold_left JsMap.delete l m.

(** The notes after a loop that updates each listed stored note [n]
    under id [k] to [f k n]. *)
Definition updateAll (l : list string) (f : string -> Note.t -> Note.t) (m : @JsMap.t string Note.t) : @JsMap.t string Note.t :=
  fold_left (fun m id => match JsMap.get m id with Some n => JsMap.set m id (f id n) | None => m end) l m.

(** ** The scene's methods as commands *)

Inductive command :=
| CreateText (now : Z) (x y : Q)
| CreateImage (now : Z) (x y : Q) (imageData : string) (size : option Z)
| DeleteNote (noteId : string)
| DuplicateNote (now : Z) (noteId : string)
| DeleteSelected
| DuplicateSelected (now : Z)
| MoveSelected (now : Z) (direction : string) (distance : Q)
| ContextMenu (now : Z) (action noteId : string)
| Paste (now : Z) (cx cy : Q) (items : list clipItem)
| Load (notesData : list Note.t)
| SelectNote (noteId : string) (addToSel : bool)
| RemoveFromSelection (noteId : string)
| DeselectAll
| SelectAll
| BringToFront (noteId : string)
| SendToBack (noteId : string)
| TextInput (now : Z) (noteId value : string).

Definition exec (c : command) : M unit :=
  match c with
  | CreateText now x y => createTextNote now x y ;;; ret tt
  | CreateImage now x y d sz => createImageNote now x y d sz ;;; ret tt
  | DeleteNote id => deleteNote id
  | DuplicateNote now id => duplicateNote now id
  | DeleteSelected => deleteSelectedNotes
  | DuplicateSelected now => duplicateSelectedNotes now
  | MoveSelected now dir d => moveSelectedNotes now dir d
  | ContextMenu now a id => handleContextMenuAction now a id
  | Paste now cx cy items => handlePaste now cx cy items
  | Load data => loadNotes data
  | SelectNote id add => selectNote id add
  | RemoveFromSelection id => removeFromSelection id
  | DeselectAll => deselectAll
  | SelectAll => selectAllNotes
  | BringToFront id => bringToFront id
  | SendToBack id => sendToBack id
  | TextInput now id v => handleTextInput now id v
  end.

(** States the manager reaches from its constructor. *)
Inductive reachable : state -> Prop :=
| reach_init : reachable init
| reach_exec (c : command) (s : state) : reachable s -> reachable (result_state (run (exec c) s)).

(** ** Freshness of generated ids *)

Lemma alloc_new (s : state) :
  ids_fresh s -> JsMap.has (notes s) (NoteId.noteIdOf (nextId s)) = false.
Proof.
  intros [_ H]. destruct (JsMap.has _ _) eqn:E; [|reflexivity].
  apply JsMap.elem_of_keys, H in E. rewrite NoteId.idNumber_noteIdOf in E. lia.
Qed.

(** Storing a note under the counter's id and bumping the counter. *)
Lemma ids_fresh_init : ids_fresh init.
Proof. split; [constructor | intros k Hk; apply elem_of_nil in Hk; contradiction]. Qed.

Lemma alloc_fresh (s : state) (n : Note.t) :
  ids_fresh s ->
  ids_fresh (set_notes (set_nextId s (nextId s + 1)%Z) (JsMap.set (notes s) (NoteId.noteIdOf (nextId s)) n)).
Proof.
  intros H. pose proof (alloc_new s H) as Hnew. destruct H as [Hwf H]. split; simpl.
  - apply JsMap.set_wf, Hwf.
  - rewrite JsMap.keys_set_new by exact Hnew. intros k Hk.
    apply elem_of_app in Hk as [Hk|Hk].
    + specialize (H k Hk). lia.
    + apply list_elem_of_singleton in Hk as ->. rewrite NoteId.idNumber_noteIdOf. lia.
Qed.

Lemma ids_fresh_same_keys (s s' : state) :
  JsMap.keys (notes s') = JsMap.keys (notes s) -> nextId s' = nextId s -> ids_fresh s -> ids_fresh s'.
Proof. intros Hk Hn [Hwf H]. unfold ids_fresh, JsMap.wf. rewrite Hk, Hn. auto. Qed.

(** Methods that leave the map's keys and the counter alone. *)
Lemma keeps_fresh_frame {A} (m : M A) :
  (forall s, JsMap.keys (notes (result_state (run m s))) = JsMap.keys (notes s) /\
             nextId (result_state (run m s)) = nextId s) -> keeps_fresh m.
Proof. intros Hm s H. destruct (Hm s). eapply ids_fresh_same_keys; eauto. Qed.

Lemma updateNote_frame (id : string) (f : Note.t -> Note.t) (s : state) :
  JsMap.keys (notes (result_state (run (updateNote id f) s))) = JsMap.keys (notes s) /\
  nextId (result_state (run (updateNote id f) s)) = nextId s.
Proof.
  rewrite Selection.updateNote_state. destruct (JsMap.get (notes s) id) eqn:E; [|auto].
  split; [|reflexivity]. simpl. apply JsMap.keys_set_has. unfold JsMap.has. rewrite E. reflexivity.
Qed.

Lemma keeps_fresh_updateNote (id : string) (f : Note.t -> Note.t) : keeps_fresh (updateNote id f).
Proof. apply keeps_fresh_frame. apply updateNote_frame. Qed.

Lemma keeps_fresh_bringToFront (id : string) : keeps_fresh (bringToFront id).
Proof. apply keeps_fresh_frame. intros s. apply updateNote_frame. Qed.

Lemma keeps_fresh_sendToBack (id : string) : keeps_fresh (sendToBack id).
Proof. apply keeps_fresh_frame. intros s. apply updateNote_frame. Qed.

Lemma keeps_fresh_deselectAll : keeps_fresh deselectAll.
Proof. apply keeps_fresh_frame. auto. Qed.

Lemma keeps_fresh_addToSelection (id : string) : keeps_fresh (addToSelection id).
Proof. apply keeps_fresh_frame. auto. Qed.

Lemma keeps_fresh_removeFromSelection (id : string) : keeps_fresh (removeFromSelection id).
Proof. apply keeps_fresh_frame. auto. Qed.

Lemma keeps_fresh_delete_modify (id : string) :
  keeps_fresh (modify (fun s => set_notes s (JsMap.delete (notes s) id))).
Proof.
  intros s [Hwf H]. split; simpl; [apply JsMap.delete_wf, Hwf|].
  intros k Hk%JsMap.keys_delete_sub. auto.
Qed.

Lemma keeps_fresh_selection_modify (f : state -> option string) (g : state -> @JsSet.t string) :
  keeps_fresh (modify (fun s => set_selection s (f s) (g s))).
Proof. apply keeps_fresh_frame. auto. Qed.

Create HintDb fresh.

#[export] Hint Resolve preserves_bind preserves_ret preserves_get preserves_emit
  preserves_if preserves_forEach keeps_fresh_updateNote keeps_fresh_bringToFront
  keeps_fresh_sendToBack keeps_fresh_deselectAll keeps_fresh_addToSelection
  keeps_fresh_removeFromSelection keeps_fresh_delete_modify keeps_fresh_selection_modify : fresh.

Lemma keeps_fresh_selectNote (id : string) (add : bool) : keeps_fresh (selectNote id add).
Proof. unfold selectNote. auto with fresh. Qed.

Lemma keeps_fresh_selectAllNotes : keeps_fresh selectAllNotes.
Proof. unfold selectAllNotes. auto with fresh. Qed.

#[export] Hint Resolve keeps_fresh_selectNote keeps_fresh_selectAllNotes : fresh.

Lemma keeps_fresh_createTextNote (now : Z) (x y : Q) : keeps_fresh (createTextNote now x y).
Proof.
  intros s H. unfold createTextNote. rewrite state_bind, state_get. cbn beta zeta. rewrite state_bind.
  apply (preserves_bind _ _ _ (keeps_fresh_selectNote _ _) (fun _ => preserves_ret _ _)).
  exact (alloc_fresh s _ H).
Qed.

Lemma keeps_fresh_createImageNote (now : Z) (x y : Q) (d : string) (sz : option Z) :
  keeps_fresh (createImageNote now x y d sz).
Proof.
  intros s H. unfold createImageNote. rewrite state_bind, state_get. cbn beta zeta. rewrite state_bind.
  apply (preserves_bind _ _ _ (keeps_fresh_selectNote _ _) (fun _ => preserves_ret _ _)).
  exact (alloc_fresh s _ H).
Qed.

Lemma keeps_fresh_duplicateOne (now : Z) (id : string) : keeps_fresh (duplicateOne now id).
Proof.
  intros s H. unfold duplicateOne. rewrite state_bind, state_get. simpl.
  destruct (JsMap.get (notes s) id); [rewrite state_bind; apply alloc_fresh|]; exact H.
Qed.

Lemma preserves_forEachCollect (P : state -> Prop) {A B} (l : list A) (f : A -> M (option B)) :
  (forall a, preserves P (f a)) -> preserves P (forEachCollect l f).
Proof. intros Hf. induction l as [|a l IH]; simpl; auto with preserve. Qed.

Lemma keeps_fresh_deleteNote (id : string) : keeps_fresh (deleteNote id).
Proof.
  intros s [Hwf H]. unfold deleteNote, result_state, run, modify. simpl.
  assert (Hd : ids_fresh (set_notes s (JsMap.delete (notes s) id))).
  { split; simpl; [apply JsMap.delete_wf, Hwf | intros k Hk%JsMap.keys_delete_sub; auto]. }
  destruct (selectedNote s) as [p|]; [destruct (String.eqb p id)|]; [|exact Hd..].
  eapply ids_fresh_same_keys; [| |exact Hd]; reflexivity.
Qed.

#[export] Hint Resolve keeps_fresh_createTextNote keeps_fresh_createImageNote
  keeps_fresh_duplicateOne preserves_forEachCollect keeps_fresh_deleteNote : fresh.

Lemma keeps_fresh_duplicateNote (now : Z) (id : string) : keeps_fresh (duplicateNote now id).
Proof. unfold duplicateNote. apply preserves_bind; [auto with fresh|]. intros [a|]; auto with fresh. Qed.

Lemma keeps_fresh_deleteSelectedNotes : keeps_fresh deleteSelectedNotes.
Proof. unfold deleteSelectedNotes. auto with fresh. Qed.

Lemma keeps_fresh_duplicateSelectedNotes (now : Z) : keeps_fresh (duplicateSelectedNotes now).
Proof. unfold duplicateSelectedNotes. auto 8 with fresh. Qed.

Lemma keeps_fresh_moveSelectedNotes (now : Z) (dir : string) (d : Q) :
  keeps_fresh (moveSelectedNotes now dir d).
Proof.
  unfold moveSelectedNotes. apply preserves_bind; [auto with fresh|].
  intros s. destruct (moveDelta dir d). auto with fresh.
Qed.

Lemma keeps_fresh_handleContextMenuAction (now : Z) (action id : string) :
  keeps_fresh (handleContextMenuAction now action id).
Proof.
  unfold handleContextMenuAction. apply preserves_bind; [auto with fresh|]. intros s.
  apply preserves_bind; [|auto with fresh].
  repeat apply preserves_if; auto using keeps_fresh_duplicateSelectedNotes, keeps_fresh_deleteSelectedNotes with fresh.
Qed.

Lemma keeps_fresh_handlePaste (now : Z) (cx cy : Q) (items : list clipItem) :
  keeps_fresh (handlePaste now cx cy items).
Proof.
  induction items as [|it items IH]; simpl; [auto with fresh|].
  apply preserves_if; [destruct (fileSize it)|]; auto with fresh.
Qed.

(** ** Loading *)

Lemma forEach_store (l : list Note.t) (s : state) :
  result_state (run (forEach l (fun nd => modify (fun s => set_notes s (JsMap.set (notes s) (Note.id nd) nd)))) s) =
  set_notes s (storeAll l (notes s)).
Proof.
  revert s. induction l as [|a l IH]; intros s; simpl.
  - destruct s; reflexivity.
  - rewrite state_bind. simpl. rewrite IH. reflexivity.
Qed.

Lemma storeAll_keys (l : list Note.t) (m : @JsMap.t string Note.t) (k : string) :
  k ∈ JsMap.keys (storeAll l m) -> k ∈ JsMap.keys m \/ In k (map Note.id l).
Proof.
  revert m. induction l as [|a l IH]; intros m Hk; simpl in *; [auto|].
  destruct (IH _ Hk) as [H|H]; [|auto].
  apply JsMap.keys_set_sub in H as [->|H]; auto.
Qed.

Lemma storeAll_wf (l : list Note.t) (m : @JsMap.t string Note.t) : JsMap.wf m -> JsMap.wf (storeAll l m).
Proof. revert m. induction l as [|a l IH]; intros m H; simpl; auto using JsMap.set_wf. Qed.

(** With distinct ids, storing appends in order. *)
Lemma storeAll_app (l : list Note.t) (m : @JsMap.t string Note.t) :
  NoDup (JsMap.keys m ++ map Note.id l) ->
  storeAll l m = m ++ map (fun n => (Note.id n, n)) l.
Proof.
  revert m. induction l as [|a l IH]; intros m Hnd; simpl; [rewrite app_nil_r; reflexivity|].
  assert (Ha : JsMap.has m (Note.id a) = false).
  { apply not_true_iff_false. rewrite <- JsMap.elem_of_keys. intros Hin.
    apply NoDup_app in Hnd as (_ & Hdis & _). apply (Hdis _ Hin). left. }
  rewrite JsMap.set_new_app by exact Ha. rewrite IH, <- app_assoc; [reflexivity|].
  unfold JsMap.keys in *. rewrite map_app, <- app_assoc. exact Hnd.
Qed.

Lemma listMax_ge (z : Z) (zs : list Z) :
  (z <= listMax z zs)%Z /\ forall w, In w zs -> (w <= listMax z zs)%Z.
Proof.
  unfold listMax. revert z. induction zs as [|a zs IH]; intros z; simpl; [split; [lia | tauto]|].
  destruct (IH (Z.max z a)) as [H1 H2]. split; [lia|]. intros w [->|Hw]; [lia | auto].
Qed.

Lemma loadNotes_state (data : list Note.t) (s : state) :
  result_state (run (loadNotes data) s) =
  match data with
  | [] => set_notes s JsMap.empty
  | n0 :: rest => set_nextId (set_notes s (storeAll data JsMap.empty))
                    (listMax (NoteId.idNumber (Note.id n0)) (map (fun n => NoteId.idNumber (Note.id n)) rest) + 1)%Z
  end.
Proof.
  unfold loadNotes. rewrite state_bind. destruct data as [|n0 rest]; [reflexivity|].
  rewrite state_bind. change (result_state (run (modify _) s)) with (set_notes s JsMap.empty).
  rewrite forEach_store. reflexivity.
Qed.

Lemma loadNotes_exported (data : list Note.t) (s : state) :
  NoDup (map Note.id data) ->
  exportNotes (result_state (run (loadNotes data) s)) = data /\
  JsMap.keys (notes (result_state (run (loadNotes data) s))) = map Note.id data.
Proof.
  intros Hnd. rewrite loadNotes_state. destruct data as [|n0 rest]; [split; reflexivity|].
  cbn [notes set_nextId set_notes]. unfold exportNotes, JsMap.values, JsMap.keys.
  rewrite storeAll_app by exact Hnd. simpl. rewrite !map_map. simpl. rewrite map_id. auto.
Qed.


(** Whatever was loaded, the id invariant holds afterwards. *)
Lemma loadNotes_ids_fresh (data : list Note.t) (s : state) : ids_fresh (result_state (run (loadNotes data) s)).
Proof.
  rewrite loadNotes_state. destruct data as [|n0 rest].
  - split; [constructor | intros k Hk; apply elem_of_nil in Hk; contradiction].
  - split; cbn [notes nextId set_notes set_nextId]; [apply storeAll_wf; constructor|].
    intros k Hk. apply storeAll_keys in Hk as [Hk|Hk]; [apply elem_of_nil in Hk; contradiction|].
    destruct (listMax_ge (NoteId.idNumber (Note.id n0)) (map (fun n => NoteId.idNumber (Note.id n)) rest)) as [H1 H2].
    simpl in Hk. destruct Hk as [<-|Hk]; [lia|].
    apply in_map_iff in Hk as (n & <- & Hn).
    specialize (H2 (NoteId.idNumber (Note.id n))). rewrite in_map_iff in H2.
    assert (NoteId.idNumber (Note.id n) <= listMax (NoteId.idNumber (Note.id n0)) (map (fun n => NoteId.idNumber (Note.id n)) rest))%Z
      by (apply H2; eauto). lia.
Qed.

(** ** Loops over the targets *)

Lemma signals_forEach_silent {A} (l : list A) (f : A -> M unit) (s : state) :
  (forall a s0, signals (run (f a) s0) = []) -> signals (run (forEach l f) s) = [].
Proof.
  intros Hf. revert s. induction l as [|a l IH]; intros s; [reflexivity|].
  simpl. rewrite signals_bind, Hf, IH. reflexivity.
Qed.

Lemma signals_updateNote (id : string) (f : Note.t -> Note.t) (s : state) :
  signals (run (updateNote id f) s) = [].
Proof. unfold signals, run, updateNote. destruct (JsMap.get (notes s) id); reflexivity. Qed.

Lemma forEach_deleteAll (l : list string) (s : state) :
  result_state (run (forEach l (fun id => modify (fun s => set_notes s (JsMap.delete (notes s) id)))) s) =
  set_notes s (deleteAll l (notes s)).
Proof.
  revert s. induction l as [|a l IH]; intros s; simpl; [destruct s; reflexivity|].
  rewrite state_bind. simpl. rewrite IH. reflexivity.
Qed.

Lemma deleteAll_get (l : list string) (m : @JsMap.t string Note.t) (k : string) :
  JsMap.get (deleteAll l m) k = if decide (k ∈ l) then None else JsMap.get m k.
Proof.
  unfold deleteAll. revert m. induction l as [|a l IH]; intros m; simpl; [reflexivity|].
  rewrite IH. destruct (decide (k = a)) as [->|Hne];
    [rewrite JsMap.get_delete_eq | rewrite JsMap.get_delete_ne by congruence];
    repeat case_decide; auto; set_solver.
Qed.

Lemma deleteAll_size (l : list string) (m : @JsMap.t string Note.t) :
  JsMap.wf m -> NoDup l -> (forall k, k ∈ l -> k ∈ JsMap.keys m) ->
  JsMap.size (deleteAll l m) = (JsMap.size m - length l)%nat /\ JsMap.wf (deleteAll l m).
Proof.
  unfold deleteAll. revert m. induction l as [|a l IH]; intros m Hwf Hnd Hin; simpl; [split; [lia | exact Hwf]|].
  apply NoDup_cons in Hnd as [Ha Hnd].
  assert (Hsz : JsMap.size (JsMap.delete m a) = (JsMap.size m - 1)%nat).
  { apply JsMap.size_delete_in; [exact Hwf | apply Hin, elem_of_cons; auto]. }
  destruct (IH (JsMap.delete m a)) as [H1 H2]; [apply JsMap.delete_wf, Hwf | exact Hnd | |].
  - intros k Hk. apply JsMap.keys_delete_in. split; [intros ->; contradiction|].
    apply Hin, elem_of_cons. auto.
  - assert (Ha' : a ∈ JsMap.keys m) by (apply Hin, elem_of_cons; auto).
    split; [|exact H2]. rewrite H1, Hsz. pose proof (JsMap.size_keys_in m a Ha'). lia.
Qed.

Lemma forEach_updateAll (l : list string) (f : string -> Note.t -> Note.t) (s : state) :
  result_state (run (forEach l (fun id => updateNote id (f id))) s) = set_notes s (updateAll l f (notes s)).
Proof.
  revert s. induction l as [|a l IH]; intros s; simpl; [destruct s; reflexivity|].
  rewrite state_bind, Selection.updateNote_state. simpl.
  destruct (JsMap.get (notes s) a); rewrite IH; [reflexivity|]. destruct s; reflexivity.
Qed.

Lemma updateAll_get (l : list string) (f : string -> Note.t -> Note.t) (m : @JsMap.t string Note.t) (k : string) :
  NoDup l ->
  JsMap.get (updateAll l f m) k = if decide (k ∈ l) then option_map (f k) (JsMap.get m k) else JsMap.get m k.
Proof.
  unfold updateAll. revert m. induction l as [|a l IH]; intros m Hnd; simpl; [reflexivity|].
  apply NoDup_cons in Hnd as [Ha Hnd]. rewrite IH by exact Hnd.
  destruct (decide (k = a)) as [->|Hne].
  - rewrite decide_False by exact Ha. rewrite decide_True by (apply elem_of_cons; auto).
    destruct (JsMap.get m a) eqn:E; [apply JsMap.get_set_eq | rewrite E; reflexivity].
  - assert (Hg : JsMap.get (match JsMap.get m a with Some n => JsMap.set m a (f a n) | None => m end) k = JsMap.get m k).
    { destruct (JsMap.get m a); [apply JsMap.get_set_ne; congruence | reflexivity]. }
    rewrite Hg. repeat case_decide; auto; set_solver.
Qed.

Lemma updateAll_keys (l : list string) (f : string -> Note.t -> Note.t) (m : @JsMap.t string Note.t) :
  JsMap.keys (updateAll l f m) = JsMap.keys m.
Proof.
  unfold updateAll. revert m. induction l as [|a l IH]; intros m; simpl; [reflexivity|].
  rewrite IH. destruct (JsMap.get m a) eqn:E; [|reflexivity].
  apply JsMap.keys_set_has. unfold JsMap.has. rewrite E. reflexivity.
Qed.

Lemma updateAll_ext (l : list string) (f g : string -> Note.t -> Note.t) (m : @JsMap.t string Note.t) :
  (forall k n, f k n = g k n) -> updateAll l f m = updateAll l g m.
Proof.
  intros H. unfold updateAll. revert m. induction l as [|a l IH]; intros m; simpl; [reflexivity|].
  destruct (JsMap.get m a); [rewrite H|]; apply IH.
Qed.

Lemma targets_NoDup (s : state) : sel_inv s -> NoDup (targets s).
Proof.
  intros [Hnd _]. unfold targets. destruct (0 <? _)%nat; [exact Hnd|].
  destruct (selectedNote s) as [p|]; [destruct (truthy _)|]; auto using NoDup_singleton, NoDup_nil_2.
Qed.

Lemma keeps_fresh_handleTextInput (now : Z) (id v : string) : keeps_fresh (handleTextInput now id v).
Proof. unfold handleTextInput. apply preserves_bind; [auto with fresh|]. intros s. repeat case_match; auto with fresh. Qed.

Lemma keeps_fresh_exec (c : command) : keeps_fresh (exec c).
Proof.
  destruct c; simpl; auto using keeps_fresh_handleTextInput; auto using keeps_fresh_duplicateNote, keeps_fresh_deleteSelectedNotes,
    keeps_fresh_duplicateSelectedNotes, keeps_fresh_moveSelectedNotes,
    keeps_fresh_handleContextMenuAction, keeps_fresh_handlePaste with fresh.
  intros s _. apply loadNotes_ids_fresh.
Qed.

(** ** Notes stay under their ids *)

Lemma keyed_set (m : @JsMap.t string Note.t) (k : string) (n : Note.t) :
  keyed m -> Note.id n = k -> keyed (JsMap.set m k n).
Proof.
  intros H Hn j v. destruct (decide (k = j)) as [<-|Hne].
  - rewrite JsMap.get_set_eq. intros [= <-]. exact Hn.
  - rewrite JsMap.get_set_ne by exact Hne. apply H.
Qed.

Lemma keyed_delete (m : @JsMap.t string Note.t) (k : string) : keyed m -> keyed (JsMap.delete m k).
Proof.
  intros H j v. destruct (decide (k = j)) as [<-|Hne]; [rewrite JsMap.get_delete_eq; discriminate|].
  rewrite JsMap.get_delete_ne by exact Hne. apply H.
Qed.

Lemma keyed_empty : keyed JsMap.empty.
Proof. intros k n. rewrite JsMap.get_empty. discriminate. Qed.

Lemma keyed_storeAll (l : list Note.t) (m : @JsMap.t string Note.t) : keyed m -> keyed (storeAll l m).
Proof. revert m. induction l as [|a l IH]; intros m H; simpl; [exact H|]. apply IH, keyed_set; auto. Qed.

Lemma ids_match_frame {A} (m : M A) :
  (forall s, notes (result_state (run m s)) = notes s) -> preserves ids_match m.
Proof. intros Hm s H. unfold ids_match. rewrite Hm. exact H. Qed.

Lemma ids_match_updateNote (id : string) (f : Note.t -> Note.t) :
  (forall n, Note.id (f n) = Note.id n) -> preserves ids_match (updateNote id f).
Proof.
  intros Hf s H. rewrite Selection.updateNote_state. destruct (JsMap.get (notes s) id) as [n|] eqn:E; [|exact H].
  apply keyed_set; [exact H|]. rewrite Hf. exact (H id n E).
Qed.

Lemma ids_match_bringToFront (id : string) : preserves ids_match (bringToFront id).
Proof. intros s. exact (ids_match_updateNote id (fun n => Note.with_zIndex n _) (fun n => eq_refl) s). Qed.

Lemma ids_match_sendToBack (id : string) : preserves ids_match (sendToBack id).
Proof. intros s. exact (ids_match_updateNote id (fun n => Note.with_zIndex n _) (fun n => eq_refl) s). Qed.

Lemma ids_match_deselectAll : preserves ids_match deselectAll.
Proof. apply ids_match_frame. reflexivity. Qed.

Lemma ids_match_addToSelection (id : string) : preserves ids_match (addToSelection id).
Proof. apply ids_match_frame. reflexivity. Qed.

Lemma ids_match_removeFromSelection (id : string) : preserves ids_match (removeFromSelection id).
Proof. apply ids_match_frame. reflexivity. Qed.

Lemma ids_match_selection_modify (f : state -> option string) (g : state -> @JsSet.t string) :
  preserves ids_match (modify (fun s => set_selection s (f s) (g s))).
Proof. apply ids_match_frame. reflexivity. Qed.

Lemma ids_match_delete_modify (id : string) :
  preserves ids_match (modify (fun s => set_notes s (JsMap.delete (notes s) id))).
Proof. intros s H. apply keyed_delete, H. Qed.

Create HintDb keyed.

#[export] Hint Resolve preserves_bind preserves_ret preserves_get preserves_emit preserves_if
  preserves_forEach preserves_forEachCollect ids_match_bringToFront ids_match_sendToBack
  ids_match_deselectAll ids_match_addToSelection ids_match_removeFromSelection
  ids_match_selection_modify ids_match_delete_modify : keyed.

Lemma ids_match_selectNote (id : string) (add : bool) : preserves ids_match (selectNote id add).
Proof. unfold selectNote. auto with keyed. Qed.

Lemma ids_match_selectAllNotes : preserves ids_match selectAllNotes.
Proof. unfold selectAllNotes. auto with keyed. Qed.

#[export] Hint Resolve ids_match_selectNote ids_match_selectAllNotes : keyed.

Lemma ids_match_createTextNote (now : Z) (x y : Q) : preserves ids_match (createTextNote now x y).
Proof.
  intros s H. unfold createTextNote. rewrite state_bind, state_get. cbn beta zeta. rewrite state_bind.
  apply (preserves_bind _ _ _ (ids_match_selectNote _ _) (fun _ => preserves_ret _ _)).
  apply keyed_set; [exact H | reflexivity].
Qed.

Lemma ids_match_createImageNote (now : Z) (x y : Q) (d : string) (sz : option Z) :
  preserves ids_match (createImageNote now x y d sz).
Proof.
  intros s H. unfold createImageNote. rewrite state_bind, state_get. cbn beta zeta. rewrite state_bind.
  apply (preserves_bind _ _ _ (ids_match_selectNote _ _) (fun _ => preserves_ret _ _)).
  apply keyed_set; [exact H | reflexivity].
Qed.

Lemma ids_match_duplicateOne (now : Z) (id : string) : preserves ids_match (duplicateOne now id).
Proof.
  intros s H. unfold duplicateOne. rewrite state_bind, state_get. simpl.
  destruct (JsMap.get (notes s) id); [rewrite state_bind; apply keyed_set; [exact H | reflexivity] | exact H].
Qed.

Lemma ids_match_deleteNote (id : string) : preserves ids_match (deleteNote id).
Proof.
  intros s H. unfold deleteNote, result_state, run, modify. simpl.
  pose proof (keyed_delete (notes s) id H) as Hd.
  destruct (selectedNote s) as [p|]; [destruct (String.eqb p id)|]; exact Hd.
Qed.

Lemma ids_match_loadNotes (data : list Note.t) : preserves ids_match (loadNotes data).
Proof.
  intros s _. unfold ids_match. rewrite loadNotes_state.
  destruct data; [apply keyed_empty | apply keyed_storeAll, keyed_empty].
Qed.

Lemma ids_match_handleTextInput (now : Z) (id v : string) : preserves ids_match (handleTextInput now id v).
Proof.
  unfold handleTextInput. apply preserves_bind; [auto with keyed|]. intros s.
  repeat case_match; auto using ids_match_updateNote with keyed.
Qed.

#[export] Hint Resolve ids_match_createTextNote ids_match_createImageNote ids_match_duplicateOne
  ids_match_deleteNote ids_match_loadNotes ids_match_handleTextInput : keyed.

Lemma ids_match_handlePaste (now : Z) (cx cy : Q) (items : list clipItem) :
  preserves ids_match (handlePaste now cx cy items).
Proof.
  induction items as [|it items IH]; simpl; [auto with keyed|].
  apply preserves_if; [destruct (fileSize it)|]; auto using ids_match_updateNote with keyed.
Qed.

Lemma ids_match_duplicateNote (now : Z) (id : string) : preserves ids_match (duplicateNote now id).
Proof. unfold duplicateNote. apply preserves_bind; [auto with keyed|]. intros [a|]; auto with keyed. Qed.

Lemma ids_match_deleteSelectedNotes : preserves ids_match deleteSelectedNotes.
Proof. unfold deleteSelectedNotes. auto with keyed. Qed.

Lemma ids_match_duplicateSelectedNotes (now : Z) : preserves ids_match (duplicateSelectedNotes now).
Proof. unfold duplicateSelectedNotes. auto 8 with keyed. Qed.

Lemma ids_match_moveSelectedNotes (now : Z) (dir : string) (d : Q) :
  preserves ids_match (moveSelectedNotes now dir d).
Proof.
  unfold moveSelectedNotes. apply preserves_bind; [auto with keyed|].
  intros s. destruct (moveDelta dir d). apply preserves_bind; [|auto with keyed].
  apply preserves_forEach. intros id. apply ids_match_updateNote. reflexivity.
Qed.

Lemma ids_match_handleContextMenuAction (now : Z) (action id : string) :
  preserves ids_match (handleContextMenuAction now action id).
Proof.
  unfold handleContextMenuAction. apply preserves_bind; [auto with keyed|]. intros s.
  apply preserves_bind; [|auto with keyed].
  repeat apply preserves_if; auto using ids_match_duplicateSelectedNotes, ids_match_deleteSelectedNotes with keyed.
Qed.

Lemma ids_match_exec (c : command) : preserves ids_match (exec c).
Proof.
  destruct c; simpl; auto using ids_match_duplicateNote, ids_match_deleteSelectedNotes,
    ids_match_duplicateSelectedNotes, ids_match_moveSelectedNotes, ids_match_handleContextMenuAction,
    ids_match_handlePaste with keyed.
Qed.

Lemma signals_forEachCollect_silent {A B} (l : list A) (f : A -> M (option B)) (s : state) :
  (forall a s0, signals (run (f a) s0) = []) -> signals (run (forEachCollect l f) s) = [].
Proof.
  intros Hf. revert s. induction l as [|a l IH]; intros s; [reflexivity|].
  simpl. rewrite !signals_bind, Hf, IH. reflexivity.
Qed.

Lemma signals_duplicateOne (now : Z) (id : string) (s : state) : signals (run (duplicateOne now id) s) = [].
Proof. unfold duplicateOne, signals, run, bind, get. simpl. destruct (JsMap.get (notes s) id); reflexivity. Qed.

Lemma signals_duplicateSelectedNotes (now : Z) (s : state) :
  signals (run (duplicateSelectedNotes now) s) = [NoteModified].
Proof.
  unfold duplicateSelectedNotes. rewrite !signals_bind, signals_forEachCollect_silent by apply signals_duplicateOne.
  rewrite signals_forEach_silent by reflexivity. reflexivity.
Qed.

Lemma signals_deleteSelectedNotes (s : state) : signals (run deleteSelectedNotes s) = [NoteModified].
Proof.
  unfold deleteSelectedNotes. rewrite !signals_bind, signals_forEach_silent by reflexivity. reflexivity.
Qed.

(** The state after [createTextNote] on a scene with fresh ids. *)
Lemma createTextNote_run (now : Z) (x y : Q) (s : state) :
  ids_fresh s ->
  let id := NoteId.noteIdOf (nextId s) in
  let r := run (createTextNote now x y) s in
  fst (fst r) = id /\ JsMap.has (notes s) id = false /\
  notes (result_state r) =
    JsMap.set (notes s) id (Note.mk id Note.Text x y 300 200 newNoteContent None (getMaxZIndex (notes s) + 2) now now) /\
  nextId (result_state r) = (nextId s + 1)%Z /\ selectedNotes (result_state r) = [id] /\
  selectedNote (result_state r) = Some id /\ signals r = [].
Proof.
  intros H. pose proof (alloc_new s H) as Hnew.
  unfold createTextNote, selectNote, bringToFront, updateNote, deselectAll.
  unfold run, result_state, signals, bind, get, modify, ret. simpl.
  rewrite JsMap.get_set_eq. simpl.
  rewrite JsMap.set_set, getMaxZIndex_set_new by exact Hnew. simpl.
  rewrite Z.max_r by lia. rewrite <- Z.add_assoc. repeat split; auto using JsMap.get_set_eq.
Qed.

Lemma signals_forEach_zorder (l : list string) (f : string -> M unit) (s : state) :
  (forall id s0, f id s0 = updateNote id (fun n => Note.with_zIndex n (getMaxZIndex (notes s0) + 1)%Z) s0 \/
                 f id s0 = updateNote id (fun n => Note.with_zIndex n (getMinZIndex (notes s0) - 1)%Z) s0) ->
  signals (run (forEach l f) s) = [].
Proof.
  intros Hf. apply signals_forEach_silent. intros id s0. unfold signals, run.
  destruct (Hf id s0) as [E|E]; rewrite E; apply signals_updateNote.
Qed.

Lemma duplicateOne_run (now : Z) (t : string) (s : state) :
  run (duplicateOne now t) s =
  match JsMap.get (notes s) t with
  | None => (None, s, [])
  | Some o =>
      let id := NoteId.noteIdOf (nextId s) in
      (Some id, set_notes (set_nextId s (nextId s + 1)%Z)
                  (JsMap.set (notes s) id (copyOf o id (getMaxZIndex (notes s) + 1)%Z now)), [])
  end.
Proof. unfold duplicateOne, run, bind, get, modify, ret. simpl. destruct (JsMap.get (notes s) t); reflexivity. Qed.

(** The ids of [l] stored in the scene, in order: the ones the copying
    loop gets past [if (originalNote)] (notes.js 1258). *)
Definition storedTargets (s : state) (l : list string) : list string :=
  List.filter (fun t => match JsMap.get (notes s) t with Some _ => true | None => false end) l.

Arguments storedTargets : simpl never.

Lemma storedTargets_cons (s : state) (a : string) (l : list string) :
  storedTargets s (a :: l) =
  match JsMap.get (notes s) a with Some _ => a :: storedTargets s l | None => storedTargets s l end.
Proof. unfold storedTargets. cbn [List.filter]. destruct (JsMap.get (notes s) a); reflexivity. Qed.

(** The copying loop of [duplicateSelectedNotes], when no target can be
    mistaken for a generated id: the new ids pair off, in order, with the
    stored targets, one copy each. *)
Lemma duplicate_loop (now : Z) (l : list string) (s : state) :
  ids_fresh s -> (forall t, In t l -> (NoteId.idNumber t < nextId s)%Z) ->
  let r := run (forEachCollect l (duplicateOne now)) s in
  let ids := fst (fst r) in let s' := result_state r in
  JsMap.keys (notes s') = JsMap.keys (notes s) ++ ids /\ (nextId s <= nextId s')%Z /\
  (forall k, (NoteId.idNumber k < nextId s)%Z -> JsMap.get (notes s') k = JsMap.get (notes s) k) /\
  Forall2 (fun t id => exists o z, JsMap.get (notes s) t = Some o /\ JsMap.get (notes s') id = Some (copyOf o id z now))
    (storedTargets s l) ids /\
  selectedNotes s' = selectedNotes s /\ selectedNote s' = selectedNote s.
Proof.
  revert s. induction l as [|a l IH]; intros s Hf Ht; simpl.
  { split; [rewrite app_nil_r; reflexivity|]. split; [apply Z.le_refl|]. split; [auto|].
    split; [constructor|]. auto. }
  rewrite value_bind, state_bind. rewrite (value_bind (forEachCollect l _)), (state_bind (forEachCollect l _)).
  unfold ret, result_state at 1 3, run at 1 3. cbn [fst snd].
  rewrite duplicateOne_run. destruct (JsMap.get (notes s) a) as [o|] eqn:Ea; cbv zeta; cbn [fst snd].
  - set (id1 := NoteId.noteIdOf (nextId s)).
    set (s1 := set_notes (set_nextId s (nextId s + 1)%Z) (JsMap.set (notes s) id1 (copyOf o id1 (getMaxZIndex (notes s) + 1)%Z now))).
    assert (Hf1 : ids_fresh s1) by apply alloc_fresh, Hf.
    assert (Hget1 : forall k, (NoteId.idNumber k < nextId s)%Z -> JsMap.get (notes s1) k = JsMap.get (notes s) k).
    { intros k Hk. apply JsMap.get_set_ne. intros <-. unfold id1 in Hk. rewrite NoteId.idNumber_noteIdOf in Hk. lia. }
    destruct (IH s1 Hf1) as (K & N & G & F & S1 & S2); [intros t Ht'; simpl; specialize (Ht t (or_intror Ht')); lia|].
    assert (Hst : storedTargets s1 l = storedTargets s l).
    { apply List.filter_ext_in. intros t Ht'. rewrite Hget1 by (apply Ht; right; exact Ht'). reflexivity. }
    assert (Hid1 : JsMap.get (notes (result_state (run (forEachCollect l (duplicateOne now)) s1))) id1 =
                   Some (copyOf o id1 (getMaxZIndex (notes s) + 1)%Z now)).
    { rewrite G by (unfold id1; rewrite NoteId.idNumber_noteIdOf; simpl; lia). apply JsMap.get_set_eq. }
    assert (Hn1 : nextId s1 = (nextId s + 1)%Z) by reflexivity.
    change (result_state (Some id1, s1, [])) with s1.
    remember (run (forEachCollect l (duplicateOne now)) s1) as R eqn:ER. clear ER.
    cbn [run result_state fst snd] in *. repeat split.
    + rewrite K. simpl. rewrite JsMap.keys_set_new by (apply alloc_new, Hf). rewrite <- app_assoc. reflexivity.
    + lia.
    + intros k Hk. rewrite G by lia. apply Hget1, Hk.
    + rewrite storedTargets_cons, Ea. constructor.
      * exists o, (getMaxZIndex (notes s) + 1)%Z. auto.
      * rewrite <- Hst. apply (Forall2_impl_In _ _ _ _ F). intros t id Hin (o' & z & Ho & Hg).
        apply List.filter_In in Hin as [Hin _].
        exists o', z. rewrite <- Hget1 by (apply Ht; right; exact Hin). auto.
    + rewrite S1. reflexivity.
    + rewrite S2. reflexivity.
  - destruct (IH s Hf) as (K & N & G & F & S1 & S2); [intros t Ht'; apply Ht; right; exact Ht'|].
    change (result_state (@None string, s, @nil signal)) with s.
    remember (run (forEachCollect l (duplicateOne now)) s) as R eqn:ER. clear ER.
    cbn [run result_state fst snd] in *. repeat split; auto.
    rewrite storedTargets_cons, Ea. exact F.
Qed.

(** ** Properties of the selection side kept by every command *)

(** A property of the manager's state that storing notes, moving the
    counter and the selection methods keep is kept by every scene
    command. *)
Section CommandInvariant.
Variable P : state -> Prop.
Hypothesis P_notes : forall s m, P s -> P (set_notes s m).
Hypothesis P_nextId : forall s n, P s -> P (set_nextId s n).
Hypothesis P_unselect : forall s sel, P s -> (sel = [] \/ sel = selectedNotes s) -> P (set_selection s None sel).
Hypothesis P_selectNote : forall id add, preserves P (selectNote id add).
Hypothesis P_addToSelection : forall id, preserves P (addToSelection id).
Hypothesis P_removeFromSelection : forall id, preserves P (removeFromSelection id).
Hypothesis P_deselectAll : preserves P deselectAll.
Hypothesis P_selectAllNotes : preserves P selectAllNotes.
Hypothesis P_bringToFront : forall id, preserves P (bringToFront id).
Hypothesis P_sendToBack : forall id, preserves P (sendToBack id).

Local Hint Resolve P_selectNote P_addToSelection P_removeFromSelection P_deselectAll P_selectAllNotes
  P_bringToFront P_sendToBack preserves_forEachCollect preserves_ret preserves_get preserves_emit : cmd.
Local Hint Extern 2 (preserves _ (updateNote _ _)) =>
  intros ?s ?H; rewrite Selection.updateNote_state; destruct (JsMap.get (notes _) _); auto : cmd.
Local Hint Extern 4 (preserves _ (modify _)) =>
  apply preserves_modify; intros ?s ?H; repeat case_match; eauto 6 : cmd.

Lemma command_keeps_handlePaste (now : Z) (cx cy : Q) (items : list clipItem) :
  preserves P (handlePaste now cx cy items).
Proof.
  induction items as [|it items IH]; simpl; [apply preserves_ret|].
  apply preserves_if; [case_match|]; unfold createImageNote, createTextNote; preserve cmd.
Qed.

Lemma command_keeps_duplicateOne (now : Z) (id : string) : preserves P (duplicateOne now id).
Proof. unfold duplicateOne; preserve cmd. Qed.
Local Hint Resolve command_keeps_duplicateOne : cmd.

Lemma command_keeps (c : command) : preserves P (exec c).
Proof.
  destruct c; simpl; try apply command_keeps_handlePaste;
    unfold createTextNote, createImageNote, deleteNote, duplicateNote, deleteSelectedNotes,
      duplicateSelectedNotes, moveSelectedNotes, handleContextMenuAction, loadNotes, handleTextInput; preserve cmd.
  all: intros ?s ?HP; rewrite Selection.updateNote_state; case_match; auto.
Qed.

End CommandInvariant.

(** ** Theorems *)

(** C1: In every state the manager reaches from its constructor through
    its methods (create, paste, duplicate, delete, move, context menu,
    load, selection, z-order), stored ids are unique and every stored id
    reads back a number below [nextId]: the next generated id is never
    one already in use. *)
Theorem reachable_ids_fresh (s : state) : reachable s -> ids_fresh s.
Proof.
  induction 1 as [|c s _ IH]; [apply ids_fresh_init | apply keeps_fresh_exec, IH].
Qed.

(** C23: In every state the manager reaches, each note of [this.notes] is
    stored under its own [id]: [this.notes.get(id).id === id], which the
    code relies on when it goes from a note to its element and back. *)
Theorem reachable_ids_match (s : state) : reachable s -> ids_match s.
Proof.
  induction 1 as [|c s _ IH]; [apply keyed_empty | apply ids_match_exec, IH].
Qed.

(** C26: Typing in a text note's textarea sets that stored note's content
    to the textarea's value and its [modified] time, changes no other
    note, the map's order or the selection, and raises "note-modified"
    once; for a missing note or an image note (no textarea) nothing
    happens. *)
Theorem handleTextInput_spec (now : Z) (id value : string) (s : state) :
  let r := run (handleTextInput now id value) s in
  match JsMap.get (notes s) id with
  | Some n =>
      match Note.type n with
      | Note.Text =>
          (JsMap.get (notes (result_state r)) id = Some (typedNote n value now) /\
           JsMap.keys (notes (result_state r)) = JsMap.keys (notes s) /\
           (forall k, k <> id -> JsMap.get (notes (result_state r)) k = JsMap.get (notes s) k) /\
           selectedNote (result_state r) = selectedNote s /\ selectedNotes (result_state r) = selectedNotes s /\
           signals r = [NoteModified])
      | Note.Image => (result_state r = s /\ signals r = [])
      end
  | None => (result_state r = s /\ signals r = [])
  end.
Proof.
  intros r. unfold r, handleTextInput, run, bind, get, ret, emit, updateNote.
  destruct (JsMap.get (notes s) id) as [n|] eqn:E; [|split; reflexivity].
  destruct (Note.type n); [|split; reflexivity]. rewrite E. cbn.
  split; [apply JsMap.get_set_eq|]. split; [apply JsMap.keys_set_has; unfold JsMap.has; rewrite E; reflexivity|].
  split; [intros k Hk; apply JsMap.get_set_ne; congruence|]. auto.
Qed.

(** [createTextNote(x, y)] on a scene whose ids are fresh returns the
    id ["note_" + nextId], which was not in use; the map gains exactly
    that key, at the end, and no other note changes; the note has the
    default size and content, and, because [selectNote] raises it again,
    the z-index [getMaxZIndex() + 2]; the counter moves on by one; the
    new note is the only selected note. *)
Theorem createTextNote_spec (now : Z) (x y : Q) (s : state) :
  ids_fresh s ->
  let r := run (createTextNote now x y) s in
  let id := fst (fst r) in let s' := result_state r in
  id = NoteId.noteIdOf (nextId s) /\ (id ∉ JsMap.keys (notes s)) /\
  JsMap.keys (notes s') = JsMap.keys (notes s) ++ [id] /\
  (forall k, k <> id -> JsMap.get (notes s') k = JsMap.get (notes s) k) /\
  JsMap.get (notes s') id =
    Some (Note.mk id Note.Text x y 300 200 newNoteContent None (getMaxZIndex (notes s) + 2) now now) /\
  nextId s' = (nextId s + 1)%Z /\ selectedNotes s' = [id] /\ selectedNote s' = Some id /\
  signals r = [].
Proof.
  intros H. destruct (createTextNote_run now x y s H) as (E1 & Hnew & E2 & E3 & E4 & E5 & E6).
  simpl. rewrite E1, E2, E3, E4, E5, E6. repeat split.
  - rewrite JsMap.elem_of_keys, Hnew. discriminate.
  - apply JsMap.keys_set_new, Hnew.
  - intros k Hk. apply JsMap.get_set_ne. congruence.
  - apply JsMap.get_set_eq.
Qed.

(** Loading notes with distinct ids and exporting them gives back the
    same notes in the same order ([exportNotes(loadNotes(d)) = d]). *)
Theorem loadNotes_export_roundtrip (data : list Note.t) (s : state) :
  NoDup (map Note.id data) ->
  let s' := result_state (run (loadNotes data) s) in
  exportNotes s' = data /\ JsMap.keys (notes s') = map Note.id data.
Proof. intros Hnd s'. exact (loadNotes_exported data s Hnd). Qed.

(** C18: Deleting the selection (Delete key, context menu) with a
    consistent selection of stored notes removes exactly the targeted
    notes ([originalCount - k] remain), clears the selection and raises
    one "note-modified" signal. *)
Theorem deleteSelectedNotes_spec (s : state) :
  JsMap.wf (notes s) -> sel_inv s -> (forall t, t ∈ targets s -> t ∈ JsMap.keys (notes s)) ->
  let r := run deleteSelectedNotes s in let s' := result_state r in
  JsMap.size (notes s') = (JsMap.size (notes s) - length (targets s))%nat /\
  (forall k, JsMap.get (notes s') k = if decide (k ∈ targets s) then None else JsMap.get (notes s) k) /\
  selectedNote s' = None /\ selectedNotes s' = [] /\ signals r = [NoteModified].
Proof.
  intros Hwf Hsel Hsub r s'. unfold s', r. rewrite signals_deleteSelectedNotes.
  unfold deleteSelectedNotes. rewrite !state_bind, state_get. simpl. rewrite ?state_bind, forEach_deleteAll.
  simpl. destruct (deleteAll_size (targets s) (notes s)) as [Hsz _]; auto using targets_NoDup.
  repeat split; [exact Hsz | intros k; apply deleteAll_get].
Qed.

(** What [moveSelectedNotes] does to the notes, the selection and the signals. *)
Lemma moveSelectedNotes_effect (now : Z) (direction : string) (distance : Q) (s : state) :
  sel_inv s ->
  let r := run (moveSelectedNotes now direction distance) s in let s' := result_state r in
  let '(dx, dy) := moveDelta direction distance in
  (forall k, JsMap.get (notes s') k =
     if decide (k ∈ targets s)
     then option_map (fun n => Note.with_pos n (Note.x n + dx) (Note.y n + dy) now) (JsMap.get (notes s) k)
     else JsMap.get (notes s) k) /\
  JsMap.keys (notes s') = JsMap.keys (notes s) /\ selectedNotes s' = selectedNotes s /\
  signals r = [NoteModified].
Proof.
  intros Hsel r s'. unfold s', r, moveSelectedNotes. destruct (moveDelta direction distance) as [dx dy].
  rewrite signals_bind, state_bind, state_get. simpl. rewrite state_bind, signals_bind, forEach_updateAll.
  rewrite signals_forEach_silent by (intros; apply signals_updateNote). simpl.
  split; [intros k; apply updateAll_get, targets_NoDup, Hsel|]. split; [apply updateAll_keys | auto].
Qed.

(** C19: Nudging the selection with an arrow key moves every targeted
    stored note by the direction's vector and stamps it; other notes are
    untouched; one "note-modified" signal. *)
Theorem moveSelectedNotes_spec (now : Z) (direction : string) (distance : Q) (s : state) :
  sel_inv s ->
  let r := run (moveSelectedNotes now direction distance) s in let s' := result_state r in
  let '(dx, dy) := moveDelta direction distance in
  (forall k, JsMap.get (notes s') k =
     if decide (k ∈ targets s)
     then option_map (fun n => Note.with_pos n (Note.x n + dx) (Note.y n + dy) now) (JsMap.get (notes s) k)
     else JsMap.get (notes s) k) /\
  JsMap.keys (notes s') = JsMap.keys (notes s) /\ selectedNotes s' = selectedNotes s /\
  signals r = [NoteModified].
Proof. exact (moveSelectedNotes_effect now direction distance s). Qed.

(** A context-menu action raises "note-modified" twice for
    "duplicate" and "delete" (once inside [duplicateSelectedNotes] or
    [deleteSelectedNotes], once more at the end of
    [handleContextMenuAction]), and once for the other actions. *)
Theorem handleContextMenuAction_signals (now : Z) (action noteId : string) (s : state) :
  signals (run (handleContextMenuAction now action noteId) s) =
  if String.eqb action "duplicate" || String.eqb action "delete"
  then [NoteModified; NoteModified] else [NoteModified].
Proof.
  unfold handleContextMenuAction. rewrite !signals_bind, state_get. cbn beta. rewrite ?signals_bind.
  destruct (String.eqb action "duplicate"); [rewrite signals_duplicateSelectedNotes; reflexivity|].
  destruct (String.eqb action "delete"); [rewrite signals_deleteSelectedNotes; reflexivity|].
  simpl. destruct (String.eqb action "bring-front"); [|destruct (String.eqb action "send-back")];
    rewrite ?signals_forEach_zorder; auto.
Qed.

(** [loadNotes] replaces the notes but keeps both selection fields:
    after loading, the selection can name ids that are no longer stored. *)
Theorem loadNotes_keeps_selection (data : list Note.t) (s : state) :
  let s' := result_state (run (loadNotes data) s) in
  selectedNote s' = selectedNote s /\ selectedNotes s' = selectedNotes s /\
  (forall k, k ∈ JsMap.keys (notes s') -> In k (map Note.id data)).
Proof.
  simpl. rewrite loadNotes_state. destruct data as [|n0 rest]; cbn [notes set_notes set_nextId selectedNote selectedNotes].
  - repeat split. intros k Hk. apply elem_of_nil in Hk. contradiction.
  - repeat split. intros k Hk. apply storeAll_keys in Hk as [Hk|Hk]; [apply elem_of_nil in Hk; contradiction | exact Hk].
Qed.

(** [deleteNote(id)] removes the note from the map but not from the
    selection set: a selected note stays in [selectedNotes] after it is
    deleted. *)
Theorem deleteNote_keeps_selected (noteId : string) (s : state) :
  noteId ∈ selectedNotes s ->
  let s' := result_state (run (deleteNote noteId) s) in
  JsMap.get (notes s') noteId = None /\ noteId ∈ selectedNotes s' /\ selectedNote s' <> Some noteId.
Proof.
  intros Hin. unfold deleteNote, result_state, run, modify. simpl.
  destruct (selectedNote s) as [p|] eqn:Ep; [destruct (String.eqb_spec p noteId) as [->|Hne]|]; simpl;
    rewrite ?Ep; (split; [apply JsMap.get_delete_eq | split; [exact Hin | congruence]]).
Qed.

(** Pasting text when no note is selected creates a text note at the
    canvas centre offset by (-150, -100) whose stored content is the
    pasted text: [note.content = text] writes through the object that
    [createTextNote] returned and the map holds. *)
Theorem handlePaste_text (now : Z) (cx cy : Q) (text : string) (sz : option Z) (rest : list clipItem) (s : state) :
  ids_fresh s -> truthy (selectedNote s) = false ->
  let id := NoteId.noteIdOf (nextId s) in
  let s' := result_state (run (handlePaste now cx cy (mkClipItem "text/plain" text sz :: rest)) s) in
  JsMap.keys (notes s') = JsMap.keys (notes s) ++ [id] /\
  exists n, JsMap.get (notes s') id = Some n /\ Note.content n = text /\
            Note.x n = cx - 150 /\ Note.y n = cy - 100 /\ Note.type n = Note.Text.
Proof.
  intros Hf Hsel id s'. unfold s'. cbn [handlePaste].
  replace (isImageType (itemType (mkClipItem "text/plain" text sz))) with false by reflexivity.
  cbn [itemType payload]. rewrite state_bind, state_get. change (fst (fst (run get s))) with s.
  cbn beta. rewrite Hsel. simpl.
  rewrite state_bind, Selection.updateNote_state.
  destruct (createTextNote_run now (cx - 150) (cy - 100) s Hf) as (E1 & Hnew & E2 & _).
  rewrite E1, E2. fold id. rewrite JsMap.get_set_eq. cbn [notes set_notes].
  rewrite JsMap.set_set, JsMap.get_set_eq, JsMap.keys_set_new by exact Hnew.
  split; [reflexivity|]. eexists. repeat split.
Qed.

(** C17: Duplicating the selection (Ctrl/Cmd+D, context menu), when no
    target id can be mistaken for a generated one, adds exactly one copy
    per stored target and nothing else: the map gains exactly the new
    selection's ids, at the end; stored notes are unchanged; the new
    selection pairs off, in order, with the stored targets, the i-th new
    note being the copy of the i-th stored target (same type, size,
    content, moved by (20, 20), fresh timestamps), so there are as many
    copies as stored targets; one "note-modified" signal. *)
Theorem duplicateSelectedNotes_spec (now : Z) (s : state) :
  ids_fresh s -> (forall t, t ∈ targets s -> (NoteId.idNumber t < nextId s)%Z) ->
  let r := run (duplicateSelectedNotes now) s in let s' := result_state r in
  JsMap.keys (notes s') = JsMap.keys (notes s) ++ selectedNotes s' /\
  (forall k, k ∈ JsMap.keys (notes s) -> JsMap.get (notes s') k = JsMap.get (notes s) k) /\
  Forall2 (fun t id => exists o z, JsMap.get (notes s) t = Some o /\ JsMap.get (notes s') id = Some (copyOf o id z now))
    (storedTargets s (targets s)) (selectedNotes s') /\
  signals r = [NoteModified].
Proof.
  intros Hf Ht r s'. unfold s', r. rewrite signals_duplicateSelectedNotes.
  unfold duplicateSelectedNotes. rewrite state_bind, state_get. change (fst (fst (run get s))) with s.
  cbn beta. rewrite state_bind.
  destruct (duplicate_loop now (targets s) s Hf) as (K & _ & G & F & _);
    [intros t Hin; apply Ht, list_elem_of_In, Hin|].
  pose proof (preserves_forEachCollect ids_fresh (targets s) (duplicateOne now) (keeps_fresh_duplicateOne now) s Hf) as [Hwf _].
  remember (run (forEachCollect (targets s) (duplicateOne now)) s) as R eqn:ER. clear ER.
  cbn beta. rewrite !state_bind.
  unfold JsMap.wf in Hwf. rewrite K in Hwf. apply NoDup_app in Hwf as (_ & _ & Hnd).
  destruct (forEach_addToSelection (fst (fst R)) (result_state (run deselectAll (result_state R))))
    as (E1 & E2 & _); [exact Hnd | discriminate |].
  rewrite state_emit.
  rewrite E1, E2. cbn [run deselectAll modify result_state notes set_marquee set_selection selectedNotes fst snd app].
  split; [exact K|]. split; [|split; [exact F|reflexivity]].
  intros k Hk. apply G. destruct Hf as [_ Hf]. apply Hf, Hk.
Qed.

(** *** Witnesses at concrete inputs *)

Lemma demo_ids_fresh : ids_fresh demo_scene.
Proof. split; [unfold JsMap.wf; by_decide | apply Forall_forall; by_decide]. Qed.

Lemma reachable_ids_fresh_witness :
  let s := result_state (run (exec (CreateText 0 10 20)) init) in
  reachable s /\ ids_fresh s.
Proof.
  intros s. assert (H : reachable s) by (apply reach_exec, reach_init).
  split; [exact H | exact (reachable_ids_fresh s H)].
Defined.

Lemma reachable_ids_match_witness :
  let s := result_state (run (exec (TextInput 5 "note_1" "hello")) (result_state (run (exec (CreateText 0 10 20)) init))) in
  reachable s /\ ids_match s.
Proof.
  intros s. assert (H : reachable s) by (apply reach_exec, reach_exec, reach_init).
  split; [exact H | exact (reachable_ids_match s H)].
Defined.

Lemma createTextNote_spec_witness :
  let s := demo_scene in
  ids_fresh s /\
  (let r := run (createTextNote 5 10 20) s in
   let id := fst (fst r) in let s' := result_state r in
   id = NoteId.noteIdOf (nextId s) /\ (id ∉ JsMap.keys (notes s)) /\
   JsMap.keys (notes s') = JsMap.keys (notes s) ++ [id] /\
   (forall k, k <> id -> JsMap.get (notes s') k = JsMap.get (notes s) k) /\
   JsMap.get (notes s') id =
     Some (Note.mk id Note.Text 10 20 300 200 newNoteContent None (getMaxZIndex (notes s) + 2) 5 5) /\
   nextId s' = (nextId s + 1)%Z /\ selectedNotes s' = [id] /\ selectedNote s' = Some id /\
   signals r = []).
Proof. split; [exact demo_ids_fresh | exact (createTextNote_spec 5 10 20 demo_scene demo_ids_fresh)]. Defined.

Lemma loadNotes_export_roundtrip_witness :
  let data := [demo_note "note_7" 0 0 1; demo_note "imported" 50 50 2] in
  NoDup (map Note.id data) /\
  (let s' := result_state (run (loadNotes data) demo_scene) in
   exportNotes s' = data /\ JsMap.keys (notes s') = map Note.id data).
Proof.
  intros data. assert (H : NoDup (map Note.id data)) by by_decide.
  split; [exact H | exact (loadNotes_export_roundtrip data demo_scene H)].
Defined.

Lemma deleteSelectedNotes_spec_witness :
  let s := demo_scene in
  JsMap.wf (notes s) /\ sel_inv s /\ (forall t, t ∈ targets s -> t ∈ JsMap.keys (notes s)) /\
  (let r := run deleteSelectedNotes s in let s' := result_state r in
   JsMap.size (notes s') = (JsMap.size (notes s) - length (targets s))%nat /\
   (forall k, JsMap.get (notes s') k = if decide (k ∈ targets s) then None else JsMap.get (notes s) k) /\
   selectedNote s' = None /\ selectedNotes s' = [] /\ signals r = [NoteModified]).
Proof.
  intros s. assert (H1 : JsMap.wf (notes s)) by (unfold JsMap.wf; by_decide).
  assert (H3 : forall t, t ∈ targets s -> t ∈ JsMap.keys (notes s)) by (apply Forall_forall; by_decide).
  split; [exact H1 | split; [exact demo_sel_inv | split; [exact H3 |]]].
  exact (deleteSelectedNotes_spec s H1 demo_sel_inv H3).
Defined.

Lemma moveSelectedNotes_spec_witness :
  let s := demo_scene in
  sel_inv s /\
  (let r := run (moveSelectedNotes 9 "ArrowRight" 10) s in let s' := result_state r in
   let '(dx, dy) := moveDelta "ArrowRight" 10 in
   (forall k, JsMap.get (notes s') k =
      if decide (k ∈ targets s)
      then option_map (fun n => Note.with_pos n (Note.x n + dx) (Note.y n + dy) 9) (JsMap.get (notes s) k)
      else JsMap.get (notes s) k) /\
   JsMap.keys (notes s') = JsMap.keys (notes s) /\ selectedNotes s' = selectedNotes s /\
   signals r = [NoteModified]).
Proof. split; [exact demo_sel_inv | exact (moveSelectedNotes_spec 9 "ArrowRight" 10 demo_scene demo_sel_inv)]. Defined.

Lemma deleteNote_keeps_selected_witness :
  "note_1" ∈ selectedNotes demo_scene /\
  (let s' := result_state (run (deleteNote "note_1") demo_scene) in
   JsMap.get (notes s') "note_1" = None /\ "note_1" ∈ selectedNotes s' /\ selectedNote s' <> Some "note_1").
Proof.
  assert (H : "note_1" ∈ selectedNotes demo_scene) by by_decide.
  split; [exact H | exact (deleteNote_keeps_selected "note_1" demo_scene H)].
Defined.

Lemma handlePaste_text_witness :
  let s := set_selection demo_scene None [] in
  ids_fresh s /\ truthy (selectedNote s) = false /\
  (let id := NoteId.noteIdOf (nextId s) in
   let s' := result_state (run (handlePaste 7 400 300 [mkClipItem "text/plain" "pasted" None]) s) in
   JsMap.keys (notes s') = JsMap.keys (notes s) ++ [id] /\
   exists n, JsMap.get (notes s') id = Some n /\ Note.content n = "pasted" /\
             Note.x n = 400 - 150 /\ Note.y n = 300 - 100 /\ Note.type n = Note.Text).
Proof.
  intros s. assert (H1 : ids_fresh s) by exact demo_ids_fresh.
  assert (H2 : truthy (selectedNote s) = false) by reflexivity.
  split; [exact H1 | split; [exact H2 | exact (handlePaste_text 7 400 300 "pasted" None [] s H1 H2)]].
Defined.

Lemma duplicateSelectedNotes_spec_witness :
  let s := demo_scene in
  ids_fresh s /\ (forall t, t ∈ targets s -> (NoteId.idNumber t < nextId s)%Z) /\
  (let r := run (duplicateSelectedNotes 8) s in let s' := result_state r in
   JsMap.keys (notes s') = JsMap.keys (notes s) ++ selectedNotes s' /\
   (forall k, k ∈ JsMap.keys (notes s) -> JsMap.get (notes s') k = JsMap.get (notes s) k) /\
   Forall2 (fun t id => exists o z, JsMap.get (notes s) t = Some o /\ JsMap.get (notes s') id = Some (copyOf o id z 8))
     (storedTargets s (targets s)) (selectedNotes s') /\
   signals r = [NoteModified]).
Proof.
  intros s. assert (H : forall t, t ∈ targets s -> (NoteId.idNumber t < nextId s)%Z)
    by (apply Forall_forall; by_decide).
  split; [exact demo_ids_fresh | split; [exact H | exact (duplicateSelectedNotes_spec 8 s demo_ids_fresh H)]].
Defined.

End Scene.
