(* ===== verification/Gestures.v ===== *)
(** * Gestures: the double-tap detector of [UIManager]

    [initTouchGestures] (ui.js 410-466) keeps three variables in its
    closure, the start time and position of the current touch and the
    time of the last tap, and listens to [touchstart] and [touchend] on
    the document.  A touch is a tap when it lasts less than 500 ms and
    ends less than 10 px from where it started; a tap less than 300 ms
    after the previous tap creates a text note, centred on the point
    under the finger, through [NotesManager.createTextNote].

    - [tapState] is the closure, [handleTouchStart] and [handleTouchEnd]
      the two listeners; [handleTouchEnd] returns the screen point where
      a note is to be created, if any.  Both [Date.now()] calls of one
      [touchend] read the same time [now] (the handler does not yield).
      [Math.sqrt(d2) < 10] is written [d2 < 100], its exact equivalent
      for [d2 >= 0].
    - [runTaps] runs a sequence of touch events; [tapNote] is the note
      creation, run in the [NotesManager] monad through [screenToCanvas].

    Theorems: in a series of quick taps every tap after the first
    creates a note, so a triple tap creates two (a finding); the note a
    double tap creates is the default text note under the finger, and
    no "note-modified" signal is raised, so it is not auto-saved (a
    finding). *)

From S2P Require Import Prelude Events Viewport JsCollections NoteId NoteState Selection Scene.

Module Gestures.
Import Events Notes Scene.
Local Open Scope notes_scope.

(** ** The closure and the listeners *)

Record tapState := mkTap { touchStartTime : Z; touchStartPos : Q * Q; lastTapTime : Z }.

(** [let touchStartTime = 0; let touchStartPos = {x: 0, y: 0}; let lastTapTime = 0] *)
Definition tapInit : tapState := mkTap 0 (0, 0) 0.

(** [handleTouchStart(e)] (ui.js 415-423): [touches] are [e.touches]. *)
Definition handleTouchStart (now : Z) (touches : list touch) (t : tapState) : tapState :=
  match touches with
  | [t0] => mkTap now (tclientX t0, tclientY t0) (lastTapTime t)
  | _ => mkTap now (touchStartPos t) (lastTapTime t)
  end.

(** [Math.pow(dx, 2) + Math.pow(dy, 2)] *)
Definition dist2 (p q : Q * Q) : Q := (fst q - fst p) * (fst q - fst p) + (snd q - snd p) * (snd q - snd p).

(** [handleTouchEnd(e)] (ui.js 425-453): [touch] is [e.changedTouches[0]];
    the result is the new closure and the screen point of a note to
    create. *)
Definition handleTouchEnd (now : Z) (touch : touch) (t : tapState) : tapState * option (Q * Q) :=
  let touchDuration := (now - touchStartTime t)%Z in
  let touchEndPos := (tclientX touch, tclientY touch) in
  if (touchDuration <? 500)%Z && Qltb (dist2 (touchStartPos t) touchEndPos) 100 then
    let create := negb (lastTapTime t =? 0)%Z && (now - lastTapTime t <? 300)%Z in
    (mkTap (touchStartTime t) (touchStartPos t) now, if create then Some touchEndPos else None)
  else (t, None).

(** The events the detector listens to. *)
Inductive tapEvent :=
| TouchStart (now : Z) (touches : list touch)
| TouchEnd (now : Z) (touch : touch).

(** A sequence of events: the final closure and the points where notes
    were created, in order. *)
Fixpoint runTaps (evs : list tapEvent) (t : tapState) : tapState * list (Q * Q) :=
  match evs with
  | [] => (t, [])
  | TouchStart now ts :: evs' => runTaps evs' (handleTouchStart now ts t)
  | TouchEnd now tc :: evs' =>
      let '(t1, p) := handleTouchEnd now tc t in
      let '(t2, ps) := runTaps evs' t1 in
      (t2, match p with Some q => q :: ps | None => ps end)
  end.

(** [this.app.notesManager.createTextNote(canvasPos.x - 150,
    canvasPos.y - 100)] with [canvasPos] the point under the finger
    (ui.js 442-449). *)
Definition tapNote (r : Canvas.rect) (c : Canvas.state) (now : Z) (p : Q * Q) : M unit :=
  let '(x, y) := Canvas.screenToCanvas r c (fst p) (snd p) in
  createTextNote now (x - 150) (y - 100) ;;; ret tt.

(** ** Taps *)

(** One finger down at [start] at time [t0], up at [stop] at time [t1]. *)
Record tap := mkTapEv { t0 : Z; t1 : Z; start : touch; stop : touch }.

Definition tapEvents (tp : tap) : list tapEvent := [TouchStart (t0 tp) [start tp]; TouchEnd (t1 tp) (stop tp)].

(** Short and still enough to be a tap. *)
Definition isTap (tp : tap) : bool :=
  ((t1 tp - t0 tp <? 500)%Z &&
   Qltb (dist2 (tclientX (start tp), tclientY (start tp)) (tclientX (stop tp), tclientY (stop tp))) 100).

(** A series of taps each ending less than 300 ms after the previous. *)
Fixpoint quickAfter (last : Z) (tps : list tap) : bool :=
  match tps with
  | [] => true
  | tp :: tps' => isTap tp && negb (last =? 0)%Z && (t1 tp - last <? 300)%Z && quickAfter (t1 tp) tps'
  end.

(** ** Lemmas *)

Lemma runTaps_app (e1 e2 : list tapEvent) (t : tapState) :
  runTaps (e1 ++ e2) t = let '(t1, ps1) := runTaps e1 t in let '(t2, ps2) := runTaps e2 t1 in (t2, ps1 ++ ps2).
Proof.
  revert t. induction e1 as [|[n ts|n tc] e1 IH]; intros t; simpl.
  - destruct (runTaps e2 t); reflexivity.
  - apply IH.
  - destruct (handleTouchEnd n tc t) as [t1 p]. rewrite IH.
    destruct (runTaps e1 t1) as [ta psa]. destruct (runTaps e2 ta) as [tb psb]. destruct p; reflexivity.
Qed.

(** A tap records its end time, and creates a note at its end point
    exactly when the previous tap is set and less than 300 ms before. *)
Lemma runTaps_tap (tp : tap) (t : tapState) :
  isTap tp = true ->
  runTaps (tapEvents tp) t =
  (mkTap (t0 tp) (tclientX (start tp), tclientY (start tp)) (t1 tp),
   if negb (lastTapTime t =? 0)%Z && (t1 tp - lastTapTime t <? 300)%Z
   then [(tclientX (stop tp), tclientY (stop tp))] else []).
Proof.
  intros H. unfold tapEvents, isTap in *. simpl. unfold handleTouchEnd. simpl. rewrite H.
  destruct (negb _ && _); reflexivity.
Qed.

Lemma quickAfter_taps (last : Z) (tps : list tap) (t : tapState) :
  lastTapTime t = last -> quickAfter last tps = true ->
  snd (runTaps (concat (map tapEvents tps)) t) = map (fun tp => (tclientX (stop tp), tclientY (stop tp))) tps.
Proof.
  revert last t. induction tps as [|tp tps IH]; intros last t Hl Hq; [reflexivity|].
  simpl in Hq. apply andb_true_iff in Hq as [Hq Hrest]. apply andb_true_iff in Hq as [Hq Hgap].
  apply andb_true_iff in Hq as [Htap Hnz].
  cbn [map concat]. rewrite runTaps_app, runTaps_tap by exact Htap. rewrite Hl, Hnz, Hgap. cbn [andb].
  destruct (runTaps (concat (map tapEvents tps)) _) as [t2 ps2] eqn:E.
  pose proof (IH (t1 tp) (mkTap (t0 tp) (tclientX (start tp), tclientY (start tp)) (t1 tp)) eq_refl Hrest) as H. rewrite E in H. simpl in *. rewrite H. reflexivity.
Qed.

(** ** Properties *)

(** C33: In a series of quick taps (each a tap, each ending less than
    300 ms after the previous one, the first while no earlier tap is
    recent), every tap after the first creates a note at its end point,
    the first none: a triple tap creates two notes. *)
Theorem quick_taps_create_notes (tp : tap) (tps : list tap) (t : tapState) :
  isTap tp = true ->
  (lastTapTime t = 0%Z \/ (300 <= t1 tp - lastTapTime t)%Z) ->
  quickAfter (t1 tp) tps = true ->
  snd (runTaps (concat (map tapEvents (tp :: tps))) t) = map (fun tp => (tclientX (stop tp), tclientY (stop tp))) tps.
Proof.
  intros Htap Hfirst Hq. cbn [map concat]. rewrite runTaps_app, runTaps_tap by exact Htap.
  replace (negb (lastTapTime t =? 0)%Z && (t1 tp - lastTapTime t <? 300)%Z) with false
    by (destruct Hfirst as [->|H]; [reflexivity | symmetry; apply andb_false_iff; right; apply Z.ltb_ge; exact H]).
  destruct (runTaps (concat (map tapEvents tps)) _) as [t2 ps2] eqn:E.
  pose proof (quickAfter_taps (t1 tp) tps (mkTap (t0 tp) (tclientX (start tp), tclientY (start tp)) (t1 tp)) eq_refl Hq) as H. rewrite E in H. exact H.
Qed.

(** C39: The note a double tap creates is [createTextNote]'s default text
    note under the finger (the world point minus (150, 100)), stored
    under the next id and selected; no "note-modified" signal is raised,
    so, unlike the toolbar's Add button, nothing is saved. *)
Theorem tapNote_creates_unsaved_note (r : Canvas.rect) (c : Canvas.state) (now : Z) (p : Q * Q) (s : state) :
  ids_fresh s ->
  let id := NoteId.noteIdOf (nextId s) in
  let w := Canvas.screenToCanvas r c (fst p) (snd p) in
  let res := run (tapNote r c now p) s in
  JsMap.get (notes (result_state res)) id =
    Some (Note.mk id Note.Text (fst w - 150) (snd w - 100) 300 200 newNoteContent None
                  (getMaxZIndex (notes s) + 2) now now) /\
  selectedNotes (result_state res) = [id] /\ signals res = [].
Proof.
  intros Hf id w res. unfold res, tapNote. fold w. destruct w as [x y] eqn:Ew.
  destruct (createTextNote_run now (x - 150) (y - 100) s Hf) as (_ & _ & Hn & _ & Hsel & _ & Hsig).
  rewrite state_bind, signals_bind. cbn [result_state run ret signals snd fst]. rewrite Hn, Hsel, Hsig.
  split; [apply JsMap.get_set_eq | split; reflexivity].
Qed.

(** ** Witnesses *)

Definition tapAt (a b : Z) (x y : Q) : tap := mkTapEv a b (mkTouch x y) (mkTouch x y).

Lemma quick_taps_create_notes_witness :
  let tps := [tapAt 1000 1100 50 60; tapAt 1200 1300 52 60; tapAt 1400 1500 51 61] in
  snd (runTaps (concat (map tapEvents tps)) tapInit) = [(52, 60); (51, 61)].
Proof.
  intros tps. exact (quick_taps_create_notes (tapAt 1000 1100 50 60) [tapAt 1200 1300 52 60; tapAt 1400 1500 51 61]
                       tapInit eq_refl (or_introl eq_refl) eq_refl).
Defined.

Lemma tapNote_creates_unsaved_note_witness :
  signals (run (tapNote (Canvas.mkRect 0 0 800 600) Canvas.init 7 (400, 300)) demo_scene) = [].
Proof.
  exact (proj2 (proj2 (tapNote_creates_unsaved_note (Canvas.mkRect 0 0 800 600) Canvas.init 7 (400, 300)
                         demo_scene demo_ids_fresh))).
Defined.

End Gestures.
