(* ===== verification/Interaction.v ===== *)
(** * Interaction: the drag, resize and marquee gestures of [NotesManager]

    The pointer and keyboard handlers of notes.js: the [mousedown]
    listener of each note ([addNoteEventListeners], 242-264), [startDrag]
    (667-709), [startResize] (711-730), the document listeners
    [handleGlobalMouseDown] (732-754), [handleGlobalMouseMove] (773-811)
    and [handleGlobalMouseUp] (813-843), [resizeNote] (845-893), the
    marquee [startSelection] / [updateSelection] / [endSelection]
    (1524-1601), the note [contextmenu] listener (266-273) and
    [handleKeyDown] (1117-1201).

    The handlers turn pointer positions into world coordinates with
    [this.canvasManager.screenToCanvas]; here that map is the section
    variable [toWorld], so the theorems hold for every viewport; the
    witnesses use the identity view [idWorld].

    The gesture mode is the three flags [isDragging], [isResizing],
    [isSelecting]; [handleGlobalMouseUp] clears them.  Theorems: a drag
    moves every selected note by the pointer's world displacement since
    the press, whatever the number of selected notes and of move events
    (no drift, relative positions kept); a resize gesture ends at the
    resize policy applied once to the snapshot and the total
    displacement; a marquee gesture selects exactly the notes that
    overlap the rectangle; each drag or resize gesture raises one
    "note-modified" signal; along every session whose presses come
    between releases, the selection invariant and id freshness hold and
    at most one mode is active; a right-click on a note of a
    multi-selection collapses the selection, so the context menu's
    Delete removes that note only.  [noteStopsPropagation] says which
    presses the note's listener stops ([startDrag], [startResize]). *)

From stdpp Require Import sets.
From S2P Require Import Prelude Events Viewport Resize JsCollections NoteId NoteState Selection Scene.

Module Interaction.
Import Events Notes Selection Scene.
Local Open Scope notes_scope.

(** ASCII [toLowerCase()]. *)
Fixpoint toLower (s : string) : string :=
  match s with
  | EmptyString => EmptyString
  | String c r =>
      let n := Ascii.nat_of_ascii c in
      String (if (65 <=? n)%nat && (n <=? 90)%nat then Ascii.ascii_of_nat (n + 32) else c) (toLower r)
  end.

Definition isArrowKey (k : string) : bool :=
  String.eqb k "ArrowUp" || String.eqb k "ArrowDown" || String.eqb k "ArrowLeft" || String.eqb k "ArrowRight".

(** The half-open overlap test of [endSelection] (notes.js 1580-1587). *)
Definition overlaps (left top right bottom : Q) (n : Note.t) : bool :=
  Qltb (Note.x n) right && Qltb left (Note.x n + Note.width n) &&
  Qltb (Note.y n) bottom && Qltb top (Note.y n + Note.height n).

(** The marquee rectangle [left, top, right, bottom] between
    [selectionStart] and [selectionEnd] (notes.js 1574-1577). *)
Definition marquee (s : state) : Q * Q * Q * Q :=
  (Qmin (fst (selectionStart s)) (fst (selectionEnd s)), Qmin (snd (selectionStart s)) (snd (selectionEnd s)),
   Qmax (fst (selectionStart s)) (fst (selectionEnd s)), Qmax (snd (selectionStart s)) (snd (selectionEnd s))).

(** The offsets [multiDragOffsets] of [startDrag] (notes.js 689-699),
    from a cleared map. *)
Definition dragOffsets (p : Q * Q) (m : @JsMap.t string Note.t) (sel : list string) : @JsMap.t string (Q * Q) :=
  fold_left (fun offs id =>
    match JsMap.get m id with
    | Some n => JsMap.set offs id (fst p - Note.x n, snd p - Note.y n)
    | None => offs
    end) sel JsMap.empty.

(** The gesture flags back to idle, as [handleGlobalMouseUp] leaves them
    (notes.js 838-842). *)
Definition idle_flags (s : state) : state :=
  set_marquee (set_resize (set_drag s false (dragOffset s) JsMap.empty)
                 false None (resizeStartPos s) (resizeStartBounds s))
              false (selectionStart s) (selectionEnd s) (selectionBox s).

(** The notes a drag move repositions: the selection in multi-drag mode
    (more than one selected), else the truthy primary selection. *)
Definition dragTargets (s : state) : list string :=
  if (1 <? JsSet.size (selectedNotes s))%nat then selectedNotes s
  else match selectedNote s with
       | Some q => if truthy (Some q) then [q] else []
       | None => []
       end.

(** The offset a drag move subtracts from the pointer for note [k]. *)
Definition dragOffsetOf (s : state) (k : string) : option (Q * Q) :=
  if (1 <? JsSet.size (selectedNotes s))%nat then JsMap.get (multiDragOffsets s) k
  else Some (dragOffset s).

(** Where a drag move to world point [p] puts note [n] stored under [k]. *)
Definition dragTo (now : Z) (p : Q * Q) (s : state) (k : string) (n : Note.t) : Note.t :=
  match dragOffsetOf s k with
  | Some o => Note.with_pos n (fst p - fst o) (snd p - snd o) now
  | None => n
  end.

(** The handle [resizeNote] switches on. *)
Definition handleOf (s : state) : option Resize.handle :=
  match resizeHandle s with Some c => Resize.handle_of_class c | None => None end.

(** Where a resize move to world point [p] puts the note. *)
Definition resizeTo (now : Z) (p : Q * Q) (sb : Bounds.t) (sp : Q * Q) (s : state) (k : string) (n : Note.t) : Note.t :=
  Note.with_bounds n (Resize.resizeBounds (handleOf s) sb (fst p - fst sp) (snd p - snd sp)) now.

(** The marquee end point moved to [p], as [updateSelection] sets it. *)
Definition with_end (s : state) (p : Q * Q) : state :=
  set_marquee s (isSelecting s) (selectionStart s) p (selectionBox s).

Section Gestures.

(** [this.canvasManager.screenToCanvas]. *)
Variable toWorld : Q -> Q -> Q * Q.

Definition worldPos (e : mouse) : Q * Q := toWorld (clientX e) (clientY e).

(** [startDrag(e, noteId, addToSelection)] (notes.js 667-709).  When the
    single-drag branch finds no note, [note.x] throws after [isDragging]
    is set; the rest of the handler is skipped. *)
Definition startDrag (e : mouse) (noteId : string) (addToSel : bool) : M unit :=
  s <- get ;;
  (if addToSel then (if JsSet.has (selectedNotes s) noteId then ret tt else addToSelection noteId)
   else if JsSet.has (selectedNotes s) noteId then ret tt else selectNote noteId false) ;;;
  s <- get ;;
  let p := worldPos e in
  if (1 <? JsSet.size (selectedNotes s))%nat then
    modify (fun s => set_drag s true (dragOffset s) (dragOffsets p (notes s) (selectedNotes s)))
  else match JsMap.get (notes s) noteId with
       | Some n => modify (fun s => set_drag s true (fst p - Note.x n, snd p - Note.y n) (multiDragOffsets s))
       | None => modify (fun s => set_drag s true (dragOffset s) (multiDragOffsets s))
       end.

(** [startResize(e, noteId, handle)] (notes.js 711-730): the snapshot of
    the note's bounds and the world position of the press. *)
Definition startResize (e : mouse) (noteId handle : string) : M unit :=
  selectNote noteId false ;;;
  s <- get ;;
  let p := worldPos e in
  match JsMap.get (notes s) noteId with
  | Some n => modify (fun s => set_resize s true (Some handle) (Some p) (Some (Note.bounds n)))
  | None => modify (fun s => set_resize s true (Some handle) (Some p) (resizeStartBounds s))
  end.

(** [resizeNote(note, currentPos)] (notes.js 845-893): the policy of
    [Resize] on the snapshot and the displacement since the press.  The
    snapshot and press position are set together by [startResize]; when
    they are missing the handler throws before writing. *)
Definition resizeNote (now : Z) (noteId : string) (cur : Q * Q) : M unit :=
  s <- get ;;
  match resizeStartBounds s, resizeStartPos s with
  | Some startBounds, Some startPos =>
      let deltaX := fst cur - fst startPos in
      let deltaY := snd cur - snd startPos in
      updateNote noteId (fun n => Note.with_bounds n (Resize.resizeBounds (handleOf s) startBounds deltaX deltaY) now)
  | _, _ => ret tt
  end.

(** One step of the multi-drag loop (notes.js 786-795). *)
Definition dragStep (now : Z) (p : Q * Q) (noteId : string) : M unit :=
  s <- get ;;
  match JsMap.get (multiDragOffsets s) noteId with
  | Some o => updateNote noteId (fun n => Note.with_pos n (fst p - fst o) (snd p - snd o) now)
  | None => ret tt
  end.

(** [updateSelection(e)] (notes.js 1548-1555). *)
Definition updateSelection (e : mouse) : M unit :=
  s <- get ;;
  if negb (isSelecting s) then ret tt
  else modify (fun s => with_end s (worldPos e)).

(** [handleGlobalMouseMove(e)] (notes.js 773-811). *)
Definition handleGlobalMouseMove (now : Z) (e : mouse) : M unit :=
  s <- get ;;
  if isSelecting s then updateSelection e
  else if isDragging s && (truthy (selectedNote s) || (0 <? JsSet.size (selectedNotes s))%nat) then
    let p := worldPos e in
    if (1 <? JsSet.size (selectedNotes s))%nat then forEach (selectedNotes s) (dragStep now p)
    else match selectedNote s with
         | Some q => if truthy (Some q)
                     then updateNote q (fun n => Note.with_pos n (fst p - fst (dragOffset s))
                                                              (snd p - snd (dragOffset s)) now)
                     else ret tt
         | None => ret tt
         end
  else if isResizing s && truthy (selectedNote s) then
    match selectedNote s with
    | Some q => match JsMap.get (notes s) q with
                | Some _ => resizeNote now q (worldPos e)
                | None => ret tt
                end
    | None => ret tt
    end
  else ret tt.

(** [startSelection(e)] (notes.js 1524-1546): the box element exists
    after it. *)
Definition startSelection (e : mouse) : M unit :=
  if ctrlKey e || metaKey e then ret tt
  else
    let p := worldPos e in
    modify (fun s => set_marquee s true p p (selectionBox s)) ;;;
    (if shiftKey e then ret tt else deselectAll) ;;;
    modify (fun s => set_marquee s (isSelecting s) (selectionStart s) (selectionEnd s) true).

(** [endSelection()] (notes.js 1571-1601). *)
Definition endSelection : M unit :=
  s <- get ;;
  if negb (isSelecting s) then ret tt
  else
    let '(l, t, r, b) := marquee s in
    forEach (List.filter (overlaps l t r b) (JsMap.values (notes s))) (fun n => addToSelection (Note.id n)) ;;;
    modify (fun s => set_marquee s false (selectionStart s) (selectionEnd s) false).

(** [handleGlobalMouseDown(e)] (notes.js 732-754). *)
Definition handleGlobalMouseDown (e : mouse) : M unit :=
  let t := mtarget e in
  if negb (onNote t) && negb (onUI t) && negb (onInput t) then
    (if onCanvas t then startSelection e else deselectAll)
  else ret tt.

(** [handleGlobalMouseUp()] (notes.js 813-843). *)
Definition handleGlobalMouseUp : M unit :=
  s <- get ;;
  (if isDragging s || isResizing s then emit NoteModified else ret tt) ;;;
  s <- get ;;
  (if isSelecting s then endSelection else ret tt) ;;;
  modify idle_flags.

(** The [mousedown] listener of a note (notes.js 244-263). *)
Definition noteMouseDown (e : mouse) (noteId : string) : M unit :=
  let t := mtarget e in
  match handleClass t with
  | Some cls => startResize e noteId cls
  | None =>
      if negb (onNoteText t) && negb (onNoteToggle t) then
        let add := ctrlKey e || metaKey e in
        s <- get ;;
        if add && JsSet.has (selectedNotes s) noteId then removeFromSelection noteId
        else startDrag e noteId add
      else ret tt
  end.

(** Whether the note's listener reaches [startDrag] or [startResize]:
    both call [e.stopPropagation()] (notes.js 669, 713), so the press
    goes no further than the note.  It reads the state before the
    listener runs. *)
Definition noteStopsPropagation (e : mouse) (noteId : string) (s : state) : bool :=
  let t := mtarget e in
  match handleClass t with
  | Some _ => true
  | None => negb (onNoteText t) && negb (onNoteToggle t) &&
            negb ((ctrlKey e || metaKey e) && JsSet.has (selectedNotes s) noteId)
  end.

End Gestures.

(** [showContextMenu(e, noteId)] (notes.js 1427-1453): it calls
    [this.selectNote(noteId)], a plain selection, then places the menu
    ([Layout.contextMenuPosition]; the element's style is DOM only). *)
Definition showContextMenu (noteId : string) : M unit := selectNote noteId false.

(** The [contextmenu] listener of a note (notes.js 266-273): select the
    note if it is not selected, then show the menu. *)
Definition noteContextMenu (noteId : string) : M unit :=
  (s <- get ;;
   if JsSet.has (selectedNotes s) noteId then ret tt else selectNote noteId false) ;;;
  showContextMenu noteId.

(** [handleKeyDown(e)] of [NotesManager] (notes.js 1117-1201). *)
Definition handleKeyDown (now : Z) (e : key) : M unit :=
  let t := ktarget e in
  let k := keyName e in
  let mod_ := kctrlKey e || kmetaKey e in
  if onTextInput t && negb (onNoteText t) then ret tt
  else if onMarkdown t &&
          ((mod_ && (String.eqb (toLower k) "a" || String.eqb (toLower k) "c" || String.eqb (toLower k) "e"))
           || String.eqb k "Escape") then ret tt
  else
    s <- get ;;
    if truthy (selectedNote s) || (0 <? JsSet.size (selectedNotes s))%nat then
      if String.eqb k "Delete" || String.eqb k "Backspace" then
        (if onNoteText t then ret tt else deleteSelectedNotes)
      else if String.eqb k "Escape" then deselectAll
      else if String.eqb k "d" then (if mod_ then duplicateSelectedNotes now else ret tt)
      else if String.eqb k "a" then (if mod_ then selectAllNotes else ret tt)
      else if isArrowKey k then
        (if onNoteText t then ret tt else moveSelectedNotes now k (if kshiftKey e then 10 else 1))
      else ret tt
    else ret tt.

(** ** Sessions *)

(** The events that reach [NotesManager]: the [mousedown] listener of a
    note, the document's [mousedown] off the notes, pointer moves and
    releases, key presses, a note's [contextmenu], and the scene
    commands the toolbar, the context menu, paste and loading issue. *)
Inductive uiEvent :=
| UNoteDown (e : mouse) (noteId : string)
| UCanvasDown (e : mouse)
| UMove (now : Z) (e : mouse)
| UUp
| UKey (now : Z) (e : key)
| UNoteContextMenu (noteId : string)
| UScene (c : command).

Definition isPress (ev : uiEvent) : bool :=
  match ev with UNoteDown _ _ | UCanvasDown _ => true | _ => false end.

(** No gesture in progress. *)
Definition idle (s : state) : bool := negb (isDragging s) && negb (isResizing s) && negb (isSelecting s).

(** The three gesture flags. *)
Definition flags (s : state) : bool * bool * bool := (isDragging s, isResizing s, isSelecting s).

(** The number of gesture modes active. *)
Definition modeCount (s : state) : nat :=
  ((if isDragging s then 1 else 0) + (if isResizing s then 1 else 0) + (if isSelecting s then 1 else 0))%nat.

(** The gesture modes active in [s] are among those the mask allows. *)
Definition at_most (d r sl : bool) (s : state) : Prop :=
  (isDragging s = true -> d = true) /\ (isResizing s = true -> r = true) /\ (isSelecting s = true -> sl = true).

(** The identity view, for scenarios whose client and world coordinates
    coincide (zoom 1, no pan, canvas at the page origin). *)
Definition idWorld (x y : Q) : Q * Q := (x, y).

Section Sessions.
Variable toWorld : Q -> Q -> Q * Q.

Definition uiStep (ev : uiEvent) : M unit :=
  match ev with
  | UNoteDown e noteId => noteMouseDown toWorld e noteId
  | UCanvasDown e => handleGlobalMouseDown toWorld e
  | UMove now e => handleGlobalMouseMove toWorld now e
  | UUp => handleGlobalMouseUp
  | UKey now e => handleKeyDown now e
  | UNoteContextMenu noteId => noteContextMenu noteId
  | UScene c => exec c
  end.

(** Sessions from the constructor, the browser delivering a press only
    between releases (one button at a time). *)
Inductive session : state -> Prop :=
| session_init : session init
| session_step (ev : uiEvent) (s : state) :
    session s -> (isPress ev = true -> idle s = true) -> session (result_state (run (uiStep ev) s)).

End Sessions.


(** ** Session invariants *)

Create HintDb inv.

Lemma preserves_updateNote (P : state -> Prop) (id : string) (f : Note.t -> Note.t) :
  (forall s m, P s -> P (set_notes s m)) -> preserves P (updateNote id f).
Proof. intros HP s H. rewrite Selection.updateNote_state. destruct (JsMap.get (notes s) id); auto. Qed.

Lemma flags_set_notes (fl : bool * bool * bool) (s : state) m : flags s = fl -> flags (set_notes s m) = fl.
Proof. auto. Qed.

Lemma sel_set_notes (s : state) m : sel_inv s -> sel_inv (set_notes s m).
Proof. auto. Qed.

Lemma keeps_sel_bringToFront (id : string) : preserves sel_inv (bringToFront id).
Proof. exact (bringToFront_sel id). Qed.
Lemma keeps_sel_sendToBack (id : string) : preserves sel_inv (sendToBack id).
Proof. exact (sendToBack_sel id). Qed.
Lemma keeps_sel_deselectAll : preserves sel_inv deselectAll.
Proof. intros s _. apply deselectAll_sel. Qed.
Lemma keeps_sel_addToSelection (id : string) : preserves sel_inv (addToSelection id).
Proof. exact (addToSelection_sel id). Qed.
Lemma keeps_sel_removeFromSelection (id : string) : preserves sel_inv (removeFromSelection id).
Proof. exact (removeFromSelection_sel id). Qed.
Lemma keeps_sel_selectNote (id : string) (add : bool) : preserves sel_inv (selectNote id add).
Proof. exact (selectNote_sel id add). Qed.
Lemma keeps_sel_selectAllNotes : preserves sel_inv selectAllNotes.
Proof. intros s _. apply selectAllNotes_sel. Qed.

Lemma flags_bringToFront (fl : bool * bool * bool) (id : string) : preserves (fun s => flags s = fl) (bringToFront id).
Proof. intros s H. exact (preserves_updateNote _ id _ (fun s m => flags_set_notes fl s m) s H). Qed.
Lemma flags_sendToBack (fl : bool * bool * bool) (id : string) : preserves (fun s => flags s = fl) (sendToBack id).
Proof. intros s H. exact (preserves_updateNote _ id _ (fun s m => flags_set_notes fl s m) s H). Qed.

#[export] Hint Resolve preserves_bind preserves_ret preserves_get preserves_emit preserves_if preserves_forEach
  preserves_forEachCollect flags_set_notes sel_set_notes
  keeps_sel_bringToFront keeps_sel_sendToBack keeps_sel_deselectAll keeps_sel_addToSelection
  keeps_sel_removeFromSelection keeps_sel_selectNote keeps_sel_selectAllNotes
  flags_bringToFront flags_sendToBack : inv.
#[export] Hint Extern 2 (preserves _ (updateNote _ _)) => apply preserves_updateNote; eauto with inv : inv.
#[export] Hint Extern 4 (preserves _ (modify _)) => apply preserves_modify; intros ?s ?H; exact H : inv.
#[export] Hint Extern 5 (preserves _ (modify _)) =>
  apply preserves_modify; intros ?s ?H; repeat case_match; exact H : inv.

(** ** Session invariants *)

(** A property the scene commands, note updates, extra selections and
    the gesture bookkeeping keep is kept by every event. *)
Section EventInvariant.
Create HintDb evinv.
Variable toWorld : Q -> Q -> Q * Q.
Variable P : state -> Prop.
Hypothesis P_exec : forall c, preserves P (exec c).
Hypothesis P_addToSelection : forall id, preserves P (addToSelection id).
Hypothesis P_updateNote : forall id f, preserves P (updateNote id f).
Hypothesis P_drag : forall s b o m, P s -> P (set_drag s b o m).
Hypothesis P_resize : forall s b h p sb, P s -> P (set_resize s b h p sb).
Hypothesis P_marquee : forall s b st en box, P s -> P (set_marquee s b st en box).

Local Hint Resolve P_addToSelection P_updateNote P_drag P_resize P_marquee
  preserves_ret preserves_get preserves_emit : evinv.
Local Hint Extern 1 (preserves _ (selectNote ?id ?a)) => exact (P_exec (SelectNote id a)) : evinv.
Local Hint Extern 1 (preserves _ (removeFromSelection ?id)) => exact (P_exec (RemoveFromSelection id)) : evinv.
Local Hint Extern 1 (preserves _ deselectAll) => exact (P_exec DeselectAll) : evinv.
Local Hint Extern 1 (preserves _ selectAllNotes) => exact (P_exec SelectAll) : evinv.
Local Hint Extern 1 (preserves _ deleteSelectedNotes) => exact (P_exec DeleteSelected) : evinv.
Local Hint Extern 1 (preserves _ (duplicateSelectedNotes ?t)) => exact (P_exec (DuplicateSelected t)) : evinv.
Local Hint Extern 1 (preserves _ (moveSelectedNotes ?t ?d ?x)) => exact (P_exec (MoveSelected t d x)) : evinv.
Local Hint Extern 4 (preserves _ (modify _)) =>
  apply preserves_modify; intros ?s ?H; repeat case_match; unfold idle_flags, with_end; eauto 6 with evinv : evinv.

Lemma event_keeps (ev : uiEvent) : preserves P (uiStep toWorld ev).
Proof.
  destruct ev; simpl; try apply P_exec;
    unfold noteMouseDown, startDrag, startResize, handleGlobalMouseDown, startSelection,
      handleGlobalMouseMove, updateSelection, resizeNote, dragStep, handleGlobalMouseUp, endSelection,
      handleKeyDown, noteContextMenu, showContextMenu; preserve evinv.
Qed.

End EventInvariant.

Section KeyInvariant.
Variable P : state -> Prop.
Hypothesis P_exec : forall c, preserves P (exec c).

Lemma handleKeyDown_keeps (now : Z) (e : key) : preserves P (handleKeyDown now e).
Proof.
  unfold handleKeyDown. repeat first [ exact (P_exec DeleteSelected) | exact (P_exec DeselectAll)
    | exact (P_exec (DuplicateSelected _)) | exact (P_exec SelectAll) | exact (P_exec (MoveSelected _ _ _))
    | progress cbv zeta | apply preserves_bind; [|intros ?] | apply preserves_if | progress case_match
    | apply preserves_ret | apply preserves_get ].
Qed.

Lemma noteContextMenu_keeps (id : string) : preserves P (noteContextMenu id).
Proof.
  unfold noteContextMenu, showContextMenu. apply preserves_bind; [|intros _; exact (P_exec (SelectNote id false))].
  apply preserves_bind; [apply preserves_get|]. intros ?; apply preserves_if; [apply preserves_ret | exact (P_exec (SelectNote id false))].
Qed.

End KeyInvariant.

(** *** The selection invariant and fresh ids over events *)

Lemma sel_unselect (s : state) (sel : list string) :
  sel_inv s -> sel = [] \/ sel = selectedNotes s -> sel_inv (set_selection s None sel).
Proof. intros [Hd _] [->| ->]; split; try constructor; try done; intros p Hp; discriminate. Qed.

Lemma sel_exec (c : command) : preserves sel_inv (exec c).
Proof.
  apply command_keeps; auto using sel_unselect, keeps_sel_selectNote, keeps_sel_addToSelection,
    keeps_sel_removeFromSelection, keeps_sel_deselectAll, keeps_sel_selectAllNotes, keeps_sel_bringToFront,
    keeps_sel_sendToBack.
Qed.

Lemma sel_event (toWorld : Q -> Q -> Q * Q) (ev : uiEvent) : preserves sel_inv (uiStep toWorld ev).
Proof.
  apply event_keeps; auto using sel_exec, keeps_sel_addToSelection.
  intros id f. apply preserves_updateNote, sel_set_notes.
Qed.

Lemma fresh_event (toWorld : Q -> Q -> Q * Q) (ev : uiEvent) : keeps_fresh (uiStep toWorld ev).
Proof. apply event_keeps; auto using keeps_fresh_exec, keeps_fresh_addToSelection, keeps_fresh_updateNote. Qed.

(** *** Gesture modes *)

Lemma at_most_set_notes (d r sl : bool) (s : state) m : at_most d r sl s -> at_most d r sl (set_notes s m).
Proof. auto. Qed.
Lemma at_most_drag (r sl : bool) (s : state) b o m : at_most true r sl s -> at_most true r sl (set_drag s b o m).
Proof. intros (_ & Hr & Hs). split; auto. Qed.
Lemma at_most_resize (d sl : bool) (s : state) b h p sb :
  at_most d true sl s -> at_most d true sl (set_resize s b h p sb).
Proof. intros (Hd & _ & Hs). split; auto. Qed.
Lemma at_most_marquee (d r : bool) (s : state) b st en box :
  at_most d r true s -> at_most d r true (set_marquee s b st en box).
Proof. intros (Hd & Hr & _). split; auto. Qed.

Create HintDb modes.
#[export] Hint Resolve at_most_set_notes at_most_drag at_most_resize at_most_marquee
  preserves_ret preserves_get preserves_emit : modes.
#[export] Hint Extern 2 (preserves _ (updateNote _ _)) => apply preserves_updateNote; eauto with modes : modes.
#[export] Hint Extern 4 (preserves _ (modify _)) =>
  apply preserves_modify; intros ?s ?H; repeat case_match; solve [exact H | eauto with modes] : modes.

Lemma at_most_bringToFront (d r sl : bool) (id : string) : preserves (at_most d r sl) (bringToFront id).
Proof. intros s H. exact (preserves_updateNote _ id _ (at_most_set_notes d r sl) s H). Qed.
Lemma at_most_sendToBack (d r sl : bool) (id : string) : preserves (at_most d r sl) (sendToBack id).
Proof. intros s H. exact (preserves_updateNote _ id _ (at_most_set_notes d r sl) s H). Qed.
#[export] Hint Resolve at_most_bringToFront at_most_sendToBack : modes.

Lemma at_most_addToSelection (d r sl : bool) (id : string) : preserves (at_most d r sl) (addToSelection id).
Proof. unfold addToSelection. preserve modes. Qed.
Lemma at_most_selectNote (d r sl : bool) (id : string) (add : bool) : preserves (at_most d r sl) (selectNote id add).
Proof. unfold selectNote, addToSelection, deselectAll. preserve modes. Qed.
Lemma at_most_selectAllNotes (d r sl : bool) : preserves (at_most d r sl) selectAllNotes.
Proof. unfold selectAllNotes, deselectAll. preserve modes. Qed.
Lemma at_most_exec (d r sl : bool) (c : command) : preserves (at_most d r sl) (exec c).
Proof.
  apply command_keeps; auto using at_most_set_notes, at_most_selectNote, at_most_addToSelection,
    at_most_selectAllNotes, at_most_bringToFront, at_most_sendToBack.
  all: solve [intros; assumption | unfold removeFromSelection, deselectAll; preserve modes].
Qed.

Lemma at_most_removeFromSelection (d r sl : bool) (id : string) : preserves (at_most d r sl) (removeFromSelection id).
Proof. unfold removeFromSelection. preserve modes. Qed.
Lemma at_most_deselectAll (d r sl : bool) : preserves (at_most d r sl) deselectAll.
Proof. unfold deselectAll. preserve modes. Qed.
#[export] Hint Resolve at_most_addToSelection at_most_selectNote at_most_removeFromSelection
  at_most_deselectAll : modes.

Lemma at_most_modeCount (d r sl : bool) (s : state) :
  at_most d r sl s -> (modeCount s <= Nat.b2n d + Nat.b2n r + Nat.b2n sl)%nat.
Proof.
  unfold at_most, modeCount. destruct (isDragging s), (isResizing s), (isSelecting s), d, r, sl;
    simpl; intuition (try discriminate; lia).
Qed.

Lemma idle_at_most (d r sl : bool) (s : state) : idle s = true -> at_most d r sl s.
Proof.
  unfold idle, at_most. destruct (isDragging s), (isResizing s), (isSelecting s); simpl; intuition discriminate.
Qed.

Lemma at_most_self (s : state) : at_most (isDragging s) (isResizing s) (isSelecting s) s.
Proof. unfold at_most. auto. Qed.

Lemma mouseUp_idle (s : state) : idle (result_state (run handleGlobalMouseUp s)) = true.
Proof. unfold handleGlobalMouseUp. repeat (rewrite state_bind; cbv beta). rewrite state_modify. reflexivity. Qed.

Section Modes.
Variable toWorld : Q -> Q -> Q * Q.

Lemma move_at_most (d r sl : bool) (now : Z) (e : mouse) : preserves (at_most d r sl) (handleGlobalMouseMove toWorld now e).
Proof. unfold handleGlobalMouseMove, updateSelection, resizeNote, dragStep. preserve modes. Qed.

(** A press on a note enters exactly one mode: resize on a handle, drag
    elsewhere. *)
Lemma noteMouseDown_at_most (e : mouse) (id : string) :
  preserves (at_most (negb (is_some (handleClass (mtarget e)))) (is_some (handleClass (mtarget e))) false)
            (noteMouseDown toWorld e id).
Proof.
  unfold noteMouseDown. destruct (handleClass (mtarget e)); simpl; [unfold startResize | unfold startDrag];
    preserve modes.
Qed.

Lemma canvasDown_at_most (e : mouse) : preserves (at_most false false true) (handleGlobalMouseDown toWorld e).
Proof. unfold handleGlobalMouseDown, startSelection. preserve modes. Qed.

Lemma modes_event (ev : uiEvent) (s : state) :
  (isPress ev = true -> idle s = true) -> (modeCount s <= 1)%nat ->
  (modeCount (result_state (run (uiStep toWorld ev) s)) <= 1)%nat.
Proof.
  intros Hp Hm. destruct ev; simpl in Hp |- *.
  - assert (Hi := Hp eq_refl). eapply Nat.le_trans; [apply at_most_modeCount, noteMouseDown_at_most, idle_at_most, Hi|].
    destruct (handleClass (mtarget e)); simpl; lia.
  - eapply Nat.le_trans; [apply at_most_modeCount, canvasDown_at_most, idle_at_most, Hp, eq_refl|]. simpl; lia.
  - eapply Nat.le_trans; [apply at_most_modeCount, move_at_most, at_most_self|]. exact Hm.
  - pose proof (at_most_modeCount false false false _ (idle_at_most _ _ _ _ (mouseUp_idle s))). simpl in *; lia.
  - eapply Nat.le_trans; [apply at_most_modeCount, (handleKeyDown_keeps _ (at_most_exec _ _ _)), at_most_self|]. exact Hm.
  - eapply Nat.le_trans; [apply at_most_modeCount, (noteContextMenu_keeps _ (at_most_exec _ _ _)), at_most_self|]. exact Hm.
  - eapply Nat.le_trans; [apply at_most_modeCount, at_most_exec, at_most_self|]. exact Hm.
Qed.

End Modes.

(** ** Drag *)

Section DragProofs.
Variable toWorld : Q -> Q -> Q * Q.
Local Arguments truthy : simpl never.

Lemma forEach_dragStep (now : Z) (p : Q * Q) (l : list string) (s : state) :
  result_state (run (forEach l (dragStep now p)) s) =
  set_notes s (updateAll l (fun k n => match JsMap.get (multiDragOffsets s) k with
                                       | Some o => Note.with_pos n (fst p - fst o) (snd p - snd o) now
                                       | None => n end) (notes s)).
Proof.
  revert s. induction l as [|a l IH]; intros s; simpl; [destruct s; reflexivity|].
  rewrite state_bind. unfold dragStep. rewrite state_bind, state_get. cbn beta.
  change (fst (fst (run get s))) with s.
  destruct (JsMap.get (multiDragOffsets s) a) as [o|] eqn:Eo.
  - rewrite Selection.updateNote_state. destruct (JsMap.get (notes s) a) eqn:En; rewrite IH; simpl.
    + reflexivity.
    + destruct s; reflexivity.
  - change (result_state (run (ret tt) s)) with s. rewrite IH.
    destruct (JsMap.get (notes s) a) eqn:En; [rewrite JsMap.set_get_same by exact En|]; reflexivity.
Qed.

Lemma signals_dragStep (now : Z) (p : Q * Q) (k : string) (s : state) : signals (run (dragStep now p k) s) = [].
Proof.
  unfold dragStep. rewrite signals_bind. simpl. destruct (JsMap.get (multiDragOffsets s) k);
    [apply signals_updateNote | reflexivity].
Qed.

Lemma signals_resizeNote (now : Z) (k : string) (p : Q * Q) (s : state) : signals (run (resizeNote now k p) s) = [].
Proof.
  unfold resizeNote. rewrite signals_bind. simpl.
  destruct (resizeStartBounds s), (resizeStartPos s); try reflexivity. apply signals_updateNote.
Qed.

Lemma signals_updateSelection (e : mouse) (s : state) : signals (run (updateSelection toWorld e) s) = [].
Proof. unfold updateSelection. rewrite signals_bind. simpl. destruct (negb _); reflexivity. Qed.

(** A pointer move raises no signal. *)
Lemma signals_handleGlobalMouseMove (now : Z) (e : mouse) (s : state) :
  signals (run (handleGlobalMouseMove toWorld now e) s) = [].
Proof.
  unfold handleGlobalMouseMove. rewrite signals_bind, state_get.
  change (signals (run get s)) with (@nil signal). change (fst (fst (run get s))) with s. simpl app.
  repeat case_match; try reflexivity;
    first [ apply signals_updateSelection | apply signals_updateNote | apply signals_resizeNote
          | apply signals_forEach_silent; intros; apply signals_dragStep ].
Qed.

(** One pointer move while dragging repositions the drag targets. *)
Lemma move_drag (now : Z) (e : mouse) (s : state) :
  isSelecting s = false -> isDragging s = true ->
  result_state (run (handleGlobalMouseMove toWorld now e) s) =
  set_notes s (updateAll (dragTargets s) (dragTo now (worldPos toWorld e) s) (notes s)).
Proof.
  intros Hs Hd. unfold handleGlobalMouseMove. rewrite state_bind, state_get.
  change (fst (fst (run get s))) with s. cbn beta. rewrite Hs, Hd. simpl andb.
  unfold dragTargets, dragTo, dragOffsetOf.
  destruct (1 <? JsSet.size (selectedNotes s))%nat eqn:E1.
  - assert (Hp : (0 <? JsSet.size (selectedNotes s))%nat = true)
      by (apply Nat.ltb_lt in E1; apply Nat.ltb_lt; lia).
    rewrite Hp, orb_true_r, forEach_dragStep. reflexivity.
  - destruct (selectedNote s) as [q|]; [destruct (truthy (Some q)) eqn:Et|]; simpl; rewrite ?Et.
    + rewrite Selection.updateNote_state. unfold updateAll. simpl.
      destruct (JsMap.get (notes s) q); [reflexivity | destruct s; reflexivity].
    + destruct (0 <? _)%nat; simpl; rewrite ?andb_false_r; destruct s; reflexivity.
    + destruct (0 <? _)%nat; simpl; rewrite ?andb_false_r; destruct s; reflexivity.
Qed.

Lemma dragTo_dragTo (t t' : Z) (p p' : Q * Q) (s : state) (k : string) (n : Note.t) :
  dragTo t p s k (dragTo t' p' s k n) = dragTo t p s k n.
Proof. unfold dragTo. destruct (dragOffsetOf s k); reflexivity. Qed.

(** Any non-empty sequence of pointer moves while dragging: each drag
    target ends where the last move puts it. *)
Lemma moves_drag (ms : list (Z * mouse)) (mv : Z * mouse) (s : state) :
  isSelecting s = false -> isDragging s = true -> NoDup (dragTargets s) ->
  exists m, result_state (run (forEach (ms ++ [mv]) (fun te => handleGlobalMouseMove toWorld (fst te) (snd te))) s)
            = set_notes s m /\
  forall k, JsMap.get m k = if decide (k ∈ dragTargets s)
                            then option_map (dragTo (fst mv) (worldPos toWorld (snd mv)) s k) (JsMap.get (notes s) k)
                            else JsMap.get (notes s) k.
Proof.
  intros Hs Hd Hnd. revert s Hs Hd Hnd. induction ms as [|a ms IH]; intros s Hs Hd Hnd; simpl.
  - rewrite state_bind, move_drag by assumption.
    eexists. split; [reflexivity|]. intros k. apply updateAll_get, Hnd.
  - rewrite state_bind, move_drag by assumption.
    set (s1 := set_notes s (updateAll (dragTargets s) (dragTo (fst a) (worldPos toWorld (snd a)) s) (notes s))).
    destruct (IH s1 Hs Hd Hnd) as (m & E & G). exists m. split; [exact E|].
    intros k. rewrite G. change (dragTargets s1) with (dragTargets s). cbn [s1 notes set_notes].
    rewrite updateAll_get by exact Hnd. case_decide; [|reflexivity].
    change (dragTo (fst mv) (worldPos toWorld (snd mv)) s1 k) with (dragTo (fst mv) (worldPos toWorld (snd mv)) s k).
    destruct (JsMap.get (notes s) k); simpl; [|reflexivity]. f_equal. apply dragTo_dragTo.
Qed.

Lemma dragOffsets_acc (p : Q * Q) (m : @JsMap.t string Note.t) (sel : list string)
    (acc : @JsMap.t string (Q * Q)) (k : string) :
  JsMap.get (fold_left (fun offs id =>
    match JsMap.get m id with
    | Some n => JsMap.set offs id (fst p - Note.x n, snd p - Note.y n)
    | None => offs
    end) sel acc) k =
  if decide (k ∈ sel) then
    match JsMap.get m k with Some n => Some (fst p - Note.x n, snd p - Note.y n) | None => JsMap.get acc k end
  else JsMap.get acc k.
Proof.
  revert acc. induction sel as [|a sel IH]; intros acc; simpl; [reflexivity|].
  rewrite IH. destruct (decide (k = a)) as [->|Hne].
  - destruct (JsMap.get m a) eqn:E; repeat case_decide; try reflexivity; try set_solver.
    apply JsMap.get_set_eq.
  - assert (Hg : JsMap.get (match JsMap.get m a with
                  | Some n => JsMap.set acc a (fst p - Note.x n, snd p - Note.y n) | None => acc end) k
                 = JsMap.get acc k) by (destruct (JsMap.get m a); [apply JsMap.get_set_ne; congruence | reflexivity]).
    rewrite Hg. repeat case_decide; auto; set_solver.
Qed.

Lemma dragOffsets_get (p : Q * Q) (m : @JsMap.t string Note.t) (sel : list string) (k : string) :
  JsMap.get (dragOffsets p m sel) k =
  if decide (k ∈ sel) then option_map (fun n => (fst p - Note.x n, snd p - Note.y n)) (JsMap.get m k) else None.
Proof.
  unfold dragOffsets. rewrite dragOffsets_acc. case_decide; [|reflexivity].
  destruct (JsMap.get m k); reflexivity.
Qed.

(** A press on a note that is already selected keeps the selection and
    records, for every selected stored note, its offset from the press. *)
Lemma press_selected (e0 : mouse) (noteId : string) (s : state) :
  sel_inv s -> noteId ∈ selectedNotes s ->
  ((1 < JsSet.size (selectedNotes s))%nat \/ selectedNote s = Some noteId) -> noteId <> "" ->
  let s1 := result_state (run (startDrag toWorld e0 noteId false) s) in
  let p0 := worldPos toWorld e0 in
  notes s1 = notes s /\ selectedNotes s1 = selectedNotes s /\ isSelecting s1 = isSelecting s /\
  isDragging s1 = true /\ signals (run (startDrag toWorld e0 noteId false) s) = [] /\
  NoDup (dragTargets s1) /\ (forall k, k ∈ dragTargets s1 -> k ∈ selectedNotes s) /\
  (forall k n, k ∈ selectedNotes s -> JsMap.get (notes s) k = Some n ->
     k ∈ dragTargets s1 /\ dragOffsetOf s1 k = Some (fst p0 - Note.x n, snd p0 - Note.y n)).
Proof.
  intros [Hnd Hp] Hin Hmode Hne s1 p0.
  assert (Hhas : JsSet.has (selectedNotes s) noteId = true) by (apply JsSet.has_spec, Hin).
  assert (Hrun : run (startDrag toWorld e0 noteId false) s =
    (tt, if (1 <? JsSet.size (selectedNotes s))%nat
         then set_drag s true (dragOffset s) (dragOffsets p0 (notes s) (selectedNotes s))
         else match JsMap.get (notes s) noteId with
              | Some n => set_drag s true (fst p0 - Note.x n, snd p0 - Note.y n) (multiDragOffsets s)
              | None => set_drag s true (dragOffset s) (multiDragOffsets s)
              end, [])).
  { unfold startDrag, run, bind, get, modify, ret. simpl. rewrite Hhas. simpl.
    destruct (1 <? _)%nat; [reflexivity|]. destruct (JsMap.get (notes s) noteId); reflexivity. }
  unfold s1. rewrite Hrun. unfold result_state, signals. cbn [fst snd].
  destruct (1 <? JsSet.size (selectedNotes s))%nat eqn:E1.
  - unfold dragTargets, dragOffsetOf. cbn [selectedNotes set_drag multiDragOffsets notes]. rewrite E1.
    do 5 (split; [reflexivity|]). split; [exact Hnd|]. split; [intros k Hk; exact Hk|].
    intros k n Hk Hn. split; [exact Hk|].
    rewrite dragOffsets_get, decide_True by exact Hk. rewrite Hn. reflexivity.
  - destruct Hmode as [Hlt|Hsn]; [apply Nat.ltb_lt in Hlt; congruence|].
    assert (Hsing : forall k, k ∈ selectedNotes s -> k = noteId).
    { intros k Hk. apply Nat.ltb_ge in E1. unfold JsSet.size in E1.
      destruct (selectedNotes s) as [|a [|b l]]; simpl in E1; [apply elem_of_nil in Hk; contradiction | | lia].
      apply list_elem_of_singleton in Hk, Hin. congruence. }
    assert (Htr : truthy (Some noteId) = true)
      by (unfold truthy; apply negb_true_iff, String.eqb_neq, Hne).
    assert (Ht : forall s', selectedNote s' = Some noteId -> JsSet.size (selectedNotes s') = JsSet.size (selectedNotes s) ->
                 dragTargets s' = [noteId]).
    { intros s' H1 H2. unfold dragTargets. rewrite H2, E1, H1, Htr. reflexivity. }
    destruct (JsMap.get (notes s) noteId) as [n0|] eqn:En;
      (rewrite Ht; [|exact Hsn|reflexivity]);
      (split; [reflexivity|]); (split; [reflexivity|]); (split; [reflexivity|]); (split; [reflexivity|]);
      (split; [reflexivity|]); (split; [apply NoDup_singleton|]);
      (split; [intros k Hk%list_elem_of_singleton; subst; exact Hin|]);
      intros k n Hk Hn; pose proof (Hsing k Hk) as ->; (split; [apply list_elem_of_singleton; reflexivity|]);
      unfold dragOffsetOf; cbn [selectedNotes set_drag dragOffset]; rewrite E1; congruence.
Qed.

Lemma mouseUp_dragging (s : state) :
  isDragging s = true -> isSelecting s = false -> run handleGlobalMouseUp s = (tt, idle_flags s, [NoteModified]).
Proof.
  intros Hd Hs. unfold handleGlobalMouseUp, run, bind, get, emit, modify, ret. simpl.
  rewrite Hd. simpl. rewrite Hs. reflexivity.
Qed.

Lemma noteMouseDown_press (e0 : mouse) (noteId : string) (s : state) :
  handleClass (mtarget e0) = None -> onNoteText (mtarget e0) = false -> onNoteToggle (mtarget e0) = false ->
  ctrlKey e0 = false -> metaKey e0 = false ->
  run (noteMouseDown toWorld e0 noteId) s = run (startDrag toWorld e0 noteId false) s.
Proof.
  intros H1 H2 H3 H4 H5. unfold noteMouseDown. rewrite H1, H2, H3, H4, H5. simpl.
  unfold run, bind, get. simpl. destruct (startDrag toWorld e0 noteId false s) as [[[] s'] o]. reflexivity.
Qed.

(** ** Resize *)

Lemma move_resize (now : Z) (e : mouse) (s : state) (q : string) (sb : Bounds.t) (sp : Q * Q) :
  isSelecting s = false -> isDragging s = false -> isResizing s = true -> selectedNote s = Some q ->
  truthy (Some q) = true -> resizeStartBounds s = Some sb -> resizeStartPos s = Some sp ->
  result_state (run (handleGlobalMouseMove toWorld now e) s) =
  set_notes s (updateAll [q] (resizeTo now (worldPos toWorld e) sb sp s) (notes s)).
Proof.
  intros Hs Hd Hr Hq Ht Hb Hp. unfold handleGlobalMouseMove. rewrite state_bind, state_get.
  change (fst (fst (run get s))) with s. cbn beta. rewrite Hs, Hd, Hr, Hq, Ht. simpl.
  unfold updateAll. simpl. destruct (JsMap.get (notes s) q) as [n|] eqn:En; [|destruct s; reflexivity].
  unfold resizeNote. rewrite state_bind, state_get. change (fst (fst (run get s))) with s. cbn beta.
  rewrite Hb, Hp, Selection.updateNote_state, En. reflexivity.
Qed.

Lemma resizeTo_resizeTo (t t' : Z) (p p' : Q * Q) (sb : Bounds.t) (sp : Q * Q) (s : state) (k : string) (n : Note.t) :
  resizeTo t p sb sp s k (resizeTo t' p' sb sp s k n) = resizeTo t p sb sp s k n.
Proof. reflexivity. Qed.

Lemma moves_resize (ms : list (Z * mouse)) (mv : Z * mouse) (s : state) (q : string) (sb : Bounds.t) (sp : Q * Q) :
  isSelecting s = false -> isDragging s = false -> isResizing s = true -> selectedNote s = Some q ->
  truthy (Some q) = true -> resizeStartBounds s = Some sb -> resizeStartPos s = Some sp ->
  exists m, result_state (run (forEach (ms ++ [mv]) (fun te => handleGlobalMouseMove toWorld (fst te) (snd te))) s)
            = set_notes s m /\
  forall k, JsMap.get m k = if decide (k ∈ [q])
                            then option_map (resizeTo (fst mv) (worldPos toWorld (snd mv)) sb sp s k) (JsMap.get (notes s) k)
                            else JsMap.get (notes s) k.
Proof.
  intros Hs Hd Hr Hq Ht Hb Hp. revert s Hs Hd Hr Hq Hb Hp. induction ms as [|a ms IH]; intros s Hs Hd Hr Hq Hb Hp; simpl.
  - rewrite state_bind, (move_resize _ _ s q sb sp) by assumption.
    eexists. split; [reflexivity|]. intros k. apply updateAll_get, NoDup_singleton.
  - rewrite state_bind, (move_resize _ _ s q sb sp) by assumption.
    set (s1 := set_notes s (updateAll [q] (resizeTo (fst a) (worldPos toWorld (snd a)) sb sp s) (notes s))).
    destruct (IH s1 Hs Hd Hr Hq Hb Hp) as (m & E & G). exists m. split; [exact E|].
    intros k. rewrite G. cbn [s1 notes set_notes].
    change (resizeTo (fst mv) (worldPos toWorld (snd mv)) sb sp s1 k)
      with (resizeTo (fst mv) (worldPos toWorld (snd mv)) sb sp s k).
    rewrite updateAll_get by apply NoDup_singleton. case_decide; [|reflexivity].
    destruct (JsMap.get (notes s) k); reflexivity.
Qed.

Lemma mouseUp_resizing (s : state) :
  isResizing s = true -> isSelecting s = false -> run handleGlobalMouseUp s = (tt, idle_flags s, [NoteModified]).
Proof.
  intros Hr Hs. unfold handleGlobalMouseUp, run, bind, get, emit, modify, ret. simpl.
  rewrite Hr, orb_true_r. simpl. rewrite Hs. reflexivity.
Qed.

Lemma bounds_with_bounds (n : Note.t) (b : Bounds.t) (now : Z) : Note.bounds (Note.with_bounds n b now) = b.
Proof. destruct b; reflexivity. Qed.

Lemma noteMouseDown_handle (e0 : mouse) (noteId cls : string) (s : state) :
  handleClass (mtarget e0) = Some cls ->
  run (noteMouseDown toWorld e0 noteId) s = run (startResize toWorld e0 noteId cls) s.
Proof. intros H. unfold noteMouseDown. rewrite H. reflexivity. Qed.

(** A press on a resize handle of a stored note selects it alone and
    takes the snapshot. *)
Lemma press_handle (e0 : mouse) (noteId cls : string) (n0 : Note.t) (s : state) :
  JsMap.get (notes s) noteId = Some n0 ->
  let r := run (startResize toWorld e0 noteId cls) s in let s1 := result_state r in
  selectedNotes s1 = [noteId] /\ selectedNote s1 = Some noteId /\ isResizing s1 = true /\
  isDragging s1 = isDragging s /\ isSelecting s1 = isSelecting s /\ resizeHandle s1 = Some cls /\
  resizeStartPos s1 = Some (worldPos toWorld e0) /\ resizeStartBounds s1 = Some (Note.bounds n0) /\
  JsMap.get (notes s1) noteId = Some (Note.with_zIndex n0 (getMaxZIndex (notes s) + 1)) /\
  (forall k, k <> noteId -> JsMap.get (notes s1) k = JsMap.get (notes s) k) /\ signals r = [].
Proof.
  intros Hn. unfold startResize, selectNote, bringToFront, updateNote, deselectAll.
  unfold run, result_state, signals, bind, get, modify, ret. simpl. rewrite Hn. simpl.
  rewrite JsMap.get_set_eq. simpl.
  repeat split; [apply JsMap.get_set_eq | intros k Hk; apply JsMap.get_set_ne; congruence].
Qed.

(** ** Marquee *)

Lemma move_marquee (now : Z) (e : mouse) (s : state) :
  isSelecting s = true -> result_state (run (handleGlobalMouseMove toWorld now e) s) = with_end s (worldPos toWorld e).
Proof.
  intros Hs. unfold handleGlobalMouseMove. rewrite state_bind, state_get.
  change (fst (fst (run get s))) with s. cbn beta. rewrite Hs.
  unfold updateSelection. rewrite state_bind, state_get. change (fst (fst (run get s))) with s. cbn beta.
  rewrite Hs. reflexivity.
Qed.

Lemma moves_marquee (ms : list (Z * mouse)) (mv : Z * mouse) (s : state) :
  isSelecting s = true ->
  result_state (run (forEach (ms ++ [mv]) (fun te => handleGlobalMouseMove toWorld (fst te) (snd te))) s)
  = with_end s (worldPos toWorld (snd mv)).
Proof.
  revert s. induction ms as [|a ms IH]; intros s Hs; simpl.
  - rewrite state_bind, move_marquee by exact Hs. reflexivity.
  - rewrite state_bind, move_marquee by exact Hs. rewrite IH by exact Hs. reflexivity.
Qed.

Lemma forEach_map {A B} (g : A -> B) (f : B -> M unit) (l : list A) :
  forEach l (fun x => f (g x)) = forEach (map g l) f.
Proof. induction l as [|a l IH]; simpl; [reflexivity | rewrite IH; reflexivity]. Qed.

(** Adding a list of ids to a consistent selection. *)
Lemma forEach_addToSelection_mem (l : list string) (s : state) :
  (forall p, selectedNote s = Some p -> p ∈ selectedNotes s) ->
  let s' := result_state (run (forEach l addToSelection) s) in
  notes s' = notes s /\ isSelecting s' = isSelecting s /\
  (forall k, k ∈ selectedNotes s' <-> k ∈ selectedNotes s \/ k ∈ l).
Proof.
  revert s. induction l as [|a l IH]; intros s Hp; simpl.
  - repeat split; [intros H; left; exact H | intros [H|H]; [exact H | apply elem_of_nil in H; contradiction]].
  - rewrite state_bind.
    assert (Hsel : match selectedNote s with
               | Some p => if truthy (Some p) && negb (JsSet.has (selectedNotes s) p)
                           then JsSet.add (selectedNotes s) p else selectedNotes s
               | None => selectedNotes s end = selectedNotes s).
    { destruct (selectedNote s) as [p|]; [|reflexivity].
      rewrite (proj2 (JsSet.has_spec _ _) (Hp p eq_refl)), andb_false_r. reflexivity. }
    destruct (addToSelection_fields a s) as (F1 & F2 & F3). rewrite Hsel in F3.
    destruct (IH (result_state (run (addToSelection a) s))) as (E1 & E2 & E3).
    + rewrite F2, F3. intros p [= <-]. apply JsSet.elem_of_add. left. reflexivity.
    + split; [rewrite E1; exact F1|]. split; [exact E2|]. intros k. rewrite E3, F3, JsSet.elem_of_add, elem_of_cons. tauto.
Qed.

Lemma elem_of_marquee_ids (P : Note.t -> bool) (vals : list Note.t) (k : string) :
  k ∈ map Note.id (List.filter P vals) <-> exists n, In n vals /\ Note.id n = k /\ P n = true.
Proof.
  rewrite list_elem_of_In, in_map_iff. split.
  - intros (n & <- & Hn). apply filter_In in Hn as [Hn HP]. eauto.
  - intros (n & Hn & <- & HP). exists n. split; [reflexivity | apply filter_In; auto].
Qed.

Lemma press_background (e0 : mouse) (s : state) :
  onNote (mtarget e0) = false -> onUI (mtarget e0) = false -> onInput (mtarget e0) = false ->
  onCanvas (mtarget e0) = true -> ctrlKey e0 = false -> metaKey e0 = false ->
  let r := run (handleGlobalMouseDown toWorld e0) s in let s1 := result_state r in
  isSelecting s1 = true /\ selectionStart s1 = worldPos toWorld e0 /\ selectionEnd s1 = worldPos toWorld e0 /\
  notes s1 = notes s /\ isDragging s1 = isDragging s /\ isResizing s1 = isResizing s /\
  selectedNotes s1 = (if shiftKey e0 then selectedNotes s else []) /\
  selectedNote s1 = (if shiftKey e0 then selectedNote s else None) /\ signals r = [].
Proof.
  intros H1 H2 H3 H4 H5 H6. unfold handleGlobalMouseDown. rewrite H1, H2, H3, H4. simpl.
  unfold startSelection. rewrite H5, H6. simpl.
  destruct (shiftKey e0); repeat split.
Qed.

Lemma signals_forEach_addToSelection (l : list string) (s : state) : signals (run (forEach l addToSelection) s) = [].
Proof. apply signals_forEach_silent. reflexivity. Qed.

(** The release that ends a marquee gesture. *)
Lemma mouseUp_selecting (s : state) :
  isDragging s = false -> isResizing s = false -> isSelecting s = true ->
  let ids := map Note.id (List.filter (fun n => let '(l, t, r, b) := marquee s in overlaps l t r b n)
                                      (JsMap.values (notes s))) in
  let s2 := result_state (run (forEach ids addToSelection) s) in
  result_state (run handleGlobalMouseUp s) =
    idle_flags (set_marquee s2 false (selectionStart s2) (selectionEnd s2) false) /\
  signals (run handleGlobalMouseUp s) = [].
Proof.
  intros Hd Hr Hs ids s2. unfold handleGlobalMouseUp, endSelection.
  msimp. rewrite Hd, Hr. msimp. rewrite Hs. msimp. rewrite Hs. msimp.
  unfold marquee. msimp. rewrite forEach_map. msimp.
  rewrite signals_forEach_addToSelection. split; reflexivity.
Qed.

(** ** The context menu *)

(** [selectNote] changes no note but the one it raises. *)
Lemma selectNote_get_other (id : string) (add : bool) (s : state) (j : string) :
  j <> id -> JsMap.get (notes (result_state (run (selectNote id add) s))) j = JsMap.get (notes s) j.
Proof.
  intros Hj. unfold selectNote. rewrite state_bind, state_get. cbv beta.
  destruct (add && _); [reflexivity|]. rewrite !state_bind.
  unfold bringToFront, result_state, run, updateNote. simpl.
  destruct (JsMap.get _ id); simpl; [apply JsMap.get_set_ne; congruence | reflexivity].
Qed.

(** The right-clicked note's menu leaves the other notes as they were. *)
Lemma noteContextMenu_get_other (id : string) (s : state) (j : string) :
  j <> id -> JsMap.get (notes (result_state (run (noteContextMenu id) s))) j = JsMap.get (notes s) j.
Proof.
  intros Hj. unfold noteContextMenu, showContextMenu. rewrite state_bind, selectNote_get_other by exact Hj.
  rewrite state_bind, state_get. cbv beta. destruct (JsSet.has _ _); [reflexivity | apply selectNote_get_other, Hj].
Qed.

Lemma noteContextMenu_selection (id : string) (n : Note.t) (s : state) :
  JsMap.get (notes s) id = Some n ->
  selectedNotes (result_state (run (noteContextMenu id) s)) = [id].
Proof.
  intros Hn. unfold noteContextMenu, showContextMenu. rewrite state_bind.
  assert (H1 : exists n1, JsMap.get (notes (result_state (run (s0 <- get ;; if JsSet.has (selectedNotes s0) id then ret tt
                                                                      else selectNote id false) s))) id = Some n1).
  { rewrite state_bind, state_get. cbv beta. destruct (JsSet.has _ _); [exists n; exact Hn|].
    destruct (Selection.selectNote_plain id n s Hn) as (_ & _ & n' & Hg & _). exists n'. exact Hg. }
  destruct H1 as [n1 H1]. exact (proj1 (Selection.selectNote_plain id n1 _ H1)).
Qed.

(** The menu's "delete" deletes the targets. *)
Lemma contextMenu_delete_notes (now : Z) (id : string) (s : state) :
  notes (result_state (run (handleContextMenuAction now "delete" id) s)) = deleteAll (targets s) (notes s).
Proof.
  unfold handleContextMenuAction. rewrite state_bind, state_get. cbv beta zeta. rewrite state_bind.
  change (String.eqb "delete" "duplicate") with false. change (String.eqb "delete" "delete") with true.
  cbv iota. unfold deleteSelectedNotes. rewrite !state_bind, state_get. cbv beta. rewrite forEach_deleteAll.
  reflexivity.
Qed.

(** ** Theorems *)

(** C5: A drag gesture on an already selected note (a plain press on its
    body, any number of pointer moves, the release) moves every selected
    stored note by the pointer's world displacement from the press to
    the last move, whether one or many notes are selected, and keeps
    their sizes and z-order; other notes do not move; the selection is
    kept; the gesture ends idle with one "note-modified" signal. *)
Theorem drag_gesture (s : state) (e0 : mouse) (noteId : string) (ms : list (Z * mouse)) (mv : Z * mouse) :
  sel_inv s -> isSelecting s = false ->
  noteId ∈ selectedNotes s -> ((1 < JsSet.size (selectedNotes s))%nat \/ selectedNote s = Some noteId) ->
  noteId <> "" ->
  handleClass (mtarget e0) = None -> onNoteText (mtarget e0) = false -> onNoteToggle (mtarget e0) = false ->
  ctrlKey e0 = false -> metaKey e0 = false ->
  let r := run (noteMouseDown toWorld e0 noteId ;;;
                forEach (ms ++ [mv]) (fun te => handleGlobalMouseMove toWorld (fst te) (snd te)) ;;;
                handleGlobalMouseUp) s in
  let s' := result_state r in
  let p0 := worldPos toWorld e0 in let p1 := worldPos toWorld (snd mv) in
  (forall k n, k ∈ selectedNotes s -> JsMap.get (notes s) k = Some n ->
     exists n', JsMap.get (notes s') k = Some n' /\
       Note.x n' == Note.x n + (fst p1 - fst p0) /\ Note.y n' == Note.y n + (snd p1 - snd p0) /\
       Note.width n' = Note.width n /\ Note.height n' = Note.height n /\ Note.zIndex n' = Note.zIndex n) /\
  (forall k, k ∉ selectedNotes s -> JsMap.get (notes s') k = JsMap.get (notes s) k) /\
  selectedNotes s' = selectedNotes s /\ isDragging s' = false /\ signals r = [NoteModified].
Proof.
  intros Hsel Hs Hin Hmode Hne H1 H2 H3 H4 H5 r s' p0 p1.
  destruct (press_selected e0 noteId s Hsel Hin Hmode Hne)
    as (N1 & S1 & I1 & D1 & Sg1 & Nd1 & Sub1 & Off1).
  destruct (moves_drag ms mv (result_state (run (startDrag toWorld e0 noteId false) s)))
    as (m & E2 & G2); [congruence | exact D1 | exact Nd1|].
  unfold s', r. rewrite state_bind, signals_bind. cbv beta. rewrite state_bind, signals_bind. cbv beta.
  rewrite !noteMouseDown_press by assumption. rewrite E2, mouseUp_dragging by (simpl; congruence).
  rewrite Sg1, signals_forEach_silent by (intros; apply signals_handleGlobalMouseMove).
  unfold result_state at 1. cbn [fst snd idle_flags set_marquee set_resize set_drag notes selectedNotes isDragging signals].
  split; [|split; [|split; [exact S1 | split; reflexivity]]].
  - intros k n Hk Hn. destruct (Off1 k n Hk Hn) as [Ht Ho].
    rewrite G2, decide_True by exact Ht. rewrite N1, Hn. simpl. unfold dragTo. rewrite Ho.
    eexists. split; [reflexivity|]. unfold p0, p1. simpl. repeat split; [lra | lra].
  - intros k Hk. rewrite G2, decide_False by (intros Ht; apply Hk, Sub1, Ht). rewrite N1. reflexivity.
Qed.

(** C9: A resize gesture (a press on the [cls] handle of a stored note,
    any number of pointer moves, the release) leaves the note with the
    bounds the resize policy gives for the snapshot taken at the press
    and the total world displacement of the pointer: intermediate moves
    leave no trace (no drift); the note keeps its content and type, is
    the only selected note, the other notes are untouched, and the
    gesture ends idle with one "note-modified" signal. *)
Theorem resize_gesture (s : state) (e0 : mouse) (noteId cls : string) (n0 : Note.t)
    (ms : list (Z * mouse)) (mv : Z * mouse) :
  JsMap.get (notes s) noteId = Some n0 -> noteId <> "" -> isSelecting s = false -> isDragging s = false ->
  handleClass (mtarget e0) = Some cls ->
  let r := run (noteMouseDown toWorld e0 noteId ;;;
                forEach (ms ++ [mv]) (fun te => handleGlobalMouseMove toWorld (fst te) (snd te)) ;;;
                handleGlobalMouseUp) s in
  let s' := result_state r in
  let p0 := worldPos toWorld e0 in let p1 := worldPos toWorld (snd mv) in
  (exists n', JsMap.get (notes s') noteId = Some n' /\
     Note.bounds n' = Resize.resizeBounds (Resize.handle_of_class cls) (Note.bounds n0)
                        (fst p1 - fst p0) (snd p1 - snd p0) /\
     Note.content n' = Note.content n0 /\ Note.type n' = Note.type n0) /\
  (forall k, k <> noteId -> JsMap.get (notes s') k = JsMap.get (notes s) k) /\
  selectedNotes s' = [noteId] /\ isResizing s' = false /\ signals r = [NoteModified].
Proof.
  intros Hn Hne Hs Hd Hh r s' p0 p1.
  destruct (press_handle e0 noteId cls n0 s Hn) as (S1 & P1 & R1 & D1 & I1 & H1 & SP1 & SB1 & G1 & O1 & Sg1).
  assert (Ht : truthy (Some noteId) = true) by (unfold truthy; apply negb_true_iff, String.eqb_neq, Hne).
  destruct (moves_resize ms mv (result_state (run (startResize toWorld e0 noteId cls) s)) noteId
    (Note.bounds n0) (worldPos toWorld e0)) as (m & E2 & G2); try congruence.
  unfold s', r. rewrite state_bind, signals_bind. cbv beta. rewrite state_bind, signals_bind. cbv beta.
  rewrite !(noteMouseDown_handle e0 noteId cls) by exact Hh. rewrite E2, mouseUp_resizing by (simpl; congruence).
  rewrite Sg1, signals_forEach_silent by (intros; apply signals_handleGlobalMouseMove).
  unfold result_state at 1. cbn [fst snd idle_flags set_marquee set_resize set_drag notes selectedNotes isResizing signals].
  split; [|split; [|split; [exact S1 | split; reflexivity]]].
  - rewrite G2, decide_True by (apply list_elem_of_singleton; reflexivity). rewrite G1. simpl.
    eexists. split; [reflexivity|]. unfold resizeTo, handleOf. rewrite bounds_with_bounds, H1.
    repeat split.
  - intros k Hk. rewrite G2, decide_False by (intros Hin; apply list_elem_of_singleton in Hin; contradiction).
    apply O1, Hk.
Qed.

(** C13: A marquee gesture (a press on the empty canvas without Ctrl/Cmd,
    any number of pointer moves, the release) selects exactly the
    stored notes that overlap the rectangle between the press and the
    last pointer position, added to the previous selection when Shift
    is held and replacing it otherwise; the notes do not change and no
    "note-modified" signal is raised. *)
Theorem marquee_gesture (s : state) (e0 : mouse) (ms : list (Z * mouse)) (mv : Z * mouse) :
  sel_inv s -> isDragging s = false -> isResizing s = false ->
  onNote (mtarget e0) = false -> onUI (mtarget e0) = false -> onInput (mtarget e0) = false ->
  onCanvas (mtarget e0) = true -> ctrlKey e0 = false -> metaKey e0 = false ->
  let r := run (handleGlobalMouseDown toWorld e0 ;;;
                forEach (ms ++ [mv]) (fun te => handleGlobalMouseMove toWorld (fst te) (snd te)) ;;;
                handleGlobalMouseUp) s in
  let s' := result_state r in
  let p0 := worldPos toWorld e0 in let p1 := worldPos toWorld (snd mv) in
  (forall k, k ∈ selectedNotes s' <->
     (shiftKey e0 = true /\ k ∈ selectedNotes s) \/
     exists n, In n (JsMap.values (notes s)) /\ Note.id n = k /\
       overlaps (Qmin (fst p0) (fst p1)) (Qmin (snd p0) (snd p1))
                (Qmax (fst p0) (fst p1)) (Qmax (snd p0) (snd p1)) n = true) /\
  notes s' = notes s /\ isSelecting s' = false /\ signals r = [].
Proof.
  intros [_ Hp] Hd Hr H1 H2 H3 H4 H5 H6 r s' p0 p1.
  destruct (press_background e0 s H1 H2 H3 H4 H5 H6) as (I1 & St1 & En1 & N1 & D1 & R1 & Sel1 & P1 & Sg1).
  set (s1 := result_state (run (handleGlobalMouseDown toWorld e0) s)) in *.
  unfold s', r. rewrite state_bind, signals_bind. cbv beta. rewrite state_bind, signals_bind. cbv beta.
  fold s1. rewrite moves_marquee by exact I1.
  rewrite signals_forEach_silent by (intros; apply signals_handleGlobalMouseMove).
  destruct (mouseUp_selecting (with_end s1 (worldPos toWorld (snd mv)))) as [E3 Sg3];
    [simpl; congruence | simpl; congruence | exact I1 |].
  rewrite E3, Sg3, Sg1.
  set (ids := map Note.id (List.filter _ _)).
  destruct (forEach_addToSelection_mem ids (with_end s1 (worldPos toWorld (snd mv)))) as (F1 & F2 & F3).
  { simpl. rewrite P1, Sel1. destruct (shiftKey e0); [exact Hp | discriminate]. }
  cbn [idle_flags set_marquee set_resize set_drag selectedNotes notes isSelecting].
  split; [|split; [rewrite F1; exact N1 | split; reflexivity]].
  intros k. rewrite F3. cbn [with_end set_marquee selectedNotes]. rewrite Sel1.
  unfold ids. rewrite elem_of_marquee_ids. cbn [with_end set_marquee notes]. rewrite N1.
  unfold marquee. cbn [with_end set_marquee selectionStart selectionEnd]. rewrite St1.
  unfold p0, p1. destruct (shiftKey e0); [|rewrite elem_of_nil]; intuition congruence.
Qed.

End DragProofs.

(** ** The marquee test *)

Lemma intervals_meet (a b c d : Q) :
  a < b -> c < d -> (c < b /\ a < d <-> exists p, a < p /\ p < b /\ c < p /\ p < d).
Proof.
  intros Hab Hcd. split; [intros [H1 H2] | intros (p & H1 & H2 & H3 & H4); split; lra].
  destruct (Qlt_le_dec a c), (Qlt_le_dec b d);
    [exists ((c + b) * (1 # 2)) | exists ((c + d) * (1 # 2)) | exists ((a + b) * (1 # 2)) | exists ((a + d) * (1 # 2))]; lra.
Qed.

(** C21: The test of [endSelection] is exact for non-degenerate
    rectangles: a note passes it iff the open marquee rectangle and the
    note's open rectangle share a point. *)
Theorem overlaps_spec (l t r b : Q) (n : Note.t) :
  l < r -> t < b -> 0 < Note.width n -> 0 < Note.height n ->
  (overlaps l t r b n = true <->
   exists px py, (l < px /\ px < r) /\ (t < py /\ py < b) /\
     (Note.x n < px /\ px < Note.x n + Note.width n) /\ (Note.y n < py /\ py < Note.y n + Note.height n)).
Proof.
  intros Hlr Htb Hw Hh. unfold overlaps. rewrite !andb_true_iff, !Qltb_spec. split.
  - intros (((H1 & H2) & H3) & H4).
    destruct (proj1 (intervals_meet l r (Note.x n) (Note.x n + Note.width n) Hlr ltac:(lra)) (conj H1 H2))
      as (px & Hx).
    destruct (proj1 (intervals_meet t b (Note.y n) (Note.y n + Note.height n) Htb ltac:(lra)) (conj H3 H4))
      as (py & Hy).
    exists px, py. intuition.
  - intros (px & py & Hx & Hy & Hx' & Hy'). repeat split; lra.
Qed.

(** ** The context menu acts on the clicked note only *)

(** C22: A right-click on a note that belongs to a multi-selection does not
    keep the selection: the listener leaves it, but [showContextMenu]
    then calls [selectNote(noteId)], so the menu's Delete removes the
    clicked note and no other. *)
Theorem context_menu_delete_removes_only_clicked (now : Z) (id : string) (n : Note.t) (s : state) :
  JsMap.get (notes s) id = Some n ->
  let s1 := result_state (run (noteContextMenu id) s) in
  let s2 := result_state (run (handleContextMenuAction now "delete" id) s1) in
  selectedNotes s1 = [id] /\ JsMap.get (notes s2) id = None /\
  forall j, j <> id -> JsMap.get (notes s2) j = JsMap.get (notes s) j.
Proof.
  intros Hn s1 s2. pose proof (noteContextMenu_selection id n s Hn) as Hs. fold s1 in Hs.
  assert (Ht : targets s1 = [id]) by (unfold targets; rewrite Hs; reflexivity).
  unfold s2. rewrite contextMenu_delete_notes, Ht. split; [exact Hs|]. split.
  - rewrite deleteAll_get. case_decide; [reflexivity | set_solver].
  - intros j Hj. rewrite deleteAll_get. case_decide; [set_solver|]. apply noteContextMenu_get_other, Hj.
Qed.

(** ** Sessions keep the manager consistent *)

(** C2: Along every session (events from the constructor, presses only
    while no gesture is in progress), the selection has no duplicates and
    contains its primary note, stored ids are unique and below the id
    counter, and at most one of dragging, resizing and marquee selection
    is in progress. *)
Theorem session_invariant (toWorld : Q -> Q -> Q * Q) (s : state) :
  session toWorld s -> sel_inv s /\ ids_fresh s /\ (modeCount s <= 1)%nat.
Proof.
  induction 1 as [|ev s Hs (Hsel & Hfr & Hm) Hp].
  - refine (conj (conj NoDup_nil_2 _) (conj ids_fresh_init (Nat.le_0_l _))). intros p Hp; discriminate.
  - split; [apply sel_event, Hsel | split; [apply fresh_event, Hfr | apply modes_event; assumption]].
Qed.

(** ** Witnesses *)

Lemma context_menu_delete_removes_only_clicked_witness :
  "note_2" ∈ selectedNotes demo_scene /\
  JsMap.get (notes (result_state (run (handleContextMenuAction 5 "delete" "note_1")
                      (result_state (run (noteContextMenu "note_1") demo_scene))))) "note_2" =
  Some (demo_note "note_2" 400 0 2).
Proof.
  split; [by_decide|].
  destruct (context_menu_delete_removes_only_clicked 5 "note_1" (demo_note "note_1" 0 0 1) demo_scene eq_refl)
    as (_ & _ & H). rewrite (H "note_2") by discriminate. reflexivity.
Defined.


Lemma drag_gesture_witness :
  let e0 := mkMouse 0 10 10 noteBody false false false in
  let mv := (5%Z, mkMouse 0 50 0 noteBody false false false) in
  let s' := result_state (run (noteMouseDown idWorld e0 "note_1" ;;;
              forEach ([] ++ [mv]) (fun te => handleGlobalMouseMove idWorld (fst te) (snd te)) ;;;
              handleGlobalMouseUp) demo_scene) in
  exists n', JsMap.get (notes s') "note_1" = Some n' /\ Note.x n' == 40 /\ Note.y n' == -10.
Proof.
  intros e0 mv s'.
  destruct (drag_gesture idWorld demo_scene e0 "note_1" [] mv) as [Hm _];
    [exact demo_sel_inv | reflexivity | by_decide | left; by_decide | discriminate
    | reflexivity | reflexivity | reflexivity | reflexivity | reflexivity |].
  destruct (Hm "note_1" (demo_note "note_1" 0 0 1)) as (n' & G & X & Y & _); [by_decide | reflexivity |].
  exists n'. split; [exact G|]. split; [eapply Qeq_trans; [exact X | reflexivity] | eapply Qeq_trans; [exact Y | reflexivity]].
Defined.

Lemma resize_gesture_witness :
  let e0 := mkMouse 0 10 310 (resizeHandleOf "se") false false false in
  let mv := (5%Z, mkMouse 0 60 340 noteBody false false false) in
  let s' := result_state (run (noteMouseDown idWorld e0 "note_3" ;;;
              forEach ([] ++ [mv]) (fun te => handleGlobalMouseMove idWorld (fst te) (snd te)) ;;;
              handleGlobalMouseUp) demo_scene) in
  exists n', JsMap.get (notes s') "note_3" = Some n' /\ Bounds.eqv (Note.bounds n') (Bounds.mk 0 300 350 230).
Proof.
  intros e0 mv s'.
  destruct (resize_gesture idWorld demo_scene e0 "note_3" "se" (demo_note "note_3" 0 300 3) [] mv)
    as [(n' & G & B & _) _]; [reflexivity | discriminate | reflexivity | reflexivity | reflexivity |].
  exists n'. split; [exact G|]. rewrite B. vm_compute. repeat split.
Defined.

Lemma marquee_gesture_witness :
  let e0 := mkMouse 0 (-10) (-10) background false false false in
  let mv := (5%Z, mkMouse 0 350 250 background false false false) in
  let s' := result_state (run (handleGlobalMouseDown idWorld e0 ;;;
              forEach ([] ++ [mv]) (fun te => handleGlobalMouseMove idWorld (fst te) (snd te)) ;;;
              handleGlobalMouseUp) demo_scene) in
  "note_1" ∈ selectedNotes s' /\ "note_2" ∉ selectedNotes s'.
Proof.
  intros e0 mv s'.
  destruct (marquee_gesture idWorld demo_scene e0 [] mv) as [Hm _];
    [exact demo_sel_inv | reflexivity | reflexivity | reflexivity | reflexivity | reflexivity
    | reflexivity | reflexivity | reflexivity |].
  split.
  - apply Hm. right. exists (demo_note "note_1" 0 0 1). split; [left; reflexivity | split; reflexivity].
  - intros Hin. apply Hm in Hin. destruct Hin as [[Hs _]|(n & Hn & Hid & Ho)]; [discriminate|].
    simpl in Hn. destruct Hn as [<-|[<-|[<-|[]]]]; vm_compute in Hid, Ho; discriminate.
Defined.

Lemma overlaps_spec_witness :
  overlaps 0 0 10 10 (demo_note "note_1" 0 0 1) = true /\
  exists px py, (0 < px /\ px < 10) /\ (0 < py /\ py < 10) /\ (0 < px /\ px < 0 + 300) /\ (0 < py /\ py < 0 + 200).
Proof.
  split; [reflexivity|].
  apply (overlaps_spec 0 0 10 10 (demo_note "note_1" 0 0 1)); reflexivity.
Defined.

Lemma session_invariant_witness :
  let s1 := result_state (run (uiStep idWorld (UScene (CreateText 0 10 20))) init) in
  let s2 := result_state (run (uiStep idWorld (UNoteDown (mkMouse 0 20 30 noteBody false false false) "note_1")) s1) in
  let s3 := result_state (run (uiStep idWorld (UMove 1 (mkMouse 0 60 70 noteBody false false false))) s2) in
  let s4 := result_state (run (uiStep idWorld UUp) s3) in
  session idWorld s4 /\ sel_inv s4 /\ ids_fresh s4 /\ (modeCount s4 <= 1)%nat.
Proof.
  intros s1 s2 s3 s4.
  assert (H : session idWorld s4).
  { repeat (apply session_step; [| intros Hp; vm_compute in Hp |- *; first [discriminate | reflexivity]]).
    apply session_init. }
  split; [exact H | exact (session_invariant idWorld s4 H)].
Defined.

End Interaction.
