(* ===== verification/Layout.v ===== *)
(** * Layout: the geometry the code computes for the page

    Pure computations of sizes and positions whose result the code writes
    into the DOM:
    - [fitImage] and [compressedSize]: the dimensions [compressImage]
      (notes.js 1374-1423) draws an uploaded image at, and the integer
      size of the canvas it draws on;
    - [contextMenuPosition]: where [showContextMenu] (notes.js 1431-1446)
      puts the menu for a measured size; [showContextMenuDom] is the
      whole menu side of [showContextMenu] (notes.js 1427-1450), with the
      menu element ([menuEl]) hidden by [selectNote] before it is
      measured ([boundingSize]: a [display: none] element measures
      0x0);
    - [selectionBoxStyle]: the box [updateSelectionBox] (notes.js
      1556-1570) draws for the marquee;
    - [gridStyle]: the background [updateGrid] (canvas.js 318-330) gives
      the grid element, with JavaScript's [%] ([jsRem]);
    - [zoomPercent]: the text of the zoom display ([updateZoomDisplay],
      canvas.js 332-346, and [updateCanvasInfo], ui.js 382-388), with
      JavaScript's [Math.round] ([jsRound]);
    - [selectionCounter] and [noteClasses]: the counter of
      [updateSelectionCounter] and the two classes
      [updateMultiSelectionUI] (notes.js 961-1006) sets on a note.

    Theorems: a compressed image fits in [maxImageSize] with its aspect
    ratio; a right-click inside the window opens the menu exactly at the
    click point whatever its size, so it passes the window's edge when
    the click is near it (a finding); the drawn selection box is
    exactly the rectangle [endSelection] tests; the grid background lies
    on the world grid at every zoom and pan; [Math.round] is within a
    half of its argument and [%] differs from its dividend by a
    multiple of the divisor and is below it in absolute value; after Select All the counter shows
    every note and each one is marked selected. *)

From Stdlib Require Import Qround Qabs.
From S2P Require Import Prelude Viewport JsCollections NoteState Selection Interaction.

Module Layout.
Import Notes.

(** ** JavaScript number helpers *)

(** [Math.round(x)]: the nearest integer, halves rounded up. *)
Definition jsRound (x : Q) : Z := Qfloor (x + (1 # 2)).

(** Truncation toward zero, the quotient JavaScript's [%] uses. *)
Definition jsTrunc (x : Q) : Z := if Qle_bool 0 x then Qfloor x else (- Qfloor (- x))%Z.

(** [a % b]: the remainder with the sign of [a]. *)
Definition jsRem (a b : Q) : Q := a - inject_Z (jsTrunc (a / b)) * b.

(** ** Image compression *)

(** [this.maxImageSize] and [this.imageCompressionQuality] (notes.js 13-14). *)
Definition maxImageSize : Q := 1024.
Definition imageCompressionQuality : Q := 7 # 10.

(** The new dimensions of [compressImage] (notes.js 1384-1392). *)
Definition fitImage (maxSize width height : Q) : Q * Q :=
  if Qltb maxSize width || Qltb maxSize height then
    let ratio := Qmin (maxSize / width) (maxSize / height) in (width * ratio, height * ratio)
  else (width, height).

(** [canvas.width = width; canvas.height = height] (notes.js 1394-1395):
    the canvas keeps the integer part (the [unsigned long] conversion of
    a non-negative size). *)
Definition compressedSize (width height : Q) : Z * Z :=
  let '(w, h) := fitImage maxImageSize width height in (Qfloor w, Qfloor h).

(** ** The context menu *)

(** The menu's position in [showContextMenu] (notes.js 1431-1446): at the
    pointer, moved left (up) to end 10 pixels before the window's edge
    when it would pass it. *)
Definition contextMenuPosition (clientX clientY menuW menuH winW winH : Q) : Q * Q :=
  let left := if Qltb winW (clientX + menuW) then winW - menuW - 10 else clientX in
  let top := if Qltb winH (clientY + menuH) then winH - menuH - 10 else clientY in
  (left, top).

(** The context-menu element: whether it has the class [hidden], and
    the size it is laid out at when shown. *)
Record menuEl := mkMenu { menuHidden : bool; menuW : Q; menuH : Q }.

(** [contextMenu.getBoundingClientRect()]'s width and height: the page's
    stylesheet gives [.hidden] [display: none], and an element that is
    not rendered has an all-zero rectangle. *)
Definition boundingSize (m : menuEl) : Q * Q := if menuHidden m then (0, 0) else (menuW m, menuH m).

(** [hideContextMenu()] (notes.js 1455-1458). *)
Definition hideContextMenu (m : menuEl) : menuEl := mkMenu true (menuW m) (menuH m).

(** The menu side of [showContextMenu(e, noteId)] (notes.js 1427-1450):
    [this.selectNote(noteId)] takes the single-selection branch, whose
    [deselectAll] calls [hideContextMenu] (notes.js 911, 1028); the menu
    is then measured, placed and shown.  The result is the element and
    its [left]/[top]. *)
Definition showContextMenuDom (clientX clientY winW winH : Q) (m : menuEl) : menuEl * (Q * Q) :=
  let m1 := hideContextMenu m in
  let '(w, h) := boundingSize m1 in
  (mkMenu false (menuW m1) (menuH m1), contextMenuPosition clientX clientY w h winW winH).

(** ** The selection box *)

(** [updateSelectionBox()] (notes.js 1556-1570): nothing without the box
    element, else its left, top, width and height. *)
Definition selectionBoxStyle (s : state) : option (Q * Q * Q * Q) :=
  if selectionBox s then
    Some (Qmin (fst (selectionStart s)) (fst (selectionEnd s)),
          Qmin (snd (selectionStart s)) (snd (selectionEnd s)),
          Qabs (fst (selectionEnd s) - fst (selectionStart s)),
          Qabs (snd (selectionEnd s) - snd (selectionStart s)))
  else None.

(** ** The selection display *)

(** [updateSelectionCounter()] (notes.js 981-1006): the counter's number,
    [None] when the counter is hidden, and whether the multi-selection
    tooltip is shown. *)
Definition selectionCounter (s : state) : option Z * bool :=
  if (0 <? JsSet.size (selectedNotes s))%nat
  then (Some (Z.of_nat (JsSet.size (selectedNotes s))), (1 <? JsSet.size (selectedNotes s))%nat)
  else (None, false).

(** [updateMultiSelectionUI()] (notes.js 961-979): the classes [selected]
    and [multi-selected] of a note's element. *)
Definition noteClasses (s : state) (id : string) : bool * bool :=
  let sel := JsSet.has (selectedNotes s) id in (sel, sel && (1 <? JsSet.size (selectedNotes s))%nat).

(** ** The grid and the zoom display *)

(** [updateGrid()] (canvas.js 318-330): hidden, or the tile size and the
    background position. *)
Definition gridStyle (c : Canvas.state) : option (Q * Q * Q) :=
  if Canvas.showGrid c then
    let scaledGridSize := Canvas.gridSize c * Canvas.zoomLevel c in
    Some (scaledGridSize, jsRem (Canvas.panX c) scaledGridSize, jsRem (Canvas.panY c) scaledGridSize)
  else None.

(** [Math.round(this.zoomLevel * 100)] (canvas.js 335, ui.js 383). *)
Definition zoomPercent (c : Canvas.state) : Z := jsRound (Canvas.zoomLevel c * 100).

(** ** Lemmas *)

Lemma fitImage_scaled (m w h : Q) :
  0 < w -> 0 < h ->
  let r := Qmin (m / w) (m / h) in w * r <= m /\ h * r <= m /\ (w * r == m \/ h * r == m).
Proof.
  intros Hw Hh r.
  assert (Ew : w * (m / w) == m) by (field; lra). assert (Eh : h * (m / h) == m) by (field; lra).
  destruct (Q.min_spec (m / w) (m / h)) as [[Hlt E]|[Hle E]]; unfold r; rewrite E.
  - split; [lra|]. split; [|left; exact Ew].
    rewrite <- Eh at 2. apply Qmult_le_l; [exact Hh | lra].
  - split; [rewrite <- Ew at 2; apply Qmult_le_l; [exact Hw | exact Hle]|]. split; [lra | right; exact Eh].
Qed.

Lemma jsTrunc_spec (x : Q) : inject_Z (jsTrunc x) <= x \/ x <= inject_Z (jsTrunc x).
Proof.
  unfold jsTrunc. destruct (Qle_bool 0 x); [left; apply Qfloor_le|].
  right. rewrite inject_Z_opp. pose proof (Qfloor_le (- x)). lra.
Qed.

(** The remainder differs from the dividend by a whole number of [b]s. *)
Lemma jsRem_multiple (a b : Q) : exists t : Z, a == jsRem a b + inject_Z t * b.
Proof. exists (jsTrunc (a / b)). unfold jsRem. ring. Qed.

(** [|a % b| < |b|] for [b > 0]. *)
Lemma jsRem_bound (a b : Q) : 0 < b -> - b < jsRem a b < b.
Proof.
  intros Hb. unfold jsRem, jsTrunc.
  assert (Hab : a == a / b * b) by (field; lra). set (q := a / b) in *.
  destruct (Qle_bool 0 q) eqn:E.
  - pose proof (Qfloor_le q) as H1. pose proof (Qlt_floor q) as H2.
    rewrite inject_Z_plus in H2. change (inject_Z 1) with 1 in H2. set (f := inject_Z (Qfloor q)) in *.
    assert (0 <= (q - f) * b) by (apply Qmult_le_0_compat; lra).
    assert ((q - f) * b < 1 * b) by (apply Qmult_lt_compat_r; lra). lra.
  - pose proof (Qfloor_le (- q)) as H1. pose proof (Qlt_floor (- q)) as H2. rewrite inject_Z_opp.
    rewrite inject_Z_plus in H2. change (inject_Z 1) with 1 in H2. set (f := inject_Z (Qfloor (- q))) in *.
    assert (0 <= (- q - f) * b) by (apply Qmult_le_0_compat; lra).
    assert ((- q - f) * b < 1 * b) by (apply Qmult_lt_compat_r; lra). lra.
Qed.

(** [Math.round] is within a half of its argument. *)
Lemma jsRound_near (x : Q) : x - (1 # 2) < inject_Z (jsRound x) /\ inject_Z (jsRound x) <= x + (1 # 2).
Proof.
  unfold jsRound. pose proof (Qfloor_le (x + (1 # 2))). pose proof (Qlt_floor (x + (1 # 2))) as H2.
  rewrite inject_Z_plus in H2. change (inject_Z 1) with 1 in H2. lra.
Qed.

(** The menu is always measured hidden. *)
Lemma measure_after_hide (m : menuEl) : boundingSize (hideContextMenu m) = (0, 0).
Proof. reflexivity. Qed.

(** Select-all (Ctrl/Cmd+A) shows the number of stored notes in the
    counter and marks every note's element selected. *)
Lemma selectAll_view (s : state) :
  JsMap.wf (notes s) ->
  let s' := result_state (run Selection.selectAllNotes s) in
  fst (selectionCounter s') = (match JsMap.keys (notes s) with [] => None | _ => Some (Z.of_nat (JsMap.size (notes s))) end) /\
  forall k, k ∈ JsMap.keys (notes s) -> fst (noteClasses s' k) = true.
Proof.
  intros Hwf s'. destruct (Selection.selectAllNotes_spec s Hwf) as [Hk _]. fold s' in Hk.
  unfold selectionCounter, noteClasses, JsSet.size, JsSet.has. rewrite Hk. split.
  - unfold JsMap.size, JsMap.keys. destruct (notes s); [reflexivity|]. cbn [map length]. rewrite length_map. reflexivity.
  - intros k Hin. cbn [fst]. apply bool_decide_eq_true. exact Hin.
Qed.

(** ** Properties *)

(** C36: An uploaded image is drawn at most [maxImageSize] (1024) pixels
    wide and high, with its aspect ratio kept; an image that fits is
    kept at its size, and one that does not is scaled until one side is
    exactly 1024; the canvas it is drawn on is at most 1024 by 1024. *)
Theorem compressImage_fits (w h : Q) :
  0 < w -> 0 < h ->
  let '(w', h') := fitImage maxImageSize w h in
  w' <= maxImageSize /\ h' <= maxImageSize /\ w' * h == h' * w /\
  (w <= maxImageSize -> h <= maxImageSize -> w' == w /\ h' == h) /\
  (maxImageSize < w \/ maxImageSize < h -> w' == maxImageSize \/ h' == maxImageSize) /\
  (fst (compressedSize w h) <= 1024 /\ snd (compressedSize w h) <= 1024)%Z.
Proof.
  intros Hw Hh. unfold compressedSize, fitImage.
  destruct (Qltb maxImageSize w || Qltb maxImageSize h) eqn:E.
  - destruct (fitImage_scaled maxImageSize w h Hw Hh) as (H1 & H2 & H3).
    set (r := Qmin (maxImageSize / w) (maxImageSize / h)) in *.
    split; [exact H1 | split; [exact H2 | split; [ring | split; [|split; [intros _; exact H3|]]]]].
    + intros Hw1 Hh1. apply orb_true_iff in E as [E|E]; apply Qltb_spec in E; lra.
    + cbn [fst snd]. split; (change 1024%Z with (Qfloor maxImageSize); apply Qfloor_resp_le; assumption).
  - apply orb_false_iff in E as [E1 E2]. apply Qltb_false in E1, E2.
    split; [exact E1 | split; [exact E2 | split; [ring | split; [intros; split; reflexivity|split]]]].
    + intros [H|H]; lra.
    + cbn [fst snd]. split; (change 1024%Z with (Qfloor maxImageSize); apply Qfloor_resp_le; assumption).
Qed.

(** C37: Right-clicking a note at a point inside the window opens the
    menu exactly at that point, whatever the menu's size: the menu is
    measured after [selectNote] hid it, so the off-screen guard compares
    a 0x0 box and never moves it.  The shown menu keeps its size, so it
    passes the right (bottom) edge whenever the click is less than its
    width (height) from that edge. *)
Theorem showContextMenu_ignores_menu_size (cx cy winW winH : Q) (m : menuEl) :
  cx <= winW -> cy <= winH ->
  let '(m', (l, t)) := showContextMenuDom cx cy winW winH m in
  menuHidden m' = false /\ menuW m' = menuW m /\ menuH m' = menuH m /\ l = cx /\ t = cy.
Proof.
  intros Hx Hy. unfold showContextMenuDom, contextMenuPosition. rewrite measure_after_hide.
  rewrite (proj2 (Qltb_false winW (cx + 0))), (proj2 (Qltb_false winH (cy + 0))) by lra.
  repeat split.
Qed.

(** C35: The box [updateSelectionBox] draws is exactly the rectangle
    [endSelection] selects with: same left and top, and left + width
    and top + height are its right and bottom. *)
Theorem selectionBox_matches_marquee (s : state) :
  selectionBox s = true ->
  exists l t w h, selectionBoxStyle s = Some (l, t, w, h) /\
  let '(ml, mt, mr, mb) := Interaction.marquee s in l == ml /\ t == mt /\ l + w == mr /\ t + h == mb.
Proof.
  intros Hb. unfold selectionBoxStyle. rewrite Hb. do 4 eexists. split; [reflexivity|].
  unfold Interaction.marquee. destruct (selectionStart s) as [sx sy], (selectionEnd s) as [ex ey]. cbn [fst snd].
  split; [reflexivity | split; [reflexivity|]].
  split; apply Qabs_case; intros; qminmax; lra.
Qed.

(** C34: The grid background [updateGrid] draws lies on the world grid:
    its tiles are [gridSize * zoom] wide, its offset is less than a tile,
    and every world grid line [x = k * gridSize] (and [y = k * gridSize])
    appears, through [canvasToScreen], on a tile edge. *)
Theorem gridStyle_on_world_grid (r : Canvas.rect) (c : Canvas.state) (size ox oy : Q) :
  0 < Canvas.gridSize c -> 0 < Canvas.zoomLevel c -> gridStyle c = Some (size, ox, oy) ->
  size == Canvas.gridSize c * Canvas.zoomLevel c /\ - size < ox < size /\ - size < oy < size /\
  forall k : Z, exists mx my : Z,
    fst (Canvas.canvasToScreen r c (inject_Z k * Canvas.gridSize c) (inject_Z k * Canvas.gridSize c)) - Canvas.left r
      == ox + inject_Z mx * size /\
    snd (Canvas.canvasToScreen r c (inject_Z k * Canvas.gridSize c) (inject_Z k * Canvas.gridSize c)) - Canvas.top r
      == oy + inject_Z my * size.
Proof.
  intros Hg Hz. unfold gridStyle. destruct (Canvas.showGrid c); [|discriminate]. intros [= <- <- <-].
  assert (Hs : 0 < Canvas.gridSize c * Canvas.zoomLevel c) by (apply Qmult_lt_0_compat; assumption).
  split; [reflexivity | split; [apply jsRem_bound, Hs | split; [apply jsRem_bound, Hs|]]].
  intros k. destruct (jsRem_multiple (Canvas.panX c) (Canvas.gridSize c * Canvas.zoomLevel c)) as [tx Hx].
  destruct (jsRem_multiple (Canvas.panY c) (Canvas.gridSize c * Canvas.zoomLevel c)) as [ty Hy].
  exists (k + tx)%Z, (k + ty)%Z. unfold Canvas.canvasToScreen. cbn [fst snd]. rewrite !inject_Z_plus.
  split; [rewrite Hx at 1 | rewrite Hy at 1]; ring.
Qed.

(** ** Witnesses *)

Lemma compressImage_fits_witness :
  0 < 4000 /\ 0 < 3000 /\ compressedSize 4000 3000 = (1024%Z, 768%Z) /\
  (fst (compressedSize 4000 3000) <= 1024 /\ snd (compressedSize 4000 3000) <= 1024)%Z.
Proof.
  split; [reflexivity | split; [reflexivity | split; [vm_compute; reflexivity|]]].
  pose proof (compressImage_fits 4000 3000 eq_refl eq_refl) as H. revert H.
  case (fitImage maxImageSize 4000 3000). intros w' h' H. exact (proj2 (proj2 (proj2 (proj2 (proj2 H))))).
Defined.

Lemma selectionBox_matches_marquee_witness :
  let s := set_marquee demo_scene true (100, 50) (20, 80) true in
  selectionBox s = true /\ selectionBoxStyle s = Some (20, 50, 80, 30).
Proof.
  intros s. split; [reflexivity|].
  destruct (selectionBox_matches_marquee s eq_refl) as (l & t & w & h & E & _). vm_compute. reflexivity.
Defined.

Lemma showContextMenu_ignores_menu_size_witness :
  showContextMenuDom 790 590 800 600 (mkMenu false 200 150) = (mkMenu false 200 150, (790, 590)).
Proof.
  assert (Hx : (790 : Q) <= 800) by lra. assert (Hy : (590 : Q) <= 600) by lra.
  pose proof (showContextMenu_ignores_menu_size 790 590 800 600 (mkMenu false 200 150) Hx Hy) as H.
  destruct (showContextMenuDom 790 590 800 600 (mkMenu false 200 150)) as [[h w' h'] [l t]].
  cbn in H. destruct H as (Hh & Hw & Hh' & Hl & Ht). subst. reflexivity.
Defined.

Lemma gridStyle_on_world_grid_witness :
  let c := Canvas.set_pan Canvas.init 130 (-70) in
  gridStyle c = Some (50, 30, -20) /\
  exists mx my : Z,
    fst (Canvas.canvasToScreen (Canvas.mkRect 0 0 800 600) c (inject_Z 3 * 50) (inject_Z 3 * 50)) - 0 == 30 + inject_Z mx * 50 /\
    snd (Canvas.canvasToScreen (Canvas.mkRect 0 0 800 600) c (inject_Z 3 * 50) (inject_Z 3 * 50)) - 0 == -20 + inject_Z my * 50.
Proof.
  intros c. assert (E : gridStyle c = Some (50 * 1, jsRem 130 (50 * 1), jsRem (-70) (50 * 1))) by reflexivity.
  split; [vm_compute; reflexivity|].
  destruct (gridStyle_on_world_grid (Canvas.mkRect 0 0 800 600) c _ _ _ eq_refl eq_refl E) as (_ & _ & _ & H).
  destruct (H 3%Z) as (mx & my & Hx & Hy). exists mx, my.
  assert (Ex : jsRem 130 (50 * 1) == 30) by (vm_compute; reflexivity).
  assert (Ey : jsRem (-70) (50 * 1) == -20) by (vm_compute; reflexivity).
  split; [etransitivity; [exact Hx|]; rewrite Ex | etransitivity; [exact Hy|]; rewrite Ey]; ring.
Defined.

End Layout.
