(* ===== verification/Storage.v ===== *)
(** * Storage: the IndexedDB adapter [StorageManager]

    storage.js keeps the whole application state in one record of the
    IndexedDB object store ["notes"] of the database ["NoteCanvasDB"]:
    [saveData(data)] puts [{id: "canvas_data", data, timestamp}] (the
    store's key path is [id], so a put replaces the record under the same
    key), [loadData()] reads it back or gives [null], [clearData()]
    empties the store.  Every method opens the database first when it is
    not yet open ([initDB]).

    The object store outlives the page: it is the part of the state a
    reload keeps.  A request that fails calls [reject(request.error)]; the
    browser decides when that happens, so the database carries the error
    its requests currently end with ([failure]), and each method returns
    a [result]: [Ok] for a resolved promise, [Err] for a rejected one.
    The value stored is any structured-cloneable JavaScript value: the
    type [D] of the section. *)

From S2P Require Import Prelude JsCollections.

(** The outcome of a promise: resolved with a value or rejected with an
    error message. *)
Inductive result (A : Type) : Type :=
| Ok (a : A)
| Err (e : string).
Arguments Ok {A} a.
Arguments Err {A} e.

Module Storage.

Definition dbName : string := "NoteCanvasDB".
Definition dbVersion : Z := 1.
Definition storeName : string := "notes".

(** The key of the single record the application writes. *)
Definition recordKey : string := "canvas_data".

Section Store.
Context {D : Type}.

(** [{id, data, timestamp}], the record [saveData] puts. *)
Record entry := mkEntry { id : string; data : D; timestamp : Z }.

(** The database handle [this.db] (open or not), the object store's
    records by key, and the error the browser currently fails requests
    with. *)
Record db := mkDb { opened : bool; store : @JsMap.t string entry; failure : option string }.

Definition set_opened (d : db) : db := mkDb true (store d) (failure d).
Definition set_store (d : db) (m : @JsMap.t string entry) : db := mkDb (opened d) m (failure d).

(** [initDB()] (storage.js 10-32): [onupgradeneeded] creates the store
    when it is missing, which leaves an existing store and its records
    as they are. *)
Definition initDB (d : db) : result unit * db :=
  match failure d with
  | Some e => (Err e, d)
  | None => (Ok tt, set_opened d)
  end.

(** [if (!this.db) await this.initDB();] *)
Definition ensureOpen (d : db) : result unit * db :=
  if opened d then (Ok tt, d) else initDB d.

(** [saveData(data)] (storage.js 34-52). *)
Definition saveData (now : Z) (x : D) (d : db) : result unit * db :=
  match ensureOpen d with
  | (Err e, d1) => (Err e, d1)
  | (Ok _, d1) =>
      let dataToSave := mkEntry recordKey x now in
      match failure d1 with
      | Some e => (Err e, d1)
      | None => (Ok tt, set_store d1 (JsMap.set (store d1) (id dataToSave) dataToSave))
      end
  end.

(** [loadData()] (storage.js 54-71): the [data] of the record, or
    [null] ([None]) when there is none. *)
Definition loadData (d : db) : result (option D) * db :=
  match ensureOpen d with
  | (Err e, d1) => (Err e, d1)
  | (Ok _, d1) =>
      match failure d1 with
      | Some e => (Err e, d1)
      | None => (Ok (option_map data (JsMap.get (store d1) recordKey)), d1)
      end
  end.

(** [clearData()] (storage.js 73-84). *)
Definition clearData (d : db) : result unit * db :=
  match ensureOpen d with
  | (Err e, d1) => (Err e, d1)
  | (Ok _, d1) =>
      match failure d1 with
      | Some e => (Err e, d1)
      | None => (Ok tt, set_store d1 JsMap.empty)
      end
  end.

(** A database the browser serves without errors. *)
Definition healthy (d : db) : Prop := failure d = None.

(** ** Laws *)

Lemma saveData_ok (now : Z) (x : D) (d : db) :
  healthy d -> exists d', saveData now x d = (Ok tt, d') /\ healthy d' /\ opened d' = true /\
    JsMap.get (store d') recordKey = Some (mkEntry recordKey x now) /\
    (forall k, k <> recordKey -> JsMap.get (store d') k = JsMap.get (store d) k).
Proof.
  intros H. unfold healthy in H.
  exists (set_store (set_opened d) (JsMap.set (store d) recordKey (mkEntry recordKey x now))).
  unfold saveData, ensureOpen, initDB. destruct (opened d) eqn:Ho; rewrite H; simpl; rewrite ?H;
    (split; [|split; [exact H | split; [reflexivity | split; [apply JsMap.get_set_eq |
      intros k Hk; apply JsMap.get_set_ne; congruence]]]]).
  - destruct d; simpl in *; subst; reflexivity.
  - reflexivity.
Qed.

Lemma loadData_ok (d : db) :
  healthy d -> loadData d = (Ok (option_map data (JsMap.get (store d) recordKey)), snd (ensureOpen d)) /\
               store (snd (ensureOpen d)) = store d /\ healthy (snd (ensureOpen d)).
Proof.
  intros H. unfold loadData, ensureOpen, initDB, healthy in *.
  destruct (opened d); rewrite ?H; simpl; rewrite ?H; auto.
Qed.

Lemma loadData_failed (d : db) (e : string) : failure d = Some e -> fst (loadData d) = Err e /\ snd (loadData d) = d.
Proof. intros H. unfold loadData, ensureOpen, initDB. destruct (opened d); rewrite H; auto. Qed.

Lemma saveData_failed (now : Z) (x : D) (d : db) (e : string) :
  failure d = Some e -> saveData now x d = (Err e, d).
Proof. intros H. unfold saveData, ensureOpen, initDB. destruct (opened d); rewrite H; reflexivity. Qed.

Lemma store_initDB (d : db) : store (snd (initDB d)) = store d.
Proof. unfold initDB. destruct (failure d); reflexivity. Qed.

Lemma store_ensureOpen (d : db) : store (snd (ensureOpen d)) = store d.
Proof. unfold ensureOpen. destruct (opened d); [reflexivity | apply store_initDB]. Qed.

Lemma store_loadData (d : db) : store (snd (loadData d)) = store d.
Proof.
  unfold loadData. pose proof (store_ensureOpen d) as E.
  destruct (ensureOpen d) as [[u|e] d1]; simpl in *; [destruct (failure d1)|]; exact E.
Qed.

(** What [loadData] resolves with is the record's data. *)
Lemma loadData_value (d : db) (x : option D) :
  fst (loadData d) = Ok x -> x = option_map data (JsMap.get (store d) recordKey).
Proof.
  unfold loadData. pose proof (store_ensureOpen d) as E.
  destruct (ensureOpen d) as [[u|e] d1]; simpl in *; [destruct (failure d1)|]; intros H; try discriminate.
  injection H as <-. rewrite E. reflexivity.
Qed.

(** [saveData] leaves the store as it was or puts the record. *)
Lemma store_saveData (now : Z) (x : D) (d : db) :
  store (snd (saveData now x d)) = store d \/
  store (snd (saveData now x d)) = JsMap.set (store d) recordKey (mkEntry recordKey x now).
Proof.
  unfold saveData. pose proof (store_ensureOpen d) as E.
  destruct (ensureOpen d) as [[u|e] d1]; simpl in *; [destruct (failure d1)|]; simpl; rewrite ?E; auto.
Qed.

End Store.

Arguments db : clear implicits.
Arguments entry : clear implicits.

End Storage.
