(* ===== verification/Cipher.v ===== *)
(** * Cipher: the encryption wrapper [EncryptionManager]

    src/js/encryption.js wraps CryptoJS: [encrypt(data, password)] draws
    a random 128-bit salt and IV, derives a 256-bit key with PBKDF2
    (10000 iterations), encrypts [JSON.stringify(data)] with AES-CBC and
    PKCS#7 padding, and returns the JSON text of
    [{salt, iv, encrypted, timestamp}] with salt and IV in hex.
    [decrypt(encryptedData, password)] parses that envelope, derives the
    key again and decrypts; an empty plaintext, a malformed envelope or
    plaintext, or a CryptoJS exception all end in the error "Failed to
    decrypt data. Please check your password.".

    The library is an interface here.  [Json A] is [JSON.stringify] /
    [JSON.parse] at a type [A] with the law that parsing what was printed
    gives the value back (and that the text of an object is never
    empty).  [Crypto] is the part of CryptoJS the wrapper calls:
    [WordArray.random] (the [n]-th draw of the page), hex printing and
    parsing of word arrays, [PBKDF2], and AES-CBC encryption and
    decryption to a UTF-8 string ([None] when [toString] throws), with
    the law that decryption with the same key and IV inverts encryption.
    Nothing is assumed about decryption with another key: CryptoJS may
    return garbage for a wrong password, and the wrapper then fails only
    if that garbage is empty or not JSON.

    [validatePassword] and [generateRandomPassword] are modelled as the
    code computes them; [Math.random()] is the stream [rnd] of its
    successive results. *)

From Stdlib Require Import Qround.
From S2P Require Import Prelude Storage.

Module Cipher.

(** [JSON.stringify] / [JSON.parse] at type [A]. *)
Class Json (A : Type) := {
  stringify : A -> string;
  parse : string -> option A;
  parse_stringify : forall a, parse (stringify a) = Some a;
  stringify_nonempty : forall a, stringify a <> EmptyString
}.

(** The CryptoJS primitives [EncryptionManager] calls. *)
Class Crypto := {
  word : Type;
  random : Z -> word;
  hexOf : word -> string;
  hexParse : string -> word;
  hexParse_hexOf : forall w, hexParse (hexOf w) = w;
  cipherKey : Type;
  pbkdf2 : string -> word -> Z -> Z -> cipherKey;
  aesEncrypt : string -> cipherKey -> word -> string;
  aesDecrypt : string -> cipherKey -> word -> option string;
  aesDecrypt_aesEncrypt : forall p k iv, aesDecrypt (aesEncrypt p k iv) k iv = Some p
}.

(** The object [encrypt] serialises. *)
Record envelope := mkEnvelope { salt : string; iv : string; encrypted : string; etimestamp : Z }.

Definition algorithm : string := "AES".
Definition keySize : Z := 256.
Definition iterations : Z := 10000.

(** The message of the error [decrypt] throws. *)
Definition decryptError : string := "Failed to decrypt data. Please check your password.".

Section Manager.
Context `{Crypto} `{Json envelope}.

(** [generateKey(password, salt)] (encryption.js 10-15). *)
Definition generateKey (password : string) (s : word) : cipherKey :=
  pbkdf2 password s (keySize / 32) iterations.

(** [encrypt(data, password)] (encryption.js 18-43), with the two random
    draws numbered [draw] and [draw + 1]. *)
Definition encrypt {A} `{Json A} (data : A) (password : string) (draw now : Z) : string :=
  let s := random draw in
  let key := generateKey password s in
  let v := random (draw + 1) in
  let enc := aesEncrypt (stringify data) key v in
  stringify (mkEnvelope (hexOf s) (hexOf v) enc now).

(** [decrypt(encryptedData, password)] (encryption.js 46-70). *)
Definition decrypt {A} `{Json A} (encryptedData password : string) : result A :=
  match parse encryptedData with
  | None => Err decryptError
  | Some env =>
      let s := hexParse (salt env) in
      let v := hexParse (iv env) in
      let key := generateKey password s in
      match aesDecrypt (encrypted env) key v with
      | None => Err decryptError
      | Some decryptedString =>
          if String.eqb decryptedString "" then Err decryptError
          else match parse decryptedString with
               | Some a => Ok a
               | None => Err decryptError
               end
      end
  end.

End Manager.

(** [validatePassword(password)] (encryption.js 73-81). *)
Record validation := mkValidation { valid : bool; message : string }.

Definition validatePassword (password : string) : validation :=
  if (String.length password <? 6)%nat
  then mkValidation false "Password must be at least 6 characters long"
  else mkValidation true "Password is valid".

Definition charset : string :=
  "abcdefghijklmnopqrstuvwxyzABCDEFGHIJKLMNOPQRSTUVWXYZ0123456789!@#$%^&*".

(** [charset.charAt(i)]: the empty string out of range. *)
Definition charAt (s : string) (i : Z) : string :=
  if (i <? 0)%Z then EmptyString
  else match String.get (Z.to_nat i) s with
       | Some c => String c EmptyString
       | None => EmptyString
       end.

(** The loop of [generateRandomPassword(length)] (encryption.js 84-92)
    from iteration [i], [rnd i] being the [i]-th [Math.random()]. *)
Fixpoint passwordFrom (rnd : nat -> Q) (n i : nat) : string :=
  match n with
  | O => EmptyString
  | S n' =>
      String.append (charAt charset (Qfloor (rnd i * inject_Z (Z.of_nat (String.length charset)))))
                    (passwordFrom rnd n' (S i))
  end.

Definition generateRandomPassword (rnd : nat -> Q) (length : nat) : string := passwordFrom rnd length 0.

(** ** Laws *)

Section Laws.
Context `{Crypto} `{Json envelope}.

Lemma decrypt_encrypt {A} `{Json A} (data : A) (password : string) (draw now : Z) :
  decrypt (encrypt data password draw now) password = Ok data.
Proof.
  unfold decrypt, encrypt. rewrite parse_stringify. cbn [salt iv encrypted].
  rewrite !hexParse_hexOf, aesDecrypt_aesEncrypt.
  destruct (String.eqb_spec (stringify data) "") as [E|_]; [exfalso; exact (stringify_nonempty _ E)|].
  rewrite parse_stringify. reflexivity.
Qed.

End Laws.

Lemma get_lt (s : string) (n : nat) : (n < String.length s)%nat -> exists c, String.get n s = Some c.
Proof.
  revert n. induction s as [|a s IH]; intros n Hn; simpl in *; [lia|].
  destruct n; [eauto|]. apply IH. lia.
Qed.

Lemma floor_index (r : Q) (n : Z) : (0 < n)%Z -> 0 <= r -> r < 1 -> (0 <= Qfloor (r * inject_Z n) < n)%Z.
Proof.
  intros Hn H0 H1. assert (Hq : inject_Z 0 < inject_Z n) by (rewrite <- Zlt_Qlt; exact Hn).
  change (inject_Z 0) with 0 in Hq. split.
  - change 0%Z with (Qfloor 0). apply Qfloor_resp_le. nra.
  - rewrite Zlt_Qlt. pose proof (Qfloor_le (r * inject_Z n)). nra.
Qed.

(** [charAt] at an index in range is one character of the string. *)
Lemma charAt_in (s : string) (i : Z) :
  (0 <= i < Z.of_nat (String.length s))%Z ->
  exists c, charAt s i = String c EmptyString /\ exists j, String.get j s = Some c.
Proof.
  intros [H0 H1]. unfold charAt. destruct (Z.ltb_spec i 0); [lia|].
  destruct (get_lt s (Z.to_nat i)) as [c Hc]; [lia|]. rewrite Hc. eauto.
Qed.

Lemma get_append_char (c : Ascii.ascii) (rest : string) (k : nat) :
  String.get k (String.append (String c EmptyString) rest) = match k with O => Some c | S k' => String.get k' rest end.
Proof. destruct k; reflexivity. Qed.

(** ** Theorems *)

(** With every [Math.random()] in [[0, 1)], the password
    [generateRandomPassword(length)] has exactly [length] characters, each
    a character of [charset]: the index [Math.floor(r * 70)] never leaves
    the charset, so [charAt] never yields the empty string. *)
Theorem generateRandomPassword_spec (rnd : nat -> Q) (length : nat) :
  (forall i, 0 <= rnd i /\ rnd i < 1) ->
  String.length (generateRandomPassword rnd length) = length /\
  forall k c, String.get k (generateRandomPassword rnd length) = Some c -> exists j, String.get j charset = Some c.
Proof.
  intros Hr. unfold generateRandomPassword. generalize 0%nat as i.
  induction length as [|n IH]; intros i; cbn [passwordFrom]; [split; [reflexivity | discriminate]|].
  destruct (Hr i) as [H0 H1].
  destruct (charAt_in charset (Qfloor (rnd i * inject_Z (Z.of_nat (String.length charset)))))
    as (c & -> & Hc); [apply floor_index; [vm_compute; reflexivity | exact H0 | exact H1]|].
  destruct (IH (S i)) as [Hl Hs]. split; [change (S (String.length (passwordFrom rnd n (S i))) = S n); rewrite Hl; reflexivity|].
  intros k c'. rewrite get_append_char. destruct k as [|k]; [intros E; injection E as <-; exact Hc | apply Hs].
Qed.

Lemma generateRandomPassword_spec_witness :
  (forall i : nat, 0 <= (1 # 3) /\ (1 # 3) < 1) /\
  String.length (generateRandomPassword (fun _ => 1 # 3) 12) = 12%nat.
Proof.
  assert (H : forall i : nat, 0 <= (1 # 3) /\ (1 # 3) < 1) by (intros; split; lra).
  split; [exact H | exact (proj1 (generateRandomPassword_spec (fun _ => 1 # 3) 12 H))].
Defined.

End Cipher.
