(* ===== verification/App.v ===== *)
(** * App: the application shell [NoteCanvasApp] and the [UIManager] handlers

    app.js builds the two managers, loads the settings and the notes from
    [StorageManager], saves on every "note-modified" event, on a timer,
    when the page is hidden and before it unloads, and runs the password,
    import and export flows through [EncryptionManager].  ui.js turns
    toolbar clicks, key presses and file choices into calls of the app.

    The application state [app] holds the two managers ([scene],
    [canvas]), the settings, the two pending cipher texts, the IndexedDB
    handle with its object store (the only part a reload keeps), the
    period of the auto-save timer, the number of random draws made so far
    and the layout of the canvas element ([getBoundingClientRect()]).
    The app's methods are [async]; each [await] is modelled as completing
    at once, the page doing nothing else meanwhile, so a method is a
    function of the state in the monad [AM]: a result ([Ok] or the
    [Err] of a thrown exception), the new state, and the effects the user
    sees (notifications, dialogs, downloads) in order.

    The "note-modified" listener (app.js 45-47) is [runScene]: a
    [NotesManager] method runs on the scene and [autoSave] runs once per
    signal it raised.  [saveNotes] reads the scene synchronously when it
    is called; every method of notes.js raises its signal after its last
    write to the notes map (notes.js 1242, 1279, 1327, 1484, 816), so the
    scene it saves is the one the method leaves.

    The stored record is [blob]: [Plain] for [{encrypted: false, ...data}]
    and [Sealed] for [{encrypted: true, data}].  JSON objects read back
    from storage or from a file may lack any key, so their fields are
    [option]s; JavaScript's [x || d] on a number is [orNum]. *)

From S2P Require Import Prelude Events Viewport JsCollections NoteId NoteState Selection Scene Interaction Storage Cipher.

Module App.
Import Events Notes Scene Cipher.

(** ** Data *)

(** [this.settings] (app.js 11-16). *)
Record Settings := mkSettings { gridSize : Q; autoSaveInterval : Q; showGrid : bool; password : option string }.

Definition defaultSettings : Settings := mkSettings 50 30 true None.

(** A settings object read back from JSON or passed to [updateSettings]:
    each key may be absent; [password] may be present with [null]. *)
Record savedSettings := mkSaved {
  sGridSize : option Q; sAutoSaveInterval : option Q; sShowGrid : option bool; sPassword : option (option string)
}.

(** The object [this.settings] as [saveNotes] stores it: every key present. *)
Definition toSaved (s : Settings) : savedSettings :=
  mkSaved (Some (gridSize s)) (Some (autoSaveInterval s)) (Some (showGrid s)) (Some (password s)).

(** [{ ...s, ...o }] *)
Definition mergeSettings (s : Settings) (o : savedSettings) : Settings :=
  mkSettings (match sGridSize o with Some v => v | None => gridSize s end)
             (match sAutoSaveInterval o with Some v => v | None => autoSaveInterval s end)
             (match sShowGrid o with Some v => v | None => showGrid s end)
             (match sPassword o with Some v => v | None => password s end).

(** [canvas: {zoom, panX, panY}] *)
Record viewData := mkView { zoom : option Q; vpanX : option Q; vpanY : option Q }.

(** The [data] object of [saveNotes] and [exportNotes]. *)
Record payload := mkPayload {
  pnotes : option (list Note.t); pcanvas : option viewData; psettings : option savedSettings;
  ptimestamp : Z; pversion : option string
}.

(** What [saveNotes] hands to [saveData]. *)
Inductive blob :=
| Plain (p : payload)
| Sealed (data : string).

(** [x || d] for a JavaScript number [x] that may be missing ([NaN] is
    not modelled). *)
Definition orNum (o : option Q) (d : Q) : Q :=
  match o with Some q => if Qeq_bool q 0 then d else q | None => d end.

(** [data.canvas?.f]: [undefined] when [canvas] is missing. *)
Definition viewField (f : viewData -> option Q) (v : option viewData) : option Q :=
  match v with Some w => f w | None => None end.

(** What the user sees. *)
Inductive effect :=
| Notify (message kind : string)
| PasswordDialog (message : string)
| OpenDialog (name : string)
| Download (fileName contents : string).

Record app := mkApp {
  scene : Notes.state;
  canvas : Canvas.state;
  settings : Settings;
  pendingImportData : option string;
  pendingDecryptData : option string;
  db : Storage.db blob;
  autoSaveTimer : option Q;
  draws : Z;
  layout : Canvas.rect
}.

Definition set_scene (a : app) (s : Notes.state) : app :=
  mkApp s (canvas a) (settings a) (pendingImportData a) (pendingDecryptData a) (db a) (autoSaveTimer a) (draws a) (layout a).
Definition set_canvas (a : app) (c : Canvas.state) : app :=
  mkApp (scene a) c (settings a) (pendingImportData a) (pendingDecryptData a) (db a) (autoSaveTimer a) (draws a) (layout a).
Definition set_settings (a : app) (st : Settings) : app :=
  mkApp (scene a) (canvas a) st (pendingImportData a) (pendingDecryptData a) (db a) (autoSaveTimer a) (draws a) (layout a).
Definition set_pending (a : app) (imp dec : option string) : app :=
  mkApp (scene a) (canvas a) (settings a) imp dec (db a) (autoSaveTimer a) (draws a) (layout a).
Definition set_db (a : app) (d : Storage.db blob) : app :=
  mkApp (scene a) (canvas a) (settings a) (pendingImportData a) (pendingDecryptData a) d (autoSaveTimer a) (draws a) (layout a).
Definition set_timer (a : app) (t : option Q) : app :=
  mkApp (scene a) (canvas a) (settings a) (pendingImportData a) (pendingDecryptData a) (db a) t (draws a) (layout a).
Definition set_draws (a : app) (n : Z) : app :=
  mkApp (scene a) (canvas a) (settings a) (pendingImportData a) (pendingDecryptData a) (db a) (autoSaveTimer a) n (layout a).

(** The page before [init]: [new NoteCanvasApp()] over the object store
    an earlier visit left, the managers not yet built. *)
Definition fresh (store : @JsMap.t string (Storage.entry blob)) (failure : option string) (r : Canvas.rect) : app :=
  mkApp Notes.init Canvas.init defaultSettings None None (Storage.mkDb false store failure) None 0 r.

(** ** The application monad *)

Definition AM (A : Type) : Type := app -> result A * app * list effect.

Definition aret {A} (x : A) : AM A := fun a => (Ok x, a, []).

(** [await]: an exception skips the rest. *)
Definition abind {A B} (m : AM A) (k : A -> AM B) : AM B :=
  fun a => match m a with
           | (Ok x, a1, o1) => let '(r, a2, o2) := k x a1 in (r, a2, o1 ++ o2)
           | (Err e, a1, o1) => (Err e, a1, o1)
           end.

Definition throw {A} (e : string) : AM A := fun a => (Err e, a, []).

(** [try { m } catch (error) { h(error) }] *)
Definition catch {A} (m : AM A) (h : string -> AM A) : AM A :=
  fun a => match m a with
           | (Err e, a1, o1) => let '(r, a2, o2) := h e a1 in (r, a2, o1 ++ o2)
           | ok => ok
           end.

Definition aget : AM app := fun a => (Ok a, a, []).
Definition amodify (f : app -> app) : AM unit := fun a => (Ok tt, f a, []).
Definition show (e : effect) : AM unit := fun a => (Ok tt, a, [e]).

Declare Scope app_scope.
Delimit Scope app_scope with app.
Notation "x <- m ;; k" := (abind m (fun x => k))
  (at level 100, m at next level, right associativity) : app_scope.
Notation "m ;;; k" := (abind m (fun _ => k))
  (at level 100, right associativity) : app_scope.
Local Open Scope app_scope.

Fixpoint aforEach {A} (l : list A) (f : A -> AM unit) : AM unit :=
  match l with
  | [] => aret tt
  | x :: l' => f x ;;; aforEach l' f
  end.

Definition runApp {A} (m : AM A) (a : app) : result A * app * list effect := m a.
Definition final {A} (r : result A * app * list effect) : app := snd (fst r).
Definition effects {A} (r : result A * app * list effect) : list effect := snd r.
Definition outcome {A} (r : result A * app * list effect) : result A := fst (fst r).

(** [this.uiManager.showNotification(message, kind)] *)
Definition notify (message kind : string) : AM unit := show (Notify message kind).

(** ** Storage calls *)

Definition storageSave (now : Z) (x : blob) : AM unit :=
  fun a => let '(r, d) := Storage.saveData now x (db a) in (r, set_db a d, []).

Definition storageLoad : AM (option blob) :=
  fun a => let '(r, d) := Storage.loadData (db a) in (r, set_db a d, []).

Definition storageInit : AM unit :=
  fun a => let '(r, d) := Storage.initDB (db a) in (r, set_db a d, []).

(** ** Methods of [NoteCanvasApp] *)

Section Methods.
Context `{Crypto} `{Json envelope} `{Json payload}.

(** [this.canvasManager.screenToCanvas]: the world map the notes manager uses. *)
Definition toWorld (a : app) : Q -> Q -> Q * Q := Canvas.screenToCanvas (layout a) (canvas a).

(** [setupAutoSave()] (app.js 238-246): the interval of
    [settings.autoSaveInterval] seconds replaces the previous one. *)
Definition setupAutoSave : AM unit :=
  amodify (fun a => set_timer a (Some (autoSaveInterval (settings a) * 1000))).

(** [applySettings()] (app.js 268-272). *)
Definition applySettings : AM unit :=
  amodify (fun a => set_canvas a (Canvas.setGridVisibility (Canvas.setGridSize (canvas a) (gridSize (settings a)))
                                                          (showGrid (settings a)))) ;;;
  setupAutoSave.

(** The [data] object of [saveNotes] (app.js 88-97). *)
Definition snapshot (now : Z) (a : app) : payload :=
  mkPayload (Some (exportNotes (scene a)))
            (Some (mkView (Some (Canvas.zoomLevel (canvas a))) (Some (Canvas.panX (canvas a))) (Some (Canvas.panY (canvas a)))))
            (Some (toSaved (settings a))) now None.

(** [encryptionManager.encrypt(data, password)], consuming two random draws. *)
Definition encryptA (data : payload) (pw : string) (now : Z) : AM string :=
  a <- aget ;;
  amodify (fun a => set_draws a (draws a + 2)) ;;;
  aret (encrypt data pw (draws a) now).

(** [saveNotes()] (app.js 86-123). *)
Definition saveNotes (now : Z) : AM unit :=
  catch (a <- aget ;;
         let data := snapshot now a in
         match password (settings a) with
         | Some pw => if truthy (Some pw)
                      then enc <- encryptA data pw now ;; storageSave now (Sealed enc)
                      else storageSave now (Plain data)
         | None => storageSave now (Plain data)
         end)
        (fun e => notify "Failed to save notes" "error" ;;; throw e).

(** [autoSave()] (app.js 248-254). *)
Definition autoSave (now : Z) : AM unit := catch (saveNotes now) (fun _ => aret tt).

(** A [NotesManager] method, with the "note-modified" listener
    (app.js 45-47) running [autoSave] for each signal it raised. *)
Definition runScene {A} (now : Z) (m : Notes.M A) : AM A :=
  a <- aget ;;
  let r := Notes.run m (scene a) in
  amodify (fun a => set_scene a (Notes.result_state r)) ;;;
  aforEach (Notes.signals r) (fun _ => autoSave now) ;;;
  aret (fst (fst r)).

(** Loading a decoded payload into the managers: [loadNotes(data.notes
    || [])] and the three view fields. *)
Definition loadScene (p : payload) : AM unit :=
  amodify (fun a => set_scene a (Notes.result_state (Notes.run (loadNotes (match pnotes p with Some l => l | None => [] end)) (scene a)))).

Definition loadView (v : option viewData) : AM unit :=
  amodify (fun a => set_canvas a (Canvas.set_view (canvas a)
    (orNum (viewField zoom v) 1) (orNum (viewField vpanX v) 0) (orNum (viewField vpanY v) 0))).

(** [loadNotes()] of the app (app.js 56-84). *)
Definition loadStoredNotes : AM unit :=
  catch (saved <- storageLoad ;;
         match saved with
         | None => aret tt
         | Some (Sealed d) =>
             show (PasswordDialog "Enter password to decrypt your notes") ;;;
             amodify (fun a => set_pending a (pendingImportData a) (Some d))
         | Some (Plain p) => loadScene p ;;; loadView (pcanvas p)
         end)
        (fun _ => notify "Failed to load notes" "error").

(** [loadSettings()] (app.js 256-266). *)
Definition loadSettings : AM unit :=
  catch (saved <- storageLoad ;;
         match saved with
         | Some (Plain p) =>
             match psettings p with
             | Some o => amodify (fun a => set_settings a (mergeSettings (settings a) o)) ;;; applySettings
             | None => aret tt
             end
         | _ => aret tt
         end)
        (fun _ => aret tt).

(** [init()] (app.js 21-54): when the database cannot be opened the
    managers are never built and, the UI manager being [null] too, no
    notification is shown. *)
Definition init : AM unit :=
  catch (storageInit ;;;
         amodify (fun a => set_canvas (set_scene a Notes.init) Canvas.init) ;;;
         loadSettings ;;;
         loadStoredNotes ;;;
         setupAutoSave)
        (fun _ => aret tt).

End Methods.

(** [if (this.pendingDecryptData)]: a missing or empty string is falsy. *)
Definition present (o : option string) : option string := if truthy o then o else None.

(** [{ ...this.settings, password: null }] as [exportNotes] stores it. *)
Definition withoutPassword (s : Settings) : savedSettings :=
  mkSaved (Some (gridSize s)) (Some (autoSaveInterval s)) (Some (showGrid s)) (Some None).

(** [showStats()] (app.js 285-298). *)
Record stats := mkStats { total : nat; text : nat; images : nat }.

Definition isKind (k : Note.kind) (n : Note.t) : bool :=
  match k, Note.type n with Note.Text, Note.Text | Note.Image, Note.Image => true | _, _ => false end.

Definition showStats (s : Notes.state) : stats :=
  mkStats (JsMap.size (notes s)) (length (filter (isKind Note.Text) (JsMap.values (notes s))))
          (length (filter (isKind Note.Image) (JsMap.values (notes s)))).

(** [name.endsWith(suffix)] *)
Definition endsWith (name suffix : string) : bool :=
  let n := String.length name in let k := String.length suffix in
  (k <=? n)%nat && String.eqb (String.substring (n - k) k name) suffix.

Section Handlers.
Context `{Crypto} `{Json envelope} `{Json payload}.
(** [new Date(now).toISOString().split("T")[0]] *)
Context (isoDay : Z -> string).
(** Whether [JSON.parse(text)] succeeds. *)
Context (jsonValid : string -> bool).

(** The decoded payload into the managers, [canvas] only when present
    (app.js 133-141, 160-168). *)
Definition loadDecrypted (dd : payload) : AM unit :=
  loadScene dd ;;;
  match pcanvas dd with Some v => loadView (Some v) | None => aret tt end.

(** [handlePasswordInput(password)] (app.js 125-186). *)
Definition handlePasswordInput (now : Z) (pw : string) : AM unit :=
  catch (a <- aget ;;
         match present (pendingDecryptData a) with
         | Some d =>
             match decrypt d pw with
             | Err e => throw e
             | Ok dd =>
                 loadDecrypted dd ;;;
                 (match psettings dd with
                  | Some o => amodify (fun a => set_settings a (mergeSettings (settings a) o)) ;;; applySettings
                  | None => aret tt
                  end) ;;;
                 amodify (fun a => set_settings a (mkSettings (gridSize (settings a)) (autoSaveInterval (settings a))
                                                             (showGrid (settings a)) (Some pw))) ;;;
                 amodify (fun a => set_pending a (pendingImportData a) None) ;;;
                 notify "Notes decrypted successfully" "success"
             end
         | None =>
             match present (pendingImportData a) with
             | Some d =>
                 match decrypt d pw with
                 | Err e => throw e
                 | Ok dd =>
                     loadDecrypted dd ;;;
                     amodify (fun a => set_pending a None (pendingDecryptData a)) ;;;
                     notify "Notes imported successfully" "success" ;;;
                     saveNotes now
                 end
             | None => aret tt
             end
         end)
        (fun _ => notify "Invalid password or corrupted data" "error").

(** The file name of the download (app.js 209-211). *)
Definition exportFileName (now : Z) : string := "notecanvas-export-" ++ isoDay now ++ ".json".

(** The [data] object of [exportNotes] (app.js 190-200). *)
Definition exportPayload (now : Z) (a : app) : payload :=
  mkPayload (Some (exportNotes (scene a)))
            (Some (mkView (Some (Canvas.zoomLevel (canvas a))) (Some (Canvas.panX (canvas a))) (Some (Canvas.panY (canvas a)))))
            (Some (withoutPassword (settings a))) now (Some "1.0").

(** [exportNotes(password)] (app.js 188-222): the download's contents. *)
Definition exportNotesApp (now : Z) (pw : string) : AM unit :=
  catch (a <- aget ;;
         enc <- encryptA (exportPayload now a) pw now ;;
         show (Download (exportFileName now) enc) ;;;
         notify "Notes exported successfully" "success")
        (fun _ => notify "Failed to export notes" "error").

(** [addTextNote()] (app.js 224-232), [r1] and [r2] the two
    [Math.random()] results. *)
Definition addTextNote (now : Z) (r1 r2 : Q) : AM unit :=
  a <- aget ;;
  let r := layout a in
  let screenX := Canvas.left r + Canvas.width r / 2 + r1 * 100 - 50 in
  let screenY := Canvas.top r + Canvas.height r / 2 + r2 * 100 - 50 in
  let p := Canvas.screenToCanvas r (canvas a) screenX screenY in
  _ <- runScene now (createTextNote now (fst p - 150) (snd p - 100)) ;;
  autoSave now.

(** [updateSettings(newSettings)] (app.js 274-278). *)
Definition updateSettings (now : Z) (o : savedSettings) : AM unit :=
  amodify (fun a => set_settings a (mergeSettings (settings a) o)) ;;;
  applySettings ;;;
  autoSave now.

(** [getSettings()] (app.js 280-282). *)
Definition getSettings : AM Settings := a <- aget ;; aret (settings a).

(** [fitNotesToView()] (app.js 300-303). *)
Definition fitNotesToView : AM unit :=
  amodify (fun a => set_canvas a (Canvas.fitToView (layout a) (canvas a) (map Note.bounds (JsMap.values (notes (scene a)))))).

(** [clearAllNotes()] (app.js 305-316), [confirmed] the answer of [confirm]. *)
Definition clearAllNotes (now : Z) (confirmed : bool) : AM unit :=
  if confirmed then
    amodify (fun a => set_scene a (set_notes (scene a) JsMap.empty)) ;;;
    autoSave now ;;;
    notify "All notes cleared" "success"
  else aret tt.

(** [handleImageUpload(e)] (ui.js 265-295): the chosen file's size, if
    any, and what [compressImage] resolved with ([Err] when it
    rejected).  The auto-save is not awaited: the success notification
    comes before anything the save reports. *)
Definition handleImageUpload (now : Z) (file : option Z) (imageData : result string) : AM unit :=
  match file with
  | None => aret tt
  | Some size =>
      catch (match imageData with
             | Err e => throw e
             | Ok img =>
                 a <- aget ;;
                 let r := layout a in
                 let p := Canvas.screenToCanvas r (canvas a) (Canvas.left r + Canvas.width r / 2)
                                                (Canvas.top r + Canvas.height r / 2) in
                 _ <- runScene now (createImageNote now (fst p - 150) (snd p - 100) img (Some size)) ;;
                 notify "Image added successfully" "success" ;;;
                 autoSave now
             end)
            (fun _ => notify "Failed to upload image. Please try again." "error")
  end.

(** ** [UIManager] handlers *)

(** The password dialog's confirm button (ui.js 66-76). *)
Definition passwordConfirm (now : Z) (pw : string) : AM unit :=
  if (1 <=? String.length pw)%nat then handlePasswordInput now pw
  else notify "Please enter a password" "error".

(** The export dialog's confirm button (ui.js 97-109). *)
Definition exportConfirm (now : Z) (pw : string) : AM unit :=
  if (6 <=? String.length pw)%nat then exportNotesApp now pw
  else notify "Password must be at least 6 characters long" "error".

(** [handleFileImport(e)] (ui.js 229-264): the chosen file's name and
    text, if any. *)
Definition handleFileImport (file : option (string * string)) : AM unit :=
  match file with
  | None => aret tt
  | Some (name, txt) =>
      if negb (endsWith name ".json") then notify "Please select a valid JSON file" "error"
      else if negb (jsonValid txt) then notify ("Failed to read import file: " ++ "Invalid JSON file format") "error"
      else amodify (fun a => set_pending a (Some txt) (pendingDecryptData a)) ;;;
           show (PasswordDialog "Enter password to decrypt imported notes")
  end.

(** The save paths that do not await [saveNotes()]: its rejection is
    dropped (the notification of [saveNotes] still shows). *)
Definition saveUnawaited (now : Z) : AM unit := catch (saveNotes now) (fun _ => aret tt).

(** [handleGlobalKeyDown(e)] (ui.js 149-188).  [this.app.saveNotes()]
    is not awaited: "Notes saved!" is shown before the save completes,
    so it comes first. *)
Definition handleGlobalKeyDown (now : Z) (e : key) (r1 r2 : Q) : AM unit :=
  let k := keyName e in
  (if kctrlKey e || kmetaKey e then
     if String.eqb k "s" then notify "Notes saved!" "success" ;;; saveUnawaited now
     else if String.eqb k "o" then show (OpenDialog "import")
     else if String.eqb k "e" then (if kshiftKey e then show (OpenDialog "export") else aret tt)
     else if String.eqb k "," then show (OpenDialog "settings")
     else aret tt
   else aret tt) ;;;
  (if negb (onTextInput (ktarget e)) then
     if String.eqb k "t" || String.eqb k "T" then addTextNote now r1 r2
     else if String.eqb k "i" || String.eqb k "I" then show (OpenDialog "image")
     else aret tt
   else aret tt).

(** [saveSettings()] (ui.js 306-317): the three form values, already
    parsed; the form has no password field. *)
Definition saveSettings (now : Z) (g i : Q) (shw : bool) : AM unit :=
  updateSettings now (mkSaved (Some g) (Some i) (Some shw) None) ;;;
  notify "Settings saved!" "success".

(** ** Joint dispatch of DOM events *)

(** A [keydown] reaches the three document listeners in registration
    order: [CanvasManager] (canvas.js 50), [NotesManager] (notes.js 28-44),
    [UIManager] (ui.js 47-49). *)
Definition keyDown (now : Z) (e : key) (r1 r2 : Q) : AM unit :=
  amodify (fun a => set_canvas a (Canvas.handleKeyDown (layout a) (canvas a) e)) ;;;
  runScene now (Interaction.handleKeyDown now e) ;;;
  handleGlobalKeyDown now e r1 r2.

(** The part of a [mousedown] that bubbles past the note: the canvas
    element's listener (canvas.js 32), then the document's (notes.js). *)
Definition mouseDownBubble (now : Z) (e : mouse) : AM unit :=
  (if onCanvas (mtarget e) then amodify (fun a => set_canvas a (Canvas.handleMouseDown (canvas a) e)) else aret tt) ;;;
  a <- aget ;; runScene now (Interaction.handleGlobalMouseDown (toWorld a) e).

(** A [mousedown] on the note [noteId], if any, runs the note's listener
    first; unless that listener stopped it in [startDrag] or
    [startResize], it then bubbles to the canvas element and the
    document. *)
Definition mouseDown (now : Z) (e : mouse) (noteId : option string) : AM unit :=
  match noteId with
  | Some id =>
      a <- aget ;;
      runScene now (Interaction.noteMouseDown (toWorld a) e id) ;;;
      if Interaction.noteStopsPropagation e id (scene a) then aret tt else mouseDownBubble now e
  | None => mouseDownBubble now e
  end.

(** A [mousemove]: the canvas element's two listeners, then the
    document's. *)
Definition mouseMove (now : Z) (e : mouse) : AM unit :=
  (if onCanvas (mtarget e) then amodify (fun a => set_canvas a (Canvas.onCanvasMouseMove (layout a) (canvas a) e))
   else aret tt) ;;;
  a <- aget ;; runScene now (Interaction.handleGlobalMouseMove (toWorld a) now e).

(** A [mouseup]: the canvas element's listener, then the document's. *)
Definition mouseUp (now : Z) (e : mouse) : AM unit :=
  (if onCanvas (mtarget e) then amodify (fun a => set_canvas a (Canvas.handleMouseUp (canvas a))) else aret tt) ;;;
  runScene now Interaction.handleGlobalMouseUp.

(** A [mouseleave] of the canvas element: its listener is the same
    [handleMouseUp] (canvas.js 36); [NotesManager] does not listen. *)
Definition mouseLeave : AM unit :=
  amodify (fun a => set_canvas a (Canvas.handleMouseUp (canvas a))).

(** ** Sessions *)

(** The events of a page: pointer and keys, a note's context menu, the
    scene commands of the toolbar, context menu and paste, the timer, the
    page being hidden or unloaded, the toolbar's add-text and save
    buttons, the dialogs, and the browser starting to fail (or serve
    again) the database's requests. *)
Inductive appEvent :=
| AMouseDown (now : Z) (e : mouse) (noteId : option string)
| AMouseMove (now : Z) (e : mouse)
| AMouseUp (now : Z) (e : mouse)
| AMouseLeave
| AKeyDown (now : Z) (e : key) (r1 r2 : Q)
| ANoteContextMenu (now : Z) (id : string)
| ACommand (now : Z) (c : command)
| ATick (now : Z)
| AHidden (now : Z)
| AUnload (now : Z)
| AAddText (now : Z) (r1 r2 : Q)
| AImageUpload (now : Z) (file : option Z) (imageData : result string)
| ASaveButton (now : Z)
| APasswordConfirm (now : Z) (pw : string)
| AImportFile (file : option (string * string))
| AExportConfirm (now : Z) (pw : string)
| ASaveSettings (now : Z) (g i : Q) (shw : bool)
| AClearAll (now : Z) (confirmed : bool)
| AFitToView
| ADbFailure (f : option string).

Definition appStep (ev : appEvent) : AM unit :=
  match ev with
  | AMouseDown now e id => mouseDown now e id
  | AMouseMove now e => mouseMove now e
  | AMouseUp now e => mouseUp now e
  | AMouseLeave => mouseLeave
  | AKeyDown now e r1 r2 => keyDown now e r1 r2
  | ANoteContextMenu now id => runScene now (Interaction.noteContextMenu id)
  | ACommand now c => runScene now (exec c)
  | ATick now => a <- aget ;; match autoSaveTimer a with Some _ => autoSave now | None => aret tt end
  | AHidden now => autoSave now
  | AUnload now => autoSave now
  | AAddText now r1 r2 => addTextNote now r1 r2
  | AImageUpload now f img => handleImageUpload now f img
  | ASaveButton now => saveUnawaited now
  | APasswordConfirm now pw => passwordConfirm now pw
  | AImportFile f => handleFileImport f
  | AExportConfirm now pw => exportConfirm now pw
  | ASaveSettings now g i shw => saveSettings now g i shw
  | AClearAll now ok => clearAllNotes now ok
  | AFitToView => fitNotesToView
  | ADbFailure f => amodify (fun a => set_db a (Storage.mkDb (Storage.opened (db a)) (Storage.store (db a)) f))
  end.

(** A page load over the store [store]: the constructor, then [init]. *)
Definition boot (store : @JsMap.t string (Storage.entry blob)) (f : option string) (r : Canvas.rect) : app :=
  final (runApp init (fresh store f r)).

(** The states of the application from a first visit (an empty store):
    events, and reloads that keep the object store. *)
Inductive appSession : app -> Prop :=
| as_first (r : Canvas.rect) (f : option string) : appSession (boot JsMap.empty f r)
| as_step (ev : appEvent) (a : app) : appSession a -> appSession (final (runApp (appStep ev) a))
| as_reload (a : app) (f : option string) (r : Canvas.rect) :
    appSession a -> appSession (boot (Storage.store (db a)) f r).

End Handlers.

(** ** Laws of the application monad *)

Lemma run_abind {A B} (m : AM A) (k : A -> AM B) (a : app) :
  runApp (abind m k) a =
  match runApp m a with
  | (Ok x, a1, o1) => let '(r, a2, o2) := runApp (k x) a1 in (r, a2, o1 ++ o2)
  | (Err e, a1, o1) => (Err e, a1, o1)
  end.
Proof. reflexivity. Qed.

Lemma run_catch {A} (m : AM A) (h : string -> AM A) (a : app) :
  runApp (catch m h) a =
  match runApp m a with
  | (Err e, a1, o1) => let '(r, a2, o2) := runApp (h e) a1 in (r, a2, o1 ++ o2)
  | ok => ok
  end.
Proof. reflexivity. Qed.

(** A step of [m] that ends normally and silently. *)
Lemma run_abind_ok {A B} (m : AM A) (k : A -> AM B) (a a1 : app) (x : A) :
  runApp m a = (Ok x, a1, []) -> runApp (abind m k) a = runApp (k x) a1.
Proof. intros E. rewrite run_abind, E. destruct (runApp (k x) a1) as [[r a2] o2]. reflexivity. Qed.

Lemma run_abind_ok_effects {A B} (m : AM A) (k : A -> AM B) (a a1 : app) (x : A) (o : list effect) :
  runApp m a = (Ok x, a1, o) ->
  runApp (abind m k) a = (outcome (runApp (k x) a1), final (runApp (k x) a1), o ++ effects (runApp (k x) a1)).
Proof. intros E. rewrite run_abind, E. destruct (runApp (k x) a1) as [[r a2] o2]. reflexivity. Qed.

Lemma run_abind_err {A B} (m : AM A) (k : A -> AM B) (a a1 : app) (e : string) (o : list effect) :
  runApp m a = (Err e, a1, o) -> runApp (abind m k) a = (Err e, a1, o).
Proof. intros E. rewrite run_abind, E. reflexivity. Qed.

Lemma run_catch_ok {A} (m : AM A) (h : string -> AM A) (a : app) (x : A) (a1 : app) (o : list effect) :
  runApp m a = (Ok x, a1, o) -> runApp (catch m h) a = (Ok x, a1, o).
Proof. intros E. rewrite run_catch, E. reflexivity. Qed.

Lemma run_catch_err {A} (m : AM A) (h : string -> AM A) (a a1 : app) (e : string) (o : list effect) :
  runApp m a = (Err e, a1, o) ->
  runApp (catch m h) a = (outcome (runApp (h e) a1), final (runApp (h e) a1), o ++ effects (runApp (h e) a1)).
Proof. intros E. rewrite run_catch, E. destruct (runApp (h e) a1) as [[r a2] o2]. reflexivity. Qed.

(** [x || d] on a present non-zero number is [x]. *)
Lemma orNum_nonzero (q d : Q) : ~ q == 0 -> orNum (Some q) d = q.
Proof. intros Hq. unfold orNum. destruct (Qeq_bool q 0) eqn:E; [apply Qeq_bool_iff in E; contradiction | reflexivity]. Qed.

(** [x || 0] on a present number is [x] numerically. *)
Lemma orNum_zero_default (q : Q) : orNum (Some q) 0 == q.
Proof. unfold orNum. destruct (Qeq_bool q 0) eqn:E; [apply Qeq_bool_iff in E; rewrite E; reflexivity | reflexivity]. Qed.

Lemma merge_toSaved (s t : Settings) : mergeSettings t (toSaved s) = s.
Proof. destruct s; reflexivity. Qed.

(** ** Invariants of the application state *)

(** The application method [m] keeps [P], whatever its outcome. *)
Definition apreserves {A} (P : app -> Prop) (m : AM A) : Prop :=
  forall a, P a -> P (final (runApp m a)).

Section APreserves.
Variable P : app -> Prop.

Lemma apreserves_ret {A} (x : A) : apreserves P (aret x).
Proof. intros a H. exact H. Qed.

Lemma apreserves_throw {A} (e : string) : apreserves P (@throw A e).
Proof. intros a H. exact H. Qed.

Lemma apreserves_show (e : effect) : apreserves P (show e).
Proof. intros a H. exact H. Qed.

Lemma apreserves_modify (f : app -> app) : (forall a, P a -> P (f a)) -> apreserves P (amodify f).
Proof. intros Hf a H. exact (Hf a H). Qed.

Lemma apreserves_bind {A B} (m : AM A) (k : A -> AM B) :
  apreserves P m -> (forall x, apreserves P (k x)) -> apreserves P (abind m k).
Proof.
  intros Hm Hk a H. unfold final. rewrite run_abind.
  specialize (Hm a H). unfold final in Hm. destruct (runApp m a) as [[[x|e] a1] o1]; simpl in *; [|exact Hm].
  specialize (Hk x a1 Hm). unfold final in Hk. destruct (runApp (k x) a1) as [[r a2] o2]. exact Hk.
Qed.

(** Reading the state: the continuation may use that it satisfies [P]. *)
Lemma apreserves_get_bind {B} (k : app -> AM B) :
  (forall x, P x -> apreserves P (k x)) -> apreserves P (abind aget k).
Proof.
  intros Hk a H. unfold final. rewrite run_abind. simpl.
  specialize (Hk a H a H). unfold final in Hk. destruct (runApp (k a) a) as [[r a2] o2]. exact Hk.
Qed.

Lemma apreserves_catch {A} (m : AM A) (h : string -> AM A) :
  apreserves P m -> (forall e, apreserves P (h e)) -> apreserves P (catch m h).
Proof.
  intros Hm Hh a H. unfold final. rewrite run_catch.
  specialize (Hm a H). unfold final in Hm. destruct (runApp m a) as [[[x|e] a1] o1]; simpl in *; [exact Hm|].
  specialize (Hh e a1 Hm). unfold final in Hh. destruct (runApp (h e) a1) as [[r a2] o2]. exact Hh.
Qed.

Lemma apreserves_forEach {A} (l : list A) (f : A -> AM unit) :
  (forall x, apreserves P (f x)) -> apreserves P (aforEach l f).
Proof. intros Hf. induction l as [|x l IH]; simpl; [apply apreserves_ret | apply apreserves_bind; auto]. Qed.

(** The loop keeps [P] when each of its steps does. *)
Lemma apreserves_forEach_in {A} (l : list A) (f : A -> AM unit) :
  (forall x, In x l -> apreserves P (f x)) -> apreserves P (aforEach l f).
Proof.
  induction l as [|x l IH]; intros Hf; simpl; [apply apreserves_ret|].
  apply apreserves_bind; [apply Hf; left; reflexivity | intros _; apply IH; intros y Hy; apply Hf; right; exact Hy].
Qed.

(** [m] establishes [P] and the rest keeps it. *)
Lemma establish_bind {A B} (m : AM A) (k : A -> AM B) (a : app) :
  P (final (runApp m a)) -> (forall x, apreserves P (k x)) -> P (final (runApp (abind m k) a)).
Proof.
  intros Hm Hk. unfold final in *. rewrite run_abind. destruct (runApp m a) as [[[x|e] a1] o1]; simpl in *; [|exact Hm].
  specialize (Hk x a1 Hm). unfold final in Hk. destruct (runApp (k x) a1) as [[r a2] o2]. exact Hk.
Qed.

End APreserves.

Create HintDb apres.
#[export] Hint Resolve apreserves_ret apreserves_throw apreserves_show : apres.

(** Carry an invariant through a method: read-binds first (they give
    the invariant of the state read), then binds, [try]/[catch] and
    case splits; the leaves by the database [db]. *)
Ltac apreserve db :=
  repeat first
    [ solve [eauto with db]
    | progress cbv zeta
    | apply apreserves_get_bind; intros ?x ?Hx
    | apply apreserves_bind; [| intros ?]
    | apply apreserves_catch; [| intros ?]
    | apply apreserves_forEach; intros ?
    | progress case_match ].

End App.
