(* ===== verification/Fixtures.v ===== *)
(** * Fixtures: concrete instances of the library interfaces

    The theorems about the app hold for every [Cipher.Crypto] and
    [Cipher.Json] instance satisfying their laws.  The witnesses that run
    them on concrete pages need one instance of each; this file builds
    them, and so also shows that the laws are satisfiable together.

    - [Json A] for every [A] with a self-delimiting text format [Ser A]:
      numbers in binary, strings and lists after their length, records
      as the tuples of their fields.  Parsing the text of a value gives
      the value back, and the text grows linearly with the value, so the
      witnesses compute it.
    - [toyCrypto]: word arrays are strings printed as themselves, the
      key is the password followed by the salt, and the cipher text of a
      plaintext is the text of the pair (key, plaintext); decryption with
      another key fails.  It keeps the law CryptoJS is assumed to keep and
      nothing of its secrecy. *)

From Stdlib Require Import Ascii.
From S2P Require Import Prelude Viewport JsCollections NoteState Storage Cipher App.

Module Fixtures.
Import Cipher App.

(** ** A self-delimiting text format

    [ser a] is the text of [a]; [deser] reads one value off the front of
    a text and gives back the rest, so that texts concatenate.  This is
    the format of the fixture's [JSON.stringify]: linear in the size of
    the value, so the witnesses evaluate it. *)

Class Ser (A : Type) := {
  ser : A -> string;
  deser : string -> option (A * string);
  deser_ser : forall a r, deser (String.append (ser a) r) = Some (a, r)
}.

(** Reading a value and then the rest. *)
Definition dthen {A B} (d : option (A * string)) (k : A -> string -> option (B * string)) : option (B * string) :=
  match d with Some (a, r) => k a r | None => None end.

Lemma dthen_ser {A B} `{Ser A} (a : A) (r : string) (k : A -> string -> option (B * string)) :
  dthen (deser (String.append (ser a) r)) k = k a r.
Proof. rewrite deser_ser. reflexivity. Qed.

(** One tag character, then what [k] reads. *)
Definition tagged {B} (s : string) (k : Ascii.ascii -> string -> option (B * string)) : option (B * string) :=
  match s with String c s' => k c s' | EmptyString => None end.

(** Positive numbers as binary numerals ending in [h]. *)
Fixpoint posText (p : positive) : string :=
  match p with
  | xH => "h"
  | xO p' => String "0"%char (posText p')
  | xI p' => String "1"%char (posText p')
  end.

Fixpoint posDe (s : string) : option (positive * string) :=
  match s with
  | String c s' =>
      if Ascii.eqb c "h"%char then Some (xH, s')
      else if Ascii.eqb c "0"%char then dthen (posDe s') (fun p r => Some (xO p, r))
      else if Ascii.eqb c "1"%char then dthen (posDe s') (fun p r => Some (xI p, r))
      else None
  | EmptyString => None
  end.

Lemma posDe_posText (p : positive) (r : string) : posDe (String.append (posText p) r) = Some (p, r).
Proof. induction p as [p IH|p IH|]; simpl; rewrite ?IH; reflexivity. Qed.

#[export] Instance ser_positive : Ser positive := {| ser := posText; deser := posDe; deser_ser := posDe_posText |}.

#[export] Program Instance ser_Z : Ser Z := {|
  ser z := match z with Z0 => "z" | Zpos p => String "p"%char (ser p) | Zneg p => String "n"%char (ser p) end;
  deser s := tagged s (fun c r =>
    if Ascii.eqb c "z"%char then Some (Z0, r)
    else if Ascii.eqb c "p"%char then dthen (deser r) (fun p r' => Some (Zpos p, r'))
    else if Ascii.eqb c "n"%char then dthen (deser r) (fun p r' => Some (Zneg p, r'))
    else None)
|}.
Next Obligation. intros [|p|p] r; simpl; rewrite ?posDe_posText; reflexivity. Qed.

#[export] Program Instance ser_bool : Ser bool := {|
  ser b := if b then "t" else "f";
  deser s := tagged s (fun c r => if Ascii.eqb c "t"%char then Some (true, r)
                                  else if Ascii.eqb c "f"%char then Some (false, r) else None)
|}.
Next Obligation. intros [] r; reflexivity. Qed.

(** A type in bijection with a serialisable one. *)
Program Definition serIso {A B} `{Ser A} (f : B -> A) (g : A -> B) (Hgf : forall b, g (f b) = b) : Ser B := {|
  ser b := ser (f b);
  deser s := dthen (deser s) (fun a r => Some (g a, r))
|}.
Next Obligation. intros A B ? f g Hgf b r. simpl. rewrite dthen_ser, Hgf. reflexivity. Qed.

#[export] Instance ser_nat : Ser nat := serIso Z.of_nat Z.to_nat Nat2Z.id.

#[export] Program Instance ser_prod {A B} `{Ser A} `{Ser B} : Ser (A * B) := {|
  ser ab := String.append (ser ab.1) (ser ab.2);
  deser s := dthen (deser s) (fun a r => dthen (deser r) (fun b r' => Some ((a, b), r')))
|}.
Next Obligation. intros A B ? ? [a b] r. simpl. rewrite string_app_assoc, dthen_ser, dthen_ser. reflexivity. Qed.

#[export] Program Instance ser_option {A} `{Ser A} : Ser (option A) := {|
  ser o := match o with None => "N" | Some a => String "S"%char (ser a) end;
  deser s := tagged s (fun c r => if Ascii.eqb c "N"%char then Some (None, r)
                                  else if Ascii.eqb c "S"%char then dthen (deser r) (fun a r' => Some (Some a, r'))
                                  else None)
|}.
Next Obligation. intros A ? [a|] r; simpl; rewrite ?dthen_ser; reflexivity. Qed.

(** [n] characters off the front. *)
Fixpoint takeStr (n : nat) (s : string) : option (string * string) :=
  match n with
  | O => Some (EmptyString, s)
  | S n' => tagged s (fun c r => dthen (takeStr n' r) (fun t r' => Some (String c t, r')))
  end.

Lemma takeStr_append (t r : string) : takeStr (String.length t) (String.append t r) = Some (t, r).
Proof. induction t as [|c t IH]; simpl; [reflexivity | rewrite IH; reflexivity]. Qed.

(** A string is its length and then its characters. *)
#[export] Program Instance ser_string : Ser string := {|
  ser t := String.append (ser (String.length t)) t;
  deser s := dthen (deser s) takeStr
|}.
Next Obligation. intros t r. cbv beta. rewrite string_app_assoc, (dthen_ser (A := nat)). apply takeStr_append. Qed.

Section SerList.
Context {A : Type} `{Ser A}.

Fixpoint serItems (l : list A) : string :=
  match l with [] => EmptyString | a :: l' => String.append (ser a) (serItems l') end.

Fixpoint deserItems (n : nat) (s : string) : option (list A * string) :=
  match n with
  | O => Some ([], s)
  | S n' => dthen (deser s) (fun a r => dthen (deserItems n' r) (fun l r' => Some (a :: l, r')))
  end.

Lemma deserItems_serItems (l : list A) (r : string) :
  deserItems (length l) (String.append (serItems l) r) = Some (l, r).
Proof. induction l as [|a l IH]; simpl; [reflexivity | rewrite string_app_assoc, dthen_ser, IH; reflexivity]. Qed.

End SerList.

(** A list is its length and then its items. *)
#[export] Program Instance ser_list {A} `{Ser A} : Ser (list A) := {|
  ser l := String.append (ser (length l)) (serItems l);
  deser s := dthen (deser s) deserItems
|}.
Next Obligation. intros A ? l r. cbv beta. rewrite string_app_assoc, (dthen_ser (A := nat)). apply deserItems_serItems. Qed.

(** [JSON.stringify] of the fixture: a [j] and the text of the value;
    [JSON.parse] accepts exactly one value and nothing after it. *)
Section SerJson.
Context {A : Type} `{Ser A}.

Definition jsonText (a : A) : string := String "j"%char (ser a).

Definition jsonParse (s : string) : option A :=
  match s with
  | String c r =>
      if Ascii.eqb c "j"%char then
        match deser r with Some (a, EmptyString) => Some a | _ => None end
      else None
  | EmptyString => None
  end.

Lemma jsonParse_jsonText (a : A) : jsonParse (jsonText a) = Some a.
Proof. unfold jsonParse, jsonText. cbn [Ascii.eqb]. rewrite <- (string_app_nil (ser a)), deser_ser. reflexivity. Qed.

Lemma jsonText_nonempty (a : A) : jsonText a <> EmptyString.
Proof. discriminate. Qed.

End SerJson.

#[export] Instance serJson {A} `{Ser A} : Json A := {|
  stringify := jsonText; parse := jsonParse;
  parse_stringify := jsonParse_jsonText; stringify_nonempty := jsonText_nonempty
|}.

(** ** The application's data *)

#[export] Instance ser_Q : Ser Q :=
  serIso (fun q => (Qnum q, Qden q)) (fun p => Qmake p.1 p.2) (fun q => match q with Qmake _ _ => eq_refl end).

#[export] Instance ser_kind : Ser Note.kind :=
  serIso (fun k => match k with Note.Text => true | Note.Image => false end)
         (fun b => if b then Note.Text else Note.Image) (fun k => match k with Note.Text | Note.Image => eq_refl end).

#[export] Instance ser_note : Ser Note.t :=
  serIso
    (fun n => (Note.id n, (Note.type n, (Note.x n, (Note.y n, (Note.width n, (Note.height n, (Note.content n,
               (Note.originalSize n, (Note.zIndex n, (Note.created n, Note.modified n)))))))))))
    (fun '(i, (k, (x, (y, (w, (h, (c, (o, (z, (cr, m)))))))))) => Note.mk i k x y w h c o z cr m)
    (fun n => match n with Note.mk _ _ _ _ _ _ _ _ _ _ _ => eq_refl end).

#[export] Instance ser_view : Ser viewData :=
  serIso (fun v => (zoom v, (vpanX v, vpanY v))) (fun '(z, (x, y)) => mkView z x y)
         (fun v => match v with mkView _ _ _ => eq_refl end).

#[export] Instance ser_saved : Ser savedSettings :=
  serIso (fun o => (sGridSize o, (sAutoSaveInterval o, (sShowGrid o, sPassword o))))
         (fun '(g, (i, (sh, p))) => mkSaved g i sh p) (fun o => match o with mkSaved _ _ _ _ => eq_refl end).

#[export] Instance ser_payload : Ser payload :=
  serIso (fun p => (pnotes p, (pcanvas p, (psettings p, (ptimestamp p, pversion p)))))
         (fun '(n, (c, (s, (t, v)))) => mkPayload n c s t v) (fun p => match p with mkPayload _ _ _ _ _ => eq_refl end).

#[export] Instance ser_envelope : Ser envelope :=
  serIso (fun e => (salt e, (iv e, (encrypted e, etimestamp e)))) (fun '(s, (v, (c, t))) => mkEnvelope s v c t)
         (fun e => match e with mkEnvelope _ _ _ _ => eq_refl end).

(** ** A toy cipher *)

Definition toyDecrypt (c k : string) : option string :=
  match parse c with
  | Some (k', p) => if String.eqb k k' then Some p else None
  | None => None
  end.

#[export] Program Instance toyCrypto : Crypto := {|
  word := string;
  random n := String.append "salt" (ser n);
  hexOf w := w;
  hexParse s := s;
  cipherKey := string;
  pbkdf2 pw s _ _ := String.append pw (String.append "/" s);
  aesEncrypt p k _ := stringify (k, p);
  aesDecrypt c k _ := toyDecrypt c k
|}.
Next Obligation. reflexivity. Qed.
Next Obligation.
  intros p k v. unfold toyDecrypt. rewrite parse_stringify. rewrite String.eqb_refl. reflexivity.
Qed.

(** Fixed date and JSON check for the witnesses. *)
Definition day (now : Z) : string := "2026-11-09".
Definition anyJson (s : string) : bool := true.

(** A canvas 800 by 600 at the page origin. *)
Definition screen : Canvas.rect := Canvas.mkRect 0 0 800 600.

End Fixtures.
