(* ===== verification/Persistence.v ===== *)
(** * Persistence: saving, reloading and the password flows of the app

    Theorems about [App]: what a reload restores after a save (with and
    without a password), what a wrong password does, what the auto-save
    does to encrypted data waiting for its password, what an export
    contains, and the invariant that, from a first visit, the app never
    stores encrypted data and never holds a password. *)

From S2P Require Import Prelude Events Viewport JsCollections NoteId NoteState Selection Scene Interaction Storage Cipher App Fixtures.

Module Persistence.
Import Events Notes Scene Cipher App.
Local Open Scope app_scope.

(** ** The plain-storage invariant *)

(** A stored settings object without a password: the key is absent or
    [null]. *)
Definition noPassword (p : payload) : Prop :=
  match psettings p with
  | Some o => sPassword o = None \/ sPassword o = Some None
  | None => True
  end.

(** The record the app reads back is not encrypted and carries no password. *)
Definition storedPlain (st : @JsMap.t string (Storage.entry blob)) : Prop :=
  match option_map Storage.data (JsMap.get st Storage.recordKey) with
  | Some (Plain p) => noPassword p
  | Some (Sealed _) => False
  | None => True
  end.

Definition plainInv (a : app) : Prop :=
  password (settings a) = None /\ pendingDecryptData a = None /\ storedPlain (Storage.store (db a)).

(** The cipher text [handlePasswordInput] tries (app.js 127, 154): the
    stored encrypted data when there is some, else the imported file. *)
Definition pendingCipher (a : app) : option string :=
  match present (pendingDecryptData a) with
  | Some d => Some d
  | None => present (pendingImportData a)
  end.

Section Pages.
Context {CR : Crypto} {JE : Json envelope} {JP : Json payload}.

(** Loading the page again: a new [NoteCanvasApp] (app.js 349-351) over
    the object store [a] left, in a canvas element at [r]. *)
Definition reload (a : app) (r : Canvas.rect) : app := boot (Storage.store (db a)) None r.

End Pages.

Section Invariant.
Context {CR : Crypto} {JE : Json envelope} {JP : Json payload}.

Lemma merge_noPassword (s : Settings) (o : savedSettings) :
  password s = None -> sPassword o = None \/ sPassword o = Some None -> password (mergeSettings s o) = None.
Proof. intros Hs [Ho|Ho]; unfold mergeSettings; simpl; rewrite Ho; auto. Qed.

Lemma plain_set_db (a : app) (d : Storage.db blob) :
  plainInv a -> Storage.store d = Storage.store (db a) -> plainInv (set_db a d).
Proof. intros (Ha1 & Ha2 & Ha3) E. split; [exact Ha1 | split; [exact Ha2 |]]. simpl. rewrite E. exact Ha3. Qed.

Lemma plain_storageInit : apreserves plainInv storageInit.
Proof.
  intros a H. unfold final, runApp, storageInit.
  pose proof (Storage.store_initDB (db a)) as E. destruct (Storage.initDB (db a)) as [r d]. simpl in *.
  exact (plain_set_db a d H E).
Qed.

Lemma plain_storageSave (now : Z) (p : payload) : noPassword p -> apreserves plainInv (storageSave now (Plain p)).
Proof.
  intros Hp a H. unfold final, runApp, storageSave.
  pose proof (Storage.store_saveData now (Plain p) (db a)) as E.
  destruct (Storage.saveData now (Plain p) (db a)) as [r d]. simpl in *.
  destruct E as [E|E]; [exact (plain_set_db a d H E)|].
  destruct H as (Ha1 & Ha2 & _). split; [exact Ha1 | split; [exact Ha2 |]]. simpl. rewrite E.
  unfold storedPlain. rewrite JsMap.get_set_eq. exact Hp.
Qed.

(** Reading the record: the continuation gets what a plain store holds. *)
Lemma plain_storageLoad_bind {B} (k : option blob -> AM B) :
  (forall x, (x = None \/ exists p, x = Some (Plain p) /\ noPassword p) -> apreserves plainInv (k x)) ->
  apreserves plainInv (abind storageLoad k).
Proof.
  intros Hk a H. unfold final. rewrite run_abind. unfold runApp at 1, storageLoad.
  pose proof (Storage.store_loadData (db a)) as E. pose proof (Storage.loadData_value (db a)) as V.
  destruct (Storage.loadData (db a)) as [[x|e] d]; simpl in *; [|exact (plain_set_db a d H E)].
  assert (Hs1 : plainInv (set_db a d)) by exact (plain_set_db a d H E).
  specialize (V x eq_refl). destruct H as (_ & _ & Hs). unfold storedPlain in Hs.
  assert (Hx : x = None \/ exists p, x = Some (Plain p) /\ noPassword p).
  { rewrite V. destruct (option_map Storage.data (JsMap.get (Storage.store (db a)) Storage.recordKey)) as [[p|d']|];
      [right; eauto | contradiction | left; reflexivity]. }
  specialize (Hk x Hx (set_db a d) Hs1). unfold final in Hk.
  destruct (runApp (k x) (set_db a d)) as [[r2 a2] o2]. exact Hk.
Qed.

Lemma plain_snapshot (now : Z) (a : app) : password (settings a) = None -> noPassword (snapshot now a).
Proof. intros Hp. unfold noPassword, snapshot, toSaved. simpl. rewrite Hp. right. reflexivity. Qed.

Lemma plain_saveNotes (now : Z) : apreserves plainInv (saveNotes now).
Proof.
  unfold saveNotes. apply apreserves_catch; [|intros e; apply apreserves_bind; [apply apreserves_show | intros; apply apreserves_throw]].
  apply apreserves_get_bind. intros x Hx. pose proof (proj1 Hx) as Hp. rewrite Hp.
  apply plain_storageSave, plain_snapshot, Hp.
Qed.

Lemma plain_autoSave (now : Z) : apreserves plainInv (autoSave now).
Proof. unfold autoSave. apply apreserves_catch; [apply plain_saveNotes | intros; apply apreserves_ret]. Qed.

Create HintDb plain.
#[local] Hint Resolve apreserves_ret apreserves_show apreserves_throw plain_storageInit plain_saveNotes plain_autoSave : plain.
#[local] Hint Extern 4 (apreserves _ (amodify _)) => apply apreserves_modify; intros ?a ?H; exact H : plain.

Lemma plain_runScene {A} (now : Z) (m : Notes.M A) : apreserves plainInv (runScene now m).
Proof. unfold runScene. apreserve plain. Qed.

Lemma plain_applySettings : apreserves plainInv applySettings.
Proof. unfold applySettings, setupAutoSave. apreserve plain. Qed.

#[local] Hint Resolve plain_runScene plain_applySettings : plain.

Lemma plain_mergeSettings (o : savedSettings) :
  sPassword o = None \/ sPassword o = Some None ->
  apreserves plainInv (amodify (fun a => set_settings a (mergeSettings (settings a) o))).
Proof.
  intros Ho. apply apreserves_modify. intros a (Ha1 & Ha2 & Ha3).
  split; [apply merge_noPassword; assumption | split; assumption].
Qed.

Lemma plain_loadSettings : apreserves plainInv loadSettings.
Proof.
  unfold loadSettings. apply apreserves_catch; [|intros; apply apreserves_ret].
  apply plain_storageLoad_bind. intros x [->|(p & -> & Hp)]; [apply apreserves_ret|].
  unfold noPassword in Hp. destruct (psettings p) as [o|]; [|apply apreserves_ret].
  apply apreserves_bind; [apply plain_mergeSettings, Hp | intros; apply plain_applySettings].
Qed.

Lemma plain_loadStoredNotes : apreserves plainInv loadStoredNotes.
Proof.
  unfold loadStoredNotes. apply apreserves_catch; [|intros; apply apreserves_show].
  apply plain_storageLoad_bind. intros x [->|(p & -> & Hp)]; [apply apreserves_ret|].
  unfold loadScene, loadView. apreserve plain.
Qed.

#[local] Hint Resolve plain_loadSettings plain_loadStoredNotes : plain.

Lemma plain_init : apreserves plainInv init.
Proof. unfold init, setupAutoSave. apreserve plain. Qed.

Lemma plain_handlePasswordInput (now : Z) (pw : string) : apreserves plainInv (handlePasswordInput now pw).
Proof.
  unfold handlePasswordInput. apply apreserves_catch; [|intros; apply apreserves_show].
  apply apreserves_get_bind. intros x (Hp & Hd & Hs). rewrite Hd. simpl.
  destruct (present (pendingImportData x)); [|apply apreserves_ret].
  unfold loadDecrypted, loadScene, loadView. apreserve plain.
Qed.

Lemma plain_updateSettings (now : Z) (o : savedSettings) :
  sPassword o = None \/ sPassword o = Some None -> apreserves plainInv (updateSettings now o).
Proof.
  intros Ho. unfold updateSettings.
  apply apreserves_bind; [apply plain_mergeSettings, Ho | intros; apreserve plain].
Qed.

#[local] Hint Resolve plain_handlePasswordInput : plain.

Section Events.
Context (isoDay : Z -> string) (jsonValid : string -> bool).

Lemma plain_addTextNote (now : Z) (r1 r2 : Q) : apreserves plainInv (addTextNote now r1 r2).
Proof. unfold addTextNote. apreserve plain. Qed.

#[local] Hint Resolve plain_addTextNote : plain.

Lemma plain_appStep (ev : appEvent) : apreserves plainInv (appStep isoDay jsonValid ev).
Proof.
  destruct ev; simpl.
  - unfold mouseDown, mouseDownBubble. apreserve plain.
  - unfold mouseMove. apreserve plain.
  - unfold mouseUp. apreserve plain.
  - unfold mouseLeave. apreserve plain.
  - unfold keyDown, handleGlobalKeyDown, saveUnawaited. apreserve plain.
  - apply plain_runScene.
  - apply plain_runScene.
  - apreserve plain.
  - apply plain_autoSave.
  - apply plain_autoSave.
  - apply plain_addTextNote.
  - unfold handleImageUpload. apreserve plain.
  - unfold saveUnawaited. apreserve plain.
  - unfold passwordConfirm. apreserve plain.
  - unfold handleFileImport. apreserve plain.
  - unfold exportConfirm, exportNotesApp, encryptA. apreserve plain.
  - unfold saveSettings. apply apreserves_bind; [apply plain_updateSettings; left; reflexivity | intros; apply apreserves_show].
  - unfold clearAllNotes. apreserve plain.
  - unfold fitNotesToView. apreserve plain.
  - apply apreserves_modify. intros a Ha. exact Ha.
Qed.

Lemma plain_boot (store : @JsMap.t string (Storage.entry blob)) (f : option string) (r : Canvas.rect) :
  storedPlain store -> plainInv (boot store f r).
Proof. intros Hs. apply plain_init. split; [reflexivity | split; [reflexivity | exact Hs]]. Qed.

End Events.

End Invariant.

(** ** Saving and reloading *)

Section Reload.
Context {CR : Crypto} {JE : Json envelope} {JP : Json payload}.

Lemma run_storageSave_ok (now : Z) (x : blob) (a : app) :
  Storage.healthy (db a) ->
  exists d', runApp (storageSave now x) a = (Ok tt, set_db a d', []) /\ Storage.healthy d' /\
    JsMap.get (Storage.store d') Storage.recordKey = Some (Storage.mkEntry Storage.recordKey x now).
Proof.
  intros Hh. destruct (Storage.saveData_ok now x (db a) Hh) as (d' & E & Hh' & _ & Hg & _).
  exists d'. unfold runApp, storageSave. rewrite E. auto.
Qed.

(** [saveNotes] without a password on a healthy database puts the
    snapshot, silently. *)
Lemma saveNotes_plain_run (now : Z) (a : app) :
  Storage.healthy (db a) -> password (settings a) = None ->
  exists d', runApp (saveNotes now) a = (Ok tt, set_db a d', []) /\ Storage.healthy d' /\
    JsMap.get (Storage.store d') Storage.recordKey = Some (Storage.mkEntry Storage.recordKey (Plain (snapshot now a)) now).
Proof.
  intros Hh Hp. destruct (run_storageSave_ok now (Plain (snapshot now a)) a Hh) as (d' & E & Hh' & Hg).
  exists d'. split; [|auto]. unfold saveNotes. apply run_catch_ok.
  rewrite (run_abind_ok aget _ a a a) by reflexivity. cbv beta zeta. rewrite Hp. exact E.
Qed.

(** With a password it puts the encrypted snapshot, drawing two words. *)
Lemma saveNotes_sealed_run (now : Z) (a : app) (pw : string) :
  Storage.healthy (db a) -> password (settings a) = Some pw -> truthy (Some pw) = true ->
  exists d', runApp (saveNotes now) a = (Ok tt, set_db (set_draws a (draws a + 2)) d', []) /\ Storage.healthy d' /\
    JsMap.get (Storage.store d') Storage.recordKey =
      Some (Storage.mkEntry Storage.recordKey (Sealed (encrypt (snapshot now a) pw (draws a) now)) now).
Proof.
  intros Hh Hp Ht.
  destruct (run_storageSave_ok now (Sealed (encrypt (snapshot now a) pw (draws a) now)) (set_draws a (draws a + 2)) Hh)
    as (d' & E & Hh' & Hg).
  exists d'. split; [|auto]. unfold saveNotes. apply run_catch_ok.
  rewrite (run_abind_ok aget _ a a a) by reflexivity. cbv beta zeta. rewrite Hp, Ht.
  rewrite (run_abind_ok (encryptA (snapshot now a) pw now) _ a (set_draws a (draws a + 2))
             (encrypt (snapshot now a) pw (draws a) now)) by reflexivity.
  exact E.
Qed.

Local Arguments loadNotes : simpl never.

(** Unfold the app's methods down to the state record. *)
Local Ltac unfold_app :=
  cbv [catch abind aget amodify show aret storageInit storageLoad loadSettings loadStoredNotes
    setupAutoSave applySettings loadScene loadView Storage.initDB Storage.loadData Storage.ensureOpen];
  cbn.

(** A page load over a store whose record is plain: the notes, the view
    and the settings of the record. *)
Lemma boot_plain (store : @JsMap.t string (Storage.entry blob)) (r : Canvas.rect) (p : payload) (t : Z) :
  JsMap.get store Storage.recordKey = Some (Storage.mkEntry Storage.recordKey (Plain p) t) ->
  let b := boot store None r in
  scene b = Notes.result_state (Notes.run (loadNotes (match pnotes p with Some l => l | None => [] end)) Notes.init) /\
  Canvas.zoomLevel (canvas b) = orNum (viewField zoom (pcanvas p)) 1 /\
  Canvas.panX (canvas b) = orNum (viewField vpanX (pcanvas p)) 0 /\
  Canvas.panY (canvas b) = orNum (viewField vpanY (pcanvas p)) 0 /\
  settings b = match psettings p with Some o => mergeSettings defaultSettings o | None => defaultSettings end /\
  pendingDecryptData b = None.
Proof.
  intros Hg b. unfold b, boot, final, runApp, init, fresh. unfold_app. repeat (rewrite Hg; cbn).
  destruct (psettings p); cbn; repeat (rewrite Hg; cbn); repeat split.
Qed.

(** A page load over a store whose record is encrypted: nothing loaded,
    the data waits for its password. *)
Lemma boot_sealed (store : @JsMap.t string (Storage.entry blob)) (r : Canvas.rect) (d : string) (t : Z) :
  JsMap.get store Storage.recordKey = Some (Storage.mkEntry Storage.recordKey (Sealed d) t) ->
  let b := boot store None r in
  scene b = Notes.init /\ canvas b = Canvas.init /\ settings b = defaultSettings /\
  pendingDecryptData b = Some d /\ pendingImportData b = None /\ autoSaveTimer b = Some (30 * 1000) /\
  Storage.store (db b) = store /\ Storage.healthy (db b) /\ draws b = 0%Z.
Proof.
  intros Hg b. unfold b, boot, final, runApp, init, fresh. unfold_app. repeat (rewrite Hg; cbn). repeat split.
Qed.

(** [saveNotes] changes only the database and the random draws. *)
Lemma saveNotes_frame (now : Z) (a : app) :
  let a' := final (runApp (saveNotes now) a) in
  scene a' = scene a /\ canvas a' = canvas a /\ settings a' = settings a /\
  pendingDecryptData a' = pendingDecryptData a /\ pendingImportData a' = pendingImportData a /\
  layout a' = layout a.
Proof.
  set (P := fun x : app => scene x = scene a /\ canvas x = canvas a /\ settings x = settings a /\
                           pendingDecryptData x = pendingDecryptData a /\ pendingImportData x = pendingImportData a /\
                           layout x = layout a).
  assert (HP : apreserves P (saveNotes now)).
  { unfold saveNotes, encryptA, storageSave.
    repeat first [ apply apreserves_get_bind; intros ?x ?Hx | apply apreserves_bind; [|intros ?]
                 | apply apreserves_catch; [|intros ?] | progress case_match | apply apreserves_ret
                 | apply apreserves_show | apply apreserves_throw
                 | apply apreserves_modify; intros ?y ?Hy; exact Hy
                 | intros ?y ?Hy; unfold final, runApp; destruct (Storage.saveData _ _ _); exact Hy ]. }
  apply HP. unfold P. repeat split.
Qed.

Lemma passwordConfirm_nonempty (now : Z) (pw : string) : pw <> EmptyString -> passwordConfirm now pw = handlePasswordInput now pw.
Proof. destruct pw; [contradiction | reflexivity]. Qed.

Lemma truthy_nonempty (s : string) : s <> EmptyString -> truthy (Some s) = true.
Proof. intros H. unfold truthy. apply negb_true_iff, String.eqb_neq, H. Qed.

Lemma present_encrypt {A} `{Json A} (x : A) (pw : string) (n t : Z) :
  present (Some (encrypt x pw n t)) = Some (encrypt x pw n t).
Proof. unfold present. rewrite truthy_nonempty by apply stringify_nonempty. reflexivity. Qed.

Local Ltac unfold_unlock :=
  cbv [handlePasswordInput catch abind aget amodify show aret notify loadDecrypted loadScene loadView
       applySettings setupAutoSave runApp].

(** Entering the right password for stored encrypted data: the decoded
    notes, view and settings are loaded and the password is kept. *)
Lemma unlock_stored_run (now : Z) (pw d : string) (dd : payload) (a : app) :
  present (pendingDecryptData a) = Some d -> decrypt d pw = Ok dd ->
  let c := final (runApp (handlePasswordInput now pw) a) in
  scene c = Notes.result_state (Notes.run (loadNotes (match pnotes dd with Some l => l | None => [] end)) (scene a)) /\
  Canvas.zoomLevel (canvas c) = (match pcanvas dd with Some v => orNum (zoom v) 1 | None => Canvas.zoomLevel (canvas a) end) /\
  Canvas.panX (canvas c) = (match pcanvas dd with Some v => orNum (vpanX v) 0 | None => Canvas.panX (canvas a) end) /\
  Canvas.panY (canvas c) = (match pcanvas dd with Some v => orNum (vpanY v) 0 | None => Canvas.panY (canvas a) end) /\
  settings c = (let st := match psettings dd with Some o => mergeSettings (settings a) o | None => settings a end in
                mkSettings (gridSize st) (autoSaveInterval st) (showGrid st) (Some pw)) /\
  pendingDecryptData c = None.
Proof.
  intros Hp Hd c. unfold c, final. unfold_unlock. rewrite Hp, Hd. cbn.
  destruct (pcanvas dd), (psettings dd); cbn; repeat split.
Qed.

(** Entering the right password for an imported file: the decoded notes
    and view are loaded, the settings are left alone, the file is
    forgotten, and the page is saved. *)
Lemma unlock_import_run (now : Z) (pw d : string) (dd : payload) (a : app) :
  present (pendingDecryptData a) = None -> present (pendingImportData a) = Some d -> decrypt d pw = Ok dd ->
  let c := final (runApp (handlePasswordInput now pw) a) in
  scene c = Notes.result_state (Notes.run (loadNotes (match pnotes dd with Some l => l | None => [] end)) (scene a)) /\
  Canvas.zoomLevel (canvas c) = (match pcanvas dd with Some v => orNum (zoom v) 1 | None => Canvas.zoomLevel (canvas a) end) /\
  Canvas.panX (canvas c) = (match pcanvas dd with Some v => orNum (vpanX v) 0 | None => Canvas.panX (canvas a) end) /\
  Canvas.panY (canvas c) = (match pcanvas dd with Some v => orNum (vpanY v) 0 | None => Canvas.panY (canvas a) end) /\
  settings c = settings a /\ pendingImportData c = None.
Proof.
  intros Hp Hi Hd c. unfold c, final. unfold_unlock. rewrite Hp, Hi, Hd. cbn.
  destruct (pcanvas dd) as [v|]; cbn;
    match goal with |- context [saveNotes now ?x] =>
      pose proof (saveNotes_frame now x) as (S & Cv & St & _ & Pi & _); unfold final, runApp in S, Cv, St, Pi;
      destruct (saveNotes now x) as [[[u|e] a2] o2] end;
    cbn in *; rewrite ?S, ?Cv, ?St, ?Pi; cbn; repeat split.
Qed.

(** C10: A wrong password (or corrupted data) changes nothing, for
    stored encrypted data as for an imported file: one error
    notification, and the cipher text stays for another try (a
    recoverable error, state unchanged). *)
Theorem wrong_password_changes_nothing (now : Z) (pw d e : string) (a : app) :
  pendingCipher a = Some d -> decrypt d pw = Err e ->
  runApp (handlePasswordInput now pw) a = (Ok tt, a, [Notify "Invalid password or corrupted data" "error"]).
Proof.
  unfold pendingCipher. intros Hc Hd. unfold_unlock.
  destruct (present (pendingDecryptData a)) as [d'|]; [injection Hc as <-|rewrite Hc]; rewrite Hd; reflexivity.
Qed.

End Reload.

(** ** Theorems *)

Section Theorems.
Context {CR : Crypto} {JE : Json envelope} {JP : Json payload}.
Context (isoDay : Z -> string) (jsonValid : string -> bool).

(** C3: From a first visit (an empty object store), along every session
    of the page and across reloads, the app holds no password, has no
    encrypted data waiting for one, and the record it stores is plain and
    carries no password.  Nothing ever sets [settings.password] but the
    decryption of stored encrypted data, which nothing ever stores: the
    encrypted branch of [saveNotes] is dead and local persistence is never
    encrypted. *)
Theorem app_never_encrypts_locally (a : app) : appSession isoDay jsonValid a -> plainInv a.
Proof.
  induction 1 as [r f|ev a _ IH|a f r _ IH].
  - apply plain_boot. exact I.
  - apply plain_appStep, IH.
  - apply plain_boot, IH.
Qed.

(** C4: Saving without a password and loading the page again restores
    the scene and the view: the same notes in the same order, the same
    zoom, the same pan and the same settings, with nothing waiting for a
    password ([exportAll]/[loadAll] round-trip through the persistence
    collaborator), provided the stored ids are distinct and the zoom is
    not 0 (which [|| 1] would turn into 1). *)
Theorem save_reload_roundtrip (a : app) (now : Z) (r : Canvas.rect) :
  Storage.healthy (db a) -> password (settings a) = None ->
  NoDup (map Note.id (exportNotes (scene a))) -> ~ Canvas.zoomLevel (canvas a) == 0 ->
  let b := reload (final (runApp (saveNotes now) a)) r in
  exportNotes (scene b) = exportNotes (scene a) /\ Canvas.zoomLevel (canvas b) = Canvas.zoomLevel (canvas a) /\
  Canvas.panX (canvas b) == Canvas.panX (canvas a) /\ Canvas.panY (canvas b) == Canvas.panY (canvas a) /\
  settings b = settings a /\ pendingDecryptData b = None.
Proof.
  intros Hh Hp Hnd Hz b. destruct (saveNotes_plain_run now a Hh Hp) as (d' & E & _ & Hg).
  unfold b, reload, final. rewrite E. cbn [db set_db fst snd].
  destruct (boot_plain (Storage.store d') r (snapshot now a) now Hg) as (S & Zm & X & Y & St & P).
  rewrite S, Zm, X, Y, St, P. cbn [viewField pcanvas psettings pnotes snapshot zoom vpanX vpanY].
  rewrite (proj1 (loadNotes_exported _ _ Hnd)), orNum_nonzero by exact Hz.
  rewrite !orNum_zero_default, merge_toSaved. repeat split; reflexivity.
Qed.

(** C7: Saving with a password and loading the page again shows nothing
    until the password is entered; entering it restores the notes in
    order, the zoom, the pan and the settings (password included), with
    nothing left waiting: the encryption collaborator's round trip. *)
Theorem sealed_save_unlock_roundtrip (a : app) (now now' : Z) (r : Canvas.rect) (pw : string) :
  Storage.healthy (db a) -> password (settings a) = Some pw -> pw <> EmptyString ->
  NoDup (map Note.id (exportNotes (scene a))) -> ~ Canvas.zoomLevel (canvas a) == 0 ->
  let b := reload (final (runApp (saveNotes now) a)) r in
  let c := final (runApp (passwordConfirm now' pw) b) in
  exportNotes (scene b) = [] /\ pendingDecryptData b <> None /\
  exportNotes (scene c) = exportNotes (scene a) /\ Canvas.zoomLevel (canvas c) = Canvas.zoomLevel (canvas a) /\
  Canvas.panX (canvas c) == Canvas.panX (canvas a) /\ Canvas.panY (canvas c) == Canvas.panY (canvas a) /\
  settings c = settings a /\ pendingDecryptData c = None.
Proof.
  intros Hh Hp Hne Hnd Hz b c.
  destruct (saveNotes_sealed_run now a pw Hh Hp (truthy_nonempty pw Hne)) as (d' & E & _ & Hg).
  assert (Eb : b = boot (Storage.store d') None r) by (unfold b, reload, final; rewrite E; reflexivity).
  unfold c. clearbody b. subst b. rewrite passwordConfirm_nonempty by exact Hne.
  destruct (boot_sealed (Storage.store d') r _ now Hg) as (Sb & _ & Stb & Pb & _).
  destruct (unlock_stored_run now' pw (encrypt (snapshot now a) pw (draws a) now) (snapshot now a) (boot (Storage.store d') None r))
    as (S & Zm & X & Y & St & P);
    [rewrite Pb; apply present_encrypt | apply decrypt_encrypt |].
  rewrite S, Zm, X, Y, St, P, Sb, Stb. cbn [pcanvas psettings pnotes snapshot zoom vpanX vpanY].
  rewrite (proj1 (loadNotes_exported _ _ Hnd)), orNum_nonzero by exact Hz.
  rewrite !orNum_zero_default, merge_toSaved, Pb.
  split; [reflexivity | split; [discriminate |]]. repeat split; try reflexivity.
  destruct (settings a); simpl in *; subst; reflexivity.
Qed.

(** C12: Encrypted data waiting for its password is lost at the first
    auto-save: after a page load over an encrypted record, the timer's
    [autoSave] stores the empty scene in plain form over it (the
    password is still [null]), and the next page load asks for no
    password and shows no note. *)
Theorem autosave_discards_locked_notes (store : @JsMap.t string (Storage.entry blob)) (r : Canvas.rect)
    (d : string) (t now : Z) :
  JsMap.get store Storage.recordKey = Some (Storage.mkEntry Storage.recordKey (Sealed d) t) ->
  let b := boot store None r in
  let c := final (runApp (appStep isoDay jsonValid (ATick now)) b) in
  let e := reload c r in
  pendingDecryptData b = Some d /\
  option_map Storage.data (JsMap.get (Storage.store (db c)) Storage.recordKey) = Some (Plain (snapshot now b)) /\
  pnotes (snapshot now b) = Some [] /\
  pendingDecryptData e = None /\ exportNotes (scene e) = [].
Proof.
  intros Hg b c e.
  destruct (boot_sealed store r d t Hg) as (Sb & _ & Stb & Pb & _ & Tb & _ & Hb & _).
  destruct (saveNotes_plain_run now b Hb) as (d' & E & _ & Hg'); [fold b in Stb; rewrite Stb; reflexivity|].
  assert (Ec : c = set_db b d').
  { unfold c, final. simpl appStep. rewrite (run_abind_ok aget _ b b b) by reflexivity. cbv beta.
    fold b in Tb. rewrite Tb. unfold autoSave. rewrite (run_catch_ok _ _ b tt (set_db b d') [] E). reflexivity. }
  fold b in Sb, Pb.
  destruct (boot_plain (Storage.store d') r (snapshot now b) now Hg') as (S & _ & _ & _ & _ & P).
  unfold e, reload. rewrite Ec. cbn [db set_db]. rewrite S, P, Hg'.
  split; [exact Pb | split; [reflexivity |]].
  split; [unfold snapshot; rewrite Sb; reflexivity|].
  split; [reflexivity | unfold snapshot; cbn [pnotes]; rewrite Sb; reflexivity].
Qed.

(** C11: Exporting with a password downloads the encryption of the notes,
    the view and the settings with [password: null]; importing that file
    into any page without pending encrypted data and entering the
    password loads the same notes in order, the same zoom and pan, and
    leaves the importing page's settings as they were. *)
Theorem export_import_roundtrip (a b : app) (now now' : Z) (pw name : string) :
  (forall x : envelope, jsonValid (stringify x) = true) ->
  (6 <= String.length pw)%nat -> endsWith name ".json" = true -> pendingDecryptData b = None ->
  NoDup (map Note.id (exportNotes (scene a))) -> ~ Canvas.zoomLevel (canvas a) == 0 ->
  let enc := encrypt (exportPayload now a) pw (draws a) now in
  effects (runApp (exportConfirm isoDay now pw) a) =
    [Download (exportFileName isoDay now) enc; Notify "Notes exported successfully" "success"] /\
  option_map sPassword (psettings (exportPayload now a)) = Some (Some None) /\
  let b1 := final (runApp (handleFileImport jsonValid (Some (name, enc))) b) in
  let b2 := final (runApp (passwordConfirm now' pw) b1) in
  pendingCipher b1 = Some enc /\ exportNotes (scene b2) = exportNotes (scene a) /\ Canvas.zoomLevel (canvas b2) = Canvas.zoomLevel (canvas a) /\
  Canvas.panX (canvas b2) == Canvas.panX (canvas a) /\ Canvas.panY (canvas b2) == Canvas.panY (canvas a) /\
  settings b2 = settings b.
Proof.
  intros Hj Hl Hn Hb Hnd Hz enc.
  assert (Hne : pw <> EmptyString) by (intros ->; simpl in Hl; lia).
  split.
  { unfold exportConfirm. destruct (Nat.leb_spec 6 (String.length pw)); [|lia]. reflexivity. }
  split; [reflexivity|]. intros b1 b2.
  assert (E1 : b1 = set_pending b (Some enc) (pendingDecryptData b)).
  { unfold b1, final, runApp, handleFileImport. rewrite Hn. unfold enc, encrypt. rewrite Hj. reflexivity. }
  split; [rewrite E1; unfold pendingCipher; cbn [pendingDecryptData pendingImportData set_pending];
          rewrite Hb; apply present_encrypt|].
  unfold b2. rewrite passwordConfirm_nonempty by exact Hne.
  destruct (unlock_import_run now' pw enc (exportPayload now a) b1) as (S & Zm & X & Y & St & _).
  - rewrite E1. simpl. rewrite Hb. reflexivity.
  - rewrite E1. apply present_encrypt.
  - apply decrypt_encrypt.
  - rewrite S, Zm, X, Y, St, E1. cbn [pcanvas pnotes exportPayload zoom vpanX vpanY scene canvas settings set_pending].
    rewrite (proj1 (loadNotes_exported _ _ Hnd)), orNum_nonzero by exact Hz.
    rewrite !orNum_zero_default. repeat split; reflexivity.
Qed.

End Theorems.

(** ** Witnesses *)

Import Fixtures.

Lemma app_never_encrypts_locally_witness :
  let a0 := boot JsMap.empty None screen in
  let a1 := final (runApp (appStep day anyJson (AAddText 1 (1 # 2) (1 # 2))) a0) in
  appSession day anyJson a1 /\ plainInv a1.
Proof.
  intros a0 a1. assert (Hs : appSession day anyJson a1) by (apply as_step, as_first).
  split; [exact Hs | exact (app_never_encrypts_locally day anyJson a1 Hs)].
Defined.

(** A page with one note added by the toolbar. *)
Definition onePage : app :=
  final (runApp (addTextNote 7 (1 # 2) (1 # 2)) (boot JsMap.empty None screen)).

Lemma save_reload_roundtrip_witness :
  Storage.healthy (db onePage) /\ password (settings onePage) = None /\
  NoDup (map Note.id (exportNotes (scene onePage))) /\ ~ Canvas.zoomLevel (canvas onePage) == 0 /\
  exportNotes (scene (reload (final (runApp (saveNotes 8) onePage)) screen))
    = exportNotes (scene onePage).
Proof.
  assert (Hh : Storage.healthy (db onePage)) by (vm_compute; reflexivity).
  assert (Hp : password (settings onePage) = None) by (vm_compute; reflexivity).
  assert (Hn : NoDup (map Note.id (exportNotes (scene onePage)))) by by_decide.
  assert (Hz : ~ Canvas.zoomLevel (canvas onePage) == 0) by (vm_compute; discriminate).
  split; [exact Hh | split; [exact Hp | split; [exact Hn | split; [exact Hz |]]]].
  exact (proj1 (save_reload_roundtrip onePage 8 screen Hh Hp Hn Hz)).
Defined.

(** The same page with a password in its settings. *)
Definition lockedSettingsPage : app := set_settings onePage (mkSettings 50 30 true (Some "secret")).

Lemma sealed_save_unlock_roundtrip_witness :
  Storage.healthy (db lockedSettingsPage) /\ password (settings lockedSettingsPage) = Some "secret" /\
  NoDup (map Note.id (exportNotes (scene lockedSettingsPage))) /\
  exportNotes (scene (final (runApp (passwordConfirm 9 "secret")
     (reload (final (runApp (saveNotes 8) lockedSettingsPage)) screen))))
    = exportNotes (scene lockedSettingsPage).
Proof.
  assert (Hh : Storage.healthy (db lockedSettingsPage)) by (vm_compute; reflexivity).
  assert (Hp : password (settings lockedSettingsPage) = Some "secret") by reflexivity.
  assert (Hn : NoDup (map Note.id (exportNotes (scene lockedSettingsPage)))) by by_decide.
  assert (Hz : ~ Canvas.zoomLevel (canvas lockedSettingsPage) == 0) by (vm_compute; discriminate).
  split; [exact Hh | split; [exact Hp | split; [exact Hn |]]].
  exact (proj1 (proj2 (proj2 (sealed_save_unlock_roundtrip lockedSettingsPage 8 9 screen "secret" Hh Hp
                                 ltac:(discriminate) Hn Hz)))).
Defined.

(** A page loaded over the encrypted save of [onePage]. *)
Definition lockedStore : @JsMap.t string (Storage.entry blob) :=
  [(Storage.recordKey, Storage.mkEntry Storage.recordKey (Sealed (encrypt (snapshot 1 onePage) "secret" 0 1)) 1)].

Definition lockedPage : app := boot lockedStore None screen.

Lemma wrong_password_changes_nothing_witness :
  pendingCipher lockedPage = Some (encrypt (snapshot 1 onePage) "secret" 0 1) /\
  decrypt (A := payload) (encrypt (snapshot 1 onePage) "secret" 0 1) "wrong" = Err decryptError /\
  runApp (handlePasswordInput 2 "wrong") lockedPage =
    (Ok tt, lockedPage, [Notify "Invalid password or corrupted data" "error"]).
Proof.
  assert (Hp : pendingCipher lockedPage = Some (encrypt (snapshot 1 onePage) "secret" 0 1))
    by (vm_compute; reflexivity).
  assert (Hd : decrypt (A := payload) (encrypt (snapshot 1 onePage) "secret" 0 1) "wrong" = Err decryptError)
    by (vm_compute; reflexivity).
  split; [exact Hp | split; [exact Hd |]].
  exact (wrong_password_changes_nothing 2 "wrong" (encrypt (snapshot 1 onePage) "secret" 0 1) decryptError
           lockedPage Hp Hd).
Defined.

Lemma autosave_discards_locked_notes_witness :
  JsMap.get lockedStore Storage.recordKey =
    Some (Storage.mkEntry Storage.recordKey (Sealed (encrypt (snapshot 1 onePage) "secret" 0 1)) 1) /\
  exportNotes (scene (reload (final (runApp (appStep day anyJson (ATick 5)) lockedPage)) screen))
    = [].
Proof.
  assert (Hg : JsMap.get lockedStore Storage.recordKey =
    Some (Storage.mkEntry Storage.recordKey (Sealed (encrypt (snapshot 1 onePage) "secret" 0 1)) 1)) by reflexivity.
  split; [exact Hg |].
  exact (proj2 (proj2 (proj2 (proj2 (autosave_discards_locked_notes day anyJson lockedStore screen _ 1 5 Hg))))).
Defined.

Lemma export_import_roundtrip_witness :
  (forall x : envelope, anyJson (stringify x) = true) /\ (6 <= String.length "secret")%nat /\
  endsWith "notes.json" ".json" = true /\ pendingDecryptData (boot JsMap.empty None screen) = None /\
  exportNotes (scene (final (runApp (passwordConfirm 9 "secret")
     (final (runApp (handleFileImport anyJson
        (Some ("notes.json", encrypt (exportPayload 8 onePage) "secret" (draws onePage) 8)))
        (boot JsMap.empty None screen)))))) = exportNotes (scene onePage).
Proof.
  assert (Hj : forall x : envelope, anyJson (stringify x) = true) by reflexivity.
  assert (Hl : (6 <= String.length "secret")%nat) by (simpl; lia).
  assert (Hn : endsWith "notes.json" ".json" = true) by reflexivity.
  assert (Hb : pendingDecryptData (boot JsMap.empty None screen) = None) by (vm_compute; reflexivity).
  assert (Hd : NoDup (map Note.id (exportNotes (scene onePage)))) by by_decide.
  assert (Hz : ~ Canvas.zoomLevel (canvas onePage) == 0) by (vm_compute; discriminate).
  split; [exact Hj | split; [exact Hl | split; [exact Hn | split; [exact Hb |]]]].
  exact (proj1 (proj2 (proj2 (proj2 (export_import_roundtrip day anyJson onePage (boot JsMap.empty None screen) 8 9
                                 "secret" "notes.json" Hj Hl Hn Hb Hd Hz))))).
Defined.

End Persistence.
