(* ===== verification/Dispatch.v ===== *)
(** * Dispatch: one DOM event through all of its listeners

    A keydown or a mouse event reaches the listeners of [CanvasManager],
    [NotesManager] and [UIManager] one after the other ([App.keyDown],
    [App.mouseDown], [App.mouseMove]).  Each manager's handler is correct
    on its own (Viewport, Interaction); the theorems here are about what
    their composition does to the screen.

    - An arrow key with a selection both pans the canvas by
      [panSpeed] and nudges the selected notes by one unit the other
      way: the note moves on screen by [panSpeed - zoom] pixels, against
      the arrow.
    - A left press on the canvas background starts a pan and a marquee;
      as the pointer moves, the canvas follows it and the marquee's end,
      read in the panned coordinates, stays at the press point.
    - A release on the canvas ([App.mouseUp]) brings both managers to
      rest ([atRest]), and later moves change neither the notes nor the
      pan: every gesture ends.
    - The pointer leaving the canvas ([App.mouseLeave]) stops the pan
      only: [NotesManager] stays in its marquee.
    - A press that the note's listener stops ([startDrag] and
      [startResize] call [e.stopPropagation()]) leaves the canvas as it
      was, whatever the button. *)

From S2P Require Import Prelude Events Viewport JsCollections NoteState Selection Scene Interaction Storage Cipher App Fixtures Persistence.

Module Dispatch.
Import Events Notes Selection Scene Cipher App.
Local Open Scope app_scope.

(** The part of the page a pointer or key handler works on. *)
Definition view (a : app) : Notes.state * Canvas.state * Canvas.rect := (scene a, canvas a, layout a).

Section Screen.
Context {CR : Crypto} {JE : Json envelope} {JP : Json payload}.

(** Where a note's top-left corner appears in the window: the note
    element sits at [(note.x, note.y)] inside the canvas content, which
    [updateTransform] (canvas.js 311-316) maps by
    [matrix(zoom, 0, 0, zoom, panX, panY)], inside the canvas element. *)
Definition noteScreen (a : app) (n : Note.t) : Q * Q :=
  Canvas.canvasToScreen (layout a) (canvas a) (Note.x n) (Note.y n).

End Screen.

(** A background drag in progress: the press point [w] in world
    coordinates, the marquee from [w] to a point equal to [w], the canvas
    panning, the pointer's world position [w] too, and the pan minus the
    last pointer position fixed at [(kx, ky)]. *)
Definition dragging (w : Q * Q) (kx ky : Q) (a : app) : Prop :=
  isSelecting (scene a) = true /\ Canvas.isPanning (canvas a) = true /\
  selectionStart (scene a) = w /\
  fst (selectionEnd (scene a)) == fst w /\ snd (selectionEnd (scene a)) == snd w /\
  fst (toWorld a (Canvas.lastMouseX (canvas a)) (Canvas.lastMouseY (canvas a))) == fst w /\
  snd (toWorld a (Canvas.lastMouseX (canvas a)) (Canvas.lastMouseY (canvas a))) == snd w /\
  Canvas.panX (canvas a) - Canvas.lastMouseX (canvas a) == kx /\
  Canvas.panY (canvas a) - Canvas.lastMouseY (canvas a) == ky.

(** A handler that never throws. *)
Definition total {A} (m : AM A) : Prop := forall a, exists x, outcome (runApp m a) = Ok x.

(** Both managers at rest: no drag, resize or marquee in [NotesManager]
    and no pan in [CanvasManager]. *)
Definition atRest (a : app) : Prop :=
  Interaction.idle (scene a) = true /\ Canvas.isPanning (canvas a) = false.

Section Frame.
Context {CR : Crypto} {JE : Json envelope} {JP : Json payload}.

(** The auto-save never touches the notes, the viewport or the layout. *)
Lemma autoSave_view (now : Z) (v : Notes.state * Canvas.state * Canvas.rect) :
  apreserves (fun a => view a = v) (autoSave now).
Proof.
  unfold autoSave. apply apreserves_catch; [|intros; apply apreserves_ret].
  intros a <-. destruct (Persistence.saveNotes_frame now a) as (S & C & _ & _ & _ & L).
  unfold view. rewrite S, C, L. reflexivity.
Qed.

(** A [NotesManager] method run by the app changes the notes as the
    method does, and the viewport and layout not at all, however many
    auto-saves its signals start. *)
Lemma runScene_view {A} (now : Z) (m : Notes.M A) (a : app) :
  view (final (runApp (runScene now m) a)) = (result_state (run m (scene a)), canvas a, layout a).
Proof.
  unfold runScene. rewrite (run_abind_ok aget _ a a a) by reflexivity.
  rewrite (run_abind_ok (amodify _) _ a _ tt) by reflexivity.
  pose proof (apreserves_forEach _ (signals (run m (scene a))) (fun _ => autoSave now)
                (fun _ => autoSave_view now (result_state (run m (scene a)), canvas a, layout a))
                (set_scene a (result_state (run m (scene a)))) eq_refl) as H.
  unfold final in *. rewrite run_abind. destruct (runApp (aforEach _ _) _) as [[[u|e] a1] o1]; exact H.
Qed.

Lemma total_ret {A} (x : A) : total (aret x).
Proof. intros a. exists x. reflexivity. Qed.

Lemma total_get : total aget.
Proof. intros a. exists a. reflexivity. Qed.

Lemma total_modify (f : app -> app) : total (amodify f).
Proof. intros a. exists tt. reflexivity. Qed.

Lemma total_bind {A B} (m : AM A) (k : A -> AM B) : total m -> (forall x, total (k x)) -> total (abind m k).
Proof.
  intros Hm Hk a. destruct (Hm a) as [x Ex]. unfold outcome in *. rewrite run_abind.
  destruct (runApp m a) as [[r a1] o1]. cbn in Ex. subst r. destruct (Hk x a1) as [y Ey].
  destruct (runApp (k x) a1) as [[r2 a2] o2]. exists y. exact Ey.
Qed.

Lemma total_forEach {A} (l : list A) (f : A -> AM unit) : (forall x, total (f x)) -> total (aforEach l f).
Proof. intros Hf. induction l as [|x l IH]; simpl; [apply total_ret | apply total_bind; auto]. Qed.

(** [autoSave] catches what the save throws. *)
Lemma total_autoSave (now : Z) : total (autoSave now).
Proof. intros a. unfold autoSave, catch, runApp, outcome. destruct (saveNotes now a) as [[[u|e] a1] o1]; eexists; reflexivity. Qed.

Lemma total_runScene {A} (now : Z) (m : Notes.M A) : total (runScene now m).
Proof.
  unfold runScene. apply total_bind; [apply total_get|]. intros a.
  apply total_bind; [apply total_modify|]. intros _.
  apply total_bind; [apply total_forEach; intros; apply total_autoSave | intros _; apply total_ret].
Qed.

Lemma total_mouseDown (now : Z) (e : mouse) (noteId : option string) : total (mouseDown now e noteId).
Proof.
  assert (Hb : total (mouseDownBubble now e)).
  { unfold mouseDownBubble. apply total_bind; [destruct (onCanvas _); [apply total_modify | apply total_ret]|].
    intros _. apply total_bind; [apply total_get | intros; apply total_runScene]. }
  unfold mouseDown. destruct noteId as [id|]; [|exact Hb].
  apply total_bind; [apply total_get|]. intros a. apply total_bind; [apply total_runScene|].
  intros _. destruct (Interaction.noteStopsPropagation _ _ _); [apply total_ret | exact Hb].
Qed.

(** A method followed by a silent no-op ends where the method ends. *)
Lemma final_then_silent {A} (m : AM A) (k : AM unit) (a : app) :
  (forall b, runApp k b = (Ok tt, b, [])) -> final (runApp (m ;;; k) a) = final (runApp m a).
Proof.
  intros Hk. unfold final. rewrite run_abind. destruct (runApp m a) as [[[x|e] a1] o1]; [|reflexivity].
  rewrite Hk. reflexivity.
Qed.

End Frame.

(** A selection to act on: [targets] is not empty. *)
Lemma targets_selection (s : Notes.state) (id : string) :
  id ∈ targets s -> (truthy (selectedNote s) || (0 <? JsSet.size (selectedNotes s))%nat)%bool = true.
Proof.
  unfold targets. destruct (0 <? JsSet.size (selectedNotes s))%nat; [rewrite orb_true_r; reflexivity|].
  destruct (selectedNote s) as [p|]; [destruct (truthy (Some p)) eqn:T; [reflexivity|]|]; rewrite elem_of_nil; tauto.
Qed.

(** Panning by the pointer's delta leaves the world point under the
    last pointer position where it was. *)
Lemma pan_follows (l p last cx z : Q) : (cx - l - (p + (cx - last))) / z == (last - l - p) / z.
Proof. apply Qdiv_comp; [ring | reflexivity]. Qed.

(** ** Arrow keys *)

Section Arrow.
Context {CR : Crypto} {JE : Json envelope} {JP : Json payload}.
Variables (now : Z) (e : key) (r1 r2 : Q).
Hypotheses (Hk : keyName e = "ArrowUp") (Hc : kctrlKey e = false) (Hm : kmetaKey e = false)
  (Hs : kshiftKey e = false) (Ht : onTextInput (ktarget e) = false) (Hn : onNoteText (ktarget e) = false).

(** [UIManager] has no binding for an arrow key. *)
Lemma handleGlobalKeyDown_arrow (b : app) : runApp (handleGlobalKeyDown now e r1 r2) b = (Ok tt, b, []).
Proof. unfold handleGlobalKeyDown. rewrite Hk, Hc, Hm, Ht. reflexivity. Qed.

(** [NotesManager] nudges the selection up by one unit. *)
Lemma handleKeyDown_arrow (s : Notes.state) :
  (truthy (selectedNote s) || (0 <? JsSet.size (selectedNotes s))%nat)%bool = true ->
  run (Interaction.handleKeyDown now e) s = run (moveSelectedNotes now "ArrowUp" 1) s.
Proof.
  intros Hsel. unfold Interaction.handleKeyDown. rewrite Hk, Hc, Hm, Hs, Ht, Hn.
  cbn -[moveSelectedNotes Nat.ltb JsSet.size truthy]. rewrite andb_false_r. cbn -[moveSelectedNotes Nat.ltb JsSet.size truthy].
  rewrite Hsel. unfold run. destruct (moveSelectedNotes now "ArrowUp" 1 s) as [[u s1] o]. reflexivity.
Qed.

(** [CanvasManager] pans down by [panSpeed]. *)
Lemma canvas_handleKeyDown_arrow (r : Canvas.rect) (c : Canvas.state) :
  Canvas.handleKeyDown r c e = Canvas.set_pan c (Canvas.panX c) (Canvas.panY c + Canvas.panSpeed).
Proof. unfold Canvas.handleKeyDown. rewrite Ht, Hc, Hm, Hk. reflexivity. Qed.

(** The three listeners together: the scene as [moveSelectedNotes]
    leaves it, the canvas panned. *)
Lemma keyDown_arrow_view (a : app) :
  (truthy (selectedNote (scene a)) || (0 <? JsSet.size (selectedNotes (scene a)))%nat)%bool = true ->
  view (final (runApp (keyDown now e r1 r2) a)) =
    (result_state (run (moveSelectedNotes now "ArrowUp" 1) (scene a)),
     Canvas.set_pan (canvas a) (Canvas.panX (canvas a)) (Canvas.panY (canvas a) + Canvas.panSpeed), layout a).
Proof.
  intros Hsel. unfold keyDown. rewrite (run_abind_ok (amodify _) _ a _ tt) by reflexivity.
  rewrite final_then_silent by exact handleGlobalKeyDown_arrow.
  rewrite runScene_view. cbn [set_canvas scene canvas layout]. rewrite handleKeyDown_arrow by exact Hsel.
  rewrite canvas_handleKeyDown_arrow. reflexivity.
Qed.

End Arrow.

(** ** Dragging the background *)

Section Drag.
Context {CR : Crypto} {JE : Json envelope} {JP : Json payload}.

(** [CanvasManager.handleMouseDown] on the background: a pan starts
    at the pointer. *)
Lemma canvas_mouseDown_background (c : Canvas.state) (e : mouse) :
  button e = 0%Z -> onNote (mtarget e) = false -> onUI (mtarget e) = false -> onInput (mtarget e) = false ->
  Canvas.handleMouseDown c e = Canvas.set_panning c true (clientX e) (clientY e).
Proof. intros Hb H1 H2 H3. unfold Canvas.handleMouseDown. rewrite Hb, H1, H2, H3. reflexivity. Qed.

Section Press.
Variables (now : Z) (e : mouse).
Hypotheses (Hb : button e = 0%Z) (H1 : onNote (mtarget e) = false) (H2 : onUI (mtarget e) = false)
  (H3 : onInput (mtarget e) = false) (H4 : onCanvas (mtarget e) = true)
  (H5 : ctrlKey e = false) (H6 : metaKey e = false).

(** The listeners of a press on the background: no note's, the
    canvas element's, the document's. *)
Lemma mouseDown_background_view (a : app) :
  view (final (runApp (mouseDown now e None) a)) =
    (result_state (run (Interaction.handleGlobalMouseDown (toWorld a) e) (scene a)),
     Canvas.set_panning (canvas a) true (clientX e) (clientY e), layout a).
Proof.
  unfold mouseDown, mouseDownBubble. rewrite H4.
  rewrite (run_abind_ok (amodify _) _ a _ tt) by reflexivity.
  rewrite (run_abind_ok aget _ _ _ _) by reflexivity. rewrite runScene_view.
  cbn [set_canvas scene canvas layout]. rewrite canvas_mouseDown_background by assumption. reflexivity.
Qed.

(** The press starts a drag at its own world point. *)
Lemma mouseDown_dragging (a : app) :
  dragging (toWorld a (clientX e) (clientY e)) (Canvas.panX (canvas a) - clientX e)
           (Canvas.panY (canvas a) - clientY e) (final (runApp (mouseDown now e None) a)).
Proof.
  pose proof (mouseDown_background_view a) as V. unfold view in V. injection V as Es Ec El.
  destruct (Interaction.press_background (toWorld a) e (scene a) H1 H2 H3 H4 H5 H6) as (S1 & S2 & S3 & _).
  set (w := toWorld a (clientX e) (clientY e)). unfold dragging, toWorld.
  change (mouseDown now e None) with (mouseDownBubble now e). rewrite Es, Ec, El, S1, S2, S3.
  repeat split; reflexivity.
Qed.

End Press.

(** A pointer move inside the canvas keeps the drag: the canvas pans by
    the pointer's delta, and the marquee's new end, read through the
    panned view, is the old world point. *)
Lemma mouseMove_dragging (w : Q * Q) (kx ky : Q) (now : Z) (e : mouse) :
  onCanvas (mtarget e) = true -> apreserves (dragging w kx ky) (mouseMove now e).
Proof.
  intros Hc a (Hs & Hp & Hst & He1 & He2 & Hw1 & Hw2 & Hkx & Hky).
  unfold mouseMove. rewrite Hc. rewrite (run_abind_ok (amodify _) _ a _ tt) by reflexivity.
  rewrite (run_abind_ok aget _ _ _ _) by reflexivity.
  match goal with |- context [final (runApp (runScene now ?m) ?a1)] =>
    pose proof (runScene_view now m a1) as V end.
  unfold view in V. injection V as Es Ec El. cbn [set_canvas scene canvas layout] in Es, Ec, El.
  rewrite Interaction.move_marquee in Es by exact Hs.
  match goal with |- dragging _ _ _ ?a' => set (b := a') in * end.
  unfold dragging, toWorld. rewrite Es, Ec, El.
  unfold toWorld, Canvas.screenToCanvas in Hw1, Hw2. unfold Canvas.screenToCanvas.
  unfold Canvas.onCanvasMouseMove, Canvas.updateCursorPosition, Canvas.handleMouseMove. rewrite Hp.
  unfold Interaction.with_end, Interaction.worldPos, toWorld, Canvas.screenToCanvas. cbn in *.
  split; [exact Hs | split; [reflexivity | split; [exact Hst |]]].
  split; [etransitivity; [apply pan_follows | exact Hw1] |].
  split; [etransitivity; [apply pan_follows | exact Hw2] |].
  split; [etransitivity; [apply pan_follows | exact Hw1] |].
  split; [etransitivity; [apply pan_follows | exact Hw2] |].
  split; [rewrite <- Hkx | rewrite <- Hky]; ring.
Qed.

End Drag.

(** ** Releasing and leaving *)

Section Release.
Context {CR : Crypto} {JE : Json envelope} {JP : Json payload}.

Lemma handleMouseUp_not_panning (c : Canvas.state) : Canvas.isPanning (Canvas.handleMouseUp c) = false.
Proof. unfold Canvas.handleMouseUp. destruct (Canvas.isPanning c) eqn:E; [reflexivity | exact E]. Qed.

(** A release on the canvas stops both managers. *)
Lemma mouseUp_rest (now : Z) (e : mouse) (a : app) :
  onCanvas (mtarget e) = true -> atRest (final (runApp (mouseUp now e) a)).
Proof.
  intros Hc. unfold mouseUp. rewrite Hc. rewrite (run_abind_ok (amodify _) _ a _ tt) by reflexivity.
  match goal with |- context [final (runApp (runScene now ?m) ?a1)] =>
    pose proof (runScene_view now m a1) as V end.
  unfold view in V. injection V as Es Ec _. cbn [set_canvas scene canvas] in Es, Ec.
  split; [rewrite Es; apply Interaction.mouseUp_idle | rewrite Ec; apply handleMouseUp_not_panning].
Qed.

(** With nothing in progress, [handleGlobalMouseMove] does nothing. *)
Lemma globalMouseMove_idle (tw : Q -> Q -> Q * Q) (now : Z) (e : mouse) (s : Notes.state) :
  Interaction.idle s = true -> result_state (run (Interaction.handleGlobalMouseMove tw now e) s) = s.
Proof.
  unfold Interaction.idle. intros H. apply andb_true_iff in H as [H Hs]. apply andb_true_iff in H as [Hd Hr].
  apply negb_true_iff in Hd, Hr, Hs. unfold Interaction.handleGlobalMouseMove, result_state, run, bind, get.
  cbn beta iota zeta. rewrite Hs, Hd, Hr. reflexivity.
Qed.

(** At rest, a pointer move changes neither the notes nor the pan, and
    starts nothing. *)
Lemma mouseMove_rest (now : Z) (e : mouse) (ns : @JsMap.t string Note.t) (px py : Q) :
  apreserves (fun a => atRest a /\ notes (scene a) = ns /\ Canvas.panX (canvas a) = px /\ Canvas.panY (canvas a) = py)
    (mouseMove now e).
Proof.
  intros a ((Hi & Hp) & Hn & Hx & Hy). unfold mouseMove.
  destruct (onCanvas (mtarget e)); [rewrite (run_abind_ok (amodify _) _ a _ tt) by reflexivity
                                   | rewrite (run_abind_ok (aret tt) _ a a tt) by reflexivity];
  rewrite (run_abind_ok aget _ _ _ _) by reflexivity;
  match goal with |- context [final (runApp (runScene now ?m) ?a1)] =>
    pose proof (runScene_view now m a1) as V end;
  unfold view in V; injection V as Es Ec _; cbn [set_canvas scene canvas] in Es, Ec;
  rewrite globalMouseMove_idle in Es by exact Hi; unfold atRest; rewrite Es, Ec.
  - unfold Canvas.onCanvasMouseMove, Canvas.handleMouseMove. rewrite Hp. cbn. auto.
  - auto.
Qed.

(** [mouseleave] stops the pan and leaves the notes manager alone. *)
Lemma mouseLeave_state (a : app) :
  scene (final (runApp mouseLeave a)) = scene a /\ Canvas.isPanning (canvas (final (runApp mouseLeave a))) = false.
Proof. split; [reflexivity | apply handleMouseUp_not_panning]. Qed.

End Release.

(** ** Theorems *)

Section Theorems.
Context {CR : Crypto} {JE : Json envelope} {JP : Json payload}.

(** C15: An Up arrow with a selection reaches [CanvasManager], which pans
    the view down by [panSpeed] (100 px), and [NotesManager], which
    moves the selected notes up by one world unit: a selected note ends
    [panSpeed - zoom] pixels lower on screen, against the arrow. *)
Theorem arrow_up_moves_note_down (now : Z) (e : key) (r1 r2 : Q) (a : app) (id : string) (n : Note.t) :
  keyName e = "ArrowUp" -> kctrlKey e = false -> kmetaKey e = false -> kshiftKey e = false ->
  onTextInput (ktarget e) = false -> onNoteText (ktarget e) = false ->
  sel_inv (scene a) -> id ∈ targets (scene a) -> JsMap.get (notes (scene a)) id = Some n ->
  let a' := final (runApp (keyDown now e r1 r2) a) in
  exists n', JsMap.get (notes (scene a')) id = Some n' /\ Note.y n' == Note.y n - 1 /\
    Canvas.panY (canvas a') == Canvas.panY (canvas a) + Canvas.panSpeed /\
    snd (noteScreen a' n') == snd (noteScreen a n) + (Canvas.panSpeed - Canvas.zoomLevel (canvas a)).
Proof.
  intros Hk Hc Hm Hs Ht Hn Hsel Hid Hget a'.
  pose proof (keyDown_arrow_view now e r1 r2 Hk Hc Hm Hs Ht Hn a (targets_selection _ _ Hid)) as V.
  unfold view in V. injection V as Es Ec El.
  destruct (moveSelectedNotes_effect now "ArrowUp" 1 (scene a) Hsel) as [Hm' _].
  specialize (Hm' id). rewrite decide_True in Hm' by exact Hid. rewrite Hget in Hm'.
  eexists. split; [unfold a'; rewrite Es; exact Hm'|].
  unfold noteScreen, Canvas.canvasToScreen. unfold a'. rewrite Ec, El. cbn. split; [ring | split; ring].
Qed.

(** C14: A left press on the canvas background followed by any pointer
    moves inside the canvas both pans and draws a marquee: the canvas
    follows the pointer (pan minus pointer position stays what it was at
    the press), and the marquee, read in the panned coordinates, never
    leaves the press point, so it can select no more than the notes under
    that point. *)
Theorem background_drag_freezes_marquee (now : Z) (e : mouse) (moves : list (Z * mouse)) (a : app) :
  button e = 0%Z -> onNote (mtarget e) = false -> onUI (mtarget e) = false -> onInput (mtarget e) = false ->
  onCanvas (mtarget e) = true -> ctrlKey e = false -> metaKey e = false ->
  Forall (fun m => onCanvas (mtarget (snd m)) = true) moves ->
  let a' := final (runApp (mouseDown now e None ;;; aforEach moves (fun m => mouseMove (fst m) (snd m))) a) in
  dragging (toWorld a (clientX e) (clientY e)) (Canvas.panX (canvas a) - clientX e)
           (Canvas.panY (canvas a) - clientY e) a'.
Proof.
  intros Hb H1 H2 H3 H4 H5 H6 Hm a'.
  apply establish_bind; [apply mouseDown_dragging; assumption|].
  intros _. apply apreserves_forEach_in. intros m Hin. apply mouseMove_dragging.
  exact (proj1 (List.Forall_forall _ _) Hm m Hin).
Qed.

(** C24: A gesture always ends: a release on the canvas brings both
    managers back to rest (no drag, resize, marquee or pan), and from
    then on pointer moves change neither the notes nor the view until
    the next press. *)
Theorem release_ends_gesture (now : Z) (e : mouse) (moves : list (Z * mouse)) (a : app) :
  onCanvas (mtarget e) = true ->
  let a1 := final (runApp (mouseUp now e) a) in
  let a2 := final (runApp (aforEach moves (fun m => mouseMove (fst m) (snd m))) a1) in
  atRest a1 /\ atRest a2 /\ notes (scene a2) = notes (scene a1) /\
  Canvas.panX (canvas a2) = Canvas.panX (canvas a1) /\ Canvas.panY (canvas a2) = Canvas.panY (canvas a1).
Proof.
  intros Hc a1 a2. pose proof (mouseUp_rest now e a Hc) as H1.
  destruct (apreserves_forEach _ moves _
              (fun m => mouseMove_rest (fst m) (snd m) (notes (scene a1)) (Canvas.panX (canvas a1)) (Canvas.panY (canvas a1)))
              a1 (conj H1 (conj eq_refl (conj eq_refl eq_refl)))) as (H2 & Hn & Hx & Hy).
  auto.
Qed.

(** C31: The pointer leaving the canvas does not end a background drag:
    [mouseleave] runs only [CanvasManager.handleMouseUp], so the pan
    stops while [NotesManager] stays in its marquee. *)
Theorem mouseLeave_keeps_marquee (now : Z) (e : mouse) (a : app) :
  button e = 0%Z -> onNote (mtarget e) = false -> onUI (mtarget e) = false -> onInput (mtarget e) = false ->
  onCanvas (mtarget e) = true -> ctrlKey e = false -> metaKey e = false ->
  let a' := final (runApp (mouseDown now e None ;;; mouseLeave) a) in
  isSelecting (scene a') = true /\ Interaction.idle (scene a') = false /\ Canvas.isPanning (canvas a') = false.
Proof.
  intros Hb H1 H2 H3 H4 H5 H6 a'.
  pose proof (mouseDown_dragging now e Hb H1 H2 H3 H4 H5 H6 a) as (Hs & _).
  destruct (total_mouseDown now e None a) as [x Ex].
  unfold a', final. rewrite run_abind. unfold final, outcome in *.
  destruct (runApp (mouseDown now e None) a) as [[[u|err] a1] o1]; cbn [fst snd] in *; [|discriminate].
  destruct (mouseLeave_state a1) as [Es Ep]. unfold final in Es, Ep.
  destruct (runApp mouseLeave a1) as [[r2 a2] o2]. cbn [fst snd] in *. rewrite Es.
  unfold Interaction.idle. rewrite Hs, andb_false_r. auto.
Qed.


End Theorems.

Import Fixtures.

(** A page showing [demo_scene]: "note_2" is selected. *)
Definition demoPage : app := set_scene (boot JsMap.empty None screen) demo_scene.

Lemma arrow_up_moves_note_down_witness :
  sel_inv (scene demoPage) /\ "note_2" ∈ targets (scene demoPage) /\
  exists n', JsMap.get (notes (scene (final (runApp (keyDown 5 (mkKey "ArrowUp" false false false background) 0 0)
                                                     demoPage)))) "note_2" = Some n' /\
             Note.y n' == -1.
Proof.
  assert (Hs : sel_inv (scene demoPage)) by exact demo_sel_inv.
  assert (Hi : "note_2" ∈ targets (scene demoPage)) by by_decide.
  split; [exact Hs | split; [exact Hi |]].
  destruct (arrow_up_moves_note_down 5 (mkKey "ArrowUp" false false false background) 0 0 demoPage "note_2"
              (demo_note "note_2" 400 0 2) eq_refl eq_refl eq_refl eq_refl eq_refl eq_refl Hs Hi eq_refl)
    as (n' & Hg & Hy & _).
  exists n'. split; [exact Hg | rewrite Hy; reflexivity].
Defined.

Lemma background_drag_freezes_marquee_witness :
  let e := mkMouse 0 500 500 background false false false in
  let moves := [(6%Z, mkMouse 0 600 550 background false false false)] in
  let a' := final (runApp (mouseDown 5 e None ;;; aforEach moves (fun m => mouseMove (fst m) (snd m))) demoPage) in
  Forall (fun m => onCanvas (mtarget (snd m)) = true) moves /\
  fst (selectionEnd (scene a')) == fst (toWorld demoPage 500 500) /\ Canvas.panX (canvas a') == 100.
Proof.
  intros e moves a'.
  assert (Hm : Forall (fun m => onCanvas (mtarget (snd m)) = true) moves) by (repeat constructor).
  destruct (background_drag_freezes_marquee 5 e moves demoPage eq_refl eq_refl eq_refl eq_refl eq_refl eq_refl eq_refl Hm)
    as (_ & _ & _ & He & _).
  split; [exact Hm | split; [exact He |]].
  vm_compute. reflexivity.
Defined.

Lemma release_ends_gesture_witness :
  let e := mkMouse 0 500 500 background false false false in
  onCanvas (mtarget e) = true /\ atRest (final (runApp (mouseUp 5 e) demoPage)).
Proof.
  intros e. split; [reflexivity|]. exact (proj1 (release_ends_gesture 5 e [] demoPage eq_refl)).
Defined.

Lemma mouseLeave_keeps_marquee_witness :
  let e := mkMouse 0 500 500 background false false false in
  isSelecting (scene (final (runApp (mouseDown 5 e None ;;; mouseLeave) demoPage))) = true /\
  Canvas.isPanning (canvas (final (runApp (mouseDown 5 e None ;;; mouseLeave) demoPage))) = false.
Proof.
  intros e. destruct (mouseLeave_keeps_marquee 5 e demoPage eq_refl eq_refl eq_refl eq_refl eq_refl eq_refl eq_refl)
    as (Hs & _ & Hp). split; [exact Hs | exact Hp].
Defined.


End Dispatch.
